(** * dnsflow: the packet pipeline of [dnsflow.c]

    A shallow embedding of the decapsulator, the DNS check and projection, the
    batcher, the statistics ticker and the shard clause of the capture
    filter, with the properties the specification states about them.

    Conventions.
    - An octet is a [Byte.byte]; a C integer is a [Z] whose wrap-around is
      written where the source has it ([u8], [u32]).
    - The packet area of [data_buf] (everything from [&data_buf->db_pkt_hdr]
      on) is a function from byte offsets to octets.  The area has no end in
      the model; instead every store leaves a [Store] record with its
      range, so that the extent of what a call writes can be stated.  The
      block [main] reserves ends at [data_buf_reserved]; what a store beyond
      it does is not defined by the source, so a statement about what the
      area holds, or about a buffer read from it, is made for the calls
      whose stores stay inside the block ([within_reserved]).
    - [_log], the stores and [dnsflow_pkt_send] are the observable effects;
      a computation returns them in program order. *)

From Stdlib Require Import Strings.String Strings.Byte.
From Stdlib Require Import ZArith List Lia Bool.
Import ListNotations.
Local Open Scope Z_scope.

(** ** Constants of the source *)

Definition DNSFLOW_MAX_PARSE : Z := 255.
Definition DNSFLOW_PKT_MAX_SIZE : Z := 65535.
Definition DNSFLOW_PKT_TARGET_SIZE : Z := 1200.
Definition DNSFLOW_VERSION : Z := 2.
Definition DNSFLOW_FLAG_STATS : Z := 1.
Definition DNSFLOW_SETS_COUNT_MAX : Z := 255.
Definition DNSFLOW_NAMES_COUNT_MAX : Z := 255.
Definition DNSFLOW_IPS_COUNT_MAX : Z := 255.

Definition sizeof_dnsflow_hdr : Z := 8.
Definition sizeof_dnsflow_set_hdr : Z := 8.
Definition sizeof_dnsflow_stats_pkt : Z := 20.
Definition sizeof_in_addr_t : Z := 4.

(** The largest [int], of 32 bits. *)
Definition INT_MAX : Z := 2147483647.

(** ** Octets and fixed-width integers *)

Definition u8 (z : Z) : Z := z mod 256.
Definition u16 (z : Z) : Z := z mod 65536.
Definition u32 (z : Z) : Z := z mod 4294967296.

Definition Z_of_byte (b : byte) : Z := Z.of_N (Byte.to_N b).

Definition byte_of_Z (z : Z) : byte :=
  match Byte.of_N (Z.to_N (u8 z)) with
  | Some b => b
  | None => x00
  end.

(** [htons] and [htonl] followed by a store: the octets in network order. *)
Definition be16 (z : Z) : list byte :=
  [byte_of_Z (z / 256); byte_of_Z z].

Definition be32 (z : Z) : list byte :=
  [byte_of_Z (z / 16777216); byte_of_Z (z / 65536);
   byte_of_Z (z / 256); byte_of_Z z].

(** The value of network-order octets ([ntohs], [ntohl] after a load). *)
Fixpoint be_value (bs : list byte) (acc : Z) : Z :=
  match bs with
  | [] => acc
  | b :: bs' => be_value bs' (acc * 256 + Z_of_byte b)
  end.

(** An [in_addr_t] is kept as the four octets it has in memory: the program
    only ever copies it. *)
Record in_addr_t : Type := mk_in_addr { a0 : byte; a1 : byte; a2 : byte; a3 : byte }.

Definition in_addr_bytes (a : in_addr_t) : list byte := [a0 a; a1 a; a2 a; a3 a].

(** ** The packet area *)

Definition memory : Type := Z -> byte.

Definition zero_memory : memory := fun _ => x00.

(** [memcpy (pkt_start + off, bs, |bs|)], also used for scalar stores. *)
Definition store_bytes (m : memory) (off : Z) (bs : list byte) : memory :=
  let n := Z.of_nat (length bs) in
  fun i => if (off <=? i) && (i <? off + n) then nth (Z.to_nat (i - off)) bs x00
           else m i.

Definition load_bytes (m : memory) (off : Z) (n : nat) : list byte :=
  map (fun k => m (off + Z.of_nat k)) (seq 0 n).

Definition load8 (m : memory) (off : Z) : Z := Z_of_byte (m off).

(** ** Worker state and effects *)

(** The globals [sequence_number], [data_buf] (its [db_len] and the packet
    area), [last_send], and the function-static [stats_counter]. *)
Record worker : Type := mk_worker {
  sequence_number : Z;
  db_len : Z;
  pkt : memory;
  last_send : Z;
  stats_counter : Z
}.

Inductive log_arg : Type :=
| ArgU (n : Z)
| ArgS (s : string).

Inductive effect : Type :=
| Log (format : string) (args : list log_arg)   (* a call of [_log] *)
| Store (off len : Z)                           (* octets [off, off+len) of the packet area written *)
| Send (payload : list byte).                   (* a call of [dnsflow_pkt_send] *)

Definition M (A : Type) : Type := worker -> A * worker * list effect.

Definition ret {A} (a : A) : M A := fun w => (a, w, []).

Definition bind {A B} (m : M A) (k : A -> M B) : M B :=
  fun w =>
    let '(a, w1, t1) := m w in
    let '(b, w2, t2) := k a w1 in
    (b, w2, t1 ++ t2).

Declare Scope dnsflow_scope.
Delimit Scope dnsflow_scope with dnsflow.
Notation "x <- m ;; k" := (bind m (fun x => k))
  (at level 61, m at next level, right associativity) : dnsflow_scope.
Notation "m ;; k" := (bind m (fun _ => k))
  (at level 61, right associativity) : dnsflow_scope.
Local Open Scope dnsflow_scope.

Definition _log (format : string) (args : list log_arg) : M unit :=
  fun w => (tt, w, [Log format args]).

Definition get_db_len : M Z := fun w => (db_len w, w, []).

Definition set_db_len (n : Z) : M unit :=
  fun w => (tt, mk_worker (sequence_number w) n (pkt w) (last_send w) (stats_counter w), []).

Definition poke (off : Z) (bs : list byte) : M unit :=
  fun w => (tt,
            mk_worker (sequence_number w) (db_len w) (store_bytes (pkt w) off bs)
                      (last_send w) (stats_counter w),
            [Store off (Z.of_nat (length bs))]).

Definition peek8 (off : Z) : M Z := fun w => (load8 (pkt w) off, w, []).

Definition peek (off : Z) (n : nat) : M (list byte) :=
  fun w => (load_bytes (pkt w) off n, w, []).

Definition bzero (off : Z) (n : nat) : M unit := poke off (repeat x00 n).

(** [sequence_number++] on the [uint32_t] counter. *)
Definition post_incr_sequence_number : M Z :=
  fun w => (sequence_number w,
            mk_worker (u32 (sequence_number w + 1)) (db_len w) (pkt w) (last_send w)
                      (stats_counter w),
            []).

Definition get_last_send : M Z := fun w => (last_send w, w, []).

Definition set_last_send (t : Z) : M unit :=
  fun w => (tt, mk_worker (sequence_number w) (db_len w) (pkt w) t (stats_counter w), []).

(** [stats_counter++], then its value.  The counter is an [int] that counts
    ticks of ten seconds; the model counts in [Z], which is the value of the
    [int] as long as it has not passed [INT_MAX], and statements about its
    value are made for runs of at most that many ticks. *)
Definition incr_stats_counter : M Z :=
  fun w => (stats_counter w + 1,
            mk_worker (sequence_number w) (db_len w) (pkt w) (last_send w)
                      (stats_counter w + 1),
            []).

(** ** Emitter and batcher *)

(** [struct dns_data_set]: [num_names] and [num_ips] are the lengths of the
    lists, [name_lens[i]] the length of [names[i]]. *)
Record dns_data_set : Type := mk_dns_data {
  names : list (list byte);
  ips : list in_addr_t
}.

Definition num_names (d : dns_data_set) : Z := Z.of_nat (length (names d)).
Definition num_ips (d : dns_data_set) : Z := Z.of_nat (length (ips d)).

(** [dnsflow_pkt_send]: the buffer is handed to the emitter, which writes it
    to the dump file and to every UDP destination. *)
Definition dnsflow_pkt_send (payload : list byte) : M unit :=
  fun w => (tt, w, [Send payload]).

(** [dnsflow_pkt_send_data]; [now] is what [time(NULL)] returns. *)
Definition dnsflow_pkt_send_data (now : Z) : M unit :=
  len <- get_db_len ;;
  if len =? 0 then ret tt
  else
    sn <- post_incr_sequence_number ;;
    poke 4 (be32 sn) ;;
    payload <- peek 0 (Z.to_nat len) ;;
    dnsflow_pkt_send payload ;;
    set_db_len 0 ;;
    set_last_send now.

(** [dnsflow_push_cb]: [now] and [sent_at] are the two readings of the
    clock; [push_tv.tv_sec] is 1. *)
Definition dnsflow_push_cb (now sent_at : Z) : M unit :=
  last_send <- get_last_send ;;
  if now - last_send >=? 1 then dnsflow_pkt_send_data sent_at
  else ret tt.

(** The three loops of [dnsflow_pkt_build]. *)

(** The name loop; [false] is the early return of the overflow guard. *)
Fixpoint copy_names (nms : list (list byte)) : M bool :=
  match nms with
  | [] => ret true
  | nm :: rest =>
      len <- get_db_len ;;
      let name_len := Z.of_nat (length nm) in
      if name_len >? (DNSFLOW_PKT_MAX_SIZE - 1) - len then
        _log "Pkt create error" [] ;;
        set_db_len 0 ;;
        ret false
      else
        poke len nm ;;
        set_db_len (u32 (len + name_len)) ;;
        copy_names rest
  end.

(** [while (db_len % 4 != 0) pkt_start[db_len++] = 0], at most [fuel] rounds. *)
Fixpoint pad_to_word (fuel : nat) : M unit :=
  match fuel with
  | O => ret tt
  | S fuel' =>
      len <- get_db_len ;;
      if len mod 4 =? 0 then ret tt
      else
        poke len [x00] ;;
        set_db_len (u32 (len + 1)) ;;
        pad_to_word fuel'
  end.

Fixpoint copy_ips (l : list in_addr_t) : M unit :=
  match l with
  | [] => ret tt
  | ip :: rest =>
      len <- get_db_len ;;
      poke len (in_addr_bytes ip) ;;
      set_db_len (u32 (len + sizeof_in_addr_t)) ;;
      copy_ips rest
  end.

Definition dnsflow_pkt_build (now : Z) (client_ip : in_addr_t) (dns_data : dns_data_set)
  : M unit :=
  len0 <- get_db_len ;;
  (if len0 =? 0 then
     (* Starting a new pkt. *)
     bzero 0 (Z.to_nat sizeof_dnsflow_hdr) ;;
     set_db_len (u32 (len0 + sizeof_dnsflow_hdr)) ;;
     poke 0 [byte_of_Z DNSFLOW_VERSION] ;;
     poke 1 [byte_of_Z 0]
   else ret tt) ;;
  set_hdr <- get_db_len ;;
  (* Start building new set. *)
  bzero set_hdr (Z.to_nat sizeof_dnsflow_set_hdr) ;;
  poke set_hdr (in_addr_bytes client_ip) ;;
  let names_count := u8 (Z.min (num_names dns_data) DNSFLOW_NAMES_COUNT_MAX) in
  let ips_count := u8 (Z.min (num_ips dns_data) DNSFLOW_IPS_COUNT_MAX) in
  poke (set_hdr + 4) [byte_of_Z names_count] ;;
  poke (set_hdr + 5) [byte_of_Z ips_count] ;;
  set_db_len (u32 (set_hdr + sizeof_dnsflow_set_hdr)) ;;
  names_start <- get_db_len ;;
  ok <- copy_names (firstn (Z.to_nat names_count) (names dns_data)) ;;
  if negb ok then ret tt
  else
    pad_to_word 3 ;;
    pkt_cur <- get_db_len ;;
    poke (set_hdr + 6) (be16 (pkt_cur - names_start)) ;;
    copy_ips (firstn (Z.to_nat ips_count) (ips dns_data)) ;;
    sets_count <- peek8 1 ;;
    poke 1 [byte_of_Z (sets_count + 1)] ;;
    len <- get_db_len ;;
    sets_count' <- peek8 1 ;;
    if (len >=? DNSFLOW_PKT_TARGET_SIZE) || (sets_count' =? DNSFLOW_SETS_COUNT_MAX) then
      (* Send *)
      dnsflow_pkt_send_data now
    else ret tt.

(** The state [main] sets up: [sequence_number = 1], [data_buf] from
    [calloc], [last_send = 0]. *)
Definition initial_worker : worker := mk_worker 1 0 zero_memory 0 0.

(** ** Decapsulator *)

Definition IPVERSION : Z := 4.
Definition IPPROTO_UDP : Z := 17.
Definition sizeof_ip : Z := 20.
Definition sizeof_udphdr : Z := 8.
Definition sizeof_pcap_sf_pkthdr : Z := 16.
Definition sizeof_ether_header : Z := 14.
Definition sizeof_jmirror_hdr : Z := 8.

(** An [int] compared with a [sizeof] is converted to [size_t] first. *)
Definition to_size_t (z : Z) : Z := z mod 18446744073709551616.

(** A pointer into the captured frame is its offset from [ip_pkt].  Octets
    past the end of the captured data are outside the model and read as
    zero. *)
Definition octet (frame : list byte) (p : Z) : Z :=
  Z_of_byte (nth (Z.to_nat p) frame x00).

Definition ntohs_at (frame : list byte) (p : Z) : Z :=
  octet frame p * 256 + octet frame (p + 1).

(** Fields of [struct ip] and [struct udphdr] at pointer [p]. *)
Definition ip_v (frame : list byte) (p : Z) : Z := octet frame p / 16.
Definition ip_hl (frame : list byte) (p : Z) : Z := octet frame p mod 16.
Definition ip_len (frame : list byte) (p : Z) : Z := ntohs_at frame (p + 2).
Definition ip_p (frame : list byte) (p : Z) : Z := octet frame (p + 9).
Definition ip_dst (frame : list byte) (p : Z) : in_addr_t :=
  mk_in_addr (nth (Z.to_nat (p + 16)) frame x00) (nth (Z.to_nat (p + 17)) frame x00)
             (nth (Z.to_nat (p + 18)) frame x00) (nth (Z.to_nat (p + 19)) frame x00).
Definition uh_dport (frame : list byte) (p : Z) : Z := ntohs_at frame (p + 2).
Definition uh_ulen (frame : list byte) (p : Z) : Z := ntohs_at frame (p + 4).

(** IP checks - version, header len, pkt len. *)
Definition ip4_check (frame : list byte) (pkt_len : Z) (ip_pkt : Z) : option Z :=
  let ip := ip_pkt in
  if to_size_t pkt_len <? sizeof_ip then None
  else if negb (ip_v frame ip =? IPVERSION) then None
  else if pkt_len <? ip_hl frame ip * 4 then None
  else if pkt_len <? ip_len frame ip then None
  else if ip_len frame ip <? ip_hl frame ip * 4 then None
  else Some ip.

Definition udp4_check (frame : list byte) (pkt_len : Z) (ip : Z) : option Z :=
  let ip_hdr_len := ip_hl frame ip * 4 in
  if negb (ip_p frame ip =? IPPROTO_UDP) then None
  else if to_size_t pkt_len <? sizeof_ip + sizeof_udphdr then None
  else
    let udphdr := ip + ip_hdr_len in
    if pkt_len <? ip_hdr_len + uh_ulen frame udphdr then None
    else Some udphdr.

(** The pointers a successful check leaves in [*ip_ret], [*udphdr_ret] and
    returns as [udp_data]. *)
Record udp_view : Type := mk_udp_view { v_ip : Z; v_udphdr : Z; v_udp_data : Z }.

Definition ip_udp_check (frame : list byte) (pkt_len : Z) (ip_pkt : Z) : option udp_view :=
  match ip4_check frame pkt_len ip_pkt with
  | None => None
  | Some ip =>
      match udp4_check frame pkt_len ip with
      | None => None
      | Some udphdr => Some (mk_udp_view ip udphdr (udphdr + sizeof_udphdr))
      end
  end.

Definition ip_encap_check (frame : list byte) (pkt_len : Z) (encap_hdr : Z)
    (ip_encap_offset : Z) : option udp_view :=
  if pkt_len <? ip_encap_offset then None
  else ip_udp_check frame (pkt_len - ip_encap_offset) (encap_hdr + ip_encap_offset).

(** The encapsulation ports of the command line.  The source keeps them in
    network order and compares them with the raw field; the model keeps the
    port number and compares it with the field read in network order. *)
Record config : Type := mk_config {
  pcap_record_dst_port : Z;
  jmirror_dst_port : Z
}.

(** The first part of [dnsflow_dcap_cb], up to the call of
    [dnsflow_dns_check]. *)
Definition dcap_cb_decap (cfg : config) (pkt_len : Z) (ip_pkt : list byte)
  : option udp_view :=
  match ip_udp_check ip_pkt pkt_len 0 with
  | None => None
  | Some v =>
      let remaining := pkt_len - (v_udp_data v - 0) in
      (* Handle various encapsulations. *)
      let ip_encap_offset :=
        if uh_dport ip_pkt (v_udphdr v) =? pcap_record_dst_port cfg then
          sizeof_pcap_sf_pkthdr + sizeof_ether_header
        else if uh_dport ip_pkt (v_udphdr v) =? jmirror_dst_port cfg then
          sizeof_jmirror_hdr
        else 0 in
      if negb (ip_encap_offset =? 0) then
        ip_encap_check ip_pkt remaining (v_udp_data v) ip_encap_offset
      else Some v
  end.

(** What [dnsflow_dcap_cb] passes on: the [pkt_len] and [dns_pkt] arguments
    of [dnsflow_dns_check] (the pointer as an offset into the frame) and the
    [client_ip] argument of [dnsflow_pkt_build]. *)
Record dns_call : Type := mk_dns_call {
  dns_pkt_len : Z;
  dns_pkt : Z;
  client_ip_arg : in_addr_t
}.

Definition dcap_cb_dns_call (cfg : config) (pkt_len : Z) (ip_pkt : list byte)
  : option dns_call :=
  match dcap_cb_decap cfg pkt_len ip_pkt with
  | None => None
  | Some v =>
      Some (mk_dns_call (uh_ulen ip_pkt (v_udphdr v)) (v_udp_data v)
                        (ip_dst ip_pkt (v_ip v)))
  end.

(** ** DNS check and projection *)

(** The part of ldns the program uses.  A parsed packet keeps its sections as
    lists; [ldns_pkt_qdcount] and [ldns_pkt_ancount] are their lengths. *)
Record ldns_rdf : Type := mk_rdf { ldns_rdf_data : list byte }.

Definition ldns_rdf_size (r : ldns_rdf) : Z := Z.of_nat (length (ldns_rdf_data r)).

Record ldns_rr : Type := mk_rr {
  ldns_rr_owner : ldns_rdf;
  ldns_rr_get_type : Z;
  ldns_rr_rdfs : list ldns_rdf
}.

Record ldns_pkt : Type := mk_pkt {
  ldns_pkt_qr : bool;
  ldns_pkt_rd : bool;
  ldns_pkt_ra : bool;
  ldns_pkt_get_rcode : Z;
  ldns_pkt_question : list ldns_rr;
  ldns_pkt_answer : list ldns_rr
}.

Definition ldns_pkt_qdcount (lp : ldns_pkt) : Z := Z.of_nat (length (ldns_pkt_question lp)).
Definition ldns_rr_list_rr (l : list ldns_rr) (nr : nat) : option ldns_rr := nth_error l nr.

Definition LDNS_RCODE_NOERROR : Z := 0.
Definition LDNS_RR_TYPE_A : Z := 1.
Definition LDNS_RR_TYPE_CNAME : Z := 5.
Definition LDNS_MAX_DOMAINLEN : Z := 255.

Definition ldns_status : Type := Z.

Inductive wire2pkt_result : Type :=
| Parsed (lp : ldns_pkt)
| ParseError (status : ldns_status).   (* a status other than LDNS_STATUS_OK *)

(** [*(in_addr_t * ) ldns_rdf_data(rdf)]: the first four octets of the rdata. *)
Definition load_in_addr (data : list byte) : in_addr_t :=
  mk_in_addr (nth 0 data x00) (nth 1 data x00) (nth 2 data x00) (nth 3 data x00).

Fixpoint foldM {A B : Type} (f : B -> A -> M B) (l : list A) (b : B) : M B :=
  match l with
  | [] => ret b
  | a :: rest => b' <- f b a ;; foldM f rest b'
  end.

(** The body of the inner loop of [dnsflow_dns_extract]. *)
Definition extract_rdf (rr_type : Z) (data : dns_data_set) (rdf : ldns_rdf)
  : M dns_data_set :=
  if rr_type =? LDNS_RR_TYPE_CNAME then
    if num_names data =? DNSFLOW_MAX_PARSE then
      _log "Too many names" [] ;; ret data
    else if ldns_rdf_size rdf >? LDNS_MAX_DOMAINLEN then
      _log "Invalid name" [] ;; ret data
    else ret (mk_dns_data (names data ++ [ldns_rdf_data rdf]) (ips data))
  else if rr_type =? LDNS_RR_TYPE_A then
    if num_ips data =? DNSFLOW_MAX_PARSE then
      _log "Too many ips" [] ;; ret data
    else ret (mk_dns_data (names data) (ips data ++ [load_in_addr (ldns_rdf_data rdf)]))
  else ret data.

Definition extract_rr (data : dns_data_set) (a_rr : ldns_rr) : M dns_data_set :=
  foldM (extract_rdf (ldns_rr_get_type a_rr)) (ldns_rr_rdfs a_rr) data.

(** [dnsflow_dns_extract].  The question section of a packet that passed
    [dnsflow_dns_check] has one entry; on an empty one the source would read
    through a null pointer, and the model returns nothing. *)
Definition dnsflow_dns_extract (lp : ldns_pkt) : M (option dns_data_set) :=
  match ldns_rr_list_rr (ldns_pkt_question lp) 0 with
  | None => ret None
  | Some q_rr =>
      if ldns_rdf_size (ldns_rr_owner q_rr) >? LDNS_MAX_DOMAINLEN then
        _log "Invalid query string" [] ;; ret None
      else
        data <- foldM extract_rr (ldns_pkt_answer lp)
                  (mk_dns_data [ldns_rdf_data (ldns_rr_owner q_rr)] []) ;;
        (* Sanity checks *)
        if num_names data =? 0 then ret None
        else if num_ips data =? 0 then ret None
        else ret (Some data)
  end.

Section Parser.

(** ldns, the external wire decoder: the parse of [pkt_len] octets at a
    pointer (given as the octets captured from that pointer on), and the
    text of a status. *)
Variable ldns_wire2pkt : list byte -> Z -> wire2pkt_result.
Variable ldns_get_errorstr_by_id : ldns_status -> string.

Definition dnsflow_dns_check (pkt_len : Z) (dns_pkt : list byte) : M (option ldns_pkt) :=
  match ldns_wire2pkt dns_pkt pkt_len with
  | ParseError status =>
      _log "Bad DNS pkt: %s" [ArgS (ldns_get_errorstr_by_id status)] ;;
      ret None
  | Parsed lp =>
      (* Looking for valid recursive replies *)
      if negb (ldns_pkt_qr lp) || negb (ldns_pkt_rd lp) || negb (ldns_pkt_ra lp)
         || negb (ldns_pkt_get_rcode lp =? LDNS_RCODE_NOERROR) then ret None
      else if negb (ldns_pkt_qdcount lp =? 1) then ret None
      else
        match ldns_rr_list_rr (ldns_pkt_question lp) 0 with
        | None => ret None
        | Some q_rr =>
            if negb (ldns_rr_get_type q_rr =? LDNS_RR_TYPE_A) then ret None
            else ret (Some lp)
        end
  end.

Definition dnsflow_dcap_cb (cfg : config) (now : Z) (pkt_len : Z) (ip_pkt : list byte)
  : M unit :=
  match dcap_cb_dns_call cfg pkt_len ip_pkt with
  | None => ret tt
  | Some c =>
      lp <- dnsflow_dns_check (dns_pkt_len c) (skipn (Z.to_nat (dns_pkt c)) ip_pkt) ;;
      match lp with
      | None => ret tt   (* Bad dns pkt, or one we're not interested in. *)
      | Some lp =>
          dns_data <- dnsflow_dns_extract lp ;;
          match dns_data with
          | None => ret tt
          | Some dns_data =>
              (* Should be good to go. *)
              dnsflow_pkt_build now (client_ip_arg c) dns_data
          end
      end
  end.

End Parser.

(** ** Statistics ticker *)

Record dcap_stat : Type := mk_dcap_stat {
  captured : Z;
  ps_recv : Z;
  ps_drop : Z;
  ps_ifdrop : Z;
  ps_valid : bool
}.

Definition dnsflow_print_stats (ds : dcap_stat) : M unit :=
  _log "%u packets captured" [ArgU (captured ds)] ;;
  if ps_valid ds then
    _log "%u packets received by filter" [ArgU (ps_recv ds)] ;;
    _log "%u packets dropped by kernel" [ArgU (ps_drop ds)] ;;
    _log "%u packets dropped by interface" [ArgU (ps_ifdrop ds)]
  else ret tt.

(** The stats buffer is a local of the callback: header, then the five
    counters, all in network order. *)
Definition stats_payload (sn : Z) (ds : dcap_stat) (sample_rate : Z) : list byte :=
  [byte_of_Z DNSFLOW_VERSION; byte_of_Z 1] ++ be16 DNSFLOW_FLAG_STATS ++ be32 sn
  ++ be32 (captured ds) ++ be32 (ps_recv ds) ++ be32 (ps_drop ds)
  ++ be32 (ps_ifdrop ds) ++ be32 sample_rate.

(** [dnsflow_stats_cb]; [ds] is what [dcap_get_stats] returns and
    [sample_rate] the field of the capture handle. *)
Definition dnsflow_stats_cb (ds : dcap_stat) (sample_rate : Z) : M unit :=
  stats_counter <- incr_stats_counter ;;
  (if Z.rem stats_counter 6 =? 0 then
     (* Print stats once a minute. *)
     dnsflow_print_stats ds
   else ret tt) ;;
  sn <- post_incr_sequence_number ;;
  dnsflow_pkt_send (stats_payload sn ds sample_rate).

(** ** One worker's run *)

(** What the event loop delivers, with the values the callback reads from
    its surroundings. *)
Inductive event : Type :=
| Packet (now pkt_len : Z) (ip_pkt : list byte)
| PushTimer (now sent_at : Z)
| StatsTimer (ds : dcap_stat) (sample_rate : Z)
| EndOfFile (now : Z).     (* "Send last pkt." after [dcap_loop_all] *)

Section Run.

Variable ldns_wire2pkt : list byte -> Z -> wire2pkt_result.
Variable ldns_get_errorstr_by_id : ldns_status -> string.
Variable cfg : config.

Definition handle (ev : event) : M unit :=
  match ev with
  | Packet now pkt_len ip_pkt =>
      dnsflow_dcap_cb ldns_wire2pkt ldns_get_errorstr_by_id cfg now pkt_len ip_pkt
  | PushTimer now sent_at => dnsflow_push_cb now sent_at
  | StatsTimer ds sample_rate => dnsflow_stats_cb ds sample_rate
  | EndOfFile now => dnsflow_pkt_send_data now
  end.

Fixpoint run (evs : list event) : M unit :=
  match evs with
  | [] => ret tt
  | ev :: rest => handle ev ;; run rest
  end.

End Run.

(** ** The capture filter *)

Inductive bpf_proto : Type := proto_ip | proto_udp.

(** Arithmetic of pcap-filter expressions, on 32-bit unsigned values. *)
Inductive bpf_arth : Type :=
| Load (proto : bpf_proto) (off size : Z)   (* proto[off:size] *)
| Num (n : Z)
| Sub (a b : bpf_arth)
| Mul (a b : bpf_arth)
| Div (a b : bpf_arth)
| BitAnd (a b : bpf_arth).

Inductive bpf_filter : Type :=
| Udp
| Vlan
| RelEq (a b : bpf_arth)                    (* a = b *)
| And (f g : bpf_filter)
| Or (f g : bpf_filter).

(** [build_pcap_filter] writes the filter as text; the model builds the
    syntax tree that pcap-filter's grammar gives that text ([*] and [/]
    bind tighter than [-], which binds tighter than [&]; [and] associates to
    the left).  A [%u] conversion prints its [int] argument as unsigned. *)

Definition port_filter (udp_offset : Z) (enable_mdns : bool) : bpf_filter :=
  let src_port_offset := 0 in
  if enable_mdns then
    (* "(udp[%d:2] = 53 or udp[%d:2] = 5353)" *)
    Or (RelEq (Load proto_udp (src_port_offset + udp_offset) 2) (Num 53))
       (RelEq (Load proto_udp (src_port_offset + udp_offset) 2) (Num 5353))
  else
    (* "udp[%d:2] = 53" *)
    RelEq (Load proto_udp (src_port_offset + udp_offset) 2) (Num 53).

(** "udp and %s and udp[%d:2] & 0x8187 = 0x8180" *)
Definition dns_resp_filter (udp_offset : Z) (enable_mdns : bool) : bpf_filter :=
  let dns_flags_offset := 10 in
  And (And Udp (port_filter udp_offset enable_mdns))
      (RelEq (BitAnd (Load proto_udp (dns_flags_offset + udp_offset) 2) (Num 33159))
             (Num 33152)).

(** "ip[%d:4] - ip[%d:4] / %u * %u = %u" *)
Definition shard_clause (ip_offset : Z) (proc_i num_procs : Z) : bpf_filter :=
  let dst_ip_offset := 16 in
  RelEq (Sub (Load proto_ip (dst_ip_offset + ip_offset) 4)
             (Mul (Div (Load proto_ip (dst_ip_offset + ip_offset) 4) (Num (u32 num_procs)))
                  (Num (u32 num_procs))))
        (Num (u32 (proc_i - 1))).

Definition multi_proc_filter (encap_offset proc_i num_procs : Z) (enable_mdns : bool)
  : bpf_filter :=
  let udp_offset :=
    if negb (encap_offset =? 0) then sizeof_udphdr + encap_offset + sizeof_ip else 0 in
  let ip_offset :=
    if negb (encap_offset =? 0) then sizeof_ip + sizeof_udphdr + encap_offset else 0 in
  if num_procs >? 1 then
    And (dns_resp_filter udp_offset enable_mdns) (shard_clause ip_offset proc_i num_procs)
  else dns_resp_filter udp_offset enable_mdns.

(** "(%s) or (vlan and (%s))" *)
Definition build_pcap_filter (encap_offset proc_i num_procs : Z) (enable_mdns : bool)
  : bpf_filter :=
  let p := multi_proc_filter encap_offset proc_i num_procs enable_mdns in
  Or p (And Vlan p).

(** Evaluation of the arithmetic on a packet given from its IP header on; a
    load that leaves the packet, or a division by zero, rejects the packet. *)
Definition load_be (ip_pkt : list byte) (off size : Z) : option Z :=
  if (0 <=? off) && (off + size <=? Z.of_nat (length ip_pkt)) then
    Some (be_value (firstn (Z.to_nat size) (skipn (Z.to_nat off) ip_pkt)) 0)
  else None.

(** The packet is the first or the only fragment of its datagram: the 13
    bits of the fragment offset, [ip[6:2] & 0x1fff], are zero. *)
Definition first_fragment (ip_pkt : list byte) : bool :=
  match load_be ip_pkt 6 2 with
  | Some frag => Z.land frag 8191 =? 0
  | None => false
  end.

(** [udp[off:size]] is an offset into the UDP header, which pcap-filter finds
    from the header length of the IP header; it computes the load only on a
    packet that carries protocol UDP and is a first fragment, and rejects
    the packet otherwise. *)
Fixpoint eval_arth (ip_pkt : list byte) (e : bpf_arth) : option Z :=
  let bin (op : Z -> Z -> option Z) (a b : bpf_arth) :=
    match eval_arth ip_pkt a, eval_arth ip_pkt b with
    | Some x, Some y => op x y
    | _, _ => None
    end in
  match e with
  | Load proto_ip off size => load_be ip_pkt off size
  | Load proto_udp off size =>
      if (ip_p ip_pkt 0 =? IPPROTO_UDP) && first_fragment ip_pkt then
        load_be ip_pkt (ip_hl ip_pkt 0 * 4 + off) size
      else None
  | Num n => Some n
  | Sub a b => bin (fun x y => Some (u32 (x - y))) a b
  | Mul a b => bin (fun x y => Some (u32 (x * y))) a b
  | Div a b => bin (fun x y => if y =? 0 then None else Some (x / y)) a b
  | BitAnd a b => bin (fun x y => Some (Z.land x y)) a b
  end.

Definition eval_rel (ip_pkt : list byte) (a b : bpf_arth) : bool :=
  match eval_arth ip_pkt a, eval_arth ip_pkt b with
  | Some x, Some y => x =? y
  | _, _ => false
  end.

(** A filter on an untagged IPv4 packet: [vlan] is false there. *)
Fixpoint eval_filter (ip_pkt : list byte) (f : bpf_filter) : bool :=
  match f with
  | Udp => ip_p ip_pkt 0 =? IPPROTO_UDP
  | Vlan => false
  | RelEq a b => eval_rel ip_pkt a b
  | And f g => eval_filter ip_pkt f && eval_filter ip_pkt g
  | Or f g => eval_filter ip_pkt f || eval_filter ip_pkt g
  end.

(** ** Vocabulary of the statements *)

Definition total_len (nms : list (list byte)) : Z := Z.of_nat (length (concat nms)).

(** What a trace shows to the outside. *)
Definition sends (tr : list effect) : list (list byte) :=
  flat_map (fun e => match e with Send p => [p] | _ => [] end) tr.

Definition logs (tr : list effect) : list (string * list log_arg) :=
  flat_map (fun e => match e with Log f a => [(f, a)] | _ => [] end) tr.

Definition stores (tr : list effect) : list (Z * Z) :=
  flat_map (fun e => match e with Store o l => [(o, l)] | _ => [] end) tr.

(** The memory and the stores the three loops leave, as functions of where
    they start. *)
Fixpoint names_mem (m : memory) (len : Z) (nms : list (list byte)) : memory :=
  match nms with
  | [] => m
  | nm :: rest => names_mem (store_bytes m len nm) (len + Z.of_nat (length nm)) rest
  end.

Fixpoint names_trace (len : Z) (nms : list (list byte)) : list effect :=
  match nms with
  | [] => []
  | nm :: rest =>
      Store len (Z.of_nat (length nm)) :: names_trace (len + Z.of_nat (length nm)) rest
  end.

Definition pad_count (len : Z) : nat := Z.to_nat ((4 - len mod 4) mod 4).

Fixpoint pad_mem (n : nat) (m : memory) (len : Z) : memory :=
  match n with
  | O => m
  | S n' => pad_mem n' (store_bytes m len [x00]) (len + 1)
  end.

Fixpoint pad_trace (n : nat) (len : Z) : list effect :=
  match n with
  | O => []
  | S n' => Store len 1 :: pad_trace n' (len + 1)
  end.

Fixpoint ips_mem (m : memory) (len : Z) (l : list in_addr_t) : memory :=
  match l with
  | [] => m
  | ip :: rest => ips_mem (store_bytes m len (in_addr_bytes ip)) (len + 4) rest
  end.

Fixpoint ips_trace (len : Z) (l : list in_addr_t) : list effect :=
  match l with
  | [] => []
  | ip :: rest => Store len 4 :: ips_trace (len + 4) rest
  end.

(** The parts of one append: where the set starts, what is kept of the
    response, and the length, memory and stores the append leaves before
    the size and count test.  Lemma [dnsflow_pkt_build_fits] below shows
    that this is what [dnsflow_pkt_build] computes. *)
Definition set_start (l : Z) : Z := if l =? 0 then sizeof_dnsflow_hdr else l.

Definition names_count_of (d : dns_data_set) : Z :=
  u8 (Z.min (num_names d) DNSFLOW_NAMES_COUNT_MAX).
Definition ips_count_of (d : dns_data_set) : Z :=
  u8 (Z.min (num_ips d) DNSFLOW_IPS_COUNT_MAX).

Definition kept_names (d : dns_data_set) : list (list byte) :=
  firstn (Z.to_nat (names_count_of d)) (names d).
Definition kept_ips (d : dns_data_set) : list in_addr_t :=
  firstn (Z.to_nat (ips_count_of d)) (ips d).

Definition names_start (l : Z) : Z := set_start l + sizeof_dnsflow_set_hdr.
Definition names_end (l : Z) (d : dns_data_set) : Z :=
  names_start l + total_len (kept_names d).
Definition padded_end (l : Z) (d : dns_data_set) : Z :=
  names_end l d + Z.of_nat (pad_count (names_end l d)).
Definition built_len (l : Z) (d : dns_data_set) : Z :=
  padded_end l d + 4 * Z.of_nat (length (kept_ips d)).

Definition hdr_mem (m : memory) (l : Z) : memory :=
  if l =? 0 then
    store_bytes (store_bytes (store_bytes m 0 (repeat x00 8)) 0 [byte_of_Z DNSFLOW_VERSION])
                1 [byte_of_Z 0]
  else m.

Definition set_hdr_mem (m : memory) (st : Z) (client_ip : in_addr_t) (d : dns_data_set)
  : memory :=
  store_bytes
    (store_bytes
       (store_bytes (store_bytes m st (repeat x00 8)) st (in_addr_bytes client_ip))
       (st + 4) [byte_of_Z (names_count_of d)])
    (st + 5) [byte_of_Z (ips_count_of d)].

Definition filled_mem (m : memory) (l : Z) (client_ip : in_addr_t) (d : dns_data_set)
  : memory :=
  let st := set_start l in
  let m2 := set_hdr_mem (hdr_mem m l) st client_ip d in
  let m3 := names_mem m2 (names_start l) (kept_names d) in
  let m4 := pad_mem (pad_count (names_end l d)) m3 (names_end l d) in
  let m5 := store_bytes m4 (st + 6) (be16 (padded_end l d - names_start l)) in
  ips_mem m5 (padded_end l d) (kept_ips d).

Definition built_mem (m : memory) (l : Z) (client_ip : in_addr_t) (d : dns_data_set)
  : memory :=
  let m6 := filled_mem m l client_ip d in
  store_bytes m6 1 [byte_of_Z (load8 m6 1 + 1)].

Definition built_trace (l : Z) (d : dns_data_set) : list effect :=
  let st := set_start l in
  (if l =? 0 then [Store 0 8; Store 0 1; Store 1 1] else [])
  ++ [Store st 8; Store st 4; Store (st + 4) 1; Store (st + 5) 1]
  ++ names_trace (names_start l) (kept_names d)
  ++ pad_trace (pad_count (names_end l d)) (names_end l d)
  ++ [Store (st + 6) 2]
  ++ ips_trace (padded_end l d) (kept_ips d)
  ++ [Store 1 1].

(** The header field [sets_count] of the buffer under construction. *)
Definition sets_count (w : worker) : Z := load8 (pkt w) 1.

(** What holds of the buffer between two callbacks. *)
Definition buf_inv (w : worker) : Prop :=
  0 <= sequence_number w < 4294967296
  /\ (db_len w = 0
      \/ (sizeof_dnsflow_hdr + sizeof_dnsflow_set_hdr <= db_len w < DNSFLOW_PKT_TARGET_SIZE
          /\ db_len w mod 4 = 0
          /\ 1 <= sets_count w < DNSFLOW_SETS_COUNT_MAX)).

(** The state and the trace a computation ends with. *)
Definition after {A : Type} (r : A * worker * list effect) : worker := snd (fst r).
Definition trace_of {A : Type} (r : A * worker * list effect) : list effect := snd r.
Definition value_of {A : Type} (r : A * worker * list effect) : A := fst (fst r).

(** The overflow guard of [dnsflow_pkt_build] ended the append. *)
Definition overflow_guard_hit (tr : list effect) : bool :=
  existsb (fun e => match e with
                    | Log f _ => String.eqb f "Pkt create error"
                    | _ => false
                    end) tr.

(** The [sequence_number] field of an emitted buffer. *)
Definition seq_of_payload (p : list byte) : Z := be_value (firstn 4 (skipn 4 p)) 0.

(** The count the header carries after an append. *)
Definition next_sets_count (w : worker) : Z :=
  u8 ((if db_len w =? 0 then 0 else sets_count w) + 1).

(** Inputs of the examples: the response of scenario 1 of the
    specification, and a response at the limits of [struct dns_data_set]. *)
Definition client_10_0_0_7 : in_addr_t := mk_in_addr x0a x00 x00 x07.
Definition ip_93_184_216_34 : in_addr_t := mk_in_addr x5d xb8 xd8 x22.
Definition example_com : list byte :=
  [x07; x65; x78; x61; x6d; x70; x6c; x65; x03; x63; x6f; x6d; x00].
Definition single_a_response : dns_data_set :=
  mk_dns_data [example_com] [ip_93_184_216_34].

Definition longest_name : list byte := repeat x3f 255.
Definition largest_response : dns_data_set :=
  mk_dns_data (repeat longest_name 255) (repeat ip_93_184_216_34 255).

(** A trace that touches neither the packet area nor the network, and does
    not report the overflow guard. *)
Definition quiet (tr : list effect) : Prop :=
  sends tr = [] /\ stores tr = [] /\ overflow_guard_hit tr = false.

(** The sequence numbers of [n] buffers emitted from counter value [s] on. *)
Definition seq_run (s : Z) (n : nat) : list Z :=
  map (fun k => u32 (s + Z.of_nat k)) (seq 0 n).

(** The items of a response in the order the projection meets them: the
    rdata of the CNAME records and of the A records of the answer section. *)
Definition cname_targets (answers : list ldns_rr) : list (list byte) :=
  flat_map (fun rr => if ldns_rr_get_type rr =? LDNS_RR_TYPE_CNAME
                      then map ldns_rdf_data (ldns_rr_rdfs rr) else []) answers.

Definition a_rdata (answers : list ldns_rr) : list in_addr_t :=
  flat_map (fun rr => if ldns_rr_get_type rr =? LDNS_RR_TYPE_A
                      then map (fun r => load_in_addr (ldns_rdf_data r)) (ldns_rr_rdfs rr)
                      else []) answers.

Definition name_fits (nm : list byte) : bool :=
  negb (Z.of_nat (length nm) >? LDNS_MAX_DOMAINLEN).

(** One step of the two bounded arrays of [struct dns_data_set]. *)
Definition push_name (acc : list (list byte)) (nm : list byte) : list (list byte) :=
  if Z.of_nat (length acc) =? DNSFLOW_MAX_PARSE then acc
  else if name_fits nm then acc ++ [nm] else acc.

Definition push_ip (acc : list in_addr_t) (a : in_addr_t) : list in_addr_t :=
  if Z.of_nat (length acc) =? DNSFLOW_MAX_PARSE then acc else acc ++ [a].

(** Responses of the examples.  [www_foo_test] is scenario 2 of the
    specification. *)
Definition rr_of (owner : list byte) (type : Z) (rdata : list byte) : ldns_rr :=
  mk_rr (mk_rdf owner) type [mk_rdf rdata].

Definition www_foo_test_name : list byte :=
  [x03; x77; x77; x77; x03; x66; x6f; x6f; x04; x74; x65; x73; x74; x00].
Definition foo_test_name : list byte :=
  [x03; x66; x6f; x6f; x04; x74; x65; x73; x74; x00].

Definition www_foo_test : ldns_pkt :=
  mk_pkt true true true LDNS_RCODE_NOERROR
    [mk_rr (mk_rdf www_foo_test_name) LDNS_RR_TYPE_A []]
    [rr_of www_foo_test_name LDNS_RR_TYPE_CNAME foo_test_name;
     rr_of foo_test_name LDNS_RR_TYPE_A [x01; x02; x03; x04]].

(** What every callback keeps, stated for the result [r] of running it from
    [w]: the invariant of the buffer, the numbering of what was sent, and
    that a callback drops a buffer unsent only at the overflow guard. *)
Definition step_ok {A : Type} (w : worker) (r : A * worker * list effect) : Prop :=
  buf_inv (after r)
  /\ map seq_of_payload (sends (trace_of r)) =
     seq_run (sequence_number w) (length (sends (trace_of r)))
  /\ sequence_number (after r) =
     u32 (sequence_number w + Z.of_nat (length (sends (trace_of r))))
  /\ (sends (trace_of r) = [] -> db_len (after r) = 0 ->
      (db_len w = 0 /\ stores (trace_of r) = [])
      \/ overflow_guard_hit (trace_of r) = true).

(** A run of the examples: no packet parses, no encapsulation port is set,
    and only the stats timer fires. *)
Definition no_parse : list byte -> Z -> wire2pkt_result := fun _ _ => ParseError 1.
Definition no_errorstr : ldns_status -> string := fun _ => "Packet too short"%string.
Definition no_encap : config := mk_config 0 0.
Definition idle_stat : dcap_stat := mk_dcap_stat 0 0 0 0 true.
Definition stats_ticks (n : nat) : list event := repeat (StatsTimer idle_stat 0) n.

(** Each emitted buffer carries a larger sequence number than the one
    before it. *)
Definition strictly_increasing (l : list Z) : Prop :=
  forall k, (S k < length l)%nat -> nth k l 0 < nth (S k) l 0.

(** A buffer that already holds one set of two long names. *)
Definition two_long_names : dns_data_set :=
  mk_dns_data [longest_name; longest_name] [ip_93_184_216_34].
Definition part_filled_worker : worker :=
  after (dnsflow_pkt_build 0 client_10_0_0_7 two_long_names initial_worker).

(** Frames of the examples.  [example_com_frame] is a well-formed response
    for [example.com.] to client 10.0.0.7: a 20-octet IP header, the UDP
    header with length field 53, and 45 octets of DNS.  The
    [short_header_frame] has header length 1 word in its first octet; read
    with a 4-octet IP header it has source port 53, destination port 57344
    (a zero fragment offset when read as part of the IP header) and the
    flags of a recursive answer. *)
Definition example_com_frame : list byte :=
  [x45; x00; x00; x49; x00; x00; x00; x00; x40; x11; x00; x00;
   x08; x08; x08; x08; x0a; x00; x00; x07]
  ++ [x00; x35; x30; x39; x00; x35; x00; x00]
  ++ [x12; x34; x81; x80; x00; x01; x00; x01; x00; x00; x00; x00]
  ++ example_com ++ [x00; x01; x00; x01]
  ++ [xc0; x0c; x00; x01; x00; x01; x00; x00; x01; x2c; x00; x04; x5d; xb8; xd8; x22].

Definition short_header_frame : list byte :=
  [x41; x00; x00; x1c; x00; x35; xe0; x00; x00; x11; x00; x00;
   x12; x34; x81; x80; x0a; x00; x00; x07; x00; x00; x00; x00;
   x00; x00; x00; x00].

(** What [main] reserves from [&data_buf->db_pkt_hdr] on: the header, the
    union after it (as large as [struct dnsflow_stats_pkt]) and the
    [DNSFLOW_PKT_MAX_SIZE] octets added to the [calloc]. *)
Definition data_buf_reserved : Z :=
  sizeof_dnsflow_hdr + sizeof_dnsflow_stats_pkt + DNSFLOW_PKT_MAX_SIZE.

(** The end of the highest store of a trace. *)
Definition write_extent (tr : list effect) : Z :=
  fold_right (fun s acc => Z.max (fst s + snd s) acc) 0 (stores tr).

(** Every store of the trace lies inside the block [main] reserved. *)
Definition within_reserved (tr : list effect) : bool :=
  forallb (fun s => (0 <=? fst s) && (fst s + snd s <=? data_buf_reserved)) (stores tr).

(** The packet ldns makes of the DNS payload of [example_com_frame], and a
    parser that knows just this payload. *)
Definition example_com_pkt : ldns_pkt :=
  mk_pkt true true true LDNS_RCODE_NOERROR
    [mk_rr (mk_rdf example_com) LDNS_RR_TYPE_A []]
    [rr_of example_com LDNS_RR_TYPE_A [x5d; xb8; xd8; x22]].

Definition parse_example_com : list byte -> Z -> wire2pkt_result :=
  fun dns_pkt pkt_len =>
    if (pkt_len =? 53) && (length dns_pkt =? 45)%nat then Parsed example_com_pkt
    else ParseError 1.

(** How often a trace prints the capture statistics (the first line of
    [dnsflow_print_stats]), and how many stats ticks a run holds. *)
Definition stats_printed (tr : list effect) : Z :=
  Z.of_nat (length (filter (fun l => String.eqb (fst l) "%u packets captured") (logs tr))).

Definition stats_ticks_in (evs : list event) : Z :=
  Z.of_nat (length (filter (fun ev => match ev with StatsTimer _ _ => true | _ => false end)
                           evs)).

(** The octets of a data set and of the header of a data buffer, as the
    format comment at the head of the source lays them out: client address,
    the two counts, the length of the names with their padding, the names,
    the padding to the next word, the addresses. *)
Definition wire_set (client_ip : in_addr_t) (nms : list (list byte)) (ipl : list in_addr_t)
  : list byte :=
  let pad := pad_count (total_len nms) in
  in_addr_bytes client_ip
  ++ [byte_of_Z (Z.of_nat (length nms)); byte_of_Z (Z.of_nat (length ipl))]
  ++ be16 (total_len nms + Z.of_nat pad)
  ++ concat nms ++ repeat x00 pad
  ++ concat (map in_addr_bytes ipl).

Definition data_hdr (count seq : Z) : list byte :=
  [byte_of_Z DNSFLOW_VERSION; byte_of_Z count] ++ be16 0 ++ be32 seq.

(** The sets the buffer under construction holds, and what the first four
    octets of the packet area hold while it is not empty. *)
Definition sets_of (w : worker) : list byte :=
  load_bytes (pkt w) sizeof_dnsflow_hdr (Z.to_nat (db_len w - sizeof_dnsflow_hdr)).

Definition hdr_inv (w : worker) : Prop :=
  db_len w <> 0 ->
  pkt w 0 = byte_of_Z DNSFLOW_VERSION /\ pkt w 2 = x00 /\ pkt w 3 = x00.

(** The header fields of an emitted buffer, and what holds of every buffer
    the worker emits: version 2, and either a data buffer (flags 0, between
    1 and 255 sets, at least the header and one set header, a whole number
    of words) or the statistics buffer (flags [DNSFLOW_FLAG_STATS], one
    set, 28 octets). *)
Definition version_of (p : list byte) : Z := Z_of_byte (nth 0 p x00).
Definition count_of (p : list byte) : Z := Z_of_byte (nth 1 p x00).
Definition flags_of (p : list byte) : Z := be_value (firstn 2 (skipn 2 p)) 0.

Definition well_formed (p : list byte) : Prop :=
  version_of p = DNSFLOW_VERSION
  /\ ((flags_of p = 0
       /\ 1 <= count_of p <= DNSFLOW_SETS_COUNT_MAX
       /\ sizeof_dnsflow_hdr + sizeof_dnsflow_set_hdr <= Z.of_nat (length p)
       /\ Z.of_nat (length p) mod 4 = 0)
      \/ (flags_of p = DNSFLOW_FLAG_STATS
          /\ count_of p = 1
          /\ Z.of_nat (length p) = sizeof_dnsflow_hdr + sizeof_dnsflow_stats_pkt)).

(** What every callback keeps of the header and of what it emits. *)
Definition emits_ok {A : Type} (r : A * worker * list effect) : Prop :=
  buf_inv (after r) /\ hdr_inv (after r) /\ Forall well_formed (sends (trace_of r)).

(** No buffer a trace emits is longer than the target size or, if that is
    more, than the stores of the trace reach. *)
Definition sized (tr : list effect) : Prop :=
  Forall (fun p => Z.of_nat (length p)
                   <= Z.max DNSFLOW_PKT_TARGET_SIZE (write_extent tr))
         (sends tr).

(** A response whose names end at the last offset the overflow guard lets
    through, on an empty buffer: one name of 65518 octets, 255 addresses. *)
Definition guard_limit_response : dns_data_set :=
  mk_dns_data [repeat x3f (Z.to_nat 65518)] (repeat ip_93_184_216_34 255).

(** A view of a frame that starts [k] octets into another one. *)
Definition shift_view (k : Z) (v : udp_view) : udp_view :=
  mk_udp_view (k + v_ip v) (k + v_udphdr v) (k + v_udp_data v).

(** The J-Mirror encapsulation of [example_com_frame]: outer IP and UDP
    headers to port 30030, the 8 octets of [struct jmirror_hdr], then the
    mirrored packet. *)
Definition jmirror_frame : list byte :=
  [x45; x00; x00; x6d; x00; x00; x00; x00; x40; x11; x00; x00;
   xc0; xa8; x01; x01; xc0; xa8; x01; x02]
  ++ [x80; x00; x75; x4e; x00; x59; x00; x00]
  ++ [x00; x00; x00; x01; x00; x00; x00; x02]
  ++ example_com_frame.

Definition jmirror_30030 : config := mk_config 0 30030.

(** The frame of [example_com_frame] with the flags word [0x8588]: AA set
    and RCODE 8. *)
Definition rcode_8_frame : list byte :=
  [x45; x00; x00; x49; x00; x00; x00; x00; x40; x11; x00; x00;
   x08; x08; x08; x08; x0a; x00; x00; x07]
  ++ [x00; x35; x30; x39; x00; x35; x00; x00]
  ++ [x12; x34; x85; x88; x00; x01; x00; x01; x00; x00; x00; x00]
  ++ example_com ++ [x00; x01; x00; x01]
  ++ [xc0; x0c; x00; x01; x00; x01; x00; x00; x01; x2c; x00; x04; x5d; xb8; xd8; x22].

(** What the filter of a single process asks of an untagged IPv4 packet, in
    terms of the packet: protocol UDP; a first or only fragment; the two
    octets at the source port (of the inner UDP header when an
    encapsulation offset is given) are 53, or 5353 with mDNS enabled; and
    the DNS flags word has QR (bit 15), RD (bit 8) and RA (bit 7) set and
    the three low bits of RCODE clear. *)
Definition dns_response_packet (encap_offset : Z) (enable_mdns : bool) (ip_pkt : list byte)
  : Prop :=
  let udp_offset :=
    if negb (encap_offset =? 0) then sizeof_udphdr + encap_offset + sizeof_ip else 0 in
  let udp := ip_hl ip_pkt 0 * 4 in
  ip_p ip_pkt 0 = IPPROTO_UDP
  /\ (exists frag, load_be ip_pkt 6 2 = Some frag /\ Z.land frag 8191 = 0)
  /\ (load_be ip_pkt (udp + (0 + udp_offset)) 2 = Some 53
      \/ (enable_mdns = true /\ load_be ip_pkt (udp + (0 + udp_offset)) 2 = Some 5353))
  /\ exists flags,
       load_be ip_pkt (udp + (10 + udp_offset)) 2 = Some flags
       /\ Z.testbit flags 15 = true /\ Z.testbit flags 8 = true /\ Z.testbit flags 7 = true
       /\ Z.testbit flags 2 = false /\ Z.testbit flags 1 = false
       /\ Z.testbit flags 0 = false.

(** ** The emitter in detail *)

(** [dnsflow_pkt_send] as the operating system sees it.  The worker model
    above records one [Send] per call; here is what one call does with the
    dump file and the UDP destinations.  What the system calls return is
    given from outside. *)

Definition PF_UNSPEC : Z := 0.
Definition PF_INET : Z := 2.
Definition SOCK_DGRAM : Z := 2.

Record timeval : Type := mk_timeval { tv_sec : Z; tv_usec : Z }.

Record sockaddr_in : Type := mk_sockaddr_in {
  sin_family : Z;
  sin_port : Z;
  sin_addr : in_addr_t
}.

(** How a call ends: it returns, or the process ends in [exit], [err] or
    [errx] with a status, or in a failed [assert]. *)
Inductive outcome (A : Type) : Type :=
| Returns (a : A)
| Exits (status : Z)
| Aborts.
Arguments Returns {A} a.
Arguments Exits {A} status.
Arguments Aborts {A}.

Inductive sys_effect : Type :=
| PcapDump (ts : timeval) (caplen len : Z) (data : list byte)   (* [pcap_dump] *)
| Socket (domain type protocol : Z)                             (* [socket] *)
| Sendto (fd : Z) (payload : list byte) (dst : sockaddr_in)     (* [sendto] *)
| Warnx (msg : string)
| Err (msg : string)                                            (* [err], [errx] *)
| Kill (pid sig : Z)                                            (* [kill] *)
| Wait                                                           (* [wait] *)
| Stderr (format : string) (args : list log_arg)                (* [_log] *)
| Usage                                                          (* the text of [usage] *)
| PcapDumpClose
| PcapClose.

(** The output configuration [main] leaves: whether [pdump] is open, and
    the first [udp_num_dsts] entries of [dst_so_addrs]. *)
Record outputs : Type := mk_outputs {
  pdump : bool;
  dst_so_addrs : list sockaddr_in
}.

Definition udp_num_dsts (out : outputs) : Z := Z.of_nat (length (dst_so_addrs out)).

(** What the system returns during one call: the clock, [socket], and the
    [sendto] for the [i]-th destination. *)
Record send_env : Type := mk_send_env {
  gettimeofday : timeval;
  socket_ret : Z;
  sendto_ret : nat -> Z
}.

(** The octets [pcap_dump] writes: from [&buf->db_loop_hdr] on, the
    loopback header [PF_UNSPEC] and the buffer. *)
Definition loop_hdr_bytes : list byte := repeat x00 4.

Fixpoint sendto_loop (env : send_env) (fd : Z) (payload : list byte) (i : nat)
    (dsts : list sockaddr_in) : list sys_effect :=
  match dsts with
  | [] => []
  | dst :: rest =>
      Sendto fd payload dst
      :: (if sendto_ret env i <? 0 then [Warnx "send failed"] else [])
      ++ sendto_loop env fd payload (S i) rest
  end.

(** One call with the buffer [payload] ([db_len] is its length); the state
    is the function-static [udp_socket]. *)
Definition dnsflow_pkt_send_sys (out : outputs) (env : send_env) (udp_socket : Z)
    (payload : list byte) : outcome Z * list sys_effect :=
  let db_len := Z.of_nat (length payload) in
  let dump :=
    if pdump out then
      let len := u32 (db_len + 4) in   (* 4 for loopback hdr. *)
      [PcapDump (gettimeofday env) len len (loop_hdr_bytes ++ payload)]
    else [] in
  if udp_num_dsts out =? 0 then (Returns udp_socket, dump)
  else if udp_socket =? 0 then
    let s := socket_ret env in
    if s <? 1 then
      (Exits 1, dump ++ [Socket PF_INET SOCK_DGRAM 0; Err "socket failed"])
    else
      (Returns s,
       dump ++ [Socket PF_INET SOCK_DGRAM 0]
       ++ sendto_loop env s payload 0 (dst_so_addrs out))
  else
    (Returns udp_socket, dump ++ sendto_loop env udp_socket payload 0 (dst_so_addrs out)).

(** The calls of a run, one per emitted buffer, each with what the system
    returns during it. *)
Fixpoint emit_all (out : outputs) (udp_socket : Z) (calls : list (send_env * list byte))
  : outcome Z * list sys_effect :=
  match calls with
  | [] => (Returns udp_socket, [])
  | (env, payload) :: rest =>
      match dnsflow_pkt_send_sys out env udp_socket payload with
      | (Returns s, tr) =>
          let '(o, tr') := emit_all out s rest in (o, tr ++ tr')
      | (o, tr) => (o, tr)
      end
  end.

(** What a trace of the emitter shows. *)
Definition sendtos (tr : list sys_effect) : list (Z * list byte * sockaddr_in) :=
  flat_map (fun e => match e with Sendto fd p dst => [(fd, p, dst)] | _ => [] end) tr.

Definition dumps (tr : list sys_effect) : list (Z * Z * list byte) :=
  flat_map (fun e => match e with PcapDump _ caplen len data => [(caplen, len, data)]
                              | _ => [] end) tr.

Definition sockets (tr : list sys_effect) : nat :=
  length (filter (fun e => match e with Socket _ _ _ => true | _ => false end) tr).

Definition warnings (tr : list sys_effect) : nat :=
  length (filter (fun e => match e with Warnx _ => true | _ => false end) tr).

(** The destinations whose [sendto] failed, by position. *)
Definition failed_sends (env : send_env) (n : nat) : nat :=
  length (filter (fun i => sendto_ret env i <? 0) (seq 0 n)).

(** The record [pcap_dump] is given for a buffer. *)
Definition dump_record (payload : list byte) : Z * Z * list byte :=
  let len := u32 (Z.of_nat (length payload) + 4) in
  (len, len, loop_hdr_bytes ++ payload).

(** Example destinations and system answers: two collectors, and a system
    whose [socket] returns 3 and whose second [sendto] fails. *)
Definition collector_a : sockaddr_in := mk_sockaddr_in 2 5300 (mk_in_addr xc0 x00 x02 x01).
Definition collector_b : sockaddr_in := mk_sockaddr_in 2 5300 (mk_in_addr xc0 x00 x02 x02).
Definition two_collectors : outputs := mk_outputs true [collector_a; collector_b].
Definition second_send_fails : send_env :=
  mk_send_env (mk_timeval 0 0) 3 (fun i => if Nat.eqb i 1 then -1 else 28).

(** ** Worker processes *)

Definition MAX_MPROC_CHILDREN : Z := 64.
(** Signal numbers (those of Linux; only that they differ matters). *)
Definition SIGINT : Z := 2.
Definition SIGTERM : Z := 15.
Definition SIGCHLD : Z := 17.

(** The globals [mproc_children] (indexed from 0; the source declares 64
    entries) and [n_mproc_children]. *)
Record procs : Type := mk_procs {
  mproc_children : Z -> Z;
  n_mproc_children : Z
}.

(** The state [main] starts with. *)
Definition initial_procs : procs := mk_procs (fun _ => 0) 0.

(** [mproc_children[n_mproc_children++] = pid] *)
Definition record_child (st : procs) (pid : Z) : procs :=
  mk_procs (fun i => if i =? n_mproc_children st then pid else mproc_children st i)
           (n_mproc_children st + 1).

(** The loop of [mproc_fork] from [proc_i] on.  [fork_ret j] is what the
    [j]-th call of [fork] returns in this process.  [fuel] bounds the
    rounds; [mproc_fork] gives as many as the loop can take. *)
Fixpoint mproc_fork_from (fork_ret : nat -> Z) (num_procs : Z) (fuel : nat) (proc_i : Z)
    (j : nat) (st : procs) : outcome Z * procs * list sys_effect :=
  match fuel with
  | O => (Returns 1, st, [])
  | S fuel' =>
      if proc_i <=? num_procs then
        let pid := fork_ret j in
        if pid <? 0 then (Exits 1, st, [Err "fork error"])
        else if pid =? 0 then
          (* child *)
          (Returns proc_i, mk_procs (mproc_children st) 0, [])
        else
          (* parent *)
          mproc_fork_from fork_ret num_procs fuel' (proc_i + 1) (S j) (record_child st pid)
      else
        (* parent gets slot 1. *)
        (Returns 1, st, [])
  end.

(** Returns the proc number for this process. The parent is always 1. *)
Definition mproc_fork (fork_ret : nat -> Z) (num_procs : Z) (st : procs)
  : outcome Z * procs * list sys_effect :=
  if num_procs >? MAX_MPROC_CHILDREN then (Aborts, st, [])
  else
    (* proc_i is 1-based. 1 is parent; start at 2. *)
    mproc_fork_from fork_ret num_procs (Z.to_nat num_procs) 2 0 st.

(** What [fork] returns in the child of the [k]-th call: the calls before
    were made by the parent, whose memory the child inherits. *)
Definition in_child (fork_ret : nat -> Z) (k : nat) : nat -> Z :=
  fun j => if (j <? k)%nat then fork_ret j else 0.

(** The lines [_log] writes, as effects of the process. *)
Definition stderr_of (tr : list effect) : list sys_effect :=
  flat_map (fun e => match e with Log f a => [Stderr f a] | _ => [] end) tr.

(** [clean_exit]; [ds] is what [dcap_get_stats] returns. *)
Definition clean_exit (out : outputs) (st : procs) (ds : dcap_stat) (w : worker)
  : outcome unit * list sys_effect :=
  (Exits 0,
   (if negb (n_mproc_children st =? 0) then
      (* Tell children to exit. *)
      map (fun i => Kill (mproc_children st (Z.of_nat i)) SIGTERM)
          (seq 0 (Z.to_nat (n_mproc_children st)))
    else [])
   ++ [Stderr "Shutting down." []]
   ++ stderr_of (trace_of (dnsflow_print_stats ds w))
   ++ (if pdump out then [PcapDumpClose; PcapClose] else [])).

(** [signal_cb]; [wait_ret] is what [wait] returns. *)
Definition signal_cb (out : outputs) (st : procs) (ds : dcap_stat) (w : worker)
    (wait_ret : Z) (signal : Z) : outcome unit * list sys_effect :=
  if (signal =? SIGINT) || (signal =? SIGTERM) then
    let '(o, tr) := clean_exit out st ds w in
    (o, Stderr "received exit signal: %d" [ArgU signal] :: tr)
  else if signal =? SIGCHLD then
    let '(o, tr) := clean_exit out st ds w in
    (o, Wait :: Stderr "child exited: %d" [ArgU wait_ret] :: tr)
  else (Exits 1, [Err "caught unexpected signal: %d"]).

Definition kills (tr : list sys_effect) : list (Z * Z) :=
  flat_map (fun e => match e with Kill pid sig => [(pid, sig)] | _ => [] end) tr.

(** ** Startup *)

Definition DNSFLOW_PORT : Z := 5300.
Definition DNSFLOW_UDP_MAX_DSTS : Z := 10.
Definition AF_INET : Z := 2.

(** A [uint32_t] passed where an [int] is expected. *)
Definition to_int (z : Z) : Z := if z <? 2147483648 then z else z - 4294967296.

(** One option as [getopt] delivers it, with what the conversion of its
    argument returns: [atoi], the two [%u] of [sscanf] when both were read,
    the address of [inet_pton] when it succeeded, the result of
    [write_pid_file]. *)
Inductive cmd_option : Type :=
| Opt_i (optarg : string)
| Opt_J (atoi : Z)
| Opt_f (optarg : string)
| Opt_m (sscanf : option (Z * Z))
| Opt_M (atoi : Z)
| Opt_p
| Opt_P (write_pid_file : bool)
| Opt_r (optarg : string)
| Opt_s (atoi : Z)
| Opt_u (inet_pton : option in_addr_t)
| Opt_X (atoi : Z)
| Opt_Y
| Opt_w (optarg : string)
| Opt_h.                        (* [-h], or an option [getopt] does not know *)

(** The locals of [main] and the globals the options set.  [dsts] are the
    first [udp_num_dsts] entries of [dst_so_addrs]; [ports] are
    [pcap_record_dst_port] and [jmirror_dst_port]. *)
Record settings : Type := mk_settings {
  promisc : bool;
  pcap_file_read : option string;
  pcap_file_write : option string;
  filter_expr : option string;
  intf_name : option string;
  encap_offset : Z;
  enable_mdns : bool;
  n_procs : Z;
  proc_i : Z;
  auto_n_procs : Z;
  sample_rate : Z;
  ports : config;
  dsts : list sockaddr_in
}.

Definition initial_settings : settings :=
  mk_settings true None None None None 0 false 1 1 0 0 (mk_config 0 0) [].

(** The body of the [switch] for one option. *)
Definition main_option (s : settings) (o : cmd_option) : outcome settings * list sys_effect :=
  match o with
  | Opt_i a =>
      (Returns (mk_settings (promisc s) (pcap_file_read s) (pcap_file_write s)
                  (filter_expr s) (Some a) (encap_offset s) (enable_mdns s) (n_procs s)
                  (proc_i s) (auto_n_procs s) (sample_rate s) (ports s) (dsts s)), [])
  | Opt_J a =>
      (Returns (mk_settings (promisc s) (pcap_file_read s) (pcap_file_write s)
                  (filter_expr s) (intf_name s)
                  (match filter_expr s with
                   | None => sizeof_jmirror_hdr   (* udp, jmirror, ip, udp, dns *)
                   | Some _ => encap_offset s
                   end)
                  (enable_mdns s) (n_procs s) (proc_i s) (auto_n_procs s) (sample_rate s)
                  (mk_config (pcap_record_dst_port (ports s)) (u16 a)) (dsts s)), [])
  | Opt_f a =>
      (Returns (mk_settings (promisc s) (pcap_file_read s) (pcap_file_write s)
                  (Some a) (intf_name s) (encap_offset s) (enable_mdns s) (n_procs s)
                  (proc_i s) (auto_n_procs s) (sample_rate s) (ports s) (dsts s)), [])
  | Opt_m None => (Exits 1, [Err "invalid multiproc option -- %s"])
  | Opt_m (Some (i, n)) =>
      if (u32 n =? 0) || (u32 i =? 0) || (u32 i >? u32 n) then
        (Exits 1, [Err "invalid multiproc option -- %s"])
      else
        (Returns (mk_settings (promisc s) (pcap_file_read s) (pcap_file_write s)
                    (filter_expr s) (intf_name s) (encap_offset s) (enable_mdns s) (u32 n)
                    (u32 i) (auto_n_procs s) (sample_rate s) (ports s) (dsts s)), [])
  | Opt_M a =>
      if u32 a =? 0 then (Exits 1, [Err "invalid multiproc option -- %s"])
      else
        (Returns (mk_settings (promisc s) (pcap_file_read s) (pcap_file_write s)
                    (filter_expr s) (intf_name s) (encap_offset s) (enable_mdns s)
                    (n_procs s) (proc_i s) (u32 a) (sample_rate s) (ports s) (dsts s)), [])
  | Opt_p =>
      (Returns (mk_settings false (pcap_file_read s) (pcap_file_write s)
                  (filter_expr s) (intf_name s) (encap_offset s) (enable_mdns s) (n_procs s)
                  (proc_i s) (auto_n_procs s) (sample_rate s) (ports s) (dsts s)), [])
  | Opt_P ok =>
      if negb ok then (Exits 1, [Err "dnsflow already running"]) else (Returns s, [])
  | Opt_r a =>
      (Returns (mk_settings (promisc s) (Some a) (pcap_file_write s)
                  (filter_expr s) (intf_name s) (encap_offset s) (enable_mdns s) (n_procs s)
                  (proc_i s) (auto_n_procs s) (sample_rate s) (ports s) (dsts s)), [])
  | Opt_s a =>
      (Returns (mk_settings (promisc s) (pcap_file_read s) (pcap_file_write s)
                  (filter_expr s) (intf_name s) (encap_offset s) (enable_mdns s) (n_procs s)
                  (proc_i s) (auto_n_procs s) (u16 a) (ports s) (dsts s)), [])
  | Opt_u a =>
      if Z.of_nat (length (dsts s)) =? DNSFLOW_UDP_MAX_DSTS then
        (Exits 1, [Err "too many udp dsts"])
      else
        match a with
        | None => (Exits 1, [Err "invalid ip: %s"])
        | Some addr =>
            (Returns (mk_settings (promisc s) (pcap_file_read s) (pcap_file_write s)
                        (filter_expr s) (intf_name s) (encap_offset s) (enable_mdns s)
                        (n_procs s) (proc_i s) (auto_n_procs s) (sample_rate s) (ports s)
                        (dsts s ++ [mk_sockaddr_in AF_INET DNSFLOW_PORT addr])), [])
        end
  | Opt_X a =>
      (Returns (mk_settings (promisc s) (pcap_file_read s) (pcap_file_write s)
                  (filter_expr s) (intf_name s)
                  (match filter_expr s with
                   | None =>
                       (* udp, pcap header, eth, ip, udp, dns *)
                       sizeof_pcap_sf_pkthdr + sizeof_ether_header
                   | Some _ => encap_offset s
                   end)
                  (enable_mdns s) (n_procs s) (proc_i s) (auto_n_procs s) (sample_rate s)
                  (mk_config (u16 a) (jmirror_dst_port (ports s))) (dsts s)), [])
  | Opt_Y =>
      (Returns (mk_settings (promisc s) (pcap_file_read s) (pcap_file_write s)
                  (filter_expr s) (intf_name s) (encap_offset s) true (n_procs s)
                  (proc_i s) (auto_n_procs s) (sample_rate s) (ports s) (dsts s)), [])
  | Opt_w a =>
      (Returns (mk_settings (promisc s) (pcap_file_read s) (Some a)
                  (filter_expr s) (intf_name s) (encap_offset s) (enable_mdns s) (n_procs s)
                  (proc_i s) (auto_n_procs s) (sample_rate s) (ports s) (dsts s)), [])
  | Opt_h => (Exits 1, [Usage])
  end.

(** The [getopt] loop. *)
Fixpoint main_options (s : settings) (opts : list cmd_option)
  : outcome settings * list sys_effect :=
  match opts with
  | [] => (Returns s, [])
  | o :: rest =>
      match main_option s o with
      | (Returns s', tr) => let '(r, tr') := main_options s' rest in (r, tr ++ tr')
      | (r, tr) => (r, tr)
      end
  end.

(** What [main] has decided when it initialises the capture: the settings,
    the children it forked, whether it is a child, and the capture filter,
    the user's text or the one [build_pcap_filter] makes. *)
Record startup : Type := mk_startup {
  st_settings : settings;
  st_procs : procs;
  is_child : bool;
  capture_filter : string + bpf_filter
}.

(** [main] from the [getopt] loop to the choice of the filter. *)
Definition main_setup (fork_ret : nat -> Z) (opts : list cmd_option)
  : outcome startup * list sys_effect :=
  match main_options initial_settings opts with
  | (Returns s, tr) =>
      if (Z.of_nat (length (dsts s)) =? 0)
         && (match pcap_file_write s with None => true | Some _ => false end) then
        (Exits 1, tr ++ [Err "output dst missing"])
      else
        let choose (s : settings) (st : procs) (child : bool) :=
          mk_startup s st child
            (match filter_expr s with
             | None =>
                 inr (build_pcap_filter (encap_offset s) (to_int (proc_i s))
                                        (to_int (n_procs s)) (enable_mdns s))
             | Some text => inl text
             end) in
        (* Fork if requested, and not done manually. *)
        if (n_procs s =? 1) && (auto_n_procs s >? 0) then
          match pcap_file_write s with
          | Some _ => (Exits 1, tr ++ [Err "can't use -w and -M together"])
          | None =>
              match mproc_fork fork_ret (to_int (auto_n_procs s)) initial_procs with
              | (Returns p, st, tr') =>
                  (Returns
                     (choose
                        (mk_settings (promisc s) (pcap_file_read s) (pcap_file_write s)
                           (filter_expr s) (intf_name s) (encap_offset s) (enable_mdns s)
                           (auto_n_procs s) (u32 p) (auto_n_procs s) (sample_rate s)
                           (ports s) (dsts s))
                        st (negb (u32 p =? 1))),
                   tr ++ tr')
              | (Exits status, _, tr') => (Exits status, tr ++ tr')
              | (Aborts, _, tr') => (Aborts, tr ++ tr')
              end
          end
        else (Returns (choose s initial_procs false), tr)
  | (Exits status, tr) => (Exits status, tr)
  | (Aborts, tr) => (Aborts, tr)
  end.

(** The addresses of the [-u] options, in order. *)
Definition udp_options (opts : list cmd_option) : list in_addr_t :=
  flat_map (fun o => match o with Opt_u (Some a) => [a] | _ => [] end) opts.

(** A command line of the examples: [-u 192.0.2.1 -M 4]. *)
Definition four_auto_workers : list cmd_option :=
  [Opt_u (Some (mk_in_addr xc0 x00 x02 x01)); Opt_M 4].

(** ** The sets of a run *)

(** The sets a data buffer carries behind its header; the statistics
    buffer carries none. *)
Definition data_body (p : list byte) : list byte :=
  if flags_of p =? 0 then skipn (Z.to_nat sizeof_dnsflow_hdr) p else [].

(** The arguments with which [dnsflow_dcap_cb] reaches [dnsflow_pkt_build]
    for a frame, if it does: the decapsulation, the DNS check and the
    projection neither read nor change the worker's state. *)
Definition accepted_set
    (ldns_wire2pkt : list byte -> Z -> wire2pkt_result)
    (ldns_get_errorstr_by_id : ldns_status -> string)
    (cfg : config) (pkt_len : Z) (ip_pkt : list byte) : option (in_addr_t * dns_data_set) :=
  match dcap_cb_dns_call cfg pkt_len ip_pkt with
  | None => None
  | Some c =>
      match value_of (dnsflow_dns_check ldns_wire2pkt ldns_get_errorstr_by_id (dns_pkt_len c)
                        (skipn (Z.to_nat (dns_pkt c)) ip_pkt) initial_worker) with
      | None => None
      | Some lp =>
          match value_of (dnsflow_dns_extract lp initial_worker) with
          | None => None
          | Some dns_data => Some (client_ip_arg c, dns_data)
          end
      end
  end.

(** The sets of the frames of a run, in the order of capture. *)
Definition accepted_sets
    (ldns_wire2pkt : list byte -> Z -> wire2pkt_result)
    (ldns_get_errorstr_by_id : ldns_status -> string)
    (cfg : config) (evs : list event) : list (in_addr_t * dns_data_set) :=
  flat_map (fun ev => match ev with
                      | Packet _ pkt_len ip_pkt =>
                          match accepted_set ldns_wire2pkt ldns_get_errorstr_by_id cfg
                                             pkt_len ip_pkt with
                          | Some s => [s]
                          | None => []
                          end
                      | _ => []
                      end) evs.

Definition wire_of (s : in_addr_t * dns_data_set) : list byte :=
  wire_set (fst s) (names (snd s)) (ips (snd s)).

(** What a callback does to the sets, stated for the result [r] of running
    it from [w] when it adds the octets [new]: unless the overflow guard
    fires, what was emitted followed by what is in the buffer is what was
    in the buffer followed by [new]. *)
Definition carries {A : Type} (w : worker) (r : A * worker * list effect) (new : list byte)
  : Prop :=
  overflow_guard_hit (trace_of r) = false ->
  concat (map data_body (sends (trace_of r))) ++ sets_of (after r) = sets_of w ++ new.

(** ** Time of day *)

(** [ts_format]: the format and the values of its four conversions.  [sec]
    and [usec] are [int]; [%] and [/] truncate toward zero; the last
    conversion is [%u], which prints its argument as unsigned. *)
Definition ts_format (ts : timeval) : string * list Z :=
  let sec := Z.rem (tv_sec ts) 86400 in
  let usec := to_int (u32 (tv_usec ts)) in
  ("%02d:%02d:%02d.%06u"%string,
   [Z.quot sec 3600; Z.quot (Z.rem sec 3600) 60; Z.rem sec 60; u32 usec]).

(** The data buffers of a trace, the sets the buffer under construction
    holds, and a data buffer that carries a given run of sets. *)
Definition data_payloads (tr : list effect) : list (list byte) :=
  filter (fun p => flags_of p =? 0) (sends tr).

Definition holds (w : worker) (pending : list (in_addr_t * dns_data_set)) : Prop :=
  sets_of w = concat (map wire_of pending)
  /\ (if db_len w =? 0 then pending = []
      else sets_count w = Z.of_nat (length pending)).

Definition is_chunk (p : list byte) (c : list (in_addr_t * dns_data_set)) : Prop :=
  (1 <= length c <= 255)%nat
  /\ exists seq, p = data_hdr (Z.of_nat (length c)) seq ++ concat (map wire_of c).

(** What a callback does to the sets, with their boundaries: unless the
    overflow guard fires, the sets held before and the sets [new] the
    callback adds are, in order, the sets of the data buffers it emits and
    the sets held afterwards. *)
Definition chunked {A : Type} (w : worker) (pending : list (in_addr_t * dns_data_set))
    (r : A * worker * list effect) (new : list (in_addr_t * dns_data_set)) : Prop :=
  overflow_guard_hit (trace_of r) = false ->
  exists chunks pending',
    pending ++ new = concat chunks ++ pending'
    /\ Forall2 is_chunk (data_payloads (trace_of r)) chunks
    /\ holds (after r) pending'.


(** * Properties *)

(** Unfolding of the constants, of the monad, and of the observers of a
    result. *)
Ltac consts :=
  unfold DNSFLOW_MAX_PARSE, DNSFLOW_PKT_MAX_SIZE, DNSFLOW_PKT_TARGET_SIZE, DNSFLOW_VERSION,
    DNSFLOW_FLAG_STATS, DNSFLOW_SETS_COUNT_MAX, DNSFLOW_NAMES_COUNT_MAX,
    DNSFLOW_IPS_COUNT_MAX, sizeof_dnsflow_hdr, sizeof_dnsflow_set_hdr,
    sizeof_dnsflow_stats_pkt, sizeof_in_addr_t in *.

Ltac mstep :=
  unfold bind, ret, get_db_len, set_db_len, poke, peek8, peek, bzero, _log, dnsflow_pkt_send,
    post_incr_sequence_number, get_last_send, set_last_send, incr_stats_counter;
  cbn [db_len pkt sequence_number last_send stats_counter fst snd app].

Ltac pre_split :=
  unfold after, trace_of, value_of, quiet;
  cbn [fst snd sends stores logs flat_map app names ips negb];
  change (overflow_guard_hit [Log "Too many names" []]) with false;
  change (overflow_guard_hit [Log "Invalid name" []]) with false;
  change (overflow_guard_hit [Log "Too many ips" []]) with false;
  change (overflow_guard_hit []) with false.

(** ** Octets *)

Lemma Z_of_byte_range (b : byte) : 0 <= Z_of_byte b < 256.
Proof.
  unfold Z_of_byte. pose proof (Byte.to_N_bounded b). lia.
Qed.

Lemma Z_of_byte_of_Z (z : Z) : Z_of_byte (byte_of_Z z) = u8 z.
Proof.
  unfold byte_of_Z, Z_of_byte.
  assert (Hr : 0 <= u8 z < 256) by (unfold u8; apply Z.mod_pos_bound; lia).
  destruct (Byte.of_N (Z.to_N (u8 z))) as [b|] eqn:E.
  - apply Byte.to_of_N in E. rewrite E. lia.
  - apply Byte.of_N_None_iff in E. lia.
Qed.

Lemma byte_of_Z_of_byte (b : byte) : byte_of_Z (Z_of_byte b) = b.
Proof.
  unfold byte_of_Z. pose proof (Z_of_byte_range b) as Hr.
  unfold u8. rewrite Z.mod_small by lia.
  unfold Z_of_byte. rewrite N2Z.id, Byte.of_to_N. reflexivity.
Qed.

Lemma u8_small (z : Z) : 0 <= z < 256 -> u8 z = z.
Proof. intros. unfold u8. apply Z.mod_small. lia. Qed.

Lemma u32_small (z : Z) : 0 <= z < 4294967296 -> u32 z = z.
Proof. intros. unfold u32. apply Z.mod_small. lia. Qed.

Lemma u32_range (z : Z) : 0 <= u32 z < 4294967296.
Proof. unfold u32. apply Z.mod_pos_bound. lia. Qed.

Lemma be_value_be16 (z : Z) : be_value (be16 z) 0 = u16 z.
Proof.
  unfold be16, be_value. rewrite !Z_of_byte_of_Z. unfold u8, u16.
  replace 65536 with (256 * 256) by reflexivity.
  rewrite Z.rem_mul_r by lia. lia.
Qed.

Lemma be_value_be32 (z : Z) : be_value (be32 z) 0 = u32 z.
Proof.
  unfold be32, be_value. rewrite !Z_of_byte_of_Z. unfold u8, u32.
  replace 4294967296 with (256 * (256 * (256 * 256))) by reflexivity.
  rewrite !Z.rem_mul_r by lia.
  replace 16777216 with (256 * (256 * 256)) by reflexivity.
  replace 65536 with (256 * 256) by reflexivity.
  rewrite <- !Z.div_div by lia. lia.
Qed.

(** ** The packet area *)

Lemma store_bytes_hit (m : memory) (off : Z) (bs : list byte) (i : Z) :
  off <= i < off + Z.of_nat (length bs) ->
  store_bytes m off bs i = nth (Z.to_nat (i - off)) bs x00.
Proof.
  intros H. unfold store_bytes.
  destruct (off <=? i) eqn:E1; [|lia].
  destruct (i <? off + Z.of_nat (length bs)) eqn:E2; [reflexivity|lia].
Qed.

Lemma store_bytes_miss (m : memory) (off : Z) (bs : list byte) (i : Z) :
  i < off \/ off + Z.of_nat (length bs) <= i ->
  store_bytes m off bs i = m i.
Proof.
  intros H. unfold store_bytes.
  destruct (off <=? i) eqn:E1; [|reflexivity].
  destruct (i <? off + Z.of_nat (length bs)) eqn:E2; [lia|reflexivity].
Qed.

Lemma load_bytes_length (m : memory) (off : Z) (n : nat) :
  length (load_bytes m off n) = n.
Proof. unfold load_bytes. rewrite length_map, length_seq. reflexivity. Qed.

Lemma load_bytes_ext (m m' : memory) (off : Z) (n : nat) :
  (forall i, off <= i < off + Z.of_nat n -> m i = m' i) ->
  load_bytes m off n = load_bytes m' off n.
Proof.
  intros H. unfold load_bytes. apply map_ext_in.
  intros k Hk. apply in_seq in Hk. apply H. lia.
Qed.

Lemma map_seq_from {A : Type} (f : nat -> A) (a n : nat) :
  map f (seq a n) = map (fun k => f (a + k)%nat) (seq 0 n).
Proof.
  revert a. induction n as [|n IH]; intros a; simpl.
  - reflexivity.
  - rewrite Nat.add_0_r. f_equal.
    rewrite IH, <- (seq_shift n 0), map_map.
    apply map_ext. intros k. f_equal. lia.
Qed.

Lemma load_bytes_app (m : memory) (off : Z) (n1 n2 : nat) :
  load_bytes m off (n1 + n2) =
  load_bytes m off n1 ++ load_bytes m (off + Z.of_nat n1) n2.
Proof.
  unfold load_bytes. rewrite seq_app, map_app. f_equal.
  simpl. rewrite map_seq_from. apply map_ext. intros k. f_equal. lia.
Qed.

Lemma nth_load_bytes (m : memory) (off : Z) (n k : nat) :
  (k < n)%nat -> nth k (load_bytes m off n) x00 = m (off + Z.of_nat k).
Proof.
  intros Hk. unfold load_bytes.
  set (f := fun j : nat => m (off + Z.of_nat j)).
  rewrite nth_indep with (d' := f 0%nat) by (rewrite length_map, length_seq; exact Hk).
  rewrite map_nth, seq_nth by exact Hk. reflexivity.
Qed.

Lemma load_bytes_eq (m : memory) (off : Z) (bs : list byte) :
  (forall k, (k < length bs)%nat -> m (off + Z.of_nat k) = nth k bs x00) ->
  load_bytes m off (length bs) = bs.
Proof.
  intros H. apply nth_ext with (d := x00) (d' := x00).
  - apply load_bytes_length.
  - intros k Hk. rewrite load_bytes_length in Hk.
    rewrite nth_load_bytes by exact Hk. apply H, Hk.
Qed.

Lemma load_bytes_store_same (m : memory) (off : Z) (bs : list byte) :
  load_bytes (store_bytes m off bs) off (length bs) = bs.
Proof.
  apply load_bytes_eq. intros k Hk.
  rewrite store_bytes_hit by lia. f_equal. lia.
Qed.

Lemma load_bytes_store_other (m : memory) (off : Z) (bs : list byte) (off' : Z) (n : nat) :
  off' + Z.of_nat n <= off \/ off + Z.of_nat (length bs) <= off' ->
  load_bytes (store_bytes m off bs) off' n = load_bytes m off' n.
Proof.
  intros H. apply load_bytes_ext. intros i Hi. apply store_bytes_miss. lia.
Qed.

(** ** The loops of the batcher *)

Lemma total_len_cons (nm : list byte) (rest : list (list byte)) :
  total_len (nm :: rest) = Z.of_nat (length nm) + total_len rest.
Proof. unfold total_len. simpl. rewrite length_app. lia. Qed.

Lemma total_len_nonneg (nms : list (list byte)) : 0 <= total_len nms.
Proof. unfold total_len. lia. Qed.

Lemma copy_names_fits (nms : list (list byte)) :
  forall s l m ls sc,
    0 <= l -> l + total_len nms <= DNSFLOW_PKT_MAX_SIZE - 1 ->
    copy_names nms (mk_worker s l m ls sc) =
    (true, mk_worker s (l + total_len nms) (names_mem m l nms) ls sc, names_trace l nms).
Proof.
  induction nms as [|nm rest IH]; intros s l m ls sc Hl Hfit.
  - cbn [copy_names names_mem names_trace]. unfold ret, total_len.
    cbn [concat length Z.of_nat]. rewrite Z.add_0_r. reflexivity.
  - rewrite total_len_cons in *. pose proof (total_len_nonneg rest) as Hr.
    unfold DNSFLOW_PKT_MAX_SIZE in *.
    cbn [copy_names names_mem names_trace]. mstep. consts.
    destruct (Z.of_nat (length nm) >? 65535 - 1 - l) eqn:E; [lia|].
    mstep. rewrite u32_small by lia.
    rewrite IH by lia. rewrite Z.add_assoc. reflexivity.
Qed.

Lemma names_mem_miss (nms : list (list byte)) :
  forall m l i, i < l \/ l + total_len nms <= i -> names_mem m l nms i = m i.
Proof.
  induction nms as [|nm rest IH]; intros m l i H; simpl.
  - reflexivity.
  - rewrite total_len_cons in H. pose proof (total_len_nonneg rest).
    rewrite IH by lia. apply store_bytes_miss. lia.
Qed.

Lemma names_mem_load (nms : list (list byte)) :
  forall m l, load_bytes (names_mem m l nms) l (length (concat nms)) = concat nms.
Proof.
  induction nms as [|nm rest IH]; intros m l; simpl.
  - reflexivity.
  - rewrite length_app, load_bytes_app. f_equal.
    + transitivity (load_bytes (store_bytes m l nm) l (length nm)).
      * apply load_bytes_ext. intros i Hi. apply names_mem_miss. lia.
      * apply load_bytes_store_same.
    + apply IH.
Qed.

Lemma copy_names_overflow (nms : list (list byte)) :
  forall s l m ls sc,
    0 <= l <= DNSFLOW_PKT_MAX_SIZE - 1 ->
    l + total_len nms > DNSFLOW_PKT_MAX_SIZE - 1 ->
    exists m' tr,
      copy_names nms (mk_worker s l m ls sc) = (false, mk_worker s 0 m' ls sc, tr)
      /\ logs tr = [("Pkt create error"%string, [])]
      /\ sends tr = []
      /\ Forall (fun r => l <= fst r /\ fst r + snd r <= DNSFLOW_PKT_MAX_SIZE - 1) (stores tr).
Proof.
  induction nms as [|nm rest IH]; intros s l m ls sc Hl Hover.
  - unfold total_len in Hover. cbn [concat length Z.of_nat] in Hover. lia.
  - rewrite total_len_cons in Hover. consts.
    cbn [copy_names]. mstep. consts.
    destruct (Z.of_nat (length nm) >? 65535 - 1 - l) eqn:E.
    + mstep. exists m, [Log "Pkt create error" []].
      repeat split. constructor.
    + mstep. rewrite u32_small by lia.
      destruct (IH s (l + Z.of_nat (length nm)) (store_bytes m l nm) ls sc)
        as (m' & tr & Heq & Hlog & Hsend & Hst); [lia | lia |].
      rewrite Heq. exists m', (Store l (Z.of_nat (length nm)) :: tr).
      repeat split; try assumption.
      cbn [stores flat_map app]. constructor.
      * cbn [fst snd]. lia.
      * eapply Forall_impl; [|exact Hst]. cbn beta. intros r Hr. lia.
Qed.

Lemma pad_count_zero (l : Z) : l mod 4 = 0 -> pad_count l = 0%nat.
Proof. intros H. unfold pad_count. rewrite H. reflexivity. Qed.

Lemma pad_count_succ (l : Z) :
  l mod 4 <> 0 -> pad_count l = S (pad_count (l + 1)).
Proof.
  intros H. unfold pad_count.
  rewrite <- Z2Nat.inj_succ by (apply Z.mod_pos_bound; lia).
  f_equal. Z.div_mod_to_equations. lia.
Qed.

Lemma pad_count_bound (l : Z) : (pad_count l <= 3)%nat.
Proof. unfold pad_count. Z.div_mod_to_equations. lia. Qed.

Lemma pad_count_aligned (l : Z) : (l + Z.of_nat (pad_count l)) mod 4 = 0.
Proof.
  unfold pad_count. rewrite Z2Nat.id by (apply Z.mod_pos_bound; lia).
  Z.div_mod_to_equations. lia.
Qed.

Lemma pad_to_word_spec (fuel : nat) :
  forall s l m ls sc,
    0 <= l -> l + Z.of_nat (pad_count l) < 4294967296 -> (pad_count l <= fuel)%nat ->
    pad_to_word fuel (mk_worker s l m ls sc) =
    (tt, mk_worker s (l + Z.of_nat (pad_count l)) (pad_mem (pad_count l) m l) ls sc,
     pad_trace (pad_count l) l).
Proof.
  induction fuel as [|fuel IH]; intros s l m ls sc Hl Hfit Hfuel.
  - assert (E : pad_count l = 0%nat) by lia. rewrite E.
    cbn [pad_to_word pad_mem pad_trace Z.of_nat]. unfold ret.
    rewrite Z.add_0_r. reflexivity.
  - cbn [pad_to_word]. mstep.
    destruct (l mod 4 =? 0) eqn:E.
    + apply Z.eqb_eq in E. rewrite (pad_count_zero _ E).
      cbn [pad_mem pad_trace Z.of_nat]. rewrite Z.add_0_r. reflexivity.
    + apply Z.eqb_neq in E. mstep.
      pose proof (pad_count_succ _ E) as Hs.
      rewrite u32_small by lia.
      rewrite IH by lia. rewrite Hs. cbn [pad_mem pad_trace].
      rewrite Nat2Z.inj_succ. f_equal. f_equal. f_equal. lia.
Qed.

(** Three rounds are enough for the padding loop: it ends with the length
    on a word boundary, less than four octets further. *)
Lemma pad_to_word_aligned (w : worker) :
  0 <= db_len w < 4294967296 - 4 ->
  let r := pad_to_word 3 w in
  db_len (after r) mod 4 = 0 /\ db_len w <= db_len (after r) < db_len w + 4.
Proof.
  intros Hl. destruct w as [s l m ls sc]. cbn [db_len] in *.
  pose proof (pad_count_bound l) as Hb. pose proof (pad_count_aligned l) as Ha.
  cbn zeta. rewrite pad_to_word_spec by lia.
  unfold after. cbn [fst snd db_len]. split; [exact Ha|lia].
Qed.

Lemma pad_mem_miss (n : nat) :
  forall m l i, i < l \/ l + Z.of_nat n <= i -> pad_mem n m l i = m i.
Proof.
  induction n as [|n IH]; intros m l i H; cbn [pad_mem].
  - reflexivity.
  - rewrite IH by lia. apply store_bytes_miss. cbn [length]. lia.
Qed.

Lemma pad_mem_load (n : nat) :
  forall m l, load_bytes (pad_mem n m l) l n = repeat x00 n.
Proof.
  induction n as [|n IH]; intros m l.
  - reflexivity.
  - cbn [pad_mem repeat].
    change (load_bytes (pad_mem n (store_bytes m l [x00]) (l + 1)) l (S n))
      with (load_bytes (pad_mem n (store_bytes m l [x00]) (l + 1)) l (1 + n)).
    rewrite load_bytes_app. change (Z.of_nat 1) with 1. rewrite IH.
    change (x00 :: repeat x00 n) with ([x00] ++ repeat x00 n). f_equal.
    unfold load_bytes. cbn [seq map Z.of_nat].
    rewrite pad_mem_miss by lia. rewrite Z.add_0_r.
    rewrite store_bytes_hit by (cbn [length]; lia).
    rewrite Z.sub_diag. reflexivity.
Qed.

Lemma ips_len (l : list in_addr_t) :
  Z.of_nat (length (concat (map in_addr_bytes l))) = 4 * Z.of_nat (length l).
Proof.
  induction l as [|ip rest IH]; cbn [map concat length].
  - reflexivity.
  - rewrite length_app. cbn [in_addr_bytes length]. lia.
Qed.

Lemma copy_ips_spec (ipl : list in_addr_t) :
  forall s l m ls sc,
    0 <= l -> l + 4 * Z.of_nat (length ipl) < 4294967296 ->
    copy_ips ipl (mk_worker s l m ls sc) =
    (tt, mk_worker s (l + 4 * Z.of_nat (length ipl)) (ips_mem m l ipl) ls sc,
     ips_trace l ipl).
Proof.
  induction ipl as [|ip rest IH]; intros s l m ls sc Hl Hfit.
  - cbn [copy_ips ips_mem ips_trace length Z.of_nat]. unfold ret.
    rewrite Z.mul_0_r, Z.add_0_r. reflexivity.
  - cbn [copy_ips ips_mem ips_trace]. cbn [length] in *. mstep. consts.
    rewrite u32_small by lia. rewrite IH by lia.
    cbn [in_addr_bytes length Z.of_nat Pos.of_succ_nat Pos.succ].
    f_equal. f_equal. f_equal. lia.
Qed.

Lemma ips_mem_miss (ipl : list in_addr_t) :
  forall m l i, i < l \/ l + 4 * Z.of_nat (length ipl) <= i -> ips_mem m l ipl i = m i.
Proof.
  induction ipl as [|ip rest IH]; intros m l i H; cbn [ips_mem].
  - reflexivity.
  - cbn [length] in H. rewrite IH by lia. apply store_bytes_miss.
    cbn [in_addr_bytes length]. lia.
Qed.

Lemma ips_mem_load (ipl : list in_addr_t) :
  forall m l,
    load_bytes (ips_mem m l ipl) l (length (concat (map in_addr_bytes ipl))) =
    concat (map in_addr_bytes ipl).
Proof.
  induction ipl as [|ip rest IH]; intros m l; cbn [map concat ips_mem].
  - reflexivity.
  - rewrite length_app, load_bytes_app. f_equal.
    + transitivity (load_bytes (store_bytes m l (in_addr_bytes ip)) l
                               (length (in_addr_bytes ip))).
      * apply load_bytes_ext. intros i Hi. apply ips_mem_miss.
        cbn [in_addr_bytes length] in *. lia.
      * apply load_bytes_store_same.
    + apply IH.
Qed.

(** ** One append *)

Lemma kept_names_length (d : dns_data_set) :
  Z.of_nat (length (kept_names d)) = Z.min (num_names d) DNSFLOW_NAMES_COUNT_MAX.
Proof.
  unfold kept_names, names_count_of, num_names. consts.
  rewrite u8_small by lia. rewrite length_firstn. lia.
Qed.

Lemma kept_ips_length (d : dns_data_set) :
  Z.of_nat (length (kept_ips d)) = Z.min (num_ips d) DNSFLOW_IPS_COUNT_MAX.
Proof.
  unfold kept_ips, ips_count_of, num_ips. consts.
  rewrite u8_small by lia. rewrite length_firstn. lia.
Qed.

Lemma dnsflow_pkt_build_fits (now : Z) (client_ip : in_addr_t) (d : dns_data_set) :
  forall s l m ls sc,
    0 <= l < DNSFLOW_PKT_TARGET_SIZE ->
    names_end l d <= DNSFLOW_PKT_MAX_SIZE - 1 ->
    dnsflow_pkt_build now client_ip d (mk_worker s l m ls sc) =
    let m7 := built_mem m l client_ip d in
    if (built_len l d >=? DNSFLOW_PKT_TARGET_SIZE) || (load8 m7 1 =? DNSFLOW_SETS_COUNT_MAX)
    then
      let m8 := store_bytes m7 4 (be32 s) in
      (tt, mk_worker (u32 (s + 1)) 0 m8 now sc,
       built_trace l d ++ [Store 4 4; Send (load_bytes m8 0 (Z.to_nat (built_len l d)))])
    else (tt, mk_worker s (built_len l d) m7 ls sc, built_trace l d).
Proof.
  intros s l m ls sc Hl Hfit.
  pose proof (kept_ips_length d) as Hips.
  pose proof (total_len_nonneg (kept_names d)) as Hnn.
  pose proof (pad_count_bound (names_end l d)) as Hpad.
  unfold dnsflow_pkt_build.
  fold (names_count_of d). fold (ips_count_of d).
  fold (kept_names d). fold (kept_ips d).
  unfold built_mem, filled_mem, built_trace, built_len, padded_end.
  unfold names_end, names_start, set_start in *. consts.
  destruct (Z.eqb_spec l 0) as [->|Hne].
  - change (0 =? 0) with true in *. cbn iota in *. change (8 + 8) with 16 in *.
    mstep. change (0 =? 0) with true. cbn iota. mstep. change (Z.to_nat 8) with 8%nat.
    rewrite (u32_small (0 + 8)) by lia. mstep. rewrite (u32_small (0 + 8 + 8)) by lia.
    change (0 + 8 + 8) with 16. change (0 + 8) with 8.
    rewrite copy_names_fits by (consts; lia). cbn [negb]. mstep.
    rewrite pad_to_word_spec by lia. mstep.
    rewrite copy_ips_spec by lia. mstep.
    unfold hdr_mem, set_hdr_mem. consts. change (0 =? 0) with true. cbn iota.
    unfold be16, in_addr_bytes. cbn [repeat length Z.of_nat Pos.of_succ_nat Pos.succ].
    match goal with |- context [if ?c then _ else _] => destruct c eqn:Ec end.
    + unfold dnsflow_pkt_send_data. mstep.
      match goal with |- context [if ?c =? 0 then _ else _] =>
        destruct (Z.eqb_spec c 0) as [Hz|Hz]; [exfalso; lia|] end.
      mstep. rewrite <- ?app_assoc. cbn [app]. rewrite <- ?app_assoc. cbn [app]. reflexivity.
    + mstep. rewrite <- ?app_assoc. cbn [app]. reflexivity.
  - assert (E0 : (l =? 0) = false) by lia.
    mstep. rewrite !E0. mstep. change (Z.to_nat 8) with 8%nat.
    rewrite (u32_small (l + 8)) by lia.
    rewrite copy_names_fits by (consts; lia). cbn [negb]. mstep.
    rewrite pad_to_word_spec by lia. mstep.
    rewrite copy_ips_spec by lia. mstep.
    unfold hdr_mem, set_hdr_mem. consts. rewrite !E0.
    unfold be16, in_addr_bytes. cbn [repeat length Z.of_nat Pos.of_succ_nat Pos.succ].
    match goal with |- context [if ?c then _ else _] => destruct c eqn:Ec end.
    + unfold dnsflow_pkt_send_data. mstep.
      match goal with |- context [if ?c =? 0 then _ else _] =>
        destruct (Z.eqb_spec c 0) as [Hz|Hz]; [exfalso; lia|] end.
      mstep. rewrite <- ?app_assoc. cbn [app]. rewrite <- ?app_assoc. cbn [app]. reflexivity.
    + mstep. rewrite <- ?app_assoc. cbn [app]. reflexivity.
Qed.

Lemma logs_app (t1 t2 : list effect) : logs (t1 ++ t2) = logs t1 ++ logs t2.
Proof. apply flat_map_app. Qed.

Lemma sends_app (t1 t2 : list effect) : sends (t1 ++ t2) = sends t1 ++ sends t2.
Proof. apply flat_map_app. Qed.

Lemma stores_app (t1 t2 : list effect) : stores (t1 ++ t2) = stores t1 ++ stores t2.
Proof. apply flat_map_app. Qed.

Lemma dnsflow_pkt_build_overflow (now : Z) (client_ip : in_addr_t) (d : dns_data_set) :
  forall s l m ls sc,
    0 <= l < DNSFLOW_PKT_TARGET_SIZE ->
    names_end l d > DNSFLOW_PKT_MAX_SIZE - 1 ->
    exists m' tr,
      dnsflow_pkt_build now client_ip d (mk_worker s l m ls sc) =
      (tt, mk_worker s 0 m' ls sc, tr)
      /\ logs tr = [("Pkt create error"%string, [])]
      /\ sends tr = []
      /\ Forall (fun r => 0 <= fst r /\ fst r + snd r <= DNSFLOW_PKT_MAX_SIZE - 1) (stores tr).
Proof.
  intros s l m ls sc Hl Hover.
  unfold dnsflow_pkt_build.
  fold (names_count_of d). fold (ips_count_of d).
  fold (kept_names d). fold (kept_ips d).
  unfold names_end, names_start, set_start in *. consts.
  destruct (Z.eqb_spec l 0) as [->|Hne].
  - change (8 + 8) with 16 in *.
    mstep. change (0 =? 0) with true. cbn iota. mstep. change (Z.to_nat 8) with 8%nat.
    rewrite (u32_small (0 + 8)) by lia. mstep. rewrite (u32_small (0 + 8 + 8)) by lia.
    change (0 + 8 + 8) with 16. change (0 + 8) with 8.
    match goal with |- context [copy_names ?n (mk_worker ?a ?b ?c ?e ?f)] =>
      destruct (copy_names_overflow n a b c e f) as (m' & tr & Heq & Hlog & Hsend & Hst);
        [consts; lia | consts; lia |] end.
    rewrite Heq. cbn [negb]. mstep.
    eexists. eexists. split; [reflexivity|].
    unfold in_addr_bytes. cbn [repeat length Z.of_nat Pos.of_succ_nat Pos.succ].
    rewrite app_nil_r. cbn [logs sends stores flat_map app].
    fold (logs tr). fold (sends tr). fold (stores tr).
    split; [exact Hlog|]. split; [exact Hsend|].
    repeat (constructor; [cbn [fst snd]; lia|]).
    eapply Forall_impl; [|exact Hst]. cbn beta. consts. intros r Hr. lia.
  - assert (E0 : (l =? 0) = false) by lia.
    mstep. rewrite !E0. mstep. change (Z.to_nat 8) with 8%nat.
    rewrite (u32_small (l + 8)) by lia.
    match goal with |- context [copy_names ?n (mk_worker ?a ?b ?c ?e ?f)] =>
      destruct (copy_names_overflow n a b c e f) as (m' & tr & Heq & Hlog & Hsend & Hst);
        [consts; lia | consts; lia |] end.
    rewrite Heq. cbn [negb]. mstep.
    eexists. eexists. split; [reflexivity|].
    unfold in_addr_bytes. cbn [repeat length Z.of_nat Pos.of_succ_nat Pos.succ].
    rewrite app_nil_r. cbn [logs sends stores flat_map app].
    fold (logs tr). fold (sends tr). fold (stores tr).
    split; [exact Hlog|]. split; [exact Hsend|].
    repeat (constructor; [cbn [fst snd]; lia|]).
    eapply Forall_impl; [|exact Hst]. cbn beta. consts. intros r Hr. lia.
Qed.

(** ** The set an append leaves in the packet area *)

Ltac peel :=
  repeat first
    [ rewrite store_bytes_miss by (cbn [length be16 be32 in_addr_bytes repeat]; lia)
    | rewrite ips_mem_miss by lia
    | rewrite pad_mem_miss by lia
    | rewrite names_mem_miss by lia ].

Section Layout.

Variable m : memory.
Variable l : Z.
Variable client_ip : in_addr_t.
Variable d : dns_data_set.
Hypothesis Hl : l = 0 \/ sizeof_dnsflow_hdr <= l.

Let st := set_start l.

Lemma set_start_ge : sizeof_dnsflow_hdr <= st.
Proof.
  unfold st, set_start. consts. destruct (Z.eqb_spec l 0); lia.
Qed.

Lemma layout_order :
  st + 8 = names_start l
  /\ names_start l <= names_end l d
  /\ names_end l d <= padded_end l d <= names_end l d + 3
  /\ padded_end l d <= built_len l d.
Proof.
  unfold built_len, padded_end, names_end, names_start, st. consts.
  pose proof (total_len_nonneg (kept_names d)).
  pose proof (pad_count_bound (set_start l + 8 + total_len (kept_names d))).
  lia.
Qed.

(** Every octet of the set, and the header's [sets_count], is the same in
    any memory that agrees with [built_mem] from offset 8 on (as the
    memory does after the sequence number is stored at flush). *)
Variable m' : memory.
Hypothesis Hm' : forall i, sizeof_dnsflow_hdr <= i -> m' i = built_mem m l client_ip d i.

Lemma built_client_ip : load_bytes m' st 4 = in_addr_bytes client_ip.
Proof.
  pose proof set_start_ge as Hst. pose proof layout_order as Ho. consts.
  change 4%nat with (length (in_addr_bytes client_ip)).
  apply load_bytes_eq. intros k Hk. cbn [in_addr_bytes length] in Hk.
  rewrite Hm' by (consts; lia).
  unfold built_mem, filled_mem, set_hdr_mem. fold st. peel.
  rewrite store_bytes_hit by (cbn [in_addr_bytes length]; lia).
  f_equal. lia.
Qed.

Lemma built_names_count : load8 m' (st + 4) = names_count_of d.
Proof.
  pose proof set_start_ge as Hst. pose proof layout_order as Ho. consts.
  unfold load8. rewrite Hm' by (consts; lia).
  unfold built_mem, filled_mem, set_hdr_mem. fold st. peel.
  rewrite store_bytes_hit by (cbn [length]; lia).
  rewrite Z.sub_diag. cbn [Z.to_nat nth]. rewrite Z_of_byte_of_Z.
  unfold names_count_of. unfold u8. apply Z.mod_mod. lia.
Qed.

Lemma built_ips_count : load8 m' (st + 5) = ips_count_of d.
Proof.
  pose proof set_start_ge as Hst. pose proof layout_order as Ho. consts.
  unfold load8. rewrite Hm' by (consts; lia).
  unfold built_mem, filled_mem, set_hdr_mem. fold st. peel.
  rewrite store_bytes_hit by (cbn [length]; lia).
  rewrite Z.sub_diag. cbn [Z.to_nat nth]. rewrite Z_of_byte_of_Z.
  unfold ips_count_of. unfold u8. apply Z.mod_mod. lia.
Qed.

Lemma built_names_len :
  load_bytes m' (st + 6) 2 = be16 (padded_end l d - names_start l).
Proof.
  pose proof set_start_ge as Hst. pose proof layout_order as Ho. consts.
  change 2%nat with (length (be16 (padded_end l d - names_start l))).
  apply load_bytes_eq. intros k Hk. cbn [be16 length] in Hk.
  rewrite Hm' by (consts; lia).
  unfold built_mem, filled_mem. fold st. peel.
  rewrite store_bytes_hit by (cbn [be16 length]; lia).
  f_equal. lia.
Qed.

Lemma built_names :
  load_bytes m' (names_start l) (length (concat (kept_names d))) = concat (kept_names d).
Proof.
  pose proof set_start_ge as Hst. pose proof layout_order as Ho. consts.
  rewrite <- (names_mem_load (kept_names d) (set_hdr_mem (hdr_mem m l) st client_ip d)
                             (names_start l)) at 2.
  apply load_bytes_ext. intros i Hi.
  assert (Hi' : names_start l <= i < names_end l d) by (unfold names_end, total_len; lia).
  rewrite Hm' by (consts; lia).
  unfold built_mem, filled_mem. fold st. cbn zeta. peel. reflexivity.
Qed.

Lemma built_padding :
  load_bytes m' (names_end l d) (pad_count (names_end l d)) =
  repeat x00 (pad_count (names_end l d)).
Proof.
  pose proof set_start_ge as Hst. pose proof layout_order as Ho. consts.
  rewrite <- (pad_mem_load (pad_count (names_end l d))
                (names_mem (set_hdr_mem (hdr_mem m l) st client_ip d)
                           (names_start l) (kept_names d))
                (names_end l d)).
  apply load_bytes_ext. intros i Hi.
  assert (Hi' : names_end l d <= i < padded_end l d) by (unfold padded_end; lia).
  rewrite Hm' by (consts; lia).
  unfold built_mem, filled_mem. fold st. cbn zeta. peel. reflexivity.
Qed.

Lemma built_ips :
  load_bytes m' (padded_end l d) (length (concat (map in_addr_bytes (kept_ips d)))) =
  concat (map in_addr_bytes (kept_ips d)).
Proof.
  pose proof set_start_ge as Hst. pose proof layout_order as Ho. consts.
  pose proof (ips_len (kept_ips d)) as Hlen.
  etransitivity; [|apply (ips_mem_load (kept_ips d)
     (store_bytes
        (pad_mem (pad_count (names_end l d))
           (names_mem (set_hdr_mem (hdr_mem m l) st client_ip d)
                      (names_start l) (kept_names d))
           (names_end l d))
        (st + 6) (be16 (padded_end l d - names_start l)))
     (padded_end l d))].
  apply load_bytes_ext. intros i Hi.
  rewrite Hm' by (consts; lia).
  unfold built_mem, filled_mem. fold st. cbn zeta. peel. reflexivity.
Qed.

End Layout.

Lemma built_sets_count (m : memory) (l : Z) (client_ip : in_addr_t) (d : dns_data_set) :
  l = 0 \/ sizeof_dnsflow_hdr <= l ->
  load8 (built_mem m l client_ip d) 1 = u8 ((if l =? 0 then 0 else load8 m 1) + 1).
Proof.
  intros Hl. pose proof (set_start_ge l Hl) as Hst. pose proof (layout_order l d) as Ho.
  consts. unfold load8 at 1. unfold built_mem.
  rewrite store_bytes_hit by (cbn [length]; lia).
  rewrite Z.sub_diag. cbn [Z.to_nat nth]. rewrite Z_of_byte_of_Z. f_equal. f_equal.
  unfold load8, filled_mem, set_hdr_mem. peel.
  unfold hdr_mem. consts. destruct (Z.eqb_spec l 0) as [E|E].
  - rewrite store_bytes_hit by (cbn [length]; lia).
    rewrite Z.sub_diag. cbn [Z.to_nat nth]. rewrite Z_of_byte_of_Z. reflexivity.
  - reflexivity.
Qed.

Lemma firstn_min_length {A : Type} (l : list A) (n : nat) :
  firstn (Nat.min (length l) n) l = firstn n l.
Proof.
  destruct (Nat.le_gt_cases (length l) n) as [H|H].
  - rewrite Nat.min_l by exact H. rewrite firstn_all, firstn_all2 by exact H. reflexivity.
  - rewrite Nat.min_r by lia. reflexivity.
Qed.

Lemma names_count_of_min (d : dns_data_set) :
  names_count_of d = Z.min (num_names d) DNSFLOW_NAMES_COUNT_MAX.
Proof. unfold names_count_of, num_names. consts. apply u8_small. lia. Qed.

Lemma ips_count_of_min (d : dns_data_set) :
  ips_count_of d = Z.min (num_ips d) DNSFLOW_IPS_COUNT_MAX.
Proof. unfold ips_count_of, num_ips. consts. apply u8_small. lia. Qed.

Lemma kept_names_firstn (d : dns_data_set) : kept_names d = firstn 255 (names d).
Proof.
  unfold kept_names. rewrite names_count_of_min. unfold num_names. consts.
  rewrite <- (firstn_min_length (names d) 255). f_equal. lia.
Qed.

Lemma kept_ips_firstn (d : dns_data_set) : kept_ips d = firstn 255 (ips d).
Proof.
  unfold kept_ips. rewrite ips_count_of_min. unfold num_ips. consts.
  rewrite <- (firstn_min_length (ips d) 255). f_equal. lia.
Qed.

Lemma overflow_guard_hit_app (t1 t2 : list effect) :
  overflow_guard_hit (t1 ++ t2) = overflow_guard_hit t1 || overflow_guard_hit t2.
Proof. apply existsb_app. Qed.

Lemma overflow_guard_hit_logs (tr : list effect) :
  overflow_guard_hit tr = false -> ~ In ("Pkt create error"%string, []) (logs tr).
Proof.
  induction tr as [|e tr IH]; intros H Hin.
  - exact Hin.
  - cbn [overflow_guard_hit existsb] in H. apply orb_false_elim in H as [He Htr].
    destruct e as [f a| |]; cbn [logs flat_map app] in Hin.
    + destruct Hin as [Heq|Hin]; [|exact (IH Htr Hin)].
      injection Heq as -> _. rewrite String.eqb_refl in He. discriminate.
    + exact (IH Htr Hin).
    + exact (IH Htr Hin).
Qed.

Lemma names_trace_stores (nms : list (list byte)) (l : Z) :
  logs (names_trace l nms) = [] /\ sends (names_trace l nms) = []
  /\ overflow_guard_hit (names_trace l nms) = false.
Proof.
  revert l. induction nms as [|nm rest IH]; intros l; cbn; [auto|apply IH].
Qed.

Lemma pad_trace_stores (n : nat) (l : Z) :
  logs (pad_trace n l) = [] /\ sends (pad_trace n l) = []
  /\ overflow_guard_hit (pad_trace n l) = false.
Proof.
  revert l. induction n as [|n IH]; intros l; cbn; [auto|apply IH].
Qed.

Lemma ips_trace_stores (ipl : list in_addr_t) (l : Z) :
  logs (ips_trace l ipl) = [] /\ sends (ips_trace l ipl) = []
  /\ overflow_guard_hit (ips_trace l ipl) = false.
Proof.
  revert l. induction ipl as [|ip rest IH]; intros l; cbn; [auto|apply IH].
Qed.

Lemma built_trace_stores (l : Z) (d : dns_data_set) :
  logs (built_trace l d) = [] /\ sends (built_trace l d) = []
  /\ overflow_guard_hit (built_trace l d) = false.
Proof.
  unfold built_trace.
  destruct (names_trace_stores (kept_names d) (names_start l)) as (L1 & S1 & G1).
  destruct (pad_trace_stores (pad_count (names_end l d)) (names_end l d)) as (L2 & S2 & G2).
  destruct (ips_trace_stores (kept_ips d) (padded_end l d)) as (L3 & S3 & G3).
  rewrite !logs_app, !sends_app, !overflow_guard_hit_app.
  rewrite L1, L2, L3, S1, S2, S3, G1, G2, G3.
  destruct (l =? 0); cbn; auto.
Qed.

(** An append either hits the overflow guard or is described by
    [dnsflow_pkt_build_fits]. *)
Lemma overflow_guard_hit_iff (now : Z) (client_ip : in_addr_t) (d : dns_data_set) (w : worker) :
  0 <= db_len w < DNSFLOW_PKT_TARGET_SIZE ->
  overflow_guard_hit (trace_of (dnsflow_pkt_build now client_ip d w)) = false <->
  names_end (db_len w) d <= DNSFLOW_PKT_MAX_SIZE - 1.
Proof.
  intros Hl. destruct w as [s l m ls sc]. cbn [db_len] in *.
  destruct (Z_le_gt_dec (names_end l d) (DNSFLOW_PKT_MAX_SIZE - 1)) as [Hfit|Hover].
  - split; [intros _; exact Hfit|intros _].
    rewrite dnsflow_pkt_build_fits by assumption. cbn zeta.
    destruct (built_trace_stores l d) as (_ & _ & G).
    match goal with |- context [if ?c then _ else _] => destruct c end;
      unfold trace_of; cbn [snd]; [rewrite overflow_guard_hit_app, G; reflexivity|exact G].
  - split; [intros H; exfalso|intros H; lia].
    destruct (dnsflow_pkt_build_overflow now client_ip d s l m ls sc Hl Hover)
      as (m' & tr & Heq & Hlog & _).
    rewrite Heq in H. unfold trace_of in H. cbn [snd] in H.
    apply overflow_guard_hit_logs in H. apply H. rewrite Hlog. left. reflexivity.
Qed.

Lemma buf_inv_len (w : worker) :
  buf_inv w ->
  0 <= db_len w < DNSFLOW_PKT_TARGET_SIZE
  /\ (db_len w = 0 \/ sizeof_dnsflow_hdr <= db_len w)
  /\ set_start (db_len w) mod 4 = 0.
Proof.
  unfold buf_inv, set_start. consts. intros (_ & [H|H]).
  - rewrite H. cbn. lia.
  - destruct (Z.eqb_spec (db_len w) 0); [lia|]. lia.
Qed.

Lemma next_sets_count_range (w : worker) :
  buf_inv w -> 1 <= next_sets_count w <= DNSFLOW_SETS_COUNT_MAX.
Proof.
  unfold buf_inv, next_sets_count. consts. intros (_ & [H|H]).
  - rewrite H. cbn. lia.
  - destruct (Z.eqb_spec (db_len w) 0); [lia|]. rewrite u8_small by lia. lia.
Qed.

(** What an append that is not cut short leaves behind: either the set is
    added to the buffer, or the buffer with the set added is sent. *)
Lemma dnsflow_pkt_build_summary (now : Z) (client_ip : in_addr_t) (d : dns_data_set)
    (w : worker) :
  buf_inv w ->
  names_end (db_len w) d <= DNSFLOW_PKT_MAX_SIZE - 1 ->
  let r := dnsflow_pkt_build now client_ip d w in
  let L := built_len (db_len w) d in
  (forall i, sizeof_dnsflow_hdr <= i ->
             pkt (after r) i = built_mem (pkt w) (db_len w) client_ip d i)
  /\ stats_counter (after r) = stats_counter w
  /\ logs (trace_of r) = []
  /\ ((L < DNSFLOW_PKT_TARGET_SIZE /\ next_sets_count w <> DNSFLOW_SETS_COUNT_MAX
       /\ db_len (after r) = L
       /\ sets_count (after r) = next_sets_count w
       /\ sends (trace_of r) = []
       /\ sequence_number (after r) = sequence_number w)
      \/ ((DNSFLOW_PKT_TARGET_SIZE <= L \/ next_sets_count w = DNSFLOW_SETS_COUNT_MAX)
          /\ db_len (after r) = 0
          /\ sets_count (after r) = next_sets_count w
          /\ sends (trace_of r) = [load_bytes (pkt (after r)) 0 (Z.to_nat L)]
          /\ load_bytes (pkt (after r)) 4 4 = be32 (sequence_number w)
          /\ sequence_number (after r) = u32 (sequence_number w + 1))).
Proof.
  intros Hinv Hfit. destruct (buf_inv_len w Hinv) as (Hl & Hl8 & _).
  destruct w as [s l m ls sc]. cbn [db_len pkt sequence_number stats_counter] in *.
  cbn zeta. rewrite dnsflow_pkt_build_fits by assumption. cbn zeta.
  pose proof (built_sets_count m l client_ip d Hl8) as Hsc.
  destruct (built_trace_stores l d) as (Hlogs & Hsends & _).
  unfold next_sets_count, sets_count. cbn [db_len pkt].
  destruct (built_len l d >=? DNSFLOW_PKT_TARGET_SIZE) eqn:E1; cbn [orb].
  2: destruct (load8 (built_mem m l client_ip d) 1 =? DNSFLOW_SETS_COUNT_MAX) eqn:E2.
  3: { unfold after, trace_of. cbn [fst snd pkt stats_counter db_len sequence_number].
       split; [reflexivity|]. split; [reflexivity|]. split; [exact Hlogs|].
       left. rewrite <- Hsc. repeat split; try assumption; lia. }
  all: unfold after, trace_of; cbn [fst snd pkt stats_counter db_len sequence_number].
  all: split; [intros i Hi; apply store_bytes_miss; consts; cbn [be32 length]; lia|].
  all: split; [reflexivity|].
  all: split; [rewrite logs_app, Hlogs; reflexivity|].
  all: right; rewrite <- Hsc.
  all: split; [lia|]. all: split; [reflexivity|].
  all: split; [unfold load8; rewrite store_bytes_miss by (cbn [be32 length]; lia);
               reflexivity|].
  all: split; [rewrite sends_app, Hsends; reflexivity|].
  all: split; [|reflexivity].
  all: change 4%nat with (length (be32 s)); apply load_bytes_store_same.
Qed.

Lemma buf_inv_initial : buf_inv initial_worker.
Proof. unfold buf_inv, initial_worker. cbn [sequence_number db_len]. split; [lia|left; reflexivity]. Qed.

(** ** How far the stores of an append reach *)

Lemma write_extent_nonneg (tr : list effect) : 0 <= write_extent tr.
Proof.
  unfold write_extent. induction (stores tr) as [|s l IH]; cbn [fold_right]; lia.
Qed.

Lemma write_extent_app (t1 t2 : list effect) :
  write_extent (t1 ++ t2) = Z.max (write_extent t1) (write_extent t2).
Proof.
  unfold write_extent. rewrite stores_app, fold_right_app.
  pose proof (write_extent_nonneg t2) as H2. unfold write_extent in H2.
  induction (stores t1) as [|s l IH]; cbn [fold_right]; lia.
Qed.

Lemma write_extent_cons_store (off len : Z) (tr : list effect) :
  write_extent (Store off len :: tr) = Z.max (off + len) (write_extent tr).
Proof. reflexivity. Qed.

Lemma write_extent_le (tr : list effect) (b : Z) :
  0 <= b -> Forall (fun s => fst s + snd s <= b) (stores tr) -> write_extent tr <= b.
Proof.
  intros Hb H. unfold write_extent.
  induction H as [|s l Hs Hl IH]; cbn [fold_right]; lia.
Qed.

Lemma names_trace_extent (nms : list (list byte)) :
  forall l, 0 <= l ->
    Forall (fun s => l <= fst s /\ 0 <= snd s) (stores (names_trace l nms))
    /\ Z.max l (write_extent (names_trace l nms)) = l + total_len nms.
Proof.
  induction nms as [|nm rest IH]; intros l Hl.
  - split; [constructor|]. unfold total_len. cbn [names_trace concat length Z.of_nat]. change (write_extent []) with 0. lia.
  - cbn [names_trace]. rewrite write_extent_cons_store, total_len_cons.
    destruct (IH (l + Z.of_nat (length nm)) ltac:(lia)) as [IH1 IH2].
    cbn [stores flat_map app]. fold (stores (names_trace (l + Z.of_nat (length nm)) rest)).
    split; [|lia]. constructor; [cbn [fst snd]; lia|].
    eapply Forall_impl; [|exact IH1]. cbn beta. intros s Hs. lia.
Qed.

Lemma pad_trace_extent (n : nat) :
  forall l, 0 <= l ->
    Forall (fun s => l <= fst s /\ 0 <= snd s) (stores (pad_trace n l))
    /\ Z.max l (write_extent (pad_trace n l)) = l + Z.of_nat n.
Proof.
  induction n as [|n IH]; intros l Hl.
  - split; [constructor|]. cbn [pad_trace Z.of_nat]. change (write_extent []) with 0. lia.
  - cbn [pad_trace]. rewrite write_extent_cons_store.
    destruct (IH (l + 1) ltac:(lia)) as [IH1 IH2].
    cbn [stores flat_map app]. fold (stores (pad_trace n (l + 1))).
    split; [|lia]. constructor; [cbn [fst snd]; lia|].
    eapply Forall_impl; [|exact IH1]. cbn beta. intros s Hs. lia.
Qed.

Lemma ips_trace_extent (ipl : list in_addr_t) :
  forall l, 0 <= l ->
    Forall (fun s => l <= fst s /\ 0 <= snd s) (stores (ips_trace l ipl))
    /\ Z.max l (write_extent (ips_trace l ipl)) = l + 4 * Z.of_nat (length ipl).
Proof.
  induction ipl as [|ip rest IH]; intros l Hl.
  - split; [constructor|]. cbn [ips_trace length Z.of_nat]. change (write_extent []) with 0. lia.
  - cbn [ips_trace length]. rewrite write_extent_cons_store.
    destruct (IH (l + 4) ltac:(lia)) as [IH1 IH2].
    cbn [stores flat_map app]. fold (stores (ips_trace (l + 4) rest)).
    split; [|lia]. constructor; [cbn [fst snd]; lia|].
    eapply Forall_impl; [|exact IH1]. cbn beta. intros s Hs. lia.
Qed.

Lemma built_trace_extent (l : Z) (d : dns_data_set) :
  l = 0 \/ sizeof_dnsflow_hdr <= l ->
  Forall (fun s => 0 <= fst s /\ 0 <= snd s) (stores (built_trace l d))
  /\ write_extent (built_trace l d) = built_len l d.
Proof.
  intros Hl. pose proof (set_start_ge l Hl) as Hst. pose proof (layout_order l d) as Ho.
  destruct (names_trace_extent (kept_names d) (names_start l)) as [N1 N2];
    [consts; lia|].
  destruct (pad_trace_extent (pad_count (names_end l d)) (names_end l d)) as [P1 P2];
    [consts; lia|].
  destruct (ips_trace_extent (kept_ips d) (padded_end l d)) as [I1 I2]; [consts; lia|].
  fold (names_end l d) in N2. fold (padded_end l d) in P2. fold (built_len l d) in I2.
  consts. unfold built_trace. split.
  - rewrite !stores_app.
    apply Forall_app; split;
      [destruct (l =? 0); repeat constructor; cbn [fst snd]; lia|].
    apply Forall_app; split; [repeat constructor; cbn [fst snd]; lia|].
    apply Forall_app; split;
      [eapply Forall_impl; [|exact N1]; cbn beta; intros s Hs; lia|].
    apply Forall_app; split;
      [eapply Forall_impl; [|exact P1]; cbn beta; intros s Hs; lia|].
    apply Forall_app; split; [repeat constructor; cbn [fst snd]; lia|].
    apply Forall_app; split;
      [eapply Forall_impl; [|exact I1]; cbn beta; intros s Hs; lia|].
    repeat constructor; cbn [fst snd]; lia.
  - rewrite !write_extent_app.
    assert (H0 : write_extent (if l =? 0 then [Store 0 8; Store 0 1; Store 1 1] else [])
                 <= 8) by (destruct (l =? 0); cbn; lia).
    pose proof (write_extent_nonneg
                  (if l =? 0 then [Store 0 8; Store 0 1; Store 1 1] else [])) as H0'.
    rewrite !write_extent_cons_store. change (write_extent []) with 0.
    lia.
Qed.

Lemma built_len_bound (l : Z) (d : dns_data_set) :
  set_start l mod 4 = 0 ->
  names_end l d <= DNSFLOW_PKT_MAX_SIZE - 1 ->
  built_len l d <= DNSFLOW_PKT_MAX_SIZE + 1021.
Proof.
  intros Hal Hfit. pose proof (kept_ips_length d) as Hk.
  pose proof (pad_count_aligned (names_end l d)) as Hpa.
  pose proof (pad_count_bound (names_end l d)) as Hpb.
  unfold built_len, padded_end in *. consts.
  Z.div_mod_to_equations. lia.
Qed.

Lemma within_reserved_app (t1 t2 : list effect) :
  within_reserved (t1 ++ t2) = within_reserved t1 && within_reserved t2.
Proof. unfold within_reserved. rewrite stores_app. apply forallb_app. Qed.

Lemma within_reserved_extent (tr : list effect) :
  within_reserved tr = true -> write_extent tr <= data_buf_reserved.
Proof.
  unfold within_reserved. rewrite forallb_forall. intros H.
  apply write_extent_le; [unfold data_buf_reserved; consts; lia|].
  apply Forall_forall. intros x Hx. specialize (H x Hx).
  apply andb_prop in H. lia.
Qed.

(** An append that the guard does not end stores up to the end of its set. *)
Lemma dnsflow_pkt_build_extent (now : Z) (client_ip : in_addr_t) (d : dns_data_set)
    (w : worker) :
  buf_inv w ->
  overflow_guard_hit (trace_of (dnsflow_pkt_build now client_ip d w)) = false ->
  write_extent (trace_of (dnsflow_pkt_build now client_ip d w)) = built_len (db_len w) d.
Proof.
  intros Hinv Hg. destruct (buf_inv_len w Hinv) as (Hl & Hl8 & Hal).
  apply overflow_guard_hit_iff in Hg; [|exact Hl].
  destruct (built_trace_extent (db_len w) d Hl8) as [_ B2].
  pose proof (layout_order (db_len w) d) as Ho.
  pose proof (set_start_ge (db_len w) Hl8) as Hst.
  destruct w as [s l m ls sc]. cbn [db_len] in *.
  rewrite (dnsflow_pkt_build_fits now client_ip d s l m ls sc Hl Hg). cbv zeta.
  match goal with
  | |- context [if ?b then _ else _] => destruct b
  end; unfold trace_of; cbn [snd]; [|exact B2].
  rewrite write_extent_app, B2.
  change (write_extent [Store 4 4; Send _]) with (Z.max (4 + 4) 0). consts. lia.
Qed.

(** An append whose stores stay inside the reserved block ends its set
    inside it. *)
Lemma built_len_reserved (now : Z) (client_ip : in_addr_t) (d : dns_data_set) (w : worker) :
  buf_inv w ->
  overflow_guard_hit (trace_of (dnsflow_pkt_build now client_ip d w)) = false ->
  within_reserved (trace_of (dnsflow_pkt_build now client_ip d w)) = true ->
  built_len (db_len w) d <= data_buf_reserved.
Proof.
  intros Hinv Hg Hres. rewrite <- (dnsflow_pkt_build_extent now client_ip d w Hinv Hg).
  apply within_reserved_extent. exact Hres.
Qed.

(** ** The size and count trigger *)

(** C5.  After an append that the overflow guard did not end and whose
    stores stayed inside the block reserved for [data_buf], either the
    buffer is below the target size and holds fewer than 255 sets and
    nothing was sent, or the buffer is empty again because the append sent
    it: it had reached 1200 octets or 255 sets.  What was sent lies inside
    the reserved block. *)
Theorem append_size_trigger (now : Z) (client_ip : in_addr_t) (d : dns_data_set)
    (w : worker) :
  buf_inv w ->
  let r := dnsflow_pkt_build now client_ip d w in
  overflow_guard_hit (trace_of r) = false ->
  within_reserved (trace_of r) = true ->
  (db_len (after r) < DNSFLOW_PKT_TARGET_SIZE
   /\ sets_count (after r) < DNSFLOW_SETS_COUNT_MAX
   /\ sends (trace_of r) = [])
  \/ (db_len (after r) = 0
      /\ exists p, sends (trace_of r) = [p]
           /\ Z.of_nat (length p) <= data_buf_reserved
           /\ (DNSFLOW_PKT_TARGET_SIZE <= Z.of_nat (length p)
               \/ sets_count (after r) = DNSFLOW_SETS_COUNT_MAX)).
Proof.
  intros Hinv r Hguard Hres. subst r.
  pose proof (built_len_reserved now client_ip d w Hinv Hguard Hres) as Hin.
  destruct (buf_inv_len w Hinv) as (Hl & Hl8 & _).
  pose proof (layout_order (db_len w) d) as Ho.
  pose proof (set_start_ge (db_len w) Hl8) as Hst.
  apply overflow_guard_hit_iff in Hguard; [|exact Hl].
  destruct (dnsflow_pkt_build_summary now client_ip d w Hinv Hguard)
    as (_ & _ & _ & [(HL & Hsc & Hlen & Hcount & Hsends & _)
                    |(Hwhy & Hlen & Hcount & Hsends & _)]).
  - left. pose proof (next_sets_count_range w Hinv). rewrite Hlen, Hcount.
    repeat split; [exact HL|lia|exact Hsends].
  - right. split; [exact Hlen|]. eexists. split; [exact Hsends|].
    rewrite load_bytes_length, Hcount.
    split; [consts; lia|].
    destruct Hwhy as [Hbig|Hfull]; [left|right; exact Hfull].
    consts. lia.
Qed.

Lemma append_size_trigger_witness :
  buf_inv initial_worker
  /\ let r := dnsflow_pkt_build 0 client_10_0_0_7 single_a_response initial_worker in
     overflow_guard_hit (trace_of r) = false
     /\ within_reserved (trace_of r) = true
     /\ ((db_len (after r) < DNSFLOW_PKT_TARGET_SIZE
          /\ sets_count (after r) < DNSFLOW_SETS_COUNT_MAX
          /\ sends (trace_of r) = [])
         \/ (db_len (after r) = 0
             /\ exists p, sends (trace_of r) = [p]
                  /\ Z.of_nat (length p) <= data_buf_reserved
                  /\ (DNSFLOW_PKT_TARGET_SIZE <= Z.of_nat (length p)
                      \/ sets_count (after r) = DNSFLOW_SETS_COUNT_MAX))).
Proof.
  assert (H2 : overflow_guard_hit
                 (trace_of (dnsflow_pkt_build 0 client_10_0_0_7 single_a_response
                                              initial_worker)) = false)
    by (vm_compute; reflexivity).
  assert (H3 : within_reserved
                 (trace_of (dnsflow_pkt_build 0 client_10_0_0_7 single_a_response
                                              initial_worker)) = true)
    by (vm_compute; reflexivity).
  split; [exact buf_inv_initial|]. split; [exact H2|]. split; [exact H3|].
  exact (append_size_trigger 0 client_10_0_0_7 single_a_response initial_worker
                             buf_inv_initial H2 H3).
Defined.

(** ** The set an append writes *)

Lemma be_value_load_be16 (m : memory) (off z : Z) :
  0 <= z < 65536 -> load_bytes m off 2 = be16 z -> be_value (load_bytes m off 2) 0 = z.
Proof.
  intros Hz H. rewrite H, be_value_be16. unfold u16. apply Z.mod_small. exact Hz.
Qed.

(** C1.  The set that an append writes at its place [st] in the packet area,
    when the overflow guard does not end the append and its stores stay
    inside the block reserved for [data_buf]: [names_count] and [ips_count]
    are the numbers of names and addresses cut at 255; [names_len] is a
    multiple of four; the [names_len] octets after the set header are the kept names in
    order, then fewer than four zero octets; the next [4 * ips_count] octets
    are the kept addresses in order, octet for octet.  The set ends inside
    the reserved block, and the area up to the end of the set is what stays
    in the buffer, or what the append has sent. *)
Theorem appended_set_layout (now : Z) (client_ip : in_addr_t) (d : dns_data_set)
    (w : worker) :
  buf_inv w ->
  let r := dnsflow_pkt_build now client_ip d w in
  overflow_guard_hit (trace_of r) = false ->
  within_reserved (trace_of r) = true ->
  let st := set_start (db_len w) in
  let area := pkt (after r) in
  let names_count := load8 area (st + 4) in
  let ips_count := load8 area (st + 5) in
  let names_len := be_value (load_bytes area (st + 6) 2) 0 in
  let set_end := st + sizeof_dnsflow_set_hdr + names_len + 4 * ips_count in
  load_bytes area st 4 = in_addr_bytes client_ip
  /\ names_count = Z.min (Z.of_nat (length (names d))) 255
  /\ ips_count = Z.min (Z.of_nat (length (ips d))) 255
  /\ names_len mod 4 = 0
  /\ (exists pad : nat,
         (pad < 4)%nat
         /\ load_bytes area (st + sizeof_dnsflow_set_hdr) (Z.to_nat names_len) =
            concat (firstn (Z.to_nat names_count) (names d)) ++ repeat x00 pad)
  /\ load_bytes area (st + sizeof_dnsflow_set_hdr + names_len) (Z.to_nat (4 * ips_count)) =
     concat (map in_addr_bytes (firstn (Z.to_nat ips_count) (ips d)))
  /\ set_end <= data_buf_reserved
  /\ ((db_len (after r) = set_end /\ sends (trace_of r) = [])
      \/ (db_len (after r) = 0
          /\ sends (trace_of r) = [load_bytes area 0 (Z.to_nat set_end)])).
Proof.
  intros Hinv r Hguard Hres st area. subst r.
  pose proof (built_len_reserved now client_ip d w Hinv Hguard Hres) as Hin.
  destruct (buf_inv_len w Hinv) as (Hl & Hl8 & Hal).
  apply overflow_guard_hit_iff in Hguard; [|exact Hl].
  destruct (dnsflow_pkt_build_summary now client_ip d w Hinv Hguard)
    as (Harea & _ & _ & Hcases).
  fold area in Harea, Hcases. fold st in Hal.
  pose proof (layout_order (db_len w) d) as (Hns & Hne & Hpe & Hbl).
  pose proof (set_start_ge (db_len w) Hl8) as Hst. fold st in Hns, Hst.
  pose proof (built_client_ip (pkt w) (db_len w) client_ip d Hl8 area Harea) as Hc.
  pose proof (built_names_count (pkt w) (db_len w) client_ip d Hl8 area Harea) as Hnc.
  pose proof (built_ips_count (pkt w) (db_len w) client_ip d Hl8 area Harea) as Hic.
  pose proof (built_names_len (pkt w) (db_len w) client_ip d Hl8 area Harea) as Hnl.
  pose proof (built_names (pkt w) (db_len w) client_ip d Hl8 area Harea) as Hn.
  pose proof (built_padding (pkt w) (db_len w) client_ip d Hl8 area Harea) as Hp.
  pose proof (built_ips (pkt w) (db_len w) client_ip d Hl8 area Harea) as Hi.
  fold st in Hc, Hnc, Hic, Hnl.
  pose proof (pad_count_aligned (names_end (db_len w) d)) as Hpa.
  fold (padded_end (db_len w) d) in Hpa.
  pose proof (pad_count_bound (names_end (db_len w) d)) as Hpb.
  pose proof (ips_len (kept_ips d)) as Hil.
  pose proof (kept_ips_length d) as Hkl.
  consts.
  assert (Hlen : be_value (load_bytes area (st + 6) 2) 0
                 = padded_end (db_len w) d - names_start (db_len w))
    by (apply be_value_load_be16; [lia|exact Hnl]).
  cbn zeta. rewrite Hlen, Hnc, Hic.
  rewrite names_count_of_min, ips_count_of_min. unfold num_names, num_ips. consts.
  split; [exact Hc|]. split; [reflexivity|]. split; [reflexivity|].
  split; [rewrite <- Hns; Z.div_mod_to_equations; lia|].
  assert (Ekn : firstn (Z.to_nat (Z.min (Z.of_nat (length (names d))) 255)) (names d)
                = kept_names d)
    by (unfold kept_names; rewrite names_count_of_min; reflexivity).
  assert (Eki : firstn (Z.to_nat (Z.min (Z.of_nat (length (ips d))) 255)) (ips d)
                = kept_ips d)
    by (unfold kept_ips; rewrite ips_count_of_min; reflexivity).
  rewrite Ekn, Eki.
  split; [|split].
  - exists (pad_count (names_end (db_len w) d)). split; [lia|].
    replace (Z.to_nat (padded_end (db_len w) d - names_start (db_len w)))
      with (length (concat (kept_names d)) + pad_count (names_end (db_len w) d))%nat
      by (unfold padded_end, names_end, total_len; lia).
    rewrite load_bytes_app. rewrite Hns. f_equal; [exact Hn|].
    exact Hp.
  - replace (st + 8 + (padded_end (db_len w) d - names_start (db_len w)))
      with (padded_end (db_len w) d) by lia.
    replace (Z.to_nat (4 * Z.min (Z.of_nat (length (ips d))) 255))
      with (length (concat (map in_addr_bytes (kept_ips d)))) by (unfold num_ips in *; lia).
    exact Hi.
  - replace (st + 8 + (padded_end (db_len w) d - names_start (db_len w))
             + 4 * Z.min (Z.of_nat (length (ips d))) 255)
      with (built_len (db_len w) d) by (unfold built_len, num_ips in *; lia).
    split; [exact Hin|].
    destruct Hcases as [(_ & _ & Hdl & _ & Hs & _)|(_ & Hdl & _ & Hs & _)].
    + left. split; assumption.
    + right. split; assumption.
Qed.

Lemma appended_set_layout_witness :
  buf_inv initial_worker
  /\ let r := dnsflow_pkt_build 0 client_10_0_0_7 single_a_response initial_worker in
     overflow_guard_hit (trace_of r) = false
     /\ within_reserved (trace_of r) = true
     /\ let st := set_start (db_len initial_worker) in
        let area := pkt (after r) in
        let names_count := load8 area (st + 4) in
        let ips_count := load8 area (st + 5) in
        let names_len := be_value (load_bytes area (st + 6) 2) 0 in
        let set_end := st + sizeof_dnsflow_set_hdr + names_len + 4 * ips_count in
        load_bytes area st 4 = in_addr_bytes client_10_0_0_7
        /\ names_count = Z.min (Z.of_nat (length (names single_a_response))) 255
        /\ ips_count = Z.min (Z.of_nat (length (ips single_a_response))) 255
        /\ names_len mod 4 = 0
        /\ (exists pad : nat,
               (pad < 4)%nat
               /\ load_bytes area (st + sizeof_dnsflow_set_hdr) (Z.to_nat names_len) =
                  concat (firstn (Z.to_nat names_count) (names single_a_response))
                  ++ repeat x00 pad)
        /\ load_bytes area (st + sizeof_dnsflow_set_hdr + names_len)
                      (Z.to_nat (4 * ips_count)) =
           concat (map in_addr_bytes
                       (firstn (Z.to_nat ips_count) (ips single_a_response)))
        /\ set_end <= data_buf_reserved
        /\ ((db_len (after r) = set_end /\ sends (trace_of r) = [])
            \/ (db_len (after r) = 0
                /\ sends (trace_of r) = [load_bytes area 0 (Z.to_nat set_end)])).
Proof.
  assert (H2 : overflow_guard_hit
                 (trace_of (dnsflow_pkt_build 0 client_10_0_0_7 single_a_response
                                              initial_worker)) = false)
    by (vm_compute; reflexivity).
  assert (H3 : within_reserved
                 (trace_of (dnsflow_pkt_build 0 client_10_0_0_7 single_a_response
                                              initial_worker)) = true)
    by (vm_compute; reflexivity).
  split; [exact buf_inv_initial|]. split; [exact H2|]. split; [exact H3|].
  exact (appended_set_layout 0 client_10_0_0_7 single_a_response initial_worker
                             buf_inv_initial H2 H3).
Defined.

(** Scenario 1 of the specification, evaluated: the set of the single A
    response for [example.com.]; the 13 octets of the name are padded to 16. *)
Example single_a_response_set :
  let r := dnsflow_pkt_build 0 client_10_0_0_7 single_a_response initial_worker in
  load_bytes (pkt (after r)) 8 28 =
    [x0a; x00; x00; x07; x01; x01; x00; x10]
    ++ example_com ++ [x00; x00; x00] ++ [x5d; xb8; xd8; x22]
  /\ db_len (after r) = 36.
Proof. vm_compute. split; reflexivity. Qed.

(** ** The callbacks, one at a time *)

Lemma quiet_nil : quiet [].
Proof. repeat split. Qed.

Lemma quiet_app (t1 t2 : list effect) : quiet t1 -> quiet t2 -> quiet (t1 ++ t2).
Proof.
  intros (S1 & P1 & G1) (S2 & P2 & G2). unfold quiet.
  rewrite sends_app, stores_app, overflow_guard_hit_app, S1, S2, P1, P2, G1, G2.
  repeat split.
Qed.

Lemma dnsflow_pkt_send_data_empty (now : Z) (w : worker) :
  db_len w = 0 -> dnsflow_pkt_send_data now w = (tt, w, []).
Proof.
  intros H. unfold dnsflow_pkt_send_data. mstep. rewrite H. reflexivity.
Qed.

Lemma dnsflow_pkt_send_data_sends (now : Z) (w : worker) :
  db_len w <> 0 ->
  dnsflow_pkt_send_data now w =
  let area := store_bytes (pkt w) 4 (be32 (sequence_number w)) in
  (tt, mk_worker (u32 (sequence_number w + 1)) 0 area now (stats_counter w),
   [Store 4 4; Send (load_bytes area 0 (Z.to_nat (db_len w)))]).
Proof.
  intros H. unfold dnsflow_pkt_send_data. mstep.
  destruct (Z.eqb_spec (db_len w) 0) as [E|E]; [contradiction|]. mstep. reflexivity.
Qed.

Lemma seq_of_payload_load (m : memory) (n : nat) :
  (8 <= n)%nat -> seq_of_payload (load_bytes m 0 n) = be_value (load_bytes m 4 4) 0.
Proof.
  intros Hn. unfold seq_of_payload. f_equal.
  replace n with (4 + (4 + (n - 8)))%nat by lia.
  rewrite !load_bytes_app.
  rewrite skipn_app, load_bytes_length, Nat.sub_diag.
  rewrite skipn_all2 by (rewrite load_bytes_length; lia).
  cbn [skipn app].
  rewrite firstn_app, load_bytes_length, Nat.sub_diag.
  rewrite firstn_all2 by (rewrite load_bytes_length; lia).
  cbn [firstn]. rewrite app_nil_r. reflexivity.
Qed.

Lemma seq_of_payload_stored (m : memory) (s : Z) (n : nat) :
  0 <= s < 4294967296 -> (8 <= n)%nat ->
  seq_of_payload (load_bytes (store_bytes m 4 (be32 s)) 0 n) = s.
Proof.
  intros Hs Hn. rewrite seq_of_payload_load by exact Hn.
  change 4%nat with (length (be32 s)). rewrite load_bytes_store_same.
  rewrite be_value_be32. apply u32_small. exact Hs.
Qed.

Lemma seq_of_stats_payload (s : Z) (ds : dcap_stat) (rate : Z) :
  0 <= s < 4294967296 -> seq_of_payload (stats_payload s ds rate) = s.
Proof.
  intros Hs. unfold seq_of_payload, stats_payload, be16.
  cbn [app skipn]. unfold be32 at 1. cbn [app firstn].
  change (be_value (be32 s) 0 = s). rewrite be_value_be32. apply u32_small. exact Hs.
Qed.

Lemma dnsflow_stats_cb_spec (ds : dcap_stat) (rate : Z) (w : worker) :
  let r := dnsflow_stats_cb ds rate w in
  after r = mk_worker (u32 (sequence_number w + 1)) (db_len w) (pkt w) (last_send w)
                      (stats_counter w + 1)
  /\ sends (trace_of r) = [stats_payload (sequence_number w) ds rate]
  /\ stores (trace_of r) = []
  /\ overflow_guard_hit (trace_of r) = false.
Proof.
  unfold dnsflow_stats_cb, dnsflow_print_stats. mstep.
  destruct (Z.rem (stats_counter w + 1) 6 =? 0); [destruct (ps_valid ds)|];
    mstep; unfold after, trace_of; cbn; repeat split.
Qed.

(** ** The projection *)

Lemma extract_rdf_spec (rr_type : Z) (data : dns_data_set) (rdf : ldns_rdf) (w : worker) :
  let r := extract_rdf rr_type data rdf w in
  let data' := value_of r in
  after r = w /\ quiet (trace_of r)
  /\ names data' =
       (if rr_type =? LDNS_RR_TYPE_CNAME then push_name (names data) (ldns_rdf_data rdf)
        else names data)
  /\ ips data' =
       (if rr_type =? LDNS_RR_TYPE_CNAME then ips data
        else if rr_type =? LDNS_RR_TYPE_A
             then push_ip (ips data) (load_in_addr (ldns_rdf_data rdf))
             else ips data)
  /\ Z.of_nat (length (logs (trace_of r))) =
       (if (rr_type =? LDNS_RR_TYPE_CNAME) || (rr_type =? LDNS_RR_TYPE_A) then 1 else 0)
       + Z.of_nat (length (names data)) + Z.of_nat (length (ips data))
       - Z.of_nat (length (names data')) - Z.of_nat (length (ips data')).
Proof.
  unfold extract_rdf, push_name, push_ip, name_fits, num_names, num_ips, ldns_rdf_size.
  destruct (rr_type =? LDNS_RR_TYPE_CNAME) eqn:Ec; cbn [orb].
  - destruct (Z.of_nat (length (names data)) =? DNSFLOW_MAX_PARSE) eqn:E1.
    + mstep. pre_split. repeat split. cbn [length]. lia.
    + destruct (Z.of_nat (length (ldns_rdf_data rdf)) >? LDNS_MAX_DOMAINLEN) eqn:E2;
        mstep; pre_split; repeat split; rewrite ?length_app; cbn [length]; lia.
  - destruct (rr_type =? LDNS_RR_TYPE_A) eqn:Ea.
    + destruct (Z.of_nat (length (ips data)) =? DNSFLOW_MAX_PARSE) eqn:E1;
        mstep; pre_split; repeat split; rewrite ?length_app; cbn [length]; lia.
    + mstep. pre_split. repeat split. cbn [length]. lia.
Qed.

Lemma type_a_not_cname (t : Z) :
  (t =? LDNS_RR_TYPE_CNAME) = true -> (t =? LDNS_RR_TYPE_A) = false.
Proof. unfold LDNS_RR_TYPE_CNAME, LDNS_RR_TYPE_A. lia. Qed.

Lemma extract_rr_spec (a_rr : ldns_rr) :
  forall (data : dns_data_set) (w : worker),
    let r := extract_rr data a_rr w in
    let data' := value_of r in
    after r = w /\ quiet (trace_of r)
    /\ names data' = fold_left push_name (cname_targets [a_rr]) (names data)
    /\ ips data' = fold_left push_ip (a_rdata [a_rr]) (ips data)
    /\ Z.of_nat (length (logs (trace_of r))) =
         Z.of_nat (length (cname_targets [a_rr])) + Z.of_nat (length (a_rdata [a_rr]))
         + Z.of_nat (length (names data)) + Z.of_nat (length (ips data))
         - Z.of_nat (length (names data')) - Z.of_nat (length (ips data')).
Proof.
  unfold extract_rr, cname_targets, a_rdata. cbn [flat_map]. rewrite !app_nil_r.
  induction (ldns_rr_rdfs a_rr) as [|rdf rest IH]; intros data w.
  - cbn [foldM]. unfold ret. pre_split.
    destruct (ldns_rr_get_type a_rr =? LDNS_RR_TYPE_CNAME);
      destruct (ldns_rr_get_type a_rr =? LDNS_RR_TYPE_A);
      cbn [map fold_left length]; repeat split; lia.
  - cbn [foldM]. unfold bind.
    pose proof (extract_rdf_spec (ldns_rr_get_type a_rr) data rdf w) as H1.
    destruct (extract_rdf (ldns_rr_get_type a_rr) data rdf w) as [[d1 w1] t1].
    unfold after, trace_of, value_of in H1. cbn [fst snd] in H1.
    destruct H1 as (-> & Q1 & N1 & I1 & L1).
    pose proof (IH d1 w) as H2.
    destruct (foldM (extract_rdf (ldns_rr_get_type a_rr)) rest d1 w) as [[d2 w2] t2].
    unfold after, trace_of, value_of in *. cbn [fst snd] in *.
    destruct H2 as (-> & Q2 & N2 & I2 & L2).
    split; [reflexivity|]. split; [apply quiet_app; assumption|].
    rewrite logs_app, length_app, N2, I2, N1, I1.
    rewrite N2, I2, N1, I1 in L2. rewrite N1, I1 in L1.
    destruct (ldns_rr_get_type a_rr =? LDNS_RR_TYPE_CNAME) eqn:Ec.
    + rewrite (type_a_not_cname _ Ec) in *. cbn [map fold_left length orb] in *.
      repeat split; lia.
    + destruct (ldns_rr_get_type a_rr =? LDNS_RR_TYPE_A) eqn:Ea;
        cbn [map fold_left length orb] in *; repeat split; lia.
Qed.

Lemma extract_answers_spec (answers : list ldns_rr) :
  forall (data : dns_data_set) (w : worker),
    let r := foldM extract_rr answers data w in
    let data' := value_of r in
    after r = w /\ quiet (trace_of r)
    /\ names data' = fold_left push_name (cname_targets answers) (names data)
    /\ ips data' = fold_left push_ip (a_rdata answers) (ips data)
    /\ Z.of_nat (length (logs (trace_of r))) =
         Z.of_nat (length (cname_targets answers)) + Z.of_nat (length (a_rdata answers))
         + Z.of_nat (length (names data)) + Z.of_nat (length (ips data))
         - Z.of_nat (length (names data')) - Z.of_nat (length (ips data')).
Proof.
  induction answers as [|a_rr rest IH]; intros data w.
  - cbn [foldM]. unfold ret, cname_targets, a_rdata. pre_split.
    cbn [flat_map fold_left length]. repeat split. lia.
  - cbn [foldM]. unfold bind.
    pose proof (extract_rr_spec a_rr data w) as H1.
    destruct (extract_rr data a_rr w) as [[d1 w1] t1].
    unfold after, trace_of, value_of in H1. cbn [fst snd] in H1.
    destruct H1 as (-> & Q1 & N1 & I1 & L1).
    pose proof (IH d1 w) as H2.
    destruct (foldM extract_rr rest d1 w) as [[d2 w2] t2].
    unfold after, trace_of, value_of in *. cbn [fst snd] in *.
    destruct H2 as (-> & Q2 & N2 & I2 & L2).
    split; [reflexivity|]. split; [apply quiet_app; assumption|].
    change (a_rr :: rest) with ([a_rr] ++ rest).
    unfold cname_targets, a_rdata in *. rewrite !flat_map_app, !fold_left_app, !length_app.
    rewrite <- N1, <- I1. repeat split; [exact N2|exact I2|].
    rewrite logs_app, length_app. lia.
Qed.

Lemma firstn_app_full {A : Type} (acc rest : list A) (n : nat) :
  length acc = n -> firstn n (acc ++ rest) = acc.
Proof.
  intros H. rewrite firstn_app, H, Nat.sub_diag. cbn [firstn].
  rewrite app_nil_r. apply firstn_all2. lia.
Qed.

Lemma push_names_firstn (ts : list (list byte)) :
  forall acc, (length acc <= 255)%nat ->
    fold_left push_name ts acc = firstn 255 (acc ++ filter name_fits ts).
Proof.
  induction ts as [|t ts IH]; intros acc Hacc; cbn [fold_left filter].
  - rewrite app_nil_r. symmetry. apply firstn_all2. exact Hacc.
  - unfold push_name at 2. unfold DNSFLOW_MAX_PARSE.
    destruct (Z.eqb_spec (Z.of_nat (length acc)) 255) as [E|E].
    + rewrite IH by exact Hacc. rewrite !firstn_app_full by lia. reflexivity.
    + destruct (name_fits t).
      * rewrite IH by (rewrite length_app; cbn [length]; lia).
        rewrite <- app_assoc. reflexivity.
      * apply IH. exact Hacc.
Qed.

Lemma push_ips_firstn (l : list in_addr_t) :
  forall acc, (length acc <= 255)%nat ->
    fold_left push_ip l acc = firstn 255 (acc ++ l).
Proof.
  induction l as [|a l IH]; intros acc Hacc; cbn [fold_left].
  - rewrite app_nil_r. symmetry. apply firstn_all2. exact Hacc.
  - unfold push_ip at 2. unfold DNSFLOW_MAX_PARSE.
    destruct (Z.eqb_spec (Z.of_nat (length acc)) 255) as [E|E].
    + rewrite IH by exact Hacc. rewrite !firstn_app_full by lia. reflexivity.
    + rewrite IH by (rewrite length_app; cbn [length]; lia).
      rewrite <- app_assoc. reflexivity.
Qed.

Lemma dnsflow_dns_extract_spec (lp : ldns_pkt) (q : ldns_rr) (more : list ldns_rr)
    (w : worker) :
  ldns_pkt_question lp = q :: more ->
  let r := dnsflow_dns_extract lp w in
  let qname := ldns_rdf_data (ldns_rr_owner q) in
  let kept_n := firstn 255 (qname :: filter name_fits (cname_targets (ldns_pkt_answer lp))) in
  let kept_i := firstn 255 (a_rdata (ldns_pkt_answer lp)) in
  after r = w /\ quiet (trace_of r)
  /\ value_of r =
       (if name_fits qname then
          match a_rdata (ldns_pkt_answer lp) with
          | [] => None
          | _ :: _ => Some (mk_dns_data kept_n kept_i)
          end
        else None)
  /\ (if name_fits qname then
        Z.of_nat (length (logs (trace_of r))) =
          (1 + Z.of_nat (length (cname_targets (ldns_pkt_answer lp)))
           - Z.of_nat (length kept_n))
          + (Z.of_nat (length (a_rdata (ldns_pkt_answer lp))) - Z.of_nat (length kept_i))
      else logs (trace_of r) = [("Invalid query string"%string, [])]).
Proof.
  intros Hq. unfold dnsflow_dns_extract, ldns_rr_list_rr. rewrite Hq. cbn [nth_error].
  unfold name_fits at 1 3, ldns_rdf_size.
  destruct (Z.of_nat (length (ldns_rdf_data (ldns_rr_owner q))) >? LDNS_MAX_DOMAINLEN) eqn:Eq;
    cbn [negb].
  - mstep. unfold after, trace_of, value_of, quiet. cbn [fst snd]. repeat split.
  - unfold bind.
    pose proof (extract_answers_spec (ldns_pkt_answer lp)
                  (mk_dns_data [ldns_rdf_data (ldns_rr_owner q)] []) w) as H.
    destruct (foldM extract_rr (ldns_pkt_answer lp)
                    (mk_dns_data [ldns_rdf_data (ldns_rr_owner q)] []) w) as [[data w1] t1].
    unfold after, trace_of, value_of in H. cbn [fst snd names ips] in H.
    destruct H as (-> & Q & N & I & L). pose proof Q as (Q1 & Q2 & Q3).
    rewrite push_names_firstn in N by (cbn [length]; lia).
    rewrite push_ips_firstn in I by (cbn [length]; lia).
    cbn [app] in N, I. cbn [length] in L.
    assert (Hn : (num_names data =? 0) = false).
    { unfold num_names. rewrite N, length_firstn. cbn [length]. apply Z.eqb_neq. lia. }
    rewrite Hn. unfold num_ips. destruct data as [dn di]. cbn [names ips] in *. subst dn di.
    destruct (a_rdata (ldns_pkt_answer lp)) as [|a rest] eqn:Ea.
    + rewrite firstn_nil in *. cbn [length Z.of_nat Z.eqb].
      unfold ret, after, trace_of, value_of.
      cbn [fst snd]. rewrite app_nil_r. cbn [length] in L.
      repeat split; try assumption. cbn [length]. lia.
    + assert (Hi : (Z.of_nat (length (firstn 255 (a :: rest))) =? 0) = false)
        by (rewrite length_firstn; cbn [length]; apply Z.eqb_neq; lia).
      rewrite Hi. unfold ret, after, trace_of, value_of. cbn [fst snd].
      rewrite app_nil_r. repeat split; try assumption. lia.
Qed.

Lemma filter_name_fits_all (targets : list (list byte)) :
  Forall (fun nm => (length nm <= 255)%nat) targets -> filter name_fits targets = targets.
Proof.
  intros H. induction H as [|nm rest Hnm Hrest IH]; cbn [filter]; [reflexivity|].
  unfold name_fits at 1. unfold LDNS_MAX_DOMAINLEN.
  destruct (Z.gtb_spec (Z.of_nat (length nm)) 255) as [Hgt|Hle]; [lia|].
  cbn [negb]. rewrite IH. reflexivity.
Qed.

(** C4.  For a response that passed the check (its question section is the
    one record [q]) and whose CNAME targets are domain names as ldns
    delivers them, none longer than the 255 octets of [LDNS_MAX_DOMAINLEN]:
    the names are the owner name of the question, then the rdata of the
    CNAME records of the answer section in order; the addresses are the
    rdata of the A records in order; records of other types add nothing.
    The response is dropped exactly when there is no name, no address, or a
    name longer than 255 octets.  Otherwise the first 255 names and the first
    255 addresses are kept, and every item beyond them leaves one log
    line. *)
Theorem projection_of_accepted_response (lp : ldns_pkt) (q : ldns_rr) (w : worker) :
  ldns_pkt_question lp = [q] ->
  let r := dnsflow_dns_extract lp w in
  let qname := ldns_rdf_data (ldns_rr_owner q) in
  let targets := cname_targets (ldns_pkt_answer lp) in
  let all_names := qname :: targets in
  let addrs := a_rdata (ldns_pkt_answer lp) in
  Forall (fun nm => (length nm <= 255)%nat) targets ->
  after r = w
  /\ sends (trace_of r) = []
  /\ (value_of r = None <->
      all_names = [] \/ addrs = [] \/ Exists (fun nm => (255 < length nm)%nat) all_names)
  /\ (value_of r <> None ->
      value_of r = Some (mk_dns_data (firstn 255 all_names) (firstn 255 addrs)))
  /\ ((length qname <= 255)%nat ->
      length (logs (trace_of r)) = ((length all_names - 255) + (length addrs - 255))%nat).
Proof.
  intros Hq. cbn zeta. intros Hldns.
  destruct (dnsflow_dns_extract_spec lp q [] w Hq) as (Ha & (Hs & _) & Hv & Hl).
  rewrite (filter_name_fits_all _ Hldns) in Hv, Hl.
  assert (Hfit : name_fits (ldns_rdf_data (ldns_rr_owner q)) = true
                 <-> (length (ldns_rdf_data (ldns_rr_owner q)) <= 255)%nat).
  { unfold name_fits, LDNS_MAX_DOMAINLEN.
    destruct (Z.of_nat (length (ldns_rdf_data (ldns_rr_owner q))) >? 255) eqn:E;
      cbn [negb]; split; intros H; try discriminate; try reflexivity; lia. }
  assert (Hlong : Exists (fun nm => (255 < length nm)%nat)
                         (ldns_rdf_data (ldns_rr_owner q)
                          :: cname_targets (ldns_pkt_answer lp))
                  <-> (255 < length (ldns_rdf_data (ldns_rr_owner q)))%nat).
  { split.
    - intros H. inversion H as [nm l Hnm|nm l Hl']; subst; [exact Hnm|].
      exfalso. apply Exists_exists in Hl'. destruct Hl' as (nm' & Hin & Hnm').
      rewrite Forall_forall in Hldns. specialize (Hldns nm' Hin). lia.
    - intros H. constructor. exact H. }
  split; [exact Ha|]. split; [exact Hs|].
  destruct (name_fits (ldns_rdf_data (ldns_rr_owner q))) eqn:Ef.
  - assert (Hlen : (length (ldns_rdf_data (ldns_rr_owner q)) <= 255)%nat)
      by (apply Hfit; reflexivity).
    split; [|split].
    + rewrite Hv, Hlong. destruct (a_rdata (ldns_pkt_answer lp)); split.
      * intros _. right. left. reflexivity.
      * intros _. reflexivity.
      * discriminate.
      * intros [H|[H|H]]; [discriminate|discriminate|lia].
    + rewrite Hv. destruct (a_rdata (ldns_pkt_answer lp)); [congruence|reflexivity].
    + intros _. rewrite !length_firstn in Hl. cbn [length] in *. lia.
  - assert (Hlen : (255 < length (ldns_rdf_data (ldns_rr_owner q)))%nat).
    { destruct (Nat.le_gt_cases (length (ldns_rdf_data (ldns_rr_owner q))) 255) as [H|H];
        [apply Hfit in H; discriminate|exact H]. }
    split; [|split].
    + rewrite Hv, Hlong. split; [intros _; right; right; exact Hlen|reflexivity].
    + rewrite Hv. congruence.
    + intros H. lia.
Qed.

Lemma projection_of_accepted_response_witness :
  ldns_pkt_question www_foo_test = [mk_rr (mk_rdf www_foo_test_name) LDNS_RR_TYPE_A []]
  /\ let r := dnsflow_dns_extract www_foo_test initial_worker in
     let targets := cname_targets (ldns_pkt_answer www_foo_test) in
     let all_names := www_foo_test_name :: targets in
     let addrs := a_rdata (ldns_pkt_answer www_foo_test) in
     Forall (fun nm => (length nm <= 255)%nat) targets
     /\ after r = initial_worker
     /\ sends (trace_of r) = []
     /\ (value_of r = None <->
         all_names = [] \/ addrs = []
         \/ Exists (fun nm => (255 < length nm)%nat) all_names)
     /\ (value_of r <> None ->
         value_of r = Some (mk_dns_data (firstn 255 all_names) (firstn 255 addrs)))
     /\ ((length www_foo_test_name <= 255)%nat ->
         length (logs (trace_of r))
         = ((length all_names - 255) + (length addrs - 255))%nat).
Proof.
  assert (Hldns : Forall (fun nm => (length nm <= 255)%nat)
                         (cname_targets (ldns_pkt_answer www_foo_test)))
    by (repeat constructor; cbn [length foo_test_name]; lia).
  split; [reflexivity|]. cbv zeta. split; [exact Hldns|].
  exact (projection_of_accepted_response www_foo_test
           (mk_rr (mk_rdf www_foo_test_name) LDNS_RR_TYPE_A []) initial_worker eq_refl Hldns).
Defined.

(** Scenario 2 of the specification, evaluated. *)
Example www_foo_test_projection :
  value_of (dnsflow_dns_extract www_foo_test initial_worker) =
  Some (mk_dns_data [www_foo_test_name; foo_test_name] [mk_in_addr x01 x02 x03 x04]).
Proof. reflexivity. Qed.

(** ** The DNS check *)

Lemma singleton_length {A : Type} (l : list A) :
  Z.of_nat (length l) = 1 <-> exists a, l = [a].
Proof.
  split.
  - destruct l as [|a [|b l]]; cbn [length]; intros H; try lia. exists a. reflexivity.
  - intros (a & ->). reflexivity.
Qed.

Lemma dns_check_accepts_aux
    (ldns_wire2pkt : list byte -> Z -> wire2pkt_result)
    (ldns_get_errorstr_by_id : ldns_status -> string)
    (pkt_len : Z) (dns_pkt : list byte) (w : worker) :
  let r := dnsflow_dns_check ldns_wire2pkt ldns_get_errorstr_by_id pkt_len dns_pkt w in
  after r = w
  /\ (forall lp,
        value_of r = Some lp <->
        ldns_wire2pkt dns_pkt pkt_len = Parsed lp
        /\ ldns_pkt_qr lp = true /\ ldns_pkt_rd lp = true /\ ldns_pkt_ra lp = true
        /\ ldns_pkt_get_rcode lp = LDNS_RCODE_NOERROR
        /\ ldns_pkt_qdcount lp = 1
        /\ exists q, ldns_pkt_question lp = [q] /\ ldns_rr_get_type q = LDNS_RR_TYPE_A)
  /\ match ldns_wire2pkt dns_pkt pkt_len with
     | ParseError status =>
         value_of r = None
         /\ trace_of r = [Log "Bad DNS pkt: %s" [ArgS (ldns_get_errorstr_by_id status)]]
     | Parsed _ => trace_of r = []
     end.
Proof.
  cbn zeta. unfold dnsflow_dns_check, ldns_rr_list_rr, ldns_pkt_qdcount.
  destruct (ldns_wire2pkt dns_pkt pkt_len) as [lp0|status].
  2: { mstep. unfold after, value_of, trace_of. cbn [fst snd].
       split; [reflexivity|]. split; [|split; reflexivity].
       intros lp. split; [discriminate|]. intros (H & _). discriminate. }
  destruct (ldns_pkt_qr lp0) eqn:Eqr; cbn [negb orb].
  2: { unfold ret, after, value_of, trace_of. cbn [fst snd].
       split; [reflexivity|]. split; [|reflexivity].
       intros lp. split; [discriminate|]. intros (H & Hq & _). congruence. }
  destruct (ldns_pkt_rd lp0) eqn:Erd; cbn [negb orb].
  2: { unfold ret, after, value_of, trace_of. cbn [fst snd].
       split; [reflexivity|]. split; [|reflexivity].
       intros lp. split; [discriminate|]. intros (H & _ & Hq & _). congruence. }
  destruct (ldns_pkt_ra lp0) eqn:Era; cbn [negb orb].
  2: { unfold ret, after, value_of, trace_of. cbn [fst snd].
       split; [reflexivity|]. split; [|reflexivity].
       intros lp. split; [discriminate|]. intros (H & _ & _ & Hq & _). congruence. }
  destruct (Z.eqb_spec (ldns_pkt_get_rcode lp0) LDNS_RCODE_NOERROR) as [Erc|Erc]; cbn [negb].
  2: { unfold ret, after, value_of, trace_of. cbn [fst snd].
       split; [reflexivity|]. split; [|reflexivity].
       intros lp. split; [discriminate|]. intros (H & _ & _ & _ & Hq & _). congruence. }
  destruct (Z.eqb_spec (Z.of_nat (length (ldns_pkt_question lp0))) 1) as [Eqd|Eqd]; cbn [negb].
  2: { unfold ret, after, value_of, trace_of. cbn [fst snd].
       split; [reflexivity|]. split; [|reflexivity].
       intros lp. split; [discriminate|]. intros (H & _ & _ & _ & _ & Hq & _).
       congruence. }
  destruct (proj1 (singleton_length _) Eqd) as (q & Hq). rewrite Hq. cbn [nth_error].
  destruct (Z.eqb_spec (ldns_rr_get_type q) LDNS_RR_TYPE_A) as [Ety|Ety]; cbn [negb].
  2: { unfold ret, after, value_of, trace_of. cbn [fst snd].
       split; [reflexivity|]. split; [|reflexivity].
       intros lp. split; [discriminate|]. intros (H & _ & _ & _ & _ & _ & q' & Hq' & Ht).
       injection H as <-. rewrite Hq in Hq'. injection Hq' as <-. contradiction. }
  unfold ret, after, value_of, trace_of. cbn [fst snd].
  split; [reflexivity|]. split; [|reflexivity].
  intros lp. split.
  - intros H. injection H as <-.
    refine (conj eq_refl (conj Eqr (conj Erd (conj Era (conj Erc (conj Eqd _)))))).
    exists q. split; [exact Hq|exact Ety].
  - intros (H & _). injection H as <-. reflexivity.
Qed.

(** C3.  [dnsflow_dns_check] hands a packet on exactly when the payload
    parses and the parsed message has QR, RD and RA set, RCODE NOERROR, one
    question, and that question of type A.  A payload that does not parse
    leaves one log line carrying the text of the parse status; any other
    refusal, and an acceptance, leave no trace.  The worker is not touched. *)
Theorem dns_check_accepts
    (ldns_wire2pkt : list byte -> Z -> wire2pkt_result)
    (ldns_get_errorstr_by_id : ldns_status -> string)
    (pkt_len : Z) (dns_pkt : list byte) (w : worker) :
  let r := dnsflow_dns_check ldns_wire2pkt ldns_get_errorstr_by_id pkt_len dns_pkt w in
  after r = w
  /\ (forall lp,
        value_of r = Some lp <->
        ldns_wire2pkt dns_pkt pkt_len = Parsed lp
        /\ ldns_pkt_qr lp = true /\ ldns_pkt_rd lp = true /\ ldns_pkt_ra lp = true
        /\ ldns_pkt_get_rcode lp = LDNS_RCODE_NOERROR
        /\ ldns_pkt_qdcount lp = 1
        /\ exists q, ldns_pkt_question lp = [q] /\ ldns_rr_get_type q = LDNS_RR_TYPE_A)
  /\ match ldns_wire2pkt dns_pkt pkt_len with
     | ParseError status =>
         value_of r = None
         /\ trace_of r = [Log "Bad DNS pkt: %s" [ArgS (ldns_get_errorstr_by_id status)]]
     | Parsed _ => trace_of r = []
     end.
Proof.
  exact (dns_check_accepts_aux ldns_wire2pkt ldns_get_errorstr_by_id pkt_len dns_pkt w).
Qed.

Lemma dnsflow_dns_check_quiet
    (ldns_wire2pkt : list byte -> Z -> wire2pkt_result)
    (ldns_get_errorstr_by_id : ldns_status -> string)
    (pkt_len : Z) (dns_pkt : list byte) (w : worker) :
  let r := dnsflow_dns_check ldns_wire2pkt ldns_get_errorstr_by_id pkt_len dns_pkt w in
  after r = w /\ quiet (trace_of r)
  /\ (forall lp, value_of r = Some lp -> exists q, ldns_pkt_question lp = [q]).
Proof.
  pose proof (dns_check_accepts_aux ldns_wire2pkt ldns_get_errorstr_by_id pkt_len dns_pkt w)
    as (Ha & Hv & Ht).
  cbn zeta. split; [exact Ha|]. split.
  - revert Ht. destruct (ldns_wire2pkt dns_pkt pkt_len); intros Ht.
    + rewrite Ht. apply quiet_nil.
    + destruct Ht as (_ & ->). repeat split.
  - intros lp H. apply Hv in H. destruct H as (_ & _ & _ & _ & _ & _ & q & Hq & _).
    exists q. exact Hq.
Qed.

(** ** Every callback keeps the buffer and the numbering in order *)

Lemma step_ok_idle {A : Type} (a : A) (w : worker) (tr : list effect) :
  buf_inv w -> quiet tr -> step_ok w (a, w, tr).
Proof.
  intros Hinv (Hs & Hp & Hg). unfold step_ok, after, trace_of. cbn [fst snd].
  rewrite Hs. cbn [length map Z.of_nat]. rewrite Z.add_0_r.
  split; [exact Hinv|]. split; [reflexivity|]. split.
  - symmetry. apply u32_small. exact (proj1 Hinv).
  - intros _ H0. left. split; assumption.
Qed.

Lemma step_ok_after_quiet {A : Type} (w : worker) (r : A * worker * list effect)
    (tr : list effect) :
  quiet tr -> step_ok w r -> step_ok w (value_of r, after r, tr ++ trace_of r).
Proof.
  intros (Hs & Hp & Hg) (Hinv & Hseq & Hnext & Hdrop).
  unfold step_ok, after, trace_of, value_of in *. cbn [fst snd] in *.
  rewrite sends_app, stores_app, overflow_guard_hit_app, Hs, Hp, Hg. cbn [app orb].
  split; [exact Hinv|]. split; [exact Hseq|]. split; [exact Hnext|exact Hdrop].
Qed.

Lemma dnsflow_pkt_send_data_ok (now : Z) (w : worker) :
  buf_inv w -> step_ok w (dnsflow_pkt_send_data now w).
Proof.
  intros Hinv. destruct (Z.eq_dec (db_len w) 0) as [E|E].
  - rewrite dnsflow_pkt_send_data_empty by exact E.
    apply step_ok_idle; [exact Hinv|apply quiet_nil].
  - rewrite dnsflow_pkt_send_data_sends by exact E. cbn zeta.
    destruct Hinv as (Hseq & [H0|(Hlen & _)]); [contradiction|]. consts.
    unfold step_ok, after, trace_of. cbn [fst snd sends flat_map app map length].
    cbn [sequence_number db_len]. unfold seq_run. cbn [seq map Z.of_nat].
    rewrite Z.add_0_r, (u32_small (sequence_number w)) by exact Hseq.
    split; [|split; [|split]].
    + split; [apply u32_range|left; reflexivity].
    + rewrite seq_of_payload_stored by (try exact Hseq; lia). reflexivity.
    + reflexivity.
    + discriminate.
Qed.

Lemma dnsflow_push_cb_ok (now sent_at : Z) (w : worker) :
  buf_inv w -> step_ok w (dnsflow_push_cb now sent_at w).
Proof.
  intros Hinv. unfold dnsflow_push_cb, bind, get_last_send.
  destruct (now - last_send w >=? 1).
  - pose proof (dnsflow_pkt_send_data_ok sent_at w Hinv) as H.
    destruct (dnsflow_pkt_send_data sent_at w) as [[u w1] t1]. exact H.
  - apply step_ok_idle; [exact Hinv|apply quiet_nil].
Qed.

Lemma dnsflow_stats_cb_ok (ds : dcap_stat) (rate : Z) (w : worker) :
  buf_inv w -> step_ok w (dnsflow_stats_cb ds rate w).
Proof.
  intros (Hseq & Hbuf).
  destruct (dnsflow_stats_cb_spec ds rate w) as (Ha & Hs & Hp & Hg).
  unfold step_ok. rewrite Ha, Hs. cbn [sequence_number db_len map length].
  unfold seq_run. cbn [seq map Z.of_nat].
  rewrite Z.add_0_r, (u32_small (sequence_number w)) by exact Hseq.
  split; [|split; [|split]].
  - split; [apply u32_range|exact Hbuf].
  - rewrite seq_of_stats_payload by exact Hseq. reflexivity.
  - reflexivity.
  - discriminate.
Qed.

Lemma overflow_guard_hit_true (now : Z) (client_ip : in_addr_t) (d : dns_data_set)
    (w : worker) :
  0 <= db_len w < DNSFLOW_PKT_TARGET_SIZE ->
  names_end (db_len w) d > DNSFLOW_PKT_MAX_SIZE - 1 ->
  overflow_guard_hit (trace_of (dnsflow_pkt_build now client_ip d w)) = true.
Proof.
  intros Hl Hover.
  destruct (overflow_guard_hit (trace_of (dnsflow_pkt_build now client_ip d w))) eqn:E;
    [reflexivity|].
  apply overflow_guard_hit_iff in E; [lia|exact Hl].
Qed.

Lemma dnsflow_pkt_build_ok (now : Z) (client_ip : in_addr_t) (d : dns_data_set)
    (w : worker) :
  buf_inv w -> step_ok w (dnsflow_pkt_build now client_ip d w).
Proof.
  intros Hinv. destruct (buf_inv_len w Hinv) as (Hl & Hl8 & Hal).
  pose proof Hinv as (Hseq & _).
  destruct (Z_le_gt_dec (names_end (db_len w) d) (DNSFLOW_PKT_MAX_SIZE - 1)) as [Hfit|Hover].
  - destruct (dnsflow_pkt_build_summary now client_ip d w Hinv Hfit)
      as (_ & _ & _ & [(HL & Hsc & Hlen & Hcount & Hsends & Hsn)
                      |(_ & Hlen & _ & Hsends & Hfield & Hsn)]).
    + unfold step_ok. rewrite Hsends, Hlen, Hsn.
      cbn [map length Z.of_nat]. rewrite Z.add_0_r.
      pose proof (layout_order (db_len w) d) as (Hns & Hne & Hpe & Hbl).
      pose proof (set_start_ge (db_len w) Hl8) as Hst.
      pose proof (pad_count_aligned (names_end (db_len w) d)) as Hpa.
      fold (padded_end (db_len w) d) in Hpa.
      pose proof (next_sets_count_range w Hinv) as Hr.
      split; [|split; [|split]].
      * unfold buf_inv. rewrite Hlen, Hsn, Hcount. split; [exact Hseq|].
        right. unfold built_len in *. consts.
        repeat split; try lia. Z.div_mod_to_equations. lia.
      * reflexivity.
      * symmetry. apply u32_small. exact Hseq.
      * intros _ H0. exfalso. unfold built_len in *. consts. lia.
    + unfold step_ok. rewrite Hsends, Hlen, Hsn.
      cbn [map length Z.of_nat]. unfold seq_run. cbn [seq map Z.of_nat].
      rewrite Z.add_0_r, (u32_small (sequence_number w)) by exact Hseq.
      pose proof (layout_order (db_len w) d) as (Hns & Hne & Hpe & Hbl).
      pose proof (set_start_ge (db_len w) Hl8) as Hst. consts.
      split; [|split; [|split]].
      * unfold buf_inv. rewrite Hlen, Hsn. split; [apply u32_range|left; reflexivity].
      * rewrite seq_of_payload_load by lia. rewrite Hfield, be_value_be32.
        rewrite u32_small by exact Hseq. reflexivity.
      * reflexivity.
      * discriminate.
  - pose proof (overflow_guard_hit_true now client_ip d w Hl Hover) as Hg.
    destruct w as [s l m ls sc]. cbn [db_len sequence_number] in *.
    destruct (dnsflow_pkt_build_overflow now client_ip d s l m ls sc Hl Hover)
      as (m' & tr & Heq & Hlog & Hsend & Hst).
    rewrite Heq in *. unfold step_ok, after, trace_of in *. cbn [fst snd] in *.
    rewrite Hsend. cbn [map length Z.of_nat sequence_number db_len].
    rewrite Z.add_0_r. split; [|split; [|split]].
    + split; [exact Hseq|left; reflexivity].
    + reflexivity.
    + symmetry. apply u32_small. exact Hseq.
    + intros _ _. right. exact Hg.
Qed.

Section Callbacks.

Variable ldns_wire2pkt : list byte -> Z -> wire2pkt_result.
Variable ldns_get_errorstr_by_id : ldns_status -> string.
Variable cfg : config.

Lemma dnsflow_dcap_cb_ok (now pkt_len : Z) (ip_pkt : list byte) (w : worker) :
  buf_inv w ->
  step_ok w (dnsflow_dcap_cb ldns_wire2pkt ldns_get_errorstr_by_id cfg now pkt_len ip_pkt w).
Proof.
  intros Hinv. unfold dnsflow_dcap_cb.
  destruct (dcap_cb_dns_call cfg pkt_len ip_pkt) as [c|];
    [|apply step_ok_idle; [exact Hinv|apply quiet_nil]].
  unfold bind.
  pose proof (dnsflow_dns_check_quiet ldns_wire2pkt ldns_get_errorstr_by_id (dns_pkt_len c)
                (skipn (Z.to_nat (dns_pkt c)) ip_pkt) w) as H1.
  destruct (dnsflow_dns_check ldns_wire2pkt ldns_get_errorstr_by_id (dns_pkt_len c)
              (skipn (Z.to_nat (dns_pkt c)) ip_pkt) w) as [[olp w1] t1].
  unfold after, trace_of, value_of in H1. cbn [fst snd] in H1.
  destruct H1 as (-> & Q1 & Hq).
  destruct olp as [lp|].
  2: { unfold ret. apply step_ok_idle; [exact Hinv|].
       apply quiet_app; [exact Q1|apply quiet_nil]. }
  destruct (Hq lp eq_refl) as (q & Hquestion).
  pose proof (dnsflow_dns_extract_spec lp q [] w Hquestion) as H2.
  destruct (dnsflow_dns_extract lp w) as [[od w2] t2].
  unfold after, trace_of, value_of in H2. cbn [fst snd] in H2.
  destruct H2 as (-> & Q2 & _).
  destruct od as [d|].
  2: { unfold ret. apply step_ok_idle; [exact Hinv|].
       apply quiet_app; [exact Q1|]. apply quiet_app; [exact Q2|apply quiet_nil]. }
  pose proof (dnsflow_pkt_build_ok now (client_ip_arg c) d w Hinv) as H3.
  destruct (dnsflow_pkt_build now (client_ip_arg c) d w) as [[u w3] t3].
  apply (step_ok_after_quiet w (u, w3, t2 ++ t3) t1 Q1).
  apply (step_ok_after_quiet w (u, w3, t3) t2 Q2). exact H3.
Qed.

Lemma handle_ok (ev : event) (w : worker) :
  buf_inv w -> step_ok w (handle ldns_wire2pkt ldns_get_errorstr_by_id cfg ev w).
Proof.
  intros Hinv. destruct ev as [now pkt_len ip_pkt|now sent_at|ds rate|now]; cbn [handle].
  - apply dnsflow_dcap_cb_ok. exact Hinv.
  - apply dnsflow_push_cb_ok. exact Hinv.
  - apply dnsflow_stats_cb_ok. exact Hinv.
  - apply dnsflow_pkt_send_data_ok. exact Hinv.
Qed.

Lemma seq_run_app (s : Z) (n1 n2 : nat) :
  0 <= s ->
  seq_run s (n1 + n2) = seq_run s n1 ++ seq_run (u32 (s + Z.of_nat n1)) n2.
Proof.
  intros Hs. unfold seq_run. rewrite seq_app, map_app. f_equal.
  cbn [Nat.add]. rewrite map_seq_from. apply map_ext. intros k.
  unfold u32. rewrite Zplus_mod_idemp_l. f_equal. lia.
Qed.

(** A run from a state in order ends in order, and numbers what it sends
    consecutively from the counter it starts with. *)
Lemma run_ok (evs : list event) :
  forall w, buf_inv w ->
    let r := run ldns_wire2pkt ldns_get_errorstr_by_id cfg evs w in
    buf_inv (after r)
    /\ map seq_of_payload (sends (trace_of r)) =
       seq_run (sequence_number w) (length (sends (trace_of r))).
Proof.
  induction evs as [|ev rest IH]; intros w Hinv; cbn [run].
  - unfold ret, after, trace_of. cbn [fst snd sends flat_map map length].
    split; [exact Hinv|reflexivity].
  - unfold bind.
    pose proof (handle_ok ev w Hinv) as H1.
    destruct (handle ldns_wire2pkt ldns_get_errorstr_by_id cfg ev w) as [[u w1] t1].
    unfold step_ok, after, trace_of in H1. cbn [fst snd] in H1.
    destruct H1 as (Hinv1 & Hseq1 & Hnext1 & _).
    pose proof (IH w1 Hinv1) as H2.
    destruct (run ldns_wire2pkt ldns_get_errorstr_by_id cfg rest w1) as [[u2 w2] t2].
    unfold after, trace_of in *. cbn [fst snd] in *.
    destruct H2 as (Hinv2 & Hseq2).
    split; [exact Hinv2|].
    rewrite sends_app, map_app, length_app, Hseq1, Hseq2, Hnext1.
    rewrite seq_run_app by (apply Hinv). reflexivity.
Qed.

(** Every state a worker reaches from its initial state is in order. *)
Lemma reachable_buf_inv (evs : list event) :
  buf_inv (after (run ldns_wire2pkt ldns_get_errorstr_by_id cfg evs initial_worker)).
Proof. exact (proj1 (run_ok evs initial_worker buf_inv_initial)). Qed.

End Callbacks.

(** ** Sequence numbers *)

Lemma nth_seq_run (s : Z) (n k : nat) :
  (k < n)%nat -> nth k (seq_run s n) 0 = u32 (s + Z.of_nat k).
Proof.
  intros Hk. unfold seq_run.
  set (f := fun j : nat => u32 (s + Z.of_nat j)).
  rewrite nth_indep with (d' := f 0%nat) by (rewrite length_map, length_seq; exact Hk).
  rewrite map_nth, seq_nth by exact Hk. reflexivity.
Qed.

(** C2.  In a run of a worker from its initial state, whatever the events,
    the buffers it emits, data and stats alike, carry the values of one
    counter that starts at 1 and goes up by one, modulo 2^32, with each
    emitted buffer: the k-th emitted buffer (from 0) carries 1 + k modulo
    2^32.  So the first carries 1, and each later one carries the number of
    the one before it plus one modulo 2^32, which is strictly greater
    unless the one before carries 4294967295. *)
Theorem sequence_numbers_consecutive
    (ldns_wire2pkt : list byte -> Z -> wire2pkt_result)
    (ldns_get_errorstr_by_id : ldns_status -> string)
    (cfg : config) (evs : list event) :
  let r := run ldns_wire2pkt ldns_get_errorstr_by_id cfg evs initial_worker in
  let sns := map seq_of_payload (sends (trace_of r)) in
  (forall k, (k < length sns)%nat -> nth k sns 0 = u32 (1 + Z.of_nat k))
  /\ (forall k, (S k < length sns)%nat ->
        nth (S k) sns 0 = u32 (nth k sns 0 + 1)
        /\ (nth k sns 0 < 4294967295 -> nth k sns 0 < nth (S k) sns 0)).
Proof.
  cbn zeta.
  destruct (run_ok ldns_wire2pkt ldns_get_errorstr_by_id cfg evs initial_worker
                   buf_inv_initial) as (_ & Hseq).
  cbn [initial_worker sequence_number] in Hseq.
  set (sns := map seq_of_payload _) in *.
  assert (Hlen : length sns = length (sends (trace_of
            (run ldns_wire2pkt ldns_get_errorstr_by_id cfg evs initial_worker))))
    by (unfold sns; apply length_map).
  rewrite <- Hlen in Hseq.
  assert (Hnth : forall k, (k < length sns)%nat -> nth k sns 0 = u32 (1 + Z.of_nat k)).
  { intros k Hk. rewrite Hseq. apply nth_seq_run. exact Hk. }
  split; [exact Hnth|].
  intros k Hk. rewrite (Hnth (S k)) by exact Hk. rewrite (Hnth k) by lia.
  unfold u32. rewrite Zplus_mod_idemp_l.
  replace (1 + Z.of_nat (S k)) with (1 + Z.of_nat k + 1) by lia.
  split; [reflexivity|]. intros Hlt.
  pose proof (Z.mod_pos_bound (1 + Z.of_nat k) 4294967296 ltac:(lia)) as Hb.
  rewrite <- (Zplus_mod_idemp_l (1 + Z.of_nat k) 1).
  rewrite (Z.mod_small (_ + 1)) by lia. lia.
Qed.

Lemma stats_ticks_sends (n : nat) :
  forall w,
    length (sends (trace_of (run no_parse no_errorstr no_encap (stats_ticks n) w))) = n.
Proof.
  induction n as [|n IH]; intros w.
  - reflexivity.
  - unfold stats_ticks. cbn [repeat run handle]. fold (stats_ticks n). unfold bind.
    pose proof (dnsflow_stats_cb_spec idle_stat 0 w) as (_ & Hs & _).
    destruct (dnsflow_stats_cb idle_stat 0 w) as [[u w1] t1].
    pose proof (IH w1) as H2.
    destruct (run no_parse no_errorstr no_encap (stats_ticks n) w1) as [[u2 w2] t2].
    unfold trace_of in *. cbn [fst snd] in *.
    rewrite sends_app, length_app, Hs, H2. reflexivity.
Qed.

Lemma sequence_numbers_wrap_aux (n : nat) :
  forall k, (k < n)%nat ->
    nth k (map seq_of_payload
               (sends (trace_of (run no_parse no_errorstr no_encap (stats_ticks n)
                                     initial_worker)))) 0
    = u32 (1 + Z.of_nat k).
Proof.
  intros k Hk.
  destruct (run_ok no_parse no_errorstr no_encap (stats_ticks n) initial_worker
                   buf_inv_initial) as (_ & Hseq).
  rewrite Hseq, stats_ticks_sends. cbn [initial_worker sequence_number].
  apply nth_seq_run. exact Hk.
Qed.

(** C2 as the specification words it fails: the counter is 32 bits wide, so
    in a run that emits 2^32 buffers the last one carries 0 after
    4294967295. *)
Lemma sequence_number_wraps :
  ~ strictly_increasing
      (map seq_of_payload
           (sends (trace_of (run no_parse no_errorstr no_encap
                                 (stats_ticks (Z.to_nat 4294967296)) initial_worker)))).
Proof.
  assert (HN : Z.of_nat (Z.to_nat 4294967296) = 4294967296) by (apply Z2Nat.id; lia).
  assert (HK : Z.of_nat (Z.to_nat 4294967294) = 4294967294) by (apply Z2Nat.id; lia).
  set (N := Z.to_nat 4294967296) in *. set (K := Z.to_nat 4294967294) in *.
  clearbody N K.
  pose proof (sequence_numbers_wrap_aux N) as Hnth.
  intros Hinc. specialize (Hinc K).
  set (sns := map seq_of_payload _) in *.
  assert (Hlen : length sns = N)
    by (unfold sns; rewrite length_map; apply stats_ticks_sends).
  rewrite Hlen in *.
  assert (HSK : (S K < N)%nat) by lia.
  specialize (Hinc HSK).
  rewrite (Hnth K) in Hinc by lia. rewrite (Hnth (S K)) in Hinc by lia.
  rewrite Nat2Z.inj_succ, HK in Hinc. vm_compute in Hinc. discriminate.
Qed.

(** ** The overflow guard *)

Lemma buf_inv_part_filled : buf_inv part_filled_worker.
Proof.
  exact (proj1 (dnsflow_pkt_build_ok 0 client_10_0_0_7 two_long_names initial_worker
                                     buf_inv_initial)).
Qed.

(** The guard at work: the buffer holds 532 octets, and the 255 names of
    255 octets of the next response would end at offset 65565. *)
Example overflow_guard_example :
  let r := dnsflow_pkt_build 0 client_10_0_0_7 largest_response part_filled_worker in
  db_len part_filled_worker = 532
  /\ names_end (db_len part_filled_worker) largest_response = 65565
  /\ db_len (after r) = 0
  /\ logs (trace_of r) = [("Pkt create error"%string, [])]
  /\ sends (trace_of r) = []
  /\ sequence_number (after r) = 1.
Proof. vm_compute. repeat split; reflexivity. Qed.

(** ** The outer checks *)

(** What [ip_udp_check] tests, for a captured length that is not negative:
    the captured length holds an IP header without options and a UDP
    header, the version is 4, the header length and the total length are
    within the captured length, the total length covers the header, the
    protocol is UDP, and header length plus UDP length are within the
    captured length.  There is no lower bound on the header length. *)
Lemma ip_udp_check_iff (frame : list byte) (pkt_len ip_pkt : Z) :
  0 <= pkt_len < 18446744073709551616 ->
  (exists v, ip_udp_check frame pkt_len ip_pkt = Some v) <->
  sizeof_ip + sizeof_udphdr <= pkt_len
  /\ ip_v frame ip_pkt = IPVERSION
  /\ ip_hl frame ip_pkt * 4 <= pkt_len
  /\ ip_hl frame ip_pkt * 4 <= ip_len frame ip_pkt <= pkt_len
  /\ ip_p frame ip_pkt = IPPROTO_UDP
  /\ ip_hl frame ip_pkt * 4 + uh_ulen frame (ip_pkt + ip_hl frame ip_pkt * 4) <= pkt_len.
Proof.
  intros Hlen. unfold ip_udp_check, ip4_check, udp4_check, to_size_t.
  rewrite Z.mod_small by exact Hlen.
  unfold sizeof_ip, sizeof_udphdr, IPVERSION, IPPROTO_UDP.
  destruct (Z.ltb_spec pkt_len 20) as [H1|H1]; [split; [intros (v & Hv); discriminate|lia]|].
  destruct (Z.eqb_spec (ip_v frame ip_pkt) 4); cbn [negb];
    [|split; [intros (v & Hv); discriminate|lia]].
  destruct (Z.ltb_spec pkt_len (ip_hl frame ip_pkt * 4));
    [split; [intros (v & Hv); discriminate|lia]|].
  destruct (Z.ltb_spec pkt_len (ip_len frame ip_pkt));
    [split; [intros (v & Hv); discriminate|lia]|].
  destruct (Z.ltb_spec (ip_len frame ip_pkt) (ip_hl frame ip_pkt * 4));
    [split; [intros (v & Hv); discriminate|lia]|].
  destruct (Z.eqb_spec (ip_p frame ip_pkt) 17); cbn [negb];
    [|split; [intros (v & Hv); discriminate|lia]].
  destruct (Z.ltb_spec pkt_len (20 + 8)); [split; [intros (v & Hv); discriminate|lia]|].
  destruct (Z.ltb_spec pkt_len
              (ip_hl frame ip_pkt * 4 + uh_ulen frame (ip_pkt + ip_hl frame ip_pkt * 4)));
    [split; [intros (v & Hv); discriminate|lia]|].
  split; [intros _; lia|intros _; eexists; reflexivity].
Qed.

(** C7.  A frame whose IP header length is 4 octets passes the outer checks:
    [ip4_check] compares the captured length, not the header length, with
    the 20 octets of [struct ip].  The frame also satisfies the filter the
    program installs by default, so it can reach the callback. *)
Theorem short_ip_header_passes :
  length short_header_frame = 28%nat
  /\ ip_v short_header_frame 0 = IPVERSION
  /\ ip_hl short_header_frame 0 * 4 = 4
  /\ ip_udp_check short_header_frame 28 0 = Some (mk_udp_view 0 4 12)
  /\ eval_filter short_header_frame (build_pcap_filter 0 1 1 false) = true.
Proof. vm_compute. repeat split; reflexivity. Qed.

(** ** What the callback hands on *)

Lemma dcap_cb_dns_call_spec (cfg : config) (pkt_len : Z) (ip_pkt : list byte) (c : dns_call) :
  dcap_cb_dns_call cfg pkt_len ip_pkt = Some c ->
  exists v,
    dcap_cb_decap cfg pkt_len ip_pkt = Some v
    /\ dns_pkt c = v_udphdr v + sizeof_udphdr
    /\ dns_pkt_len c = uh_ulen ip_pkt (v_udphdr v)
    /\ client_ip_arg c = ip_dst ip_pkt (v_ip v).
Proof.
  unfold dcap_cb_dns_call. intros H.
  destruct (dcap_cb_decap cfg pkt_len ip_pkt) as [v|] eqn:E; [|discriminate].
  injection H as <-. exists v. cbn [dns_pkt dns_pkt_len client_ip_arg].
  repeat split.
  unfold dcap_cb_decap in E.
  destruct (ip_udp_check ip_pkt pkt_len 0) as [v0|] eqn:E0; [|discriminate].
  assert (Hview : forall fr len p v', ip_udp_check fr len p = Some v' ->
                                      v_udp_data v' = v_udphdr v' + sizeof_udphdr).
  { intros fr len p v'. unfold ip_udp_check.
    destruct (ip4_check fr len p); [|discriminate].
    destruct (udp4_check fr len z); [|discriminate].
    intros H'. injection H' as <-. reflexivity. }
  match type of E with
  | (if ?b then _ else _) = _ => destruct b
  end.
  - unfold ip_encap_check in E.
    match type of E with
    | (if ?b then _ else _) = _ => destruct b; [discriminate|]
    end.
    eapply Hview. exact E.
  - injection E as <-. eapply Hview. exact E0.
Qed.

(** C8.  For the response to client 10.0.0.7, whose UDP length field is 53
    and whose UDP payload is the 45 octets from offset 28 to the end of the
    captured frame, the callback calls [dnsflow_dns_check] with the pointer
    to the payload and the client address of the claim, but with length 53:
    the UDP length field as it is, the 8 octets of the UDP header
    included. *)
Theorem dns_length_includes_udp_header :
  length example_com_frame = 73%nat
  /\ dcap_cb_dns_call no_encap 73 example_com_frame
     = Some (mk_dns_call 53 28 client_10_0_0_7)
  /\ uh_ulen example_com_frame 20 - sizeof_udphdr = 45
  /\ length (skipn 28 example_com_frame) = 45%nat.
Proof. vm_compute. repeat split; reflexivity. Qed.

(** ** The shard clause *)

Lemma be_value_range (bs : list byte) :
  forall acc, 0 <= acc -> 0 <= be_value bs acc < (acc + 1) * 256 ^ Z.of_nat (length bs).
Proof.
  induction bs as [|b bs IH]; intros acc Hacc.
  - cbn [be_value length Z.of_nat]. lia.
  - cbn [be_value length]. rewrite Nat2Z.inj_succ, Z.pow_succ_r by lia.
    pose proof (Z_of_byte_range b) as Hb.
    specialize (IH (acc * 256 + Z_of_byte b) ltac:(lia)).
    assert (0 < 256 ^ Z.of_nat (length bs)) by (apply Z.pow_pos_nonneg; lia).
    nia.
Qed.

Lemma load_be_32_range (ip_pkt : list byte) (off c : Z) :
  load_be ip_pkt off 4 = Some c -> 0 <= c < 4294967296.
Proof.
  unfold load_be.
  destruct ((0 <=? off) && (off + 4 <=? Z.of_nat (length ip_pkt))); [|discriminate].
  intros H.
  assert (Hc : c = be_value (firstn (Z.to_nat 4) (skipn (Z.to_nat off) ip_pkt)) 0)
    by congruence.
  rewrite Hc. clear H Hc.
  pose proof (be_value_range (firstn (Z.to_nat 4) (skipn (Z.to_nat off) ip_pkt)) 0
                             ltac:(lia)) as Hr.
  pose proof (firstn_le_length (Z.to_nat 4) (skipn (Z.to_nat off) ip_pkt)) as Hl.
  assert (256 ^ Z.of_nat (length (firstn (Z.to_nat 4) (skipn (Z.to_nat off) ip_pkt)))
          <= 256 ^ 4) by (apply Z.pow_le_mono_r; lia).
  change (256 ^ 4) with 4294967296 in *.
  set (E := 256 ^ Z.of_nat _) in *. clearbody E. lia.
Qed.

Lemma shard_clause_eval (ip_pkt : list byte) (ip_offset proc_i num_procs c : Z) :
  1 < num_procs < 2147483648 ->
  1 <= proc_i <= num_procs ->
  load_be ip_pkt (16 + ip_offset) 4 = Some c ->
  eval_filter ip_pkt (shard_clause ip_offset proc_i num_procs)
  = (c mod num_procs =? proc_i - 1).
Proof.
  intros Hn Hi Hload. pose proof (load_be_32_range _ _ _ Hload) as Hc.
  unfold shard_clause. cbn [eval_filter]. unfold eval_rel. cbn [eval_arth].
  rewrite Hload. rewrite !(u32_small num_procs), (u32_small (proc_i - 1)) by lia.
  destruct (Z.eqb_spec num_procs 0) as [E|E]; [lia|].
  pose proof (Z.mod_pos_bound c num_procs ltac:(lia)) as Hm.
  pose proof (Z.div_mod c num_procs ltac:(lia)) as Hd.
  assert (Hq : 0 <= c / num_procs) by (apply Z.div_pos; lia).
  rewrite (u32_small (c / num_procs * num_procs)) by nia.
  rewrite u32_small by nia. f_equal. lia.
Qed.

(** *** The response part of the filter *)

(** The mask [0x8187] and the value [0x8180]: bits 15, 8 and 7 set, bits 2,
    1 and 0 clear, nothing said of the other bits. *)
Lemma flags_mask_bits (f : Z) :
  Z.land f 33159 = 33152 <->
  Z.testbit f 15 = true /\ Z.testbit f 8 = true /\ Z.testbit f 7 = true
  /\ Z.testbit f 2 = false /\ Z.testbit f 1 = false /\ Z.testbit f 0 = false.
Proof.
  split.
  - intros H.
    assert (Hb : forall i, Z.testbit f i && Z.testbit 33159 i = Z.testbit 33152 i)
      by (intros i; rewrite <- Z.land_spec, H; reflexivity).
    pose proof (Hb 15) as H15. pose proof (Hb 8) as H8. pose proof (Hb 7) as H7.
    pose proof (Hb 2) as H2. pose proof (Hb 1) as H1. pose proof (Hb 0) as H0.
    cbn in H15, H8, H7, H2, H1, H0. rewrite andb_true_r in *.
    repeat split; assumption.
  - intros (H15 & H8 & H7 & H2 & H1 & H0).
    apply Z.bits_inj'. intros n Hn. rewrite Z.land_spec.
    destruct (Z.ltb_spec n 16) as [Hlow|Hhigh].
    + rewrite <- (Z2Nat.id n Hn).
      assert (Hk : (Z.to_nat n < 16)%nat) by lia.
      set (k := Z.to_nat n) in *. clearbody k.
      do 16 (destruct k as [|k];
             [cbn; rewrite ?andb_false_r, ?andb_true_r; try reflexivity; assumption|]).
      lia.
    + rewrite (Z.bits_above_log2 33159 n), (Z.bits_above_log2 33152 n)
        by (try lia; change (Z.log2 33159) with 15; change (Z.log2 33152) with 15; lia).
      apply andb_false_r.
Qed.

Lemma first_fragment_spec (ip_pkt : list byte) :
  first_fragment ip_pkt = true <->
  exists frag, load_be ip_pkt 6 2 = Some frag /\ Z.land frag 8191 = 0.
Proof.
  unfold first_fragment. destruct (load_be ip_pkt 6 2) as [frag|].
  - rewrite Z.eqb_eq. split.
    + intros H. exists frag. split; [reflexivity|exact H].
    + intros (f & Hf & H). injection Hf as ->. exact H.
  - split; [discriminate|]. intros (f & Hf & _). discriminate.
Qed.

Lemma eval_rel_udp_load (ip_pkt : list byte) (off k : Z) :
  eval_rel ip_pkt (Load proto_udp off 2) (Num k) = true <->
  ip_p ip_pkt 0 = IPPROTO_UDP /\ first_fragment ip_pkt = true
  /\ load_be ip_pkt (ip_hl ip_pkt 0 * 4 + off) 2 = Some k.
Proof.
  unfold eval_rel. cbn [eval_arth].
  destruct (Z.eqb_spec (ip_p ip_pkt 0) IPPROTO_UDP) as [Hp|Hp]; cbn [andb].
  2:{ split; [discriminate|]. intros (H & _). contradiction. }
  destruct (first_fragment ip_pkt).
  2:{ split; [discriminate|]. intros (_ & H & _). discriminate. }
  destruct (load_be ip_pkt (ip_hl ip_pkt 0 * 4 + off) 2) as [x|].
  - split.
    + intros H. split; [exact Hp|]. split; [reflexivity|]. f_equal. lia.
    + intros (_ & _ & H). injection H as ->. lia.
  - split; [discriminate|]. intros (_ & _ & H). discriminate.
Qed.

Lemma eval_rel_udp_mask (ip_pkt : list byte) (off mask k : Z) :
  eval_rel ip_pkt (BitAnd (Load proto_udp off 2) (Num mask)) (Num k) = true <->
  ip_p ip_pkt 0 = IPPROTO_UDP /\ first_fragment ip_pkt = true
  /\ exists f, load_be ip_pkt (ip_hl ip_pkt 0 * 4 + off) 2 = Some f /\ Z.land f mask = k.
Proof.
  unfold eval_rel. cbn [eval_arth].
  destruct (Z.eqb_spec (ip_p ip_pkt 0) IPPROTO_UDP) as [Hp|Hp]; cbn [andb].
  2:{ split; [discriminate|]. intros (H & _). contradiction. }
  destruct (first_fragment ip_pkt).
  2:{ split; [discriminate|]. intros (_ & H & _). discriminate. }
  destruct (load_be ip_pkt (ip_hl ip_pkt 0 * 4 + off) 2) as [x|].
  - split.
    + intros H. split; [exact Hp|]. split; [reflexivity|].
      exists x. split; [reflexivity|lia].
    + intros (_ & _ & f & Hf & Hm). injection Hf as ->. lia.
  - split; [discriminate|]. intros (_ & _ & f & Hf & _). discriminate.
Qed.

(** The filter of a single process, read on the packet. *)
Lemma single_process_filter_spec (ip_pkt : list byte) (encap_offset : Z)
    (enable_mdns : bool) :
  eval_filter ip_pkt (build_pcap_filter encap_offset 1 1 enable_mdns) = true <->
  dns_response_packet encap_offset enable_mdns ip_pkt.
Proof.
  unfold dns_response_packet. cbv zeta.
  unfold build_pcap_filter, multi_proc_filter.
  change (1 >? 1) with false. cbn iota.
  set (udp_offset := if negb (encap_offset =? 0)
                     then sizeof_udphdr + encap_offset + sizeof_ip else 0).
  unfold dns_resp_filter. cbn [eval_filter].
  rewrite andb_false_l, orb_false_r, !andb_true_iff, Z.eqb_eq, eval_rel_udp_mask.
  rewrite <- first_fragment_spec.
  assert (Hport : eval_filter ip_pkt (port_filter udp_offset enable_mdns) = true <->
            ip_p ip_pkt 0 = IPPROTO_UDP /\ first_fragment ip_pkt = true
            /\ (load_be ip_pkt (ip_hl ip_pkt 0 * 4 + (0 + udp_offset)) 2 = Some 53
                \/ (enable_mdns = true
                    /\ load_be ip_pkt (ip_hl ip_pkt 0 * 4 + (0 + udp_offset)) 2
                       = Some 5353))).
  { unfold port_filter. destruct enable_mdns; cbn [eval_filter].
    - rewrite orb_true_iff, !eval_rel_udp_load. tauto.
    - rewrite eval_rel_udp_load. split; [tauto|].
      intros (Hu & Hf & [H|[H _]]); [tauto|discriminate]. }
  rewrite Hport. split.
  - intros ((Hu & _ & Hfr & Hp) & _ & _ & f & Hf & Hm).
    split; [exact Hu|]. split; [exact Hfr|]. split; [exact Hp|].
    exists f. split; [exact Hf|]. apply flags_mask_bits. exact Hm.
  - intros (Hu & Hfr & Hp & f & Hf & Hbits).
    split; [split; [exact Hu|split; [exact Hu|split; assumption]]|].
    split; [exact Hu|]. split; [exact Hfr|].
    exists f. split; [exact Hf|]. apply flags_mask_bits. exact Hbits.
Qed.

(** C9.  With more than one worker, and a packet whose destination address
    at the offset the filter reads is [c]: the shard clause of worker
    [proc_i] holds exactly when [c mod num_procs = proc_i - 1]; so it holds
    for worker [c mod num_procs + 1] and for no other.  The whole filter of
    a worker accepts the packet exactly when the filter of a single process
    does and the clause holds, that is, exactly when the packet is a DNS
    response as the filter tests it and [c mod num_procs = proc_i - 1]; so
    such a response is accepted by the filter of worker
    [c mod num_procs + 1] and by no other worker's. *)
Theorem shard_exactly_one (ip_pkt : list byte) (encap_offset num_procs c : Z)
    (enable_mdns : bool) :
  1 < num_procs < 2147483648 ->
  let ip_offset :=
    if negb (encap_offset =? 0) then sizeof_ip + sizeof_udphdr + encap_offset else 0 in
  load_be ip_pkt (16 + ip_offset) 4 = Some c ->
  0 <= c < 4294967296
  /\ (forall proc_i, 1 <= proc_i <= num_procs ->
        (eval_filter ip_pkt (shard_clause ip_offset proc_i num_procs) = true
         <-> c mod num_procs = proc_i - 1)
        /\ eval_filter ip_pkt (build_pcap_filter encap_offset proc_i num_procs enable_mdns)
           = eval_filter ip_pkt (build_pcap_filter encap_offset 1 1 enable_mdns)
             && eval_filter ip_pkt (shard_clause ip_offset proc_i num_procs)
        /\ (eval_filter ip_pkt (build_pcap_filter encap_offset proc_i num_procs enable_mdns)
            = true
            <-> dns_response_packet encap_offset enable_mdns ip_pkt
                /\ c mod num_procs = proc_i - 1))
  /\ (exists proc_i,
         1 <= proc_i <= num_procs
         /\ eval_filter ip_pkt (shard_clause ip_offset proc_i num_procs) = true
         /\ forall other, 1 <= other <= num_procs ->
              eval_filter ip_pkt (shard_clause ip_offset other num_procs) = true ->
              other = proc_i)
  /\ (dns_response_packet encap_offset enable_mdns ip_pkt ->
      let proc_i := c mod num_procs + 1 in
      1 <= proc_i <= num_procs
      /\ eval_filter ip_pkt (build_pcap_filter encap_offset proc_i num_procs enable_mdns)
         = true
      /\ forall other, 1 <= other <= num_procs ->
           eval_filter ip_pkt (build_pcap_filter encap_offset other num_procs enable_mdns)
           = true ->
           other = proc_i).
Proof.
  intros Hn ip_offset Hload.
  pose proof (load_be_32_range _ _ _ Hload) as Hc.
  pose proof (Z.mod_pos_bound c num_procs ltac:(lia)) as Hm.
  assert (Hfull : forall proc_i, 1 <= proc_i <= num_procs ->
            eval_filter ip_pkt (build_pcap_filter encap_offset proc_i num_procs enable_mdns)
            = eval_filter ip_pkt (build_pcap_filter encap_offset 1 1 enable_mdns)
              && (c mod num_procs =? proc_i - 1)).
  { intros proc_i Hi. unfold build_pcap_filter, multi_proc_filter. fold ip_offset.
    destruct (Z.gtb_spec num_procs 1) as [_|H]; [|lia].
    change (1 >? 1) with false. cbn iota. cbn [eval_filter].
    rewrite (shard_clause_eval _ _ _ _ _ Hn Hi Hload).
    cbn [andb]. rewrite !orb_false_r. reflexivity. }
  assert (Hiff : forall proc_i, 1 <= proc_i <= num_procs ->
            (eval_filter ip_pkt
               (build_pcap_filter encap_offset proc_i num_procs enable_mdns) = true
             <-> dns_response_packet encap_offset enable_mdns ip_pkt
                 /\ c mod num_procs = proc_i - 1)).
  { intros proc_i Hi. rewrite (Hfull proc_i Hi), andb_true_iff, Z.eqb_eq.
    rewrite single_process_filter_spec. reflexivity. }
  split; [exact Hc|]. split; [|split].
  - intros proc_i Hi. rewrite (shard_clause_eval _ _ _ _ _ Hn Hi Hload). split; [|split].
    + split; intros H; lia.
    + apply Hfull. exact Hi.
    + apply Hiff. exact Hi.
  - exists (c mod num_procs + 1). split; [lia|]. split.
    + rewrite (shard_clause_eval ip_pkt ip_offset (c mod num_procs + 1) num_procs c Hn
                                 ltac:(lia) Hload). lia.
    + intros other Ho H. rewrite (shard_clause_eval _ _ _ _ _ Hn Ho Hload) in H. lia.
  - intros Hresp. cbv zeta. split; [lia|]. split.
    + apply Hiff; [lia|]. split; [exact Hresp|lia].
    + intros other Ho H. apply (Hiff other Ho) in H. lia.
Qed.

Lemma shard_exactly_one_witness :
  1 < 4 < 2147483648
  /\ load_be example_com_frame (16 + 0) 4 = Some 167772167
  /\ dns_response_packet 0 false example_com_frame
  /\ 0 <= 167772167 < 4294967296
  /\ (forall proc_i, 1 <= proc_i <= 4 ->
        (eval_filter example_com_frame (shard_clause 0 proc_i 4) = true
         <-> 167772167 mod 4 = proc_i - 1)
        /\ eval_filter example_com_frame (build_pcap_filter 0 proc_i 4 false)
           = eval_filter example_com_frame (build_pcap_filter 0 1 1 false)
             && eval_filter example_com_frame (shard_clause 0 proc_i 4)
        /\ (eval_filter example_com_frame (build_pcap_filter 0 proc_i 4 false) = true
            <-> dns_response_packet 0 false example_com_frame
                /\ 167772167 mod 4 = proc_i - 1))
  /\ (exists proc_i,
         1 <= proc_i <= 4
         /\ eval_filter example_com_frame (shard_clause 0 proc_i 4) = true
         /\ forall other, 1 <= other <= 4 ->
              eval_filter example_com_frame (shard_clause 0 other 4) = true ->
              other = proc_i)
  /\ (dns_response_packet 0 false example_com_frame ->
      let proc_i := 167772167 mod 4 + 1 in
      1 <= proc_i <= 4
      /\ eval_filter example_com_frame (build_pcap_filter 0 proc_i 4 false) = true
      /\ forall other, 1 <= other <= 4 ->
           eval_filter example_com_frame (build_pcap_filter 0 other 4 false) = true ->
           other = proc_i).
Proof.
  assert (H1 : 1 < 4 < 2147483648) by lia.
  assert (H2 : load_be example_com_frame (16 + 0) 4 = Some 167772167) by reflexivity.
  assert (H3 : dns_response_packet 0 false example_com_frame).
  { split; [reflexivity|]. split; [exists 0; split; reflexivity|].
    split; [left; reflexivity|]. exists 33152. repeat split. }
  split; [exact H1|]. split; [exact H2|]. split; [exact H3|].
  exact (shard_exactly_one example_com_frame 0 4 167772167 false H1 H2).
Defined.

(** The response to client 10.0.0.7 among four workers: 10.0.0.7 is
    167772167, which is 3 modulo 4, so worker 4 takes it and workers 1 to 3
    do not. *)
Example four_workers :
  map (fun proc_i => eval_filter example_com_frame (build_pcap_filter 0 proc_i 4 false))
      [1; 2; 3; 4]
  = [false; false; false; true].
Proof. reflexivity. Qed.

(** ** The extent of the stores of an append *)

(** C10.  An append to the empty buffer of a response within the stated
    limits, 255 names of 255 octets and 255 addresses, is not ended by the
    overflow guard, since its names end at offset 65041; its padding and
    addresses are stored without a test, and the last store ends at offset
    66064, beyond the 65535 octets of the packet area and beyond the 65563
    octets reserved for it. *)
Theorem append_writes_past_the_area :
  let r := dnsflow_pkt_build 0 client_10_0_0_7 largest_response initial_worker in
  db_len initial_worker = 0
  /\ length (names largest_response) = 255%nat
  /\ forallb (fun nm => (length nm =? 255)%nat) (names largest_response) = true
  /\ length (ips largest_response) = 255%nat
  /\ names_end (db_len initial_worker) largest_response = 65041
  /\ overflow_guard_hit (trace_of r) = false
  /\ existsb (fun s => (fst s =? 65532) && (snd s =? 4)) (stores (trace_of r)) = true
  /\ write_extent (trace_of r) = 66064
  /\ forallb (fun s => fst s + snd s <=? DNSFLOW_PKT_MAX_SIZE) (stores (trace_of r)) = false
  /\ data_buf_reserved = 65563.
Proof.
  cbn zeta. unfold initial_worker. cbn [db_len].
  assert (Hfit : names_end 0 largest_response <= DNSFLOW_PKT_MAX_SIZE - 1)
    by (vm_compute; discriminate).
  assert (Hbig : (built_len 0 largest_response >=? DNSFLOW_PKT_TARGET_SIZE) = true)
    by (vm_compute; reflexivity).
  rewrite dnsflow_pkt_build_fits by (try exact Hfit; unfold DNSFLOW_PKT_TARGET_SIZE; lia).
  cbn zeta. rewrite Hbig. cbn [orb]. unfold trace_of, write_extent. cbn [snd].
  rewrite !stores_app, overflow_guard_hit_app.
  destruct (built_trace_stores 0 largest_response) as (_ & _ & Hguard).
  rewrite Hguard. cbn [stores flat_map app overflow_guard_hit existsb orb].
  split; [reflexivity|]. split; [reflexivity|]. split; [vm_compute; reflexivity|].
  split; [reflexivity|]. split; [vm_compute; reflexivity|]. split; [reflexivity|].
  split; [vm_compute; reflexivity|]. split; [vm_compute; reflexivity|].
  split; [vm_compute; reflexivity|reflexivity].
Qed.

(** ** Scenarios of the specification *)

(** Scenarios 1 and 3: the response for [example.com.] is captured, and the
    push timer fires a second later and once more after that.  One buffer
    is emitted, with one set and sequence number 1. *)
Example single_response_then_push :
  sends (trace_of (run parse_example_com no_errorstr no_encap
                       [Packet 0 73 example_com_frame; PushTimer 1 1; PushTimer 2 2]
                       initial_worker))
  = [[x02; x01; x00; x00; x00; x00; x00; x01]
     ++ [x0a; x00; x00; x07; x01; x01; x00; x10]
     ++ example_com ++ [x00; x00; x00] ++ [x5d; xb8; xd8; x22]].
Proof. vm_compute. reflexivity. Qed.

(** Scenario 5: a response with RCODE SERVFAIL, or a query, adds nothing
    to the buffer and leaves no trace. *)
Example refused_responses :
  forall (errstr : ldns_status -> string) (w : worker),
    let servfail := mk_pkt true true true 2 (ldns_pkt_question example_com_pkt)
                           (ldns_pkt_answer example_com_pkt) in
    let query := mk_pkt false true true 0 (ldns_pkt_question example_com_pkt) [] in
    dnsflow_dns_check (fun _ _ => Parsed servfail) errstr 53 [] w = (None, w, [])
    /\ dnsflow_dns_check (fun _ _ => Parsed query) errstr 53 [] w = (None, w, []).
Proof. intros errstr w. split; reflexivity. Qed.

(** Scenario 6: the stats timer with counters (100, 120, 5, 0) and sample
    rate 4 emits one buffer: one set, the STATS flag, and the five values
    in network order. *)
Example stats_record :
  sends (trace_of (dnsflow_stats_cb (mk_dcap_stat 100 120 5 0 true) 4 initial_worker))
  = [[x02; x01; x00; x01; x00; x00; x00; x01;
      x00; x00; x00; x64; x00; x00; x00; x78; x00; x00; x00; x05;
      x00; x00; x00; x00; x00; x00; x00; x04]].
Proof. vm_compute. reflexivity. Qed.

(** * Further properties of the code *)

(** ** The outer checks, for every captured length *)

Lemma ip_hl_range (frame : list byte) (p : Z) : 0 <= ip_hl frame p < 16.
Proof. unfold ip_hl. apply Z.mod_pos_bound. lia. Qed.

Lemma to_size_t_int (z : Z) :
  -2147483648 <= z < 2147483648 ->
  (0 <= z /\ to_size_t z = z) \/ (z < 0 /\ sizeof_ip + sizeof_udphdr <= to_size_t z).
Proof.
  intros H. unfold to_size_t, sizeof_ip, sizeof_udphdr.
  destruct (Z.lt_ge_cases z 0) as [Hn|Hp].
  - right. split; [exact Hn|]. Z.div_mod_to_equations. lia.
  - left. split; [exact Hp|]. apply Z.mod_small. lia.
Qed.

(** X1.  The outer checks on a captured length of any sign ([pkt_len] is an
    [int]): [ip_udp_check] succeeds exactly when the captured length holds
    28 octets, the version is 4, the total length lies between the header
    length and the captured length, the protocol is UDP and header length
    plus UDP length are within the captured length; the pointers it returns
    are then the start, the start plus the header length, and 8 octets
    further.  A negative captured length passes the two comparisons with
    [sizeof] (it is converted to [size_t]) and is refused by the first
    signed comparison. *)
Theorem ip_udp_check_accepts (frame : list byte) (pkt_len ip_pkt : Z) (v : udp_view) :
  -2147483648 <= pkt_len < 2147483648 ->
  ip_udp_check frame pkt_len ip_pkt = Some v <->
  (sizeof_ip + sizeof_udphdr <= pkt_len
   /\ ip_v frame ip_pkt = IPVERSION
   /\ ip_hl frame ip_pkt * 4 <= ip_len frame ip_pkt <= pkt_len
   /\ ip_p frame ip_pkt = IPPROTO_UDP
   /\ ip_hl frame ip_pkt * 4 + uh_ulen frame (ip_pkt + ip_hl frame ip_pkt * 4) <= pkt_len)
  /\ v = mk_udp_view ip_pkt (ip_pkt + ip_hl frame ip_pkt * 4)
                     (ip_pkt + ip_hl frame ip_pkt * 4 + sizeof_udphdr).
Proof.
  intros Hint. pose proof (to_size_t_int pkt_len Hint) as Hsz.
  pose proof (ip_hl_range frame ip_pkt) as Hhl.
  unfold ip_udp_check, ip4_check, udp4_check.
  unfold sizeof_ip, sizeof_udphdr, IPVERSION, IPPROTO_UDP in *.
  destruct (Z.ltb_spec (to_size_t pkt_len) 20) as [H1|H1]; [split; [discriminate|lia]|].
  destruct (Z.eqb_spec (ip_v frame ip_pkt) 4); cbn [negb]; [|split; [discriminate|lia]].
  destruct (Z.ltb_spec pkt_len (ip_hl frame ip_pkt * 4)); [split; [discriminate|lia]|].
  destruct (Z.ltb_spec pkt_len (ip_len frame ip_pkt)); [split; [discriminate|lia]|].
  destruct (Z.ltb_spec (ip_len frame ip_pkt) (ip_hl frame ip_pkt * 4));
    [split; [discriminate|lia]|].
  destruct (Z.eqb_spec (ip_p frame ip_pkt) 17); cbn [negb]; [|split; [discriminate|lia]].
  destruct (Z.ltb_spec (to_size_t pkt_len) (20 + 8)); [split; [discriminate|lia]|].
  destruct (Z.ltb_spec pkt_len
              (ip_hl frame ip_pkt * 4 + uh_ulen frame (ip_pkt + ip_hl frame ip_pkt * 4)));
    [split; [discriminate|lia]|].
  split.
  - intros Hv. injection Hv as <-. split; [lia|reflexivity].
  - intros [_ ->]. reflexivity.
Qed.

Lemma ip_udp_check_accepts_witness :
  -2147483648 <= 73 < 2147483648
  /\ (ip_udp_check example_com_frame 73 0 = Some (mk_udp_view 0 20 28) <->
      (sizeof_ip + sizeof_udphdr <= 73
       /\ ip_v example_com_frame 0 = IPVERSION
       /\ ip_hl example_com_frame 0 * 4 <= ip_len example_com_frame 0 <= 73
       /\ ip_p example_com_frame 0 = IPPROTO_UDP
       /\ ip_hl example_com_frame 0 * 4
          + uh_ulen example_com_frame (0 + ip_hl example_com_frame 0 * 4) <= 73)
      /\ mk_udp_view 0 20 28
         = mk_udp_view 0 (0 + ip_hl example_com_frame 0 * 4)
                       (0 + ip_hl example_com_frame 0 * 4 + sizeof_udphdr)).
Proof.
  split; [lia|].
  exact (ip_udp_check_accepts example_com_frame 73 0 (mk_udp_view 0 20 28) ltac:(lia)).
Defined.

(** ** What the projection hands to the batcher *)

Lemma Forall_firstn {A : Type} (P : A -> Prop) (n : nat) :
  forall l : list A, Forall P l -> Forall P (firstn n l).
Proof.
  induction n as [|n IH]; intros l H; [constructor|].
  destruct H as [|x l Hx Hl]; cbn [firstn]; constructor; [exact Hx|apply IH; exact Hl].
Qed.

Lemma kept_names_all (d : dns_data_set) :
  (length (names d) <= 255)%nat -> kept_names d = names d.
Proof. intros H. rewrite kept_names_firstn. apply firstn_all2. exact H. Qed.

Lemma kept_ips_all (d : dns_data_set) :
  (length (ips d) <= 255)%nat -> kept_ips d = ips d.
Proof. intros H. rewrite kept_ips_firstn. apply firstn_all2. exact H. Qed.

(** X2.  Whatever [dnsflow_dns_extract] returns fits [struct dns_data_set]
    and the one-octet counts of the set header: between 1 and 255 names,
    the first of which is the owner name of the question, between 1 and 255
    addresses, and no name longer than 255 octets.  Hence the two [MIN] of
    [dnsflow_pkt_build] never cut such a set: the names and addresses the
    append copies are all of them. *)
Theorem extracted_set_within_limits (lp : ldns_pkt) (w : worker) (d : dns_data_set) :
  value_of (dnsflow_dns_extract lp w) = Some d ->
  (1 <= length (names d) <= 255)%nat
  /\ (1 <= length (ips d) <= 255)%nat
  /\ Forall (fun nm => (length nm <= 255)%nat) (names d)
  /\ (exists q, ldns_rr_list_rr (ldns_pkt_question lp) 0 = Some q
                /\ nth_error (names d) 0 = Some (ldns_rdf_data (ldns_rr_owner q)))
  /\ kept_names d = names d
  /\ kept_ips d = ips d.
Proof.
  intros Hv.
  destruct (ldns_pkt_question lp) as [|q more] eqn:Eq.
  { unfold dnsflow_dns_extract, value_of in Hv. rewrite Eq in Hv. discriminate. }
  pose proof (dnsflow_dns_extract_spec lp q more w Eq) as (_ & _ & Hval & _).
  cbv zeta in Hval. rewrite Hv in Hval.
  destruct (name_fits (ldns_rdf_data (ldns_rr_owner q))) eqn:Efit; [|discriminate].
  destruct (a_rdata (ldns_pkt_answer lp)) as [|a rest] eqn:Ea; [discriminate|].
  assert (Hd : d = mk_dns_data
                     (firstn 255 (ldns_rdf_data (ldns_rr_owner q)
                                  :: filter name_fits (cname_targets (ldns_pkt_answer lp))))
                     (firstn 255 (a :: rest))) by congruence.
  assert (Hn : (1 <= length (names d) <= 255)%nat).
  { rewrite Hd. cbn [names]. rewrite length_firstn. cbn [length]. lia. }
  assert (Hi : (1 <= length (ips d) <= 255)%nat).
  { rewrite Hd. cbn [ips]. rewrite length_firstn. cbn [length]. lia. }
  split; [exact Hn|]. split; [exact Hi|]. split; [|split; [|split]].
  - rewrite Hd. cbn [names]. apply Forall_firstn. constructor.
    + unfold name_fits, LDNS_MAX_DOMAINLEN in Efit.
      destruct (Z.gtb_spec (Z.of_nat (length (ldns_rdf_data (ldns_rr_owner q)))) 255);
        [discriminate|lia].
    + apply Forall_forall. intros nm Hin. apply filter_In in Hin. destruct Hin as [_ Hf].
      unfold name_fits, LDNS_MAX_DOMAINLEN in Hf.
      destruct (Z.gtb_spec (Z.of_nat (length nm)) 255); [discriminate|lia].
  - exists q. split; [reflexivity|]. rewrite Hd. reflexivity.
  - apply kept_names_all. lia.
  - apply kept_ips_all. lia.
Qed.

Lemma extracted_set_within_limits_witness :
  let d := mk_dns_data [www_foo_test_name; foo_test_name] [mk_in_addr x01 x02 x03 x04] in
  value_of (dnsflow_dns_extract www_foo_test initial_worker) = Some d
  /\ (1 <= length (names d) <= 255)%nat
  /\ (1 <= length (ips d) <= 255)%nat
  /\ Forall (fun nm => (length nm <= 255)%nat) (names d)
  /\ (exists q, ldns_rr_list_rr (ldns_pkt_question www_foo_test) 0 = Some q
                /\ nth_error (names d) 0 = Some (ldns_rdf_data (ldns_rr_owner q)))
  /\ kept_names d = names d
  /\ kept_ips d = ips d.
Proof.
  split; [reflexivity|].
  exact (extracted_set_within_limits www_foo_test initial_worker
           (mk_dns_data [www_foo_test_name; foo_test_name] [mk_in_addr x01 x02 x03 x04])
           eq_refl).
Defined.

(** ** The statistics buffer *)

(** X3.  One statistics tick emits one buffer of 28 octets: version 2, one
    set, the flags word 1 ([DNSFLOW_FLAG_STATS]), the sequence number, and
    the four capture counters and the sample rate, each read back in
    network order as the value of the counter modulo 2^32.  The buffer is a
    local of the callback: the data buffer under construction, its length
    and [last_send] are as before, and nothing is stored to the packet
    area. *)
Theorem stats_buffer_fields (ds : dcap_stat) (sample_rate : Z) (w : worker) :
  let r := dnsflow_stats_cb ds sample_rate w in
  exists p,
    sends (trace_of r) = [p]
    /\ length p = 28%nat
    /\ firstn 4 p = [x02; x01; x00; x01]
    /\ seq_of_payload p = u32 (sequence_number w)
    /\ map (fun k => be_value (firstn 4 (skipn (8 + 4 * k) p)) 0) [0; 1; 2; 3; 4]%nat
       = map u32 [captured ds; ps_recv ds; ps_drop ds; ps_ifdrop ds; sample_rate]
    /\ db_len (after r) = db_len w
    /\ pkt (after r) = pkt w
    /\ last_send (after r) = last_send w
    /\ stores (trace_of r) = [].
Proof.
  intros r. pose proof (dnsflow_stats_cb_spec ds sample_rate w) as (Ha & Hs & Hst & _).
  fold r in Ha, Hs, Hst.
  exists (stats_payload (sequence_number w) ds sample_rate).
  split; [exact Hs|]. rewrite Ha. cbn [db_len pkt last_send].
  unfold seq_of_payload, stats_payload, be16.
  split; [reflexivity|]. split; [reflexivity|].
  split; [|split; [|repeat split; exact Hst]].
  - change (firstn 4 (skipn 4 _)) with (be32 (sequence_number w)).
    apply be_value_be32.
  - cbn [map Nat.mul Nat.add].
    repeat match goal with
           | |- context [firstn 4 (skipn ?n ?l)] =>
               let e := eval cbv [firstn skipn app be32] in (firstn 4 (skipn n l)) in
               change (firstn 4 (skipn n l)) with e
           end.
    repeat match goal with
           | |- context [be_value [byte_of_Z (?z / 16777216); ?b; ?c; ?d] 0] =>
               change [byte_of_Z (z / 16777216); b; c; d] with (be32 z)
           end.
    rewrite !be_value_be32. reflexivity.
Qed.

(** ** Printing of the statistics *)

Lemma stats_printed_app (t1 t2 : list effect) :
  stats_printed (t1 ++ t2) = stats_printed t1 + stats_printed t2.
Proof. unfold stats_printed. rewrite logs_app, filter_app, length_app. lia. Qed.

Lemma stats_printed_no_logs (tr : list effect) : logs tr = [] -> stats_printed tr = 0.
Proof. unfold stats_printed. intros ->. reflexivity. Qed.

Lemma extract_rdf_prints (rr_type : Z) (data : dns_data_set) (rdf : ldns_rdf) (w : worker) :
  stats_printed (trace_of (extract_rdf rr_type data rdf w)) = 0.
Proof.
  unfold extract_rdf.
  repeat match goal with
         | |- context [if ?b then _ else _] => destruct b
         end; reflexivity.
Qed.

Lemma extract_rr_prints (a_rr : ldns_rr) :
  forall (data : dns_data_set) (w : worker),
    stats_printed (trace_of (extract_rr data a_rr w)) = 0.
Proof.
  unfold extract_rr. induction (ldns_rr_rdfs a_rr) as [|rdf rest IH]; intros data w.
  - reflexivity.
  - cbn [foldM]. unfold bind.
    pose proof (extract_rdf_prints (ldns_rr_get_type a_rr) data rdf w) as H1.
    destruct (extract_rdf (ldns_rr_get_type a_rr) data rdf w) as [[d1 w1] t1].
    pose proof (IH d1 w1) as H2.
    destruct (foldM (extract_rdf (ldns_rr_get_type a_rr)) rest d1 w1) as [[d2 w2] t2].
    unfold trace_of in *. cbn [snd] in *. rewrite stats_printed_app. lia.
Qed.

Lemma extract_answers_prints (answers : list ldns_rr) :
  forall (data : dns_data_set) (w : worker),
    stats_printed (trace_of (foldM extract_rr answers data w)) = 0.
Proof.
  induction answers as [|a_rr rest IH]; intros data w.
  - reflexivity.
  - cbn [foldM]. unfold bind.
    pose proof (extract_rr_prints a_rr data w) as H1.
    destruct (extract_rr data a_rr w) as [[d1 w1] t1].
    pose proof (IH d1 w1) as H2.
    destruct (foldM extract_rr rest d1 w1) as [[d2 w2] t2].
    unfold trace_of in *. cbn [snd] in *. rewrite stats_printed_app. lia.
Qed.

Lemma dnsflow_dns_extract_prints (lp : ldns_pkt) (w : worker) :
  stats_printed (trace_of (dnsflow_dns_extract lp w)) = 0.
Proof.
  unfold dnsflow_dns_extract.
  destruct (ldns_rr_list_rr (ldns_pkt_question lp) 0) as [q|]; [|reflexivity].
  destruct (ldns_rdf_size (ldns_rr_owner q) >? LDNS_MAX_DOMAINLEN); [reflexivity|].
  unfold bind.
  pose proof (extract_answers_prints (ldns_pkt_answer lp)
                (mk_dns_data [ldns_rdf_data (ldns_rr_owner q)] []) w) as H1.
  destruct (foldM extract_rr (ldns_pkt_answer lp)
              (mk_dns_data [ldns_rdf_data (ldns_rr_owner q)] []) w) as [[d1 w1] t1].
  unfold trace_of in *. cbn [snd] in *.
  destruct (num_names d1 =? 0); [|destruct (num_ips d1 =? 0)];
    unfold ret; cbn [snd]; rewrite stats_printed_app, H1; reflexivity.
Qed.

Lemma dnsflow_pkt_send_data_prints (now : Z) (w : worker) :
  let r := dnsflow_pkt_send_data now w in
  stats_counter (after r) = stats_counter w /\ stats_printed (trace_of r) = 0.
Proof.
  cbv zeta. destruct (Z.eq_dec (db_len w) 0) as [E|E].
  - rewrite (dnsflow_pkt_send_data_empty now w E). split; reflexivity.
  - rewrite (dnsflow_pkt_send_data_sends now w E). split; reflexivity.
Qed.

Lemma dnsflow_pkt_build_prints (now : Z) (client_ip : in_addr_t) (d : dns_data_set)
    (w : worker) :
  buf_inv w ->
  let r := dnsflow_pkt_build now client_ip d w in
  stats_counter (after r) = stats_counter w /\ stats_printed (trace_of r) = 0.
Proof.
  intros Hinv. cbv zeta. pose proof (buf_inv_len w Hinv) as (Hl & _ & _).
  destruct w as [s l m ls sc]. cbn [db_len stats_counter] in *.
  destruct (Z_le_gt_dec (names_end l d) (DNSFLOW_PKT_MAX_SIZE - 1)) as [Hfit|Hover].
  - rewrite (dnsflow_pkt_build_fits now client_ip d s l m ls sc Hl Hfit). cbv zeta.
    pose proof (built_trace_stores l d) as (Hlog & _ & _).
    match goal with
    | |- context [if ?b then _ else _] => destruct b
    end; unfold after, trace_of; cbn [fst snd stats_counter]; (split; [reflexivity|]).
    + rewrite stats_printed_app, (stats_printed_no_logs _ Hlog). reflexivity.
    + apply stats_printed_no_logs. exact Hlog.
  - destruct (dnsflow_pkt_build_overflow now client_ip d s l m ls sc Hl Hover)
      as (m' & tr & -> & Hlog & _).
    unfold after, trace_of; cbn [fst snd stats_counter]. split; [reflexivity|].
    unfold stats_printed. rewrite Hlog. reflexivity.
Qed.

Lemma stats_tick_arith (c : Z) :
  0 <= c -> (c + 1) / 6 - c / 6 = if Z.rem (c + 1) 6 =? 0 then 1 else 0.
Proof.
  intros Hc. rewrite Z.rem_mod_nonneg by lia.
  destruct (Z.eqb_spec ((c + 1) mod 6) 0); Z.div_mod_to_equations; lia.
Qed.

Section StatsPrinting.

Variable ldns_wire2pkt : list byte -> Z -> wire2pkt_result.
Variable ldns_get_errorstr_by_id : ldns_status -> string.
Variable cfg : config.

Lemma dnsflow_dcap_cb_prints (now pkt_len : Z) (ip_pkt : list byte) (w : worker) :
  buf_inv w ->
  let r := dnsflow_dcap_cb ldns_wire2pkt ldns_get_errorstr_by_id cfg now pkt_len ip_pkt w in
  stats_counter (after r) = stats_counter w /\ stats_printed (trace_of r) = 0.
Proof.
  intros Hinv. cbv zeta. unfold dnsflow_dcap_cb.
  destruct (dcap_cb_dns_call cfg pkt_len ip_pkt) as [c|]; [|split; reflexivity].
  unfold bind.
  pose proof (dns_check_accepts_aux ldns_wire2pkt ldns_get_errorstr_by_id (dns_pkt_len c)
                (skipn (Z.to_nat (dns_pkt c)) ip_pkt) w) as (Ha & _ & Ht).
  destruct (dnsflow_dns_check ldns_wire2pkt ldns_get_errorstr_by_id (dns_pkt_len c)
              (skipn (Z.to_nat (dns_pkt c)) ip_pkt) w) as [[lp w1] t1].
  unfold after, trace_of, value_of in Ha, Ht. cbn [fst snd] in Ha, Ht. subst w1.
  assert (Ht1 : stats_printed t1 = 0).
  { destruct (ldns_wire2pkt (skipn (Z.to_nat (dns_pkt c)) ip_pkt) (dns_pkt_len c)).
    - rewrite Ht. reflexivity.
    - destruct Ht as [_ ->]. reflexivity. }
  destruct lp as [lp|].
  2:{ unfold ret, after, trace_of. cbn [fst snd]. rewrite stats_printed_app, Ht1.
      split; reflexivity. }
  pose proof (dnsflow_dns_extract_spec lp) as Hspec.
  pose proof (dnsflow_dns_extract_prints lp w) as Hp.
  assert (Hw : after (dnsflow_dns_extract lp w) = w).
  { destruct (ldns_pkt_question lp) as [|q more] eqn:Eq.
    - unfold dnsflow_dns_extract. rewrite Eq. reflexivity.
    - exact (proj1 (Hspec q more w eq_refl)). }
  destruct (dnsflow_dns_extract lp w) as [[dd w2] t2].
  unfold after, trace_of in Hw, Hp. cbn [fst snd] in Hw, Hp. subst w2.
  destruct dd as [dd|].
  2:{ unfold ret, after, trace_of. cbn [fst snd]. rewrite !stats_printed_app, Ht1, Hp.
      split; reflexivity. }
  pose proof (dnsflow_pkt_build_prints now (client_ip_arg c) dd w Hinv) as Hb.
  cbv zeta in Hb.
  destruct (dnsflow_pkt_build now (client_ip_arg c) dd w) as [[u w3] t3].
  unfold after, trace_of in *. cbn [fst snd] in *.
  rewrite !stats_printed_app, Ht1, Hp. destruct Hb as [-> ->]. split; reflexivity.
Qed.

Lemma handle_prints (ev : event) (w : worker) :
  buf_inv w -> 0 <= stats_counter w ->
  let r := handle ldns_wire2pkt ldns_get_errorstr_by_id cfg ev w in
  stats_counter (after r) = stats_counter w + stats_ticks_in [ev]
  /\ stats_printed (trace_of r)
     = (stats_counter w + stats_ticks_in [ev]) / 6 - stats_counter w / 6.
Proof.
  intros Hinv Hc. cbv zeta.
  destruct ev as [now pkt_len ip_pkt|now sent_at|ds rate|now]; cbn [handle];
    [change (stats_ticks_in [Packet now pkt_len ip_pkt]) with 0
    |change (stats_ticks_in [PushTimer now sent_at]) with 0
    |change (stats_ticks_in [StatsTimer ds rate]) with 1
    |change (stats_ticks_in [EndOfFile now]) with 0].
  - rewrite Z.add_0_r, Z.sub_diag. apply dnsflow_dcap_cb_prints. exact Hinv.
  - rewrite Z.add_0_r, Z.sub_diag. unfold dnsflow_push_cb, bind, get_last_send.
    pose proof (dnsflow_pkt_send_data_prints sent_at w) as Hs. cbv zeta in Hs.
    destruct (now - last_send w >=? 1).
    + destruct (dnsflow_pkt_send_data sent_at w) as [[u w1] t1].
      unfold after, trace_of in *. cbn [fst snd app] in *. exact Hs.
    + split; reflexivity.
  - rewrite (stats_tick_arith (stats_counter w) Hc).
    unfold dnsflow_stats_cb, dnsflow_print_stats. mstep.
    destruct (Z.rem (stats_counter w + 1) 6 =? 0); [destruct (ps_valid ds)|];
      mstep; unfold after, trace_of; cbn [fst snd stats_counter]; split; reflexivity.
  - rewrite Z.add_0_r, Z.sub_diag. apply dnsflow_pkt_send_data_prints.
Qed.

Lemma run_prints (evs : list event) :
  forall w, buf_inv w -> 0 <= stats_counter w ->
    let r := run ldns_wire2pkt ldns_get_errorstr_by_id cfg evs w in
    stats_counter (after r) = stats_counter w + stats_ticks_in evs
    /\ stats_printed (trace_of r)
       = (stats_counter w + stats_ticks_in evs) / 6 - stats_counter w / 6.
Proof.
  induction evs as [|ev rest IH]; intros w Hinv Hc; cbv zeta.
  - cbn [run]. unfold ret, after, trace_of, stats_ticks_in. cbn [fst snd filter length Z.of_nat].
    rewrite Z.add_0_r, Z.sub_diag. split; reflexivity.
  - cbn [run]. unfold bind.
    pose proof (handle_prints ev w Hinv Hc) as H1.
    pose proof (handle_ok ldns_wire2pkt ldns_get_errorstr_by_id cfg ev w Hinv) as (Hinv1 & _).
    cbv zeta in H1.
    destruct (handle ldns_wire2pkt ldns_get_errorstr_by_id cfg ev w) as [[u w1] t1].
    unfold after, trace_of in H1, Hinv1. cbn [fst snd] in H1, Hinv1.
    destruct H1 as [Hc1 Hp1].
    assert (Hpos : 0 <= stats_ticks_in [ev]) by (unfold stats_ticks_in; lia).
    pose proof (IH w1 Hinv1 ltac:(lia)) as H2. cbv zeta in H2.
    destruct (run ldns_wire2pkt ldns_get_errorstr_by_id cfg rest w1) as [[u2 w2] t2].
    unfold after, trace_of in *. cbn [fst snd] in *.
    destruct H2 as [Hc2 Hp2].
    assert (Hsum : stats_ticks_in (ev :: rest) = stats_ticks_in [ev] + stats_ticks_in rest).
    { change (ev :: rest) with ([ev] ++ rest). unfold stats_ticks_in.
      rewrite filter_app, length_app. lia. }
    rewrite stats_printed_app, Hp1, Hp2, Hc2, Hc1, Hsum.
    split; [lia|]. rewrite !Z.add_assoc. lia.
Qed.

End StatsPrinting.

(** X4.  In every run of a worker with no more statistics ticks than the
    [int] counter of the callback can count, whatever packets and timers it
    sees, the capture statistics are printed once for every sixth
    statistics tick: after [n] ticks they have been printed [n / 6] times,
    and no other callback prints them or moves the tick counter. *)
Theorem stats_printed_every_sixth_tick
    (ldns_wire2pkt : list byte -> Z -> wire2pkt_result)
    (ldns_get_errorstr_by_id : ldns_status -> string)
    (cfg : config) (evs : list event) :
  stats_ticks_in evs <= INT_MAX ->
  let r := run ldns_wire2pkt ldns_get_errorstr_by_id cfg evs initial_worker in
  stats_counter (after r) = stats_ticks_in evs
  /\ 0 <= stats_counter (after r) <= INT_MAX
  /\ stats_printed (trace_of r) = stats_ticks_in evs / 6.
Proof.
  intros Hticks.
  pose proof (run_prints ldns_wire2pkt ldns_get_errorstr_by_id cfg evs initial_worker
                buf_inv_initial ltac:(cbn; lia)) as H.
  cbv zeta in *. cbn [initial_worker stats_counter] in H.
  rewrite !Z.add_0_l in H. change (0 / 6) with 0 in H. rewrite Z.sub_0_r in H.
  destruct H as [Hc Hp]. split; [exact Hc|]. split; [|exact Hp].
  rewrite Hc. split; [unfold stats_ticks_in; lia|exact Hticks].
Qed.

Lemma stats_printed_every_sixth_tick_witness :
  let evs := stats_ticks 6 ++ [Packet 0 73 example_com_frame; StatsTimer idle_stat 0] in
  let r := run parse_example_com no_errorstr no_encap evs initial_worker in
  stats_ticks_in evs <= INT_MAX
  /\ stats_counter (after r) = stats_ticks_in evs
  /\ 0 <= stats_counter (after r) <= INT_MAX
  /\ stats_printed (trace_of r) = stats_ticks_in evs / 6.
Proof.
  cbv zeta.
  assert (H : stats_ticks_in
                (stats_ticks 6 ++ [Packet 0 73 example_com_frame; StatsTimer idle_stat 0])
              <= INT_MAX) by (vm_compute; discriminate).
  split; [exact H|].
  exact (stats_printed_every_sixth_tick parse_example_com no_errorstr no_encap
           (stats_ticks 6 ++ [Packet 0 73 example_com_frame; StatsTimer idle_stat 0]) H).
Defined.

(** ** The buffer as a sequence of sets *)

Lemma pad_count_shift (a b : Z) : a mod 4 = 0 -> pad_count (a + b) = pad_count b.
Proof.
  intros Ha. unfold pad_count. f_equal.
  rewrite Z.add_mod, Ha, Z.add_0_l, Z.mod_mod by lia. reflexivity.
Qed.

Lemma load_bytes_one (m : memory) (off : Z) : load_bytes m off 1 = [m off].
Proof. unfold load_bytes. cbn [seq map Z.of_nat]. rewrite Z.add_0_r. reflexivity. Qed.

Lemma load8_byte (m : memory) (off : Z) : byte_of_Z (load8 m off) = m off.
Proof. apply byte_of_Z_of_byte. Qed.

(** An append stores nothing below the start of its set, apart from the
    header of a buffer it starts and the count of sets. *)
Lemma built_mem_before (m : memory) (l : Z) (client_ip : in_addr_t) (d : dns_data_set)
    (i : Z) :
  l = 0 \/ sizeof_dnsflow_hdr <= l ->
  i < set_start l -> i <> 1 ->
  built_mem m l client_ip d i = hdr_mem m l i.
Proof.
  intros Hl Hi Hi1. pose proof (set_start_ge l Hl) as Hst.
  pose proof (layout_order l d) as Ho. consts.
  unfold built_mem, filled_mem, set_hdr_mem. peel. reflexivity.
Qed.

Lemma hdr_mem_start (m : memory) :
  hdr_mem m 0 0 = byte_of_Z DNSFLOW_VERSION /\ hdr_mem m 0 2 = x00 /\ hdr_mem m 0 3 = x00.
Proof. unfold hdr_mem, store_bytes. cbn. repeat split. Qed.

(** The octets from the start of the new set to the end of the buffer. *)
Lemma built_set_image (m : memory) (l : Z) (client_ip : in_addr_t) (d : dns_data_set)
    (m' : memory) :
  l = 0 \/ sizeof_dnsflow_hdr <= l ->
  set_start l mod 4 = 0 ->
  (forall i, sizeof_dnsflow_hdr <= i -> m' i = built_mem m l client_ip d i) ->
  load_bytes m' (set_start l) (Z.to_nat (built_len l d - set_start l))
  = wire_set client_ip (kept_names d) (kept_ips d).
Proof.
  intros Hl Hal Hm'.
  pose proof (set_start_ge l Hl) as Hst. pose proof (layout_order l d) as Ho.
  pose proof (total_len_nonneg (kept_names d)) as Hnn.
  pose proof (ips_len (kept_ips d)) as Hil. consts.
  assert (Hpc : pad_count (names_end l d) = pad_count (total_len (kept_names d))).
  { unfold names_end, names_start. consts. apply pad_count_shift.
    rewrite Z.add_mod, Hal by lia. reflexivity. }
  assert (Hn : Z.to_nat (built_len l d - set_start l)
               = (4 + (1 + (1 + (2 + (length (concat (kept_names d))
                   + (pad_count (names_end l d)
                      + length (concat (map in_addr_bytes (kept_ips d)))))))))%nat).
  { unfold built_len, padded_end, names_end, names_start, total_len in *. consts. lia. }
  rewrite Hn, !load_bytes_app.
  rewrite (built_client_ip m l client_ip d Hl m' Hm').
  rewrite !load_bytes_one.
  rewrite <- (load8_byte m' (set_start l + Z.of_nat 4)).
  rewrite <- (load8_byte m' (set_start l + Z.of_nat 4 + Z.of_nat 1)).
  change (Z.of_nat 4) with 4. change (Z.of_nat 1) with 1. change (Z.of_nat 2) with 2.
  replace (set_start l + 4 + 1) with (set_start l + 5) by lia.
  replace (set_start l + 5 + 1) with (set_start l + 6) by lia.
  rewrite (built_names_count m l client_ip d Hl m' Hm').
  rewrite (built_ips_count m l client_ip d Hl m' Hm').
  rewrite (built_names_len m l client_ip d Hl m' Hm').
  replace (set_start l + 6 + 2) with (names_start l) by (unfold names_start; consts; lia).
  rewrite (built_names m l client_ip d Hl m' Hm').
  replace (names_start l + Z.of_nat (length (concat (kept_names d))))
    with (names_end l d) by (unfold names_end, total_len; lia).
  rewrite (built_padding m l client_ip d Hl m' Hm').
  replace (names_end l d + Z.of_nat (pad_count (names_end l d)))
    with (padded_end l d) by (unfold padded_end; lia).
  rewrite (built_ips m l client_ip d Hl m' Hm').
  unfold wire_set. cbv zeta.
  rewrite names_count_of_min, ips_count_of_min, <- kept_names_length, <- kept_ips_length.
  replace (padded_end l d - names_start l)
    with (total_len (kept_names d) + Z.of_nat (pad_count (names_end l d)))
    by (unfold padded_end, names_end; lia).
  rewrite Hpc.
  cbn [app]. reflexivity.
Qed.

Lemma built_sets_image (m : memory) (l : Z) (client_ip : in_addr_t) (d : dns_data_set)
    (m' : memory) :
  l = 0 \/ sizeof_dnsflow_hdr <= l ->
  set_start l mod 4 = 0 ->
  (forall i, sizeof_dnsflow_hdr <= i -> m' i = built_mem m l client_ip d i) ->
  load_bytes m' sizeof_dnsflow_hdr (Z.to_nat (built_len l d - sizeof_dnsflow_hdr))
  = load_bytes m sizeof_dnsflow_hdr (Z.to_nat (l - sizeof_dnsflow_hdr))
    ++ wire_set client_ip (kept_names d) (kept_ips d).
Proof.
  intros Hl Hal Hm'.
  pose proof (set_start_ge l Hl) as Hst. pose proof (layout_order l d) as Ho.
  pose proof (built_set_image m l client_ip d m' Hl Hal Hm') as Himg. consts.
  assert (Hn : Z.to_nat (built_len l d - 8)
               = (Z.to_nat (set_start l - 8) + Z.to_nat (built_len l d - set_start l))%nat)
    by lia.
  rewrite Hn, load_bytes_app, Z2Nat.id by lia.
  replace (8 + (set_start l - 8)) with (set_start l) by lia.
  rewrite Himg. f_equal.
  unfold set_start in *. consts. destruct (Z.eqb_spec l 0) as [->|Hne]; [reflexivity|].
  apply load_bytes_ext. intros i Hi.
  rewrite Hm' by (consts; lia).
  rewrite built_mem_before
    by (try exact Hl; unfold set_start; consts; destruct (Z.eqb_spec l 0); lia).
  unfold hdr_mem. destruct (Z.eqb_spec l 0); [contradiction|reflexivity].
Qed.

Lemma built_hdr_image (m : memory) (l : Z) (client_ip : in_addr_t) (d : dns_data_set)
    (m' : memory) :
  l = 0 \/ sizeof_dnsflow_hdr <= l ->
  (l <> 0 -> m 0 = byte_of_Z DNSFLOW_VERSION /\ m 2 = x00 /\ m 3 = x00) ->
  (forall i, 0 <= i < 4 -> m' i = built_mem m l client_ip d i) ->
  load_bytes m' 0 4
  = [byte_of_Z DNSFLOW_VERSION; byte_of_Z (u8 ((if l =? 0 then 0 else load8 m 1) + 1))]
    ++ be16 0.
Proof.
  intros Hl Hhdr Hm'. pose proof (set_start_ge l Hl) as Hst. consts.
  assert (Hb : forall i, i = 0 \/ i = 2 \/ i = 3 ->
                 built_mem m l client_ip d i
                 = nth (Z.to_nat i) [byte_of_Z 2; x00; x00; x00] x00).
  { intros i Hi. rewrite built_mem_before by (try exact Hl; consts; lia).
    unfold hdr_mem. consts. destruct (Z.eqb_spec l 0) as [->|Hne].
    - destruct Hi as [->|[->| ->]]; reflexivity.
    - destruct (Hhdr Hne) as (H0 & H2 & H3).
      destruct Hi as [->|[->| ->]]; assumption. }
  pose proof (built_sets_count m l client_ip d Hl) as Hsc.
  unfold load_bytes. cbn [seq map Z.of_nat Pos.of_succ_nat Pos.succ Z.add].
  rewrite !Hm' by lia. rewrite (Hb 0), (Hb 2), (Hb 3) by lia.
  rewrite <- (load8_byte (built_mem m l client_ip d) 1), Hsc.
  reflexivity.
Qed.

Lemma dnsflow_pkt_build_image (now : Z) (client_ip : in_addr_t) (d : dns_data_set)
    (w : worker) :
  buf_inv w -> hdr_inv w ->
  let r := dnsflow_pkt_build now client_ip d w in
  overflow_guard_hit (trace_of r) = false ->
  let set := wire_set client_ip (kept_names d) (kept_ips d) in
  hdr_inv (after r)
  /\ ((sends (trace_of r) = []
       /\ sets_of (after r) = sets_of w ++ set
       /\ sets_count (after r) = next_sets_count w)
      \/ (db_len (after r) = 0
          /\ sends (trace_of r)
             = [data_hdr (next_sets_count w) (sequence_number w) ++ sets_of w ++ set])).
Proof.
  intros Hinv Hhdr r Hguard set.
  destruct (buf_inv_len w Hinv) as (Hl & Hl8 & Hal).
  apply overflow_guard_hit_iff in Hguard; [|exact Hl].
  pose proof (set_start_ge (db_len w) Hl8) as Hst.
  pose proof (layout_order (db_len w) d) as Ho.
  subst r set. unfold hdr_inv, sets_of, next_sets_count, sets_count in *.
  destruct w as [s l m ls sc]. cbn [db_len pkt sequence_number] in *.
  rewrite (dnsflow_pkt_build_fits now client_ip d s l m ls sc Hl Hguard). cbv zeta.
  pose proof (built_trace_stores l d) as (_ & Hsends & _).
  pose proof (built_sets_count m l client_ip d Hl8) as Hsc.
  match goal with
  | |- context [if ?b then _ else _] => destruct b
  end; unfold after, trace_of; cbn [fst snd db_len pkt].
  - split; [intros H0; contradiction|]. right. split; [reflexivity|].
    rewrite sends_app, Hsends. cbn [sends flat_map app]. f_equal.
    assert (Hm8 : forall i, i < 4 \/ 8 <= i ->
              store_bytes (built_mem m l client_ip d) 4 (be32 s) i
              = built_mem m l client_ip d i).
    { intros i Hi. apply store_bytes_miss. cbn [be32 length]. lia. }
    assert (Hn : Z.to_nat (built_len l d)
                 = (4 + (4 + Z.to_nat (built_len l d - sizeof_dnsflow_hdr)))%nat)
      by (consts; lia).
    rewrite Hn, !load_bytes_app.
    rewrite (built_hdr_image m l client_ip d _ Hl8 Hhdr) by (intros i Hi; apply Hm8; lia).
    change (0 + Z.of_nat 4) with 4.
    change 4%nat with (length (be32 s)) at 1. rewrite load_bytes_store_same.
    change (4 + Z.of_nat (length (be32 s))) with sizeof_dnsflow_hdr.
    rewrite (built_sets_image m l client_ip d _ Hl8 Hal)
      by (intros i Hi; apply Hm8; consts; lia).
    unfold data_hdr. rewrite <- !app_assoc. reflexivity.
  - split.
    + intros _. consts.
      rewrite !built_mem_before by (try exact Hl8; consts; lia).
      unfold hdr_mem. destruct (Z.eqb_spec l 0) as [->|Hne].
      * apply hdr_mem_start with (m := m).
      * apply Hhdr. exact Hne.
    + left. split; [exact Hsends|]. split; [|exact Hsc].
      apply (built_sets_image m l client_ip d _ Hl8 Hal). intros i Hi. reflexivity.
Qed.

Lemma sets_image_length (w : worker) (client_ip : in_addr_t) (d : dns_data_set) :
  buf_inv w ->
  Z.of_nat (length (sets_of w ++ wire_set client_ip (kept_names d) (kept_ips d)))
  = built_len (db_len w) d - sizeof_dnsflow_hdr.
Proof.
  intros Hinv. destruct (buf_inv_len w Hinv) as (Hl & Hl8 & Hal).
  pose proof (set_start_ge (db_len w) Hl8) as Hst.
  pose proof (layout_order (db_len w) d) as Ho.
  unfold sets_of.
  rewrite <- (built_sets_image (pkt w) (db_len w) client_ip d
                (built_mem (pkt w) (db_len w) client_ip d) Hl8 Hal (fun i _ => eq_refl)).
  rewrite load_bytes_length. consts. lia.
Qed.

(** X5.  An append that the overflow guard does not end, and whose stores
    stay inside the block reserved for [data_buf], adds exactly the octets
    of one data set, in the layout of the format comment, behind the sets
    the buffer holds, and leaves those as they are; the count in the header
    goes up by one.  If the append then sends, the buffer sent is the header
    (version 2, the count, flags 0, the sequence number) followed by the
    earlier sets and the new one. *)
Theorem append_extends_buffer (now : Z) (client_ip : in_addr_t) (d : dns_data_set)
    (w : worker) :
  buf_inv w -> hdr_inv w ->
  let r := dnsflow_pkt_build now client_ip d w in
  overflow_guard_hit (trace_of r) = false ->
  within_reserved (trace_of r) = true ->
  let set := wire_set client_ip (kept_names d) (kept_ips d) in
  hdr_inv (after r)
  /\ Z.of_nat (length (sets_of w ++ set)) <= data_buf_reserved - sizeof_dnsflow_hdr
  /\ ((sends (trace_of r) = []
       /\ sets_of (after r) = sets_of w ++ set
       /\ sets_count (after r) = next_sets_count w)
      \/ (db_len (after r) = 0
          /\ sends (trace_of r)
             = [data_hdr (next_sets_count w) (sequence_number w) ++ sets_of w ++ set])).
Proof.
  intros Hinv Hhdr r Hg Hres set.
  destruct (dnsflow_pkt_build_image now client_ip d w Hinv Hhdr Hg) as (Hh & Himg).
  split; [exact Hh|]. split; [|exact Himg].
  pose proof (built_len_reserved now client_ip d w Hinv Hg Hres) as Hin.
  pose proof (sets_image_length w client_ip d Hinv) as Hlen.
  fold set in Hlen. rewrite Hlen. lia.
Qed.

Lemma hdr_inv_initial : hdr_inv initial_worker.
Proof. intros H. exfalso. apply H. reflexivity. Qed.

Lemma append_extends_buffer_witness :
  buf_inv initial_worker /\ hdr_inv initial_worker
  /\ let r := dnsflow_pkt_build 0 client_10_0_0_7 single_a_response initial_worker in
     overflow_guard_hit (trace_of r) = false
     /\ within_reserved (trace_of r) = true
     /\ let set := wire_set client_10_0_0_7 (kept_names single_a_response)
                             (kept_ips single_a_response) in
        hdr_inv (after r)
        /\ Z.of_nat (length (sets_of initial_worker ++ set))
           <= data_buf_reserved - sizeof_dnsflow_hdr
        /\ ((sends (trace_of r) = []
             /\ sets_of (after r) = sets_of initial_worker ++ set
             /\ sets_count (after r) = next_sets_count initial_worker)
            \/ (db_len (after r) = 0
                /\ sends (trace_of r)
                   = [data_hdr (next_sets_count initial_worker)
                               (sequence_number initial_worker)
                      ++ sets_of initial_worker ++ set])).
Proof.
  split; [exact buf_inv_initial|]. split; [exact hdr_inv_initial|].
  cbv zeta. split; [reflexivity|]. split; [reflexivity|].
  exact (append_extends_buffer 0 client_10_0_0_7 single_a_response initial_worker
           buf_inv_initial hdr_inv_initial eq_refl eq_refl).
Defined.

(** ** Every emitted buffer is well formed *)

Lemma well_formed_load (m : memory) (n : Z) :
  m 0 = byte_of_Z DNSFLOW_VERSION -> m 2 = x00 -> m 3 = x00 ->
  1 <= load8 m 1 <= DNSFLOW_SETS_COUNT_MAX ->
  sizeof_dnsflow_hdr + sizeof_dnsflow_set_hdr <= n -> n mod 4 = 0 ->
  well_formed (load_bytes m 0 (Z.to_nat n)).
Proof.
  intros H0 H2 H3 H1 Hn Hal. consts.
  assert (En : Z.to_nat n = (2 + (2 + Z.to_nat (n - 4)))%nat) by lia.
  unfold well_formed, version_of, count_of, flags_of. consts.
  rewrite load_bytes_length, Z2Nat.id by lia.
  rewrite !nth_load_bytes by lia.
  change (0 + Z.of_nat 0) with 0. change (0 + Z.of_nat 1) with 1. fold (load8 m 1).
  split; [rewrite H0; reflexivity|]. left.
  rewrite En, !load_bytes_app. unfold load_bytes at 1 2.
  cbn [seq map app skipn firstn Z.of_nat Pos.of_succ_nat Pos.succ Z.add].
  change (Z.pos (2 + 1)) with 3.
  rewrite H2, H3. split; [reflexivity|]. split; [exact H1|]. split; [lia|exact Hal].
Qed.

Lemma well_formed_stats (s : Z) (ds : dcap_stat) (rate : Z) :
  well_formed (stats_payload s ds rate).
Proof.
  unfold well_formed. split; [reflexivity|]. right. repeat split.
Qed.

Lemma emits_ok_idle {A : Type} (a : A) (w : worker) (tr : list effect) :
  buf_inv w -> hdr_inv w -> sends tr = [] -> emits_ok (a, w, tr).
Proof.
  intros Hb Hh Hs. unfold emits_ok, after, trace_of. cbn [fst snd].
  rewrite Hs. split; [exact Hb|]. split; [exact Hh|constructor].
Qed.

Lemma dnsflow_pkt_send_data_emits (now : Z) (w : worker) :
  buf_inv w -> hdr_inv w -> emits_ok (dnsflow_pkt_send_data now w).
Proof.
  intros Hinv Hhdr. pose proof (dnsflow_pkt_send_data_ok now w Hinv) as (Hinv' & _).
  destruct (Z.eq_dec (db_len w) 0) as [E|E].
  - rewrite dnsflow_pkt_send_data_empty by exact E.
    apply emits_ok_idle; [exact Hinv|exact Hhdr|reflexivity].
  - rewrite dnsflow_pkt_send_data_sends in * by exact E. cbv zeta in *.
    unfold emits_ok, after, trace_of in *. cbn [fst snd sends flat_map app] in *.
    split; [exact Hinv'|]. split; [intros H0; exfalso; apply H0; reflexivity|].
    constructor; [|constructor].
    destruct Hinv as (_ & [H0|(Hlen & Hal & Hcnt)]); [contradiction|].
    destruct (Hhdr E) as (B0 & B2 & B3). unfold sets_count in Hcnt.
    apply well_formed_load;
      rewrite ?store_bytes_miss by (cbn [be32 length]; lia); try assumption;
      unfold load8; rewrite ?store_bytes_miss by (cbn [be32 length]; lia);
      fold (load8 (pkt w) 1); lia.
Qed.

Lemma dnsflow_push_cb_emits (now sent_at : Z) (w : worker) :
  buf_inv w -> hdr_inv w -> emits_ok (dnsflow_push_cb now sent_at w).
Proof.
  intros Hinv Hhdr. unfold dnsflow_push_cb, bind, get_last_send.
  destruct (now - last_send w >=? 1).
  - pose proof (dnsflow_pkt_send_data_emits sent_at w Hinv Hhdr) as H.
    destruct (dnsflow_pkt_send_data sent_at w) as [[u w1] t1]. exact H.
  - apply emits_ok_idle; [exact Hinv|exact Hhdr|reflexivity].
Qed.

Lemma dnsflow_stats_cb_emits (ds : dcap_stat) (rate : Z) (w : worker) :
  buf_inv w -> hdr_inv w -> emits_ok (dnsflow_stats_cb ds rate w).
Proof.
  intros Hinv Hhdr. pose proof (dnsflow_stats_cb_ok ds rate w Hinv) as (Hinv' & _).
  destruct (dnsflow_stats_cb_spec ds rate w) as (Ha & Hs & _).
  unfold emits_ok. split; [exact Hinv'|]. rewrite Hs, Ha. split.
  - unfold hdr_inv in *. cbn [db_len pkt]. exact Hhdr.
  - constructor; [apply well_formed_stats|constructor].
Qed.

Lemma dnsflow_pkt_build_emits (now : Z) (client_ip : in_addr_t) (d : dns_data_set)
    (w : worker) :
  buf_inv w -> hdr_inv w -> emits_ok (dnsflow_pkt_build now client_ip d w).
Proof.
  intros Hinv Hhdr. pose proof (dnsflow_pkt_build_ok now client_ip d w Hinv) as (Hinv' & _).
  destruct (buf_inv_len w Hinv) as (Hl & Hl8 & Hal).
  unfold emits_ok. split; [exact Hinv'|].
  destruct (Z_le_gt_dec (names_end (db_len w) d) (DNSFLOW_PKT_MAX_SIZE - 1)) as [Hfit|Hover].
  - assert (Hg : overflow_guard_hit (trace_of (dnsflow_pkt_build now client_ip d w)) = false)
      by (apply overflow_guard_hit_iff; assumption).
    destruct (dnsflow_pkt_build_image now client_ip d w Hinv Hhdr Hg) as (Hh' & Himg).
    split; [exact Hh'|].
    destruct (dnsflow_pkt_build_summary now client_ip d w Hinv Hfit)
      as (Hm & _ & _ & [(_ & _ & _ & _ & Hsends & _)|(_ & Hlen & Hcount & Hsends & _)]).
    + rewrite Hsends. constructor.
    + rewrite Hsends. constructor; [|constructor].
      destruct Himg as [(Hs0 & _)|(_ & Hs1)]; [rewrite Hs0 in Hsends; discriminate|].
      rewrite Hsends in Hs1.
      assert (Hp : load_bytes (pkt (after (dnsflow_pkt_build now client_ip d w))) 0
                     (Z.to_nat (built_len (db_len w) d))
                   = data_hdr (next_sets_count w) (sequence_number w)
                     ++ sets_of w
                     ++ wire_set client_ip (kept_names d) (kept_ips d)) by congruence.
      pose proof (next_sets_count_range w Hinv) as Hr.
      pose proof (layout_order (db_len w) d) as Ho.
      pose proof (set_start_ge (db_len w) Hl8) as Hst.
      pose proof (pad_count_aligned (names_end (db_len w) d)) as Hpa.
      fold (padded_end (db_len w) d) in Hpa.
      assert (HL : 16 <= built_len (db_len w) d /\ built_len (db_len w) d mod 4 = 0).
      { unfold built_len in *. consts. split; [lia|]. Z.div_mod_to_equations. lia. }
      unfold well_formed. rewrite load_bytes_length, Z2Nat.id by lia.
      split; [rewrite Hp; reflexivity|]. left.
      split; [rewrite Hp; reflexivity|].
      split; [|consts; lia].
      rewrite Hp. unfold count_of, data_hdr. cbn [app nth].
      rewrite Z_of_byte_of_Z, u8_small by (consts; lia). exact Hr.
  - destruct w as [s l m ls sc]. cbn [db_len] in *.
    destruct (dnsflow_pkt_build_overflow now client_ip d s l m ls sc Hl Hover)
      as (m' & tr & Heq & _ & Hsend & _).
    rewrite Heq. unfold after, trace_of. cbn [fst snd]. rewrite Hsend.
    split; [intros H0; exfalso; apply H0; reflexivity|constructor].
Qed.

Section Emitted.

Variable ldns_wire2pkt : list byte -> Z -> wire2pkt_result.
Variable ldns_get_errorstr_by_id : ldns_status -> string.
Variable cfg : config.

Lemma dnsflow_dcap_cb_emits (now pkt_len : Z) (ip_pkt : list byte) (w : worker) :
  buf_inv w -> hdr_inv w ->
  emits_ok (dnsflow_dcap_cb ldns_wire2pkt ldns_get_errorstr_by_id cfg now pkt_len ip_pkt w).
Proof.
  intros Hinv Hhdr. unfold dnsflow_dcap_cb.
  destruct (dcap_cb_dns_call cfg pkt_len ip_pkt) as [c|];
    [|apply emits_ok_idle; [exact Hinv|exact Hhdr|reflexivity]].
  unfold bind.
  pose proof (dnsflow_dns_check_quiet ldns_wire2pkt ldns_get_errorstr_by_id (dns_pkt_len c)
                (skipn (Z.to_nat (dns_pkt c)) ip_pkt) w) as (Ha & (Hs1 & _) & Hq).
  destruct (dnsflow_dns_check ldns_wire2pkt ldns_get_errorstr_by_id (dns_pkt_len c)
              (skipn (Z.to_nat (dns_pkt c)) ip_pkt) w) as [[lp w1] t1].
  unfold after, trace_of, value_of in Ha, Hs1, Hq. cbn [fst snd] in Ha, Hs1, Hq. subst w1.
  destruct lp as [lp|].
  2:{ apply emits_ok_idle; [exact Hinv|exact Hhdr|].
      rewrite sends_app, Hs1. reflexivity. }
  destruct (Hq lp eq_refl) as (q & Eq).
  pose proof (dnsflow_dns_extract_spec lp q [] w Eq) as (Hw & (Hs2 & _) & _).
  destruct (dnsflow_dns_extract lp w) as [[dd w2] t2].
  unfold after, trace_of in Hw, Hs2. cbn [fst snd] in Hw, Hs2. subst w2.
  destruct dd as [dd|].
  2:{ apply emits_ok_idle; [exact Hinv|exact Hhdr|].
      rewrite !sends_app, Hs1, Hs2. reflexivity. }
  pose proof (dnsflow_pkt_build_emits now (client_ip_arg c) dd w Hinv Hhdr) as Hb.
  destruct (dnsflow_pkt_build now (client_ip_arg c) dd w) as [[u w3] t3].
  unfold emits_ok, after, trace_of in *. cbn [fst snd] in *.
  rewrite !sends_app, Hs1, Hs2. cbn [app]. exact Hb.
Qed.

Lemma handle_emits (ev : event) (w : worker) :
  buf_inv w -> hdr_inv w ->
  emits_ok (handle ldns_wire2pkt ldns_get_errorstr_by_id cfg ev w).
Proof.
  intros Hinv Hhdr. destruct ev; cbn [handle].
  - apply dnsflow_dcap_cb_emits; assumption.
  - apply dnsflow_push_cb_emits; assumption.
  - apply dnsflow_stats_cb_emits; assumption.
  - apply dnsflow_pkt_send_data_emits; assumption.
Qed.

Lemma run_emits (evs : list event) :
  forall w, buf_inv w -> hdr_inv w ->
    emits_ok (run ldns_wire2pkt ldns_get_errorstr_by_id cfg evs w).
Proof.
  induction evs as [|ev rest IH]; intros w Hinv Hhdr.
  - cbn [run]. apply emits_ok_idle; [exact Hinv|exact Hhdr|reflexivity].
  - cbn [run]. unfold bind.
    pose proof (handle_emits ev w Hinv Hhdr) as H1.
    destruct (handle ldns_wire2pkt ldns_get_errorstr_by_id cfg ev w) as [[u w1] t1].
    unfold emits_ok, after, trace_of in H1. cbn [fst snd] in H1.
    destruct H1 as (Hinv1 & Hhdr1 & Hf1).
    pose proof (IH w1 Hinv1 Hhdr1) as H2.
    destruct (run ldns_wire2pkt ldns_get_errorstr_by_id cfg rest w1) as [[u2 w2] t2].
    unfold emits_ok, after, trace_of in *. cbn [fst snd] in *.
    destruct H2 as (Hinv2 & Hhdr2 & Hf2).
    split; [exact Hinv2|]. split; [exact Hhdr2|].
    rewrite sends_app. apply Forall_app. split; assumption.
Qed.

End Emitted.

(** *** How long an emitted buffer can be *)

Lemma sized_no_sends (tr : list effect) : sends tr = [] -> sized tr.
Proof. unfold sized. intros ->. constructor. Qed.

Lemma sized_idle {A : Type} (a : A) (w : worker) (tr : list effect) :
  sends tr = [] -> sized (trace_of (a, w, tr)).
Proof. apply sized_no_sends. Qed.

Lemma sized_app (t1 t2 : list effect) : sized t1 -> sized t2 -> sized (t1 ++ t2).
Proof.
  unfold sized. intros H1 H2. rewrite sends_app, write_extent_app.
  apply Forall_app. split; [eapply Forall_impl; [|exact H1]|eapply Forall_impl; [|exact H2]];
    cbn beta; intros p Hp; lia.
Qed.

Lemma dnsflow_pkt_send_data_sized (now : Z) (w : worker) :
  buf_inv w -> sized (trace_of (dnsflow_pkt_send_data now w)).
Proof.
  intros Hinv. destruct (buf_inv_len w Hinv) as (Hl & _).
  destruct (Z.eq_dec (db_len w) 0) as [E|E].
  - rewrite dnsflow_pkt_send_data_empty by exact E. apply sized_no_sends. reflexivity.
  - rewrite dnsflow_pkt_send_data_sends by exact E. cbv zeta.
    unfold sized, trace_of. cbn [snd sends flat_map app].
    constructor; [|constructor]. rewrite load_bytes_length. consts. lia.
Qed.

Lemma dnsflow_push_cb_sized (now sent_at : Z) (w : worker) :
  buf_inv w -> sized (trace_of (dnsflow_push_cb now sent_at w)).
Proof.
  intros Hinv. unfold dnsflow_push_cb, bind, get_last_send.
  destruct (now - last_send w >=? 1).
  - pose proof (dnsflow_pkt_send_data_sized sent_at w Hinv) as H.
    destruct (dnsflow_pkt_send_data sent_at w) as [[u w1] t1]. exact H.
  - apply sized_no_sends. reflexivity.
Qed.

Lemma dnsflow_stats_cb_sized (ds : dcap_stat) (rate : Z) (w : worker) :
  sized (trace_of (dnsflow_stats_cb ds rate w)).
Proof.
  destruct (dnsflow_stats_cb_spec ds rate w) as (_ & Hs & _).
  unfold sized. rewrite Hs. constructor; [|constructor].
  change (Z.of_nat (length (stats_payload (sequence_number w) ds rate))) with 28.
  consts. lia.
Qed.

Lemma dnsflow_pkt_build_sized (now : Z) (client_ip : in_addr_t) (d : dns_data_set)
    (w : worker) :
  buf_inv w -> sized (trace_of (dnsflow_pkt_build now client_ip d w)).
Proof.
  intros Hinv. destruct (buf_inv_len w Hinv) as (Hl & Hl8 & _).
  destruct (Z_le_gt_dec (names_end (db_len w) d) (DNSFLOW_PKT_MAX_SIZE - 1)) as [Hfit|Hover].
  - assert (Hg : overflow_guard_hit (trace_of (dnsflow_pkt_build now client_ip d w)) = false)
      by (apply overflow_guard_hit_iff; assumption).
    pose proof (dnsflow_pkt_build_extent now client_ip d w Hinv Hg) as Hext.
    pose proof (layout_order (db_len w) d) as Ho.
    pose proof (set_start_ge (db_len w) Hl8) as Hst.
    destruct (dnsflow_pkt_build_summary now client_ip d w Hinv Hfit)
      as (_ & _ & _ & [(_ & _ & _ & _ & Hsends & _)|(_ & _ & _ & Hsends & _)]).
    + apply sized_no_sends. exact Hsends.
    + unfold sized. rewrite Hsends, Hext. constructor; [|constructor].
      rewrite load_bytes_length. consts. lia.
  - destruct w as [s l m ls sc]. cbn [db_len] in *.
    destruct (dnsflow_pkt_build_overflow now client_ip d s l m ls sc Hl Hover)
      as (m' & tr & Heq & _ & Hsend & _).
    rewrite Heq. apply sized_no_sends. exact Hsend.
Qed.

Section EmittedLength.

Variable ldns_wire2pkt : list byte -> Z -> wire2pkt_result.
Variable ldns_get_errorstr_by_id : ldns_status -> string.
Variable cfg : config.

Lemma dnsflow_dcap_cb_sized (now pkt_len : Z) (ip_pkt : list byte) (w : worker) :
  buf_inv w ->
  sized (trace_of (dnsflow_dcap_cb ldns_wire2pkt ldns_get_errorstr_by_id cfg now pkt_len
                                   ip_pkt w)).
Proof.
  intros Hinv. unfold dnsflow_dcap_cb.
  destruct (dcap_cb_dns_call cfg pkt_len ip_pkt) as [c|];
    [|apply sized_no_sends; reflexivity].
  unfold bind.
  pose proof (dnsflow_dns_check_quiet ldns_wire2pkt ldns_get_errorstr_by_id (dns_pkt_len c)
                (skipn (Z.to_nat (dns_pkt c)) ip_pkt) w) as (Ha & (Hs1 & _) & Hq).
  destruct (dnsflow_dns_check ldns_wire2pkt ldns_get_errorstr_by_id (dns_pkt_len c)
              (skipn (Z.to_nat (dns_pkt c)) ip_pkt) w) as [[lp w1] t1].
  unfold after, trace_of, value_of in Ha, Hs1, Hq. cbn [fst snd] in Ha, Hs1, Hq. subst w1.
  destruct lp as [lp|].
  2:{ apply sized_idle. rewrite sends_app, Hs1. reflexivity. }
  destruct (Hq lp eq_refl) as (q & Eq).
  pose proof (dnsflow_dns_extract_spec lp q [] w Eq) as (Hw & (Hs2 & _) & _).
  destruct (dnsflow_dns_extract lp w) as [[dd w2] t2].
  unfold after, trace_of in Hw, Hs2. cbn [fst snd] in Hw, Hs2. subst w2.
  destruct dd as [dd|].
  2:{ apply sized_idle. rewrite !sends_app, Hs1, Hs2. reflexivity. }
  pose proof (dnsflow_pkt_build_sized now (client_ip_arg c) dd w Hinv) as Hb.
  destruct (dnsflow_pkt_build now (client_ip_arg c) dd w) as [[u w3] t3].
  unfold trace_of in *. cbn [snd] in *.
  apply sized_app; [apply sized_no_sends; exact Hs1|].
  apply sized_app; [apply sized_no_sends; exact Hs2|exact Hb].
Qed.

Lemma handle_sized (ev : event) (w : worker) :
  buf_inv w -> sized (trace_of (handle ldns_wire2pkt ldns_get_errorstr_by_id cfg ev w)).
Proof.
  intros Hinv. destruct ev; cbn [handle].
  - apply dnsflow_dcap_cb_sized; assumption.
  - apply dnsflow_push_cb_sized; assumption.
  - apply dnsflow_stats_cb_sized.
  - apply dnsflow_pkt_send_data_sized; assumption.
Qed.

Lemma run_sized (evs : list event) :
  forall w, buf_inv w ->
    sized (trace_of (run ldns_wire2pkt ldns_get_errorstr_by_id cfg evs w)).
Proof.
  induction evs as [|ev rest IH]; intros w Hinv.
  - cbn [run]. apply sized_no_sends. reflexivity.
  - cbn [run]. unfold bind.
    pose proof (handle_sized ev w Hinv) as H1.
    pose proof (handle_ok ldns_wire2pkt ldns_get_errorstr_by_id cfg ev w Hinv) as (Hinv1 & _).
    destruct (handle ldns_wire2pkt ldns_get_errorstr_by_id cfg ev w) as [[u w1] t1].
    unfold after, trace_of in H1, Hinv1. cbn [fst snd] in H1, Hinv1.
    pose proof (IH w1 Hinv1) as H2.
    destruct (run ldns_wire2pkt ldns_get_errorstr_by_id cfg rest w1) as [[u2 w2] t2].
    unfold trace_of in *. cbn [snd] in *. apply sized_app; assumption.
Qed.

End EmittedLength.

(** X6.  Every buffer a worker emits in a run whose stores stay inside the
    block reserved for [data_buf], whatever packets and timers it sees, is
    well formed and was read from inside that block: it carries version 2
    and is either a data buffer with flags 0, a count of sets between 1 and
    255, at least 16 octets and a whole number of words, or the statistics
    buffer with the flags word 1, one set and 28 octets; and it is no longer
    than the reserved block. *)
Theorem emitted_buffers_well_formed
    (ldns_wire2pkt : list byte -> Z -> wire2pkt_result)
    (ldns_get_errorstr_by_id : ldns_status -> string)
    (cfg : config) (evs : list event) :
  let r := run ldns_wire2pkt ldns_get_errorstr_by_id cfg evs initial_worker in
  within_reserved (trace_of r) = true ->
  Forall (fun p => well_formed p /\ Z.of_nat (length p) <= data_buf_reserved)
         (sends (trace_of r)).
Proof.
  intros r Hres. subst r.
  pose proof (proj2 (proj2 (run_emits ldns_wire2pkt ldns_get_errorstr_by_id cfg evs
                              initial_worker buf_inv_initial hdr_inv_initial))) as Hwf.
  pose proof (run_sized ldns_wire2pkt ldns_get_errorstr_by_id cfg evs initial_worker
                buf_inv_initial) as Hsz.
  pose proof (within_reserved_extent _ Hres) as Hext.
  unfold sized in Hsz. rewrite Forall_forall in *.
  intros p Hp. split; [apply Hwf; exact Hp|].
  specialize (Hsz p Hp). unfold data_buf_reserved in *. consts. lia.
Qed.

Lemma emitted_buffers_well_formed_witness :
  let evs := [Packet 0 73 example_com_frame; StatsTimer idle_stat 0; EndOfFile 1] in
  let r := run parse_example_com no_errorstr no_encap evs initial_worker in
  within_reserved (trace_of r) = true
  /\ Forall (fun p => well_formed p /\ Z.of_nat (length p) <= data_buf_reserved)
            (sends (trace_of r)).
Proof.
  cbv zeta. split; [reflexivity|].
  exact (emitted_buffers_well_formed parse_example_com no_errorstr no_encap
           [Packet 0 73 example_com_frame; StatsTimer idle_stat 0; EndOfFile 1] eq_refl).
Defined.

(** ** How far an append writes *)

(** X7.  How far one append writes into the packet area.  No store starts
    below the area.  If the overflow guard ends the append, no store went
    beyond offset 65534.  Otherwise the highest store ends exactly where the
    new set ends, and that is at most 1021 octets past the 65535 of
    [DNSFLOW_PKT_MAX_SIZE]; so an append whose set ends within the area
    stores nothing outside it. *)
Theorem append_write_extent (now : Z) (client_ip : in_addr_t) (d : dns_data_set)
    (w : worker) :
  buf_inv w ->
  let r := dnsflow_pkt_build now client_ip d w in
  Forall (fun s => 0 <= fst s) (stores (trace_of r))
  /\ (overflow_guard_hit (trace_of r) = true ->
      write_extent (trace_of r) <= DNSFLOW_PKT_MAX_SIZE - 1)
  /\ (overflow_guard_hit (trace_of r) = false ->
      write_extent (trace_of r) = built_len (db_len w) d
      /\ built_len (db_len w) d <= DNSFLOW_PKT_MAX_SIZE + 1021).
Proof.
  intros Hinv r. subst r. destruct (buf_inv_len w Hinv) as (Hl & Hl8 & Hal).
  pose proof (overflow_guard_hit_iff now client_ip d w Hl) as Hiff.
  destruct (Z_le_gt_dec (names_end (db_len w) d) (DNSFLOW_PKT_MAX_SIZE - 1)) as [Hfit|Hover].
  - pose proof (proj2 Hiff Hfit) as Hg. rewrite Hg.
    destruct (built_trace_extent (db_len w) d Hl8) as [B1 B2].
    pose proof (layout_order (db_len w) d) as Ho.
    pose proof (set_start_ge (db_len w) Hl8) as Hst.
    destruct w as [s l m ls sc]. cbn [db_len] in *.
    rewrite (dnsflow_pkt_build_fits now client_ip d s l m ls sc Hl Hfit). cbv zeta.
    assert (Hcase : forall tr, tr = built_trace l d
                               \/ tr = built_trace l d ++ [Store 4 4] ->
              Forall (fun s => 0 <= fst s) (stores tr)
              /\ write_extent tr = built_len l d).
    { assert (B1' : Forall (fun s => 0 <= fst s) (stores (built_trace l d)))
        by (eapply Forall_impl; [|exact B1]; cbn beta; intros x Hx; lia).
      intros tr [-> | ->]; [split; assumption|].
      rewrite stores_app, write_extent_app. split.
      - apply Forall_app. split; [exact B1'|]. repeat constructor; cbn [fst snd]; lia.
      - rewrite B2. cbn. consts. lia. }
    match goal with
    | |- context [if ?b then _ else _] => destruct b
    end; unfold trace_of; cbn [snd].
    + match goal with
      | |- context [built_trace l d ++ [Store 4 4; Send ?p]] =>
          assert (Hst' : stores (built_trace l d ++ [Store 4 4; Send p])
                         = stores (built_trace l d ++ [Store 4 4]))
            by (rewrite !stores_app; reflexivity);
          assert (Hwe : write_extent (built_trace l d ++ [Store 4 4; Send p])
                        = write_extent (built_trace l d ++ [Store 4 4]))
            by (unfold write_extent; rewrite Hst'; reflexivity)
      end.
      rewrite Hst', Hwe.
      destruct (Hcase _ (or_intror eq_refl)) as [C1 C2].
      split; [exact C1|]. split; [discriminate|]. intros _.
      split; [exact C2|]. apply built_len_bound; assumption.
    + destruct (Hcase _ (or_introl eq_refl)) as [C1 C2].
      split; [exact C1|]. split; [discriminate|]. intros _.
      split; [exact C2|]. apply built_len_bound; assumption.
  - pose proof (overflow_guard_hit_true now client_ip d w Hl Hover) as Hg. rewrite Hg.
    destruct w as [s l m ls sc]. cbn [db_len] in *.
    destruct (dnsflow_pkt_build_overflow now client_ip d s l m ls sc Hl Hover)
      as (m' & tr & Heq & _ & _ & Hst).
    rewrite Heq. unfold trace_of. cbn [snd].
    split; [|split; [|discriminate]].
    + eapply Forall_impl; [|exact Hst]. cbn beta. intros x Hx. lia.
    + intros _. apply write_extent_le; [consts; lia|].
      eapply Forall_impl; [|exact Hst]. cbn beta. intros x Hx. lia.
Qed.

Lemma append_write_extent_witness :
  buf_inv initial_worker
  /\ let r := dnsflow_pkt_build 0 client_10_0_0_7 single_a_response initial_worker in
     Forall (fun s => 0 <= fst s) (stores (trace_of r))
     /\ (overflow_guard_hit (trace_of r) = true ->
         write_extent (trace_of r) <= DNSFLOW_PKT_MAX_SIZE - 1)
     /\ (overflow_guard_hit (trace_of r) = false ->
         write_extent (trace_of r) = built_len (db_len initial_worker) single_a_response
         /\ built_len (db_len initial_worker) single_a_response
            <= DNSFLOW_PKT_MAX_SIZE + 1021).
Proof.
  split; [exact buf_inv_initial|].
  exact (append_write_extent 0 client_10_0_0_7 single_a_response initial_worker
           buf_inv_initial).
Defined.

(** The bound is reached: on the empty buffer, the names of
    [guard_limit_response] end at offset 65534, the guard lets them through,
    and the set ends 1021 octets past [DNSFLOW_PKT_MAX_SIZE]. *)
Example append_reaches_the_bound :
  names_end (db_len initial_worker) guard_limit_response = DNSFLOW_PKT_MAX_SIZE - 1
  /\ overflow_guard_hit
       (trace_of (dnsflow_pkt_build 0 client_10_0_0_7 guard_limit_response initial_worker))
     = false
  /\ built_len (db_len initial_worker) guard_limit_response = DNSFLOW_PKT_MAX_SIZE + 1021.
Proof.
  assert (H : names_end (db_len initial_worker) guard_limit_response
              = DNSFLOW_PKT_MAX_SIZE - 1) by (vm_compute; reflexivity).
  split; [exact H|]. split; [|vm_compute; reflexivity].
  apply overflow_guard_hit_iff; [cbn; consts; lia|]. rewrite H. lia.
Qed.

(** ** Encapsulated frames *)

Lemma octet_skipn (frame : list byte) (k : nat) (p : Z) :
  0 <= p -> octet (skipn k frame) p = octet frame (Z.of_nat k + p).
Proof.
  intros Hp. unfold octet. rewrite nth_skipn. do 2 f_equal. lia.
Qed.

Lemma ntohs_at_skipn (frame : list byte) (k : nat) (p : Z) :
  0 <= p -> ntohs_at (skipn k frame) p = ntohs_at frame (Z.of_nat k + p).
Proof.
  intros Hp. unfold ntohs_at. rewrite !octet_skipn by lia.
  rewrite Z.add_assoc. reflexivity.
Qed.

Lemma ip_dst_skipn (frame : list byte) (k : nat) (p : Z) :
  0 <= p -> ip_dst (skipn k frame) p = ip_dst frame (Z.of_nat k + p).
Proof.
  intros Hp. unfold ip_dst. rewrite !nth_skipn.
  f_equal; f_equal; lia.
Qed.

(** The checks read the frame only through the pointer they are given: on
    the frame cut at [k] they answer as on the whole frame at pointer [k],
    with every pointer moved by [k]. *)
Lemma ip4_check_skipn (frame : list byte) (k : nat) (n p : Z) :
  0 <= p ->
  ip4_check frame n (Z.of_nat k + p)
  = option_map (Z.add (Z.of_nat k)) (ip4_check (skipn k frame) n p).
Proof.
  intros Hp. unfold ip4_check, ip_v, ip_hl, ip_len.
  rewrite !ntohs_at_skipn, !octet_skipn by lia. rewrite !Z.add_assoc.
  repeat match goal with
         | |- context [if ?b then _ else _] => destruct b; cbn [option_map]; try reflexivity
         end.
Qed.

Lemma udp4_check_skipn (frame : list byte) (k : nat) (n p : Z) :
  0 <= p ->
  udp4_check frame n (Z.of_nat k + p)
  = option_map (Z.add (Z.of_nat k)) (udp4_check (skipn k frame) n p).
Proof.
  intros Hp. pose proof (ip_hl_range frame (Z.of_nat k + p)) as Hr.
  assert (Hhl : ip_hl (skipn k frame) p = ip_hl frame (Z.of_nat k + p))
    by (unfold ip_hl; rewrite octet_skipn by lia; reflexivity).
  unfold udp4_check, ip_p, uh_ulen. rewrite Hhl.
  rewrite !ntohs_at_skipn, !octet_skipn by lia. rewrite !Z.add_assoc.
  repeat match goal with
         | |- context [if ?b then _ else _] => destruct b; cbn [option_map]; try reflexivity
         end.
  f_equal. lia.
Qed.

Lemma ip4_check_value (frame : list byte) (n p x : Z) :
  ip4_check frame n p = Some x -> x = p.
Proof.
  unfold ip4_check.
  repeat match goal with
         | |- context [if ?b then _ else _] => destruct b; try discriminate
         end.
  intros H. injection H as <-. reflexivity.
Qed.

Lemma ip_udp_check_skipn (frame : list byte) (k : nat) (n p : Z) :
  0 <= p ->
  ip_udp_check frame n (Z.of_nat k + p)
  = option_map (shift_view (Z.of_nat k)) (ip_udp_check (skipn k frame) n p).
Proof.
  intros Hp. unfold ip_udp_check. rewrite ip4_check_skipn by exact Hp.
  destruct (ip4_check (skipn k frame) n p) as [ip|] eqn:E4; cbn [option_map]; [|reflexivity].
  apply ip4_check_value in E4. subst ip.
  rewrite udp4_check_skipn by exact Hp.
  destruct (udp4_check (skipn k frame) n p) as [udphdr|]; cbn [option_map]; [|reflexivity].
  unfold shift_view. cbn [v_ip v_udphdr v_udp_data]. do 2 f_equal. lia.
Qed.

Lemma ip_udp_check_negative (frame : list byte) (n p : Z) :
  n < 0 -> ip_udp_check frame n p = None.
Proof.
  intros Hn. pose proof (ip_hl_range frame p) as Hr.
  unfold ip_udp_check, ip4_check.
  destruct (to_size_t n <? sizeof_ip); [reflexivity|].
  destruct (negb (ip_v frame p =? IPVERSION)); [reflexivity|].
  destruct (Z.ltb_spec n (ip_hl frame p * 4)); [reflexivity|lia].
Qed.

Lemma ip_udp_check_view (frame : list byte) (n p : Z) (v : udp_view) :
  ip_udp_check frame n p = Some v ->
  v = mk_udp_view p (p + ip_hl frame p * 4) (p + ip_hl frame p * 4 + sizeof_udphdr).
Proof.
  unfold ip_udp_check.
  destruct (ip4_check frame n p) as [ip|] eqn:E4; [|discriminate].
  apply ip4_check_value in E4. subst ip. unfold udp4_check.
  repeat match goal with
         | |- context [if ?b then _ else _] => destruct b; try discriminate
         end.
  intros H. injection H as <-. reflexivity.
Qed.

(** The call the callback makes for an encapsulated frame is the call it
    makes for the inner frame, with the pointer to the DNS payload moved by
    the length of what precedes the inner frame. *)
Lemma dcap_cb_dns_call_encap (cfg : config) (pkt_len : Z) (ip_pkt : list byte)
    (v : udp_view) (e : Z) :
  ip_udp_check ip_pkt pkt_len 0 = Some v ->
  (uh_dport ip_pkt (v_udphdr v) = pcap_record_dst_port cfg
   /\ e = sizeof_pcap_sf_pkthdr + sizeof_ether_header)
  \/ (uh_dport ip_pkt (v_udphdr v) <> pcap_record_dst_port cfg
      /\ uh_dport ip_pkt (v_udphdr v) = jmirror_dst_port cfg
      /\ e = sizeof_jmirror_hdr) ->
  let k := Z.to_nat (v_udp_data v + e) in
  let inner := skipn k ip_pkt in
  let inner_len := pkt_len - v_udp_data v - e in
  let inner_dport := uh_dport inner (ip_hl inner 0 * 4) in
  inner_dport <> pcap_record_dst_port cfg ->
  inner_dport <> jmirror_dst_port cfg ->
  dcap_cb_dns_call cfg pkt_len ip_pkt
  = option_map (fun c => mk_dns_call (dns_pkt_len c) (Z.of_nat k + dns_pkt c)
                                     (client_ip_arg c))
               (dcap_cb_dns_call cfg inner_len inner).
Proof.
  intros Hout Hport k inner inner_len inner_dport Hp1 Hp2.
  pose proof (ip_udp_check_view _ _ _ _ Hout) as Hv.
  pose proof (ip_hl_range ip_pkt 0) as Hr.
  assert (Hdata : 0 <= v_udp_data v)
    by (rewrite Hv; cbn [v_udp_data]; unfold sizeof_udphdr; lia).
  assert (He : 0 < e).
  { destruct Hport as [(_ & ->)|(_ & _ & ->)];
      unfold sizeof_pcap_sf_pkthdr, sizeof_ether_header, sizeof_jmirror_hdr; lia. }
  assert (Hk : Z.of_nat k = v_udp_data v + e) by (unfold k; lia).
  unfold dcap_cb_dns_call, dcap_cb_decap. rewrite Hout.
  assert (Hoff : (if uh_dport ip_pkt (v_udphdr v) =? pcap_record_dst_port cfg
                  then sizeof_pcap_sf_pkthdr + sizeof_ether_header
                  else if uh_dport ip_pkt (v_udphdr v) =? jmirror_dst_port cfg
                       then sizeof_jmirror_hdr else 0) = e).
  { destruct Hport as [(E1 & ->)|(E1 & E2 & ->)].
    - rewrite (proj2 (Z.eqb_eq _ _) E1). reflexivity.
    - rewrite (proj2 (Z.eqb_neq _ _) E1), (proj2 (Z.eqb_eq _ _) E2). reflexivity. }
  rewrite Hoff. rewrite (proj2 (Z.eqb_neq e 0)) by lia. cbn [negb].
  unfold ip_encap_check. rewrite Z.sub_0_r.
  fold inner_len. replace (pkt_len - v_udp_data v - e) with inner_len by reflexivity.
  destruct (Z.ltb_spec (pkt_len - v_udp_data v) e) as [Hshort|Hlong].
  - rewrite (ip_udp_check_negative inner inner_len 0) by (unfold inner_len; lia).
    reflexivity.
  - replace (v_udp_data v + e) with (Z.of_nat k + 0) by lia.
    rewrite (ip_udp_check_skipn ip_pkt k inner_len 0) by lia.
    fold inner. fold inner_len.
    destruct (ip_udp_check inner inner_len 0) as [v'|] eqn:Ein; cbn [option_map];
      [|reflexivity].
    pose proof (ip_udp_check_view _ _ _ _ Ein) as Hv'.
    pose proof (ip_hl_range inner 0) as Hr'.
    assert (Hu : v_udphdr v' = ip_hl inner 0 * 4) by (rewrite Hv'; reflexivity).
    rewrite Hu. fold inner_dport.
    rewrite (proj2 (Z.eqb_neq _ _) Hp1), (proj2 (Z.eqb_neq _ _) Hp2).
    change (negb (0 =? 0)) with false. cbn iota. cbn [option_map].
    unfold shift_view. cbn [v_ip v_udphdr v_udp_data dns_pkt_len dns_pkt client_ip_arg].
    rewrite Hu. f_equal.
    assert (Hr'' : 0 <= ip_hl (skipn k ip_pkt) 0 < 16) by apply ip_hl_range.
    unfold uh_ulen. unfold inner. rewrite ntohs_at_skipn by lia.
    rewrite ip_dst_skipn by (rewrite Hv'; cbn [v_ip]; lia).
    f_equal. f_equal. lia.
Qed.

(** X8.  A frame that carries an encapsulated packet (the outer UDP
    destination port is the configured pcap-record port or J-Mirror port)
    is handled exactly as the inner packet captured by itself: same state
    after the callback, same log lines, stores and emitted buffers.  The
    inner packet starts 30 octets (pcap record header and Ethernet header)
    or 8 octets (J-Mirror header) behind the outer UDP header, and its
    length is what remains of the captured length.  Only one level is
    unwrapped: the statement is for an inner packet whose own destination
    port is not one of the two configured ports. *)
Theorem encapsulated_frame_as_inner
    (ldns_wire2pkt : list byte -> Z -> wire2pkt_result)
    (ldns_get_errorstr_by_id : ldns_status -> string)
    (cfg : config) (now pkt_len : Z) (ip_pkt : list byte) (w : worker)
    (v : udp_view) (e : Z) :
  ip_udp_check ip_pkt pkt_len 0 = Some v ->
  (uh_dport ip_pkt (v_udphdr v) = pcap_record_dst_port cfg
   /\ e = sizeof_pcap_sf_pkthdr + sizeof_ether_header)
  \/ (uh_dport ip_pkt (v_udphdr v) <> pcap_record_dst_port cfg
      /\ uh_dport ip_pkt (v_udphdr v) = jmirror_dst_port cfg
      /\ e = sizeof_jmirror_hdr) ->
  let inner := skipn (Z.to_nat (v_udp_data v + e)) ip_pkt in
  let inner_len := pkt_len - v_udp_data v - e in
  let inner_dport := uh_dport inner (ip_hl inner 0 * 4) in
  inner_dport <> pcap_record_dst_port cfg ->
  inner_dport <> jmirror_dst_port cfg ->
  dnsflow_dcap_cb ldns_wire2pkt ldns_get_errorstr_by_id cfg now pkt_len ip_pkt w
  = dnsflow_dcap_cb ldns_wire2pkt ldns_get_errorstr_by_id cfg now inner_len inner w.
Proof.
  intros Hout Hport inner inner_len inner_dport Hp1 Hp2.
  unfold dnsflow_dcap_cb.
  rewrite (dcap_cb_dns_call_encap cfg pkt_len ip_pkt v e Hout Hport Hp1 Hp2).
  fold inner. fold inner_len.
  destruct (dcap_cb_dns_call cfg inner_len inner) as [c|] eqn:Ec; cbn [option_map];
    [|reflexivity].
  cbn [dns_pkt_len dns_pkt client_ip_arg].
  destruct (dcap_cb_dns_call_spec cfg inner_len inner c Ec) as (v' & Hd & Hdp & _).
  assert (Hpos : 0 <= dns_pkt c).
  { rewrite Hdp. unfold dcap_cb_decap in Hd.
    destruct (ip_udp_check inner inner_len 0) as [v0|] eqn:E0; [|discriminate].
    pose proof (ip_udp_check_view _ _ _ _ E0) as Hv0.
    pose proof (ip_hl_range inner 0) as Hr.
    assert (Hu : v_udphdr v0 = ip_hl inner 0 * 4) by (rewrite Hv0; reflexivity).
    rewrite Hu in Hd. fold inner_dport in Hd.
    rewrite (proj2 (Z.eqb_neq _ _) Hp1), (proj2 (Z.eqb_neq _ _) Hp2) in Hd.
    change (negb (0 =? 0)) with false in Hd. cbn iota in Hd.
    injection Hd as <-. rewrite Hu. unfold sizeof_udphdr. lia. }
  replace (skipn (Z.to_nat (Z.of_nat (Z.to_nat (v_udp_data v + e)) + dns_pkt c)) ip_pkt)
    with (skipn (Z.to_nat (dns_pkt c)) inner); [reflexivity|].
  unfold inner. rewrite skipn_skipn. f_equal. lia.
Qed.

Lemma encapsulated_frame_as_inner_witness :
  let v := mk_udp_view 0 20 28 in
  let e := sizeof_jmirror_hdr in
  ip_udp_check jmirror_frame 109 0 = Some v
  /\ ((uh_dport jmirror_frame (v_udphdr v) = pcap_record_dst_port jmirror_30030
       /\ e = sizeof_pcap_sf_pkthdr + sizeof_ether_header)
      \/ (uh_dport jmirror_frame (v_udphdr v) <> pcap_record_dst_port jmirror_30030
          /\ uh_dport jmirror_frame (v_udphdr v) = jmirror_dst_port jmirror_30030
          /\ e = sizeof_jmirror_hdr))
  /\ let inner := skipn (Z.to_nat (v_udp_data v + e)) jmirror_frame in
     let inner_len := 109 - v_udp_data v - e in
     let inner_dport := uh_dport inner (ip_hl inner 0 * 4) in
     inner_dport <> pcap_record_dst_port jmirror_30030
     /\ inner_dport <> jmirror_dst_port jmirror_30030
     /\ dnsflow_dcap_cb parse_example_com no_errorstr jmirror_30030 0 109 jmirror_frame
                        initial_worker
        = dnsflow_dcap_cb parse_example_com no_errorstr jmirror_30030 0 inner_len inner
                          initial_worker.
Proof.
  assert (H1 : ip_udp_check jmirror_frame 109 0 = Some (mk_udp_view 0 20 28))
    by reflexivity.
  assert (H2 : uh_dport jmirror_frame 20 <> 0
               /\ uh_dport jmirror_frame 20 = 30030
               /\ sizeof_jmirror_hdr = sizeof_jmirror_hdr)
    by (split; [vm_compute; discriminate|split; reflexivity]).
  assert (H3 : uh_dport (skipn (Z.to_nat (28 + sizeof_jmirror_hdr)) jmirror_frame)
                 (ip_hl (skipn (Z.to_nat (28 + sizeof_jmirror_hdr)) jmirror_frame) 0 * 4)
               <> 0) by (vm_compute; discriminate).
  assert (H4 : uh_dport (skipn (Z.to_nat (28 + sizeof_jmirror_hdr)) jmirror_frame)
                 (ip_hl (skipn (Z.to_nat (28 + sizeof_jmirror_hdr)) jmirror_frame) 0 * 4)
               <> 30030) by (vm_compute; discriminate).
  cbv zeta. split; [exact H1|]. split; [right; exact H2|].
  split; [exact H3|]. split; [exact H4|].
  exact (encapsulated_frame_as_inner parse_example_com no_errorstr jmirror_30030 0 109
           jmirror_frame initial_worker (mk_udp_view 0 20 28) sizeof_jmirror_hdr
           H1 (or_intror H2) H3 H4).
Defined.

(** The J-Mirror frame adds the set of the mirrored response to the buffer,
    with the client of the inner packet. *)
Example jmirror_frame_set :
  sends (trace_of (run parse_example_com no_errorstr jmirror_30030
                       [Packet 0 109 jmirror_frame; PushTimer 1 1] initial_worker))
  = [[x02; x01; x00; x00; x00; x00; x00; x01]
     ++ [x0a; x00; x00; x07; x01; x01; x00; x10]
     ++ example_com ++ [x00; x00; x00] ++ [x5d; xb8; xd8; x22]].
Proof. vm_compute. reflexivity. Qed.

(** ** The shard key and the client address *)

Lemma firstn_skipn_four {A : Type} (d : A) (n : nat) :
  forall l : list A, (n + 4 <= length l)%nat ->
    firstn 4 (skipn n l) = [nth n l d; nth (S n) l d; nth (S (S n)) l d; nth (S (S (S n))) l d].
Proof.
  induction n as [|n IH]; intros l Hl.
  - destruct l as [|a [|b [|c [|e l]]]]; cbn [length] in Hl; try lia. reflexivity.
  - destruct l as [|a l]; cbn [length] in Hl; [lia|].
    cbn [skipn nth]. apply IH. lia.
Qed.

(** What the filter loads at [ip[off + 16 : 4]] is the destination address
    of the IP header at [off], as the callback reads it. *)
Lemma load_be_ip_dst (ip_pkt : list byte) (off x : Z) :
  0 <= off ->
  load_be ip_pkt (16 + off) 4 = Some x ->
  x = be_value (in_addr_bytes (ip_dst ip_pkt off)) 0.
Proof.
  intros Hoff. unfold load_be.
  destruct (Z.leb_spec 0 (16 + off)); cbn [andb]; [|discriminate].
  destruct (Z.leb_spec (16 + off + 4) (Z.of_nat (length ip_pkt))); [|discriminate].
  intros Hload. assert (Hx : x = be_value (firstn (Z.to_nat 4)
                                         (skipn (Z.to_nat (16 + off)) ip_pkt)) 0)
    by congruence.
  rewrite Hx. change (Z.to_nat 4) with 4%nat.
  rewrite (firstn_skipn_four x00) by lia.
  unfold ip_dst, in_addr_bytes. cbn [a0 a1 a2 a3].
  replace (Z.to_nat (off + 16)) with (Z.to_nat (16 + off)) by lia.
  replace (Z.to_nat (off + 17)) with (S (Z.to_nat (16 + off))) by lia.
  replace (Z.to_nat (off + 18)) with (S (S (Z.to_nat (16 + off)))) by lia.
  replace (Z.to_nat (off + 19)) with (S (S (S (Z.to_nat (16 + off))))) by lia.
  reflexivity.
Qed.

Lemma shard_clause_true (ip_pkt : list byte) (ip_offset proc_i num_procs : Z) :
  1 < num_procs < 2147483648 ->
  1 <= proc_i <= num_procs ->
  eval_filter ip_pkt (shard_clause ip_offset proc_i num_procs) = true ->
  exists x, load_be ip_pkt (16 + ip_offset) 4 = Some x /\ x mod num_procs = proc_i - 1.
Proof.
  intros Hn Hi Hf.
  destruct (load_be ip_pkt (16 + ip_offset) 4) as [x|] eqn:E.
  - exists x. split; [reflexivity|].
    rewrite (shard_clause_eval ip_pkt ip_offset proc_i num_procs x Hn Hi E) in Hf. lia.
  - unfold shard_clause in Hf. cbn [eval_filter] in Hf. unfold eval_rel in Hf.
    cbn [eval_arth] in Hf. rewrite E in Hf. discriminate.
Qed.

(** Where the callback finds the IP header whose destination it hands on. *)
Lemma dcap_cb_decap_ip (cfg : config) (pkt_len : Z) (ip_pkt : list byte) (v : udp_view)
    (encap_offset : Z) :
  dcap_cb_decap cfg pkt_len ip_pkt = Some v ->
  let dport := uh_dport ip_pkt (ip_hl ip_pkt 0 * 4) in
  (encap_offset = 0
   /\ dport <> pcap_record_dst_port cfg /\ dport <> jmirror_dst_port cfg)
  \/ (ip_hl ip_pkt 0 * 4 = sizeof_ip
      /\ ((encap_offset = sizeof_pcap_sf_pkthdr + sizeof_ether_header
           /\ dport = pcap_record_dst_port cfg)
          \/ (encap_offset = sizeof_jmirror_hdr
              /\ dport <> pcap_record_dst_port cfg /\ dport = jmirror_dst_port cfg))) ->
  v_ip v = (if negb (encap_offset =? 0) then sizeof_ip + sizeof_udphdr + encap_offset
            else 0).
Proof.
  intros Hd dport Hcase. unfold dcap_cb_decap in Hd.
  destruct (ip_udp_check ip_pkt pkt_len 0) as [v0|] eqn:E0; [|discriminate].
  pose proof (ip_udp_check_view _ _ _ _ E0) as Hv0.
  assert (Hu : v_udphdr v0 = ip_hl ip_pkt 0 * 4) by (rewrite Hv0; reflexivity).
  rewrite Hu in Hd. fold dport in Hd.
  unfold sizeof_ip, sizeof_udphdr, sizeof_pcap_sf_pkthdr, sizeof_ether_header,
    sizeof_jmirror_hdr in *.
  destruct Hcase as [(-> & P1 & P2)|(Hhl & [(-> & P1)|(-> & P1 & P2)])].
  - rewrite (proj2 (Z.eqb_neq _ _) P1), (proj2 (Z.eqb_neq _ _) P2) in Hd.
    change (negb (0 =? 0)) with false in *. cbn iota in *.
    injection Hd as <-. rewrite Hv0. reflexivity.
  - rewrite (proj2 (Z.eqb_eq _ _) P1) in Hd.
    change (negb (16 + 14 =? 0)) with true in *. cbn iota in *.
    unfold ip_encap_check in Hd.
    destruct (pkt_len - (v_udp_data v0 - 0) <? 16 + 14); [discriminate|].
    apply ip_udp_check_view in Hd. rewrite Hd, Hv0. cbn [v_ip v_udp_data].
    unfold sizeof_udphdr. lia.
  - rewrite (proj2 (Z.eqb_neq _ _) P1), (proj2 (Z.eqb_eq _ _) P2) in Hd.
    change (negb (8 =? 0)) with true in *. cbn iota in *.
    unfold ip_encap_check in Hd.
    destruct (pkt_len - (v_udp_data v0 - 0) <? 8); [discriminate|].
    apply ip_udp_check_view in Hd. rewrite Hd, Hv0. cbn [v_ip v_udp_data].
    unfold sizeof_udphdr. lia.
Qed.

(** X9.  The worker that the capture filter selects for a packet is the one
    the client address selects: if the filter of worker [proc_i] of
    [num_procs] accepts a packet and the callback gets as far as the DNS
    check, then the client address it hands to the batcher, read as a
    32-bit number in network order, is [proc_i - 1] modulo [num_procs].
    This needs the filter and the callback to look at the same IP header:
    either no encapsulation is configured for the filter and the packet is
    not sent to an encapsulation port, or the outer IP header has no
    options and the packet is sent to the port of the encapsulation the
    filter was built for. *)
Theorem shard_key_is_client_ip (cfg : config) (pkt_len : Z) (ip_pkt : list byte)
    (c : dns_call) (encap_offset proc_i num_procs : Z) (enable_mdns : bool) :
  1 < num_procs < 2147483648 ->
  1 <= proc_i <= num_procs ->
  eval_filter ip_pkt (build_pcap_filter encap_offset proc_i num_procs enable_mdns) = true ->
  dcap_cb_dns_call cfg pkt_len ip_pkt = Some c ->
  let dport := uh_dport ip_pkt (ip_hl ip_pkt 0 * 4) in
  (encap_offset = 0
   /\ dport <> pcap_record_dst_port cfg /\ dport <> jmirror_dst_port cfg)
  \/ (ip_hl ip_pkt 0 * 4 = sizeof_ip
      /\ ((encap_offset = sizeof_pcap_sf_pkthdr + sizeof_ether_header
           /\ dport = pcap_record_dst_port cfg)
          \/ (encap_offset = sizeof_jmirror_hdr
              /\ dport <> pcap_record_dst_port cfg /\ dport = jmirror_dst_port cfg))) ->
  be_value (in_addr_bytes (client_ip_arg c)) 0 mod num_procs = proc_i - 1.
Proof.
  intros Hn Hi Hf Hc dport Hcase.
  destruct (dcap_cb_dns_call_spec cfg pkt_len ip_pkt c Hc) as (v & Hd & _ & _ & Hip).
  pose proof (dcap_cb_decap_ip cfg pkt_len ip_pkt v encap_offset Hd Hcase) as Hvip.
  unfold build_pcap_filter, multi_proc_filter in Hf.
  rewrite (proj2 (Z.gtb_lt num_procs 1)) in Hf by lia.
  cbn [eval_filter] in Hf. rewrite andb_false_l, orb_false_r in Hf.
  apply andb_prop in Hf. destruct Hf as [_ Hs].
  rewrite <- Hvip in Hs.
  destruct (shard_clause_true ip_pkt (v_ip v) proc_i num_procs Hn Hi Hs) as (x & Hx & Hm).
  assert (Hpos : 0 <= v_ip v).
  { rewrite Hvip. unfold sizeof_ip, sizeof_udphdr.
    destruct Hcase as [(-> & _)|(_ & [(-> & _)|(-> & _)])];
      unfold sizeof_pcap_sf_pkthdr, sizeof_ether_header, sizeof_jmirror_hdr; cbn; lia. }
  rewrite Hip, <- (load_be_ip_dst ip_pkt (v_ip v) x Hpos Hx). exact Hm.
Qed.

Lemma shard_key_is_client_ip_witness :
  1 < 4 < 2147483648 /\ 1 <= 4 <= 4
  /\ eval_filter example_com_frame (build_pcap_filter 0 4 4 false) = true
  /\ dcap_cb_dns_call no_encap 73 example_com_frame = Some (mk_dns_call 53 28 client_10_0_0_7)
  /\ (let dport := uh_dport example_com_frame (ip_hl example_com_frame 0 * 4) in
      (0 = 0 /\ dport <> pcap_record_dst_port no_encap /\ dport <> jmirror_dst_port no_encap)
      \/ (ip_hl example_com_frame 0 * 4 = sizeof_ip
          /\ ((0 = sizeof_pcap_sf_pkthdr + sizeof_ether_header
               /\ dport = pcap_record_dst_port no_encap)
              \/ (0 = sizeof_jmirror_hdr
                  /\ dport <> pcap_record_dst_port no_encap
                  /\ dport = jmirror_dst_port no_encap))))
  /\ be_value (in_addr_bytes (client_ip_arg (mk_dns_call 53 28 client_10_0_0_7))) 0 mod 4
     = 4 - 1.
Proof.
  assert (Hcase : let dport := uh_dport example_com_frame (ip_hl example_com_frame 0 * 4) in
            (0 = 0 /\ dport <> pcap_record_dst_port no_encap
             /\ dport <> jmirror_dst_port no_encap)
            \/ (ip_hl example_com_frame 0 * 4 = sizeof_ip
                /\ ((0 = sizeof_pcap_sf_pkthdr + sizeof_ether_header
                     /\ dport = pcap_record_dst_port no_encap)
                    \/ (0 = sizeof_jmirror_hdr
                        /\ dport <> pcap_record_dst_port no_encap
                        /\ dport = jmirror_dst_port no_encap))))
    by (left; split; [reflexivity|split; vm_compute; discriminate]).
  split; [lia|]. split; [lia|]. split; [reflexivity|]. split; [reflexivity|].
  split; [exact Hcase|].
  exact (shard_key_is_client_ip no_encap 73 example_com_frame
           (mk_dns_call 53 28 client_10_0_0_7) 0 4 4 false
           ltac:(lia) ltac:(lia) eq_refl eq_refl Hcase).
Defined.

(** ** What the capture filter tests *)

(** X10.  What the filter of a single process lets through, on an untagged
    IPv4 packet: the protocol is UDP, the packet is a first or only
    fragment (pcap-filter reads [udp[...]] on no other), the two octets at
    the source port (of the inner UDP header when an encapsulation is
    configured) are 53, or 5353 when mDNS is enabled, and the DNS flags word
    has QR (bit 15), RD (bit 8) and RA (bit 7) set and the three low bits of
    RCODE clear.  Opcode, AA, TC, Z, AD, CD and the high bit of RCODE are not
    tested. *)
Theorem response_filter_accepts (ip_pkt : list byte) (encap_offset : Z) (enable_mdns : bool) :
  let udp_offset :=
    if negb (encap_offset =? 0) then sizeof_udphdr + encap_offset + sizeof_ip else 0 in
  let udp := ip_hl ip_pkt 0 * 4 in
  eval_filter ip_pkt (build_pcap_filter encap_offset 1 1 enable_mdns) = true <->
  ip_p ip_pkt 0 = IPPROTO_UDP
  /\ (exists frag, load_be ip_pkt 6 2 = Some frag /\ Z.land frag 8191 = 0)
  /\ (load_be ip_pkt (udp + (0 + udp_offset)) 2 = Some 53
      \/ (enable_mdns = true /\ load_be ip_pkt (udp + (0 + udp_offset)) 2 = Some 5353))
  /\ exists flags,
       load_be ip_pkt (udp + (10 + udp_offset)) 2 = Some flags
       /\ Z.testbit flags 15 = true /\ Z.testbit flags 8 = true /\ Z.testbit flags 7 = true
       /\ Z.testbit flags 2 = false /\ Z.testbit flags 1 = false
       /\ Z.testbit flags 0 = false.
Proof. exact (single_process_filter_spec ip_pkt encap_offset enable_mdns). Qed.

(** A response with RCODE 8 and the AA bit set passes the filter; it is
    [dnsflow_dns_check] that refuses it. *)
Example filter_passes_rcode_8 :
  eval_filter rcode_8_frame (build_pcap_filter 0 1 1 false) = true
  /\ load_be rcode_8_frame (ip_hl rcode_8_frame 0 * 4 + 10) 2 = Some 34184
  /\ 34184 mod 16 = 8
  /\ forall (errstr : ldns_status -> string) (w : worker),
       dnsflow_dcap_cb
         (fun _ _ => Parsed (mk_pkt true true true 8 (ldns_pkt_question example_com_pkt)
                                    (ldns_pkt_answer example_com_pkt)))
         errstr no_encap 0 73 rcode_8_frame w
       = (tt, w, []).
Proof. repeat split. Qed.

(** ** The emitter *)

Lemma sendtos_app (t1 t2 : list sys_effect) : sendtos (t1 ++ t2) = sendtos t1 ++ sendtos t2.
Proof. apply flat_map_app. Qed.

Lemma dumps_app (t1 t2 : list sys_effect) : dumps (t1 ++ t2) = dumps t1 ++ dumps t2.
Proof. apply flat_map_app. Qed.

Lemma sockets_app (t1 t2 : list sys_effect) : sockets (t1 ++ t2) = (sockets t1 + sockets t2)%nat.
Proof. unfold sockets. rewrite filter_app, length_app. reflexivity. Qed.

Lemma warnings_app (t1 t2 : list sys_effect) :
  warnings (t1 ++ t2) = (warnings t1 + warnings t2)%nat.
Proof. unfold warnings. rewrite filter_app, length_app. reflexivity. Qed.

Lemma sendto_loop_spec (env : send_env) (fd : Z) (payload : list byte)
    (dsts : list sockaddr_in) :
  forall i,
    sendtos (sendto_loop env fd payload i dsts) = map (fun dst => (fd, payload, dst)) dsts
    /\ dumps (sendto_loop env fd payload i dsts) = []
    /\ sockets (sendto_loop env fd payload i dsts) = 0%nat
    /\ warnings (sendto_loop env fd payload i dsts)
       = length (filter (fun j => sendto_ret env j <? 0) (seq i (length dsts))).
Proof.
  induction dsts as [|dst rest IH]; intros i.
  - repeat split.
  - destruct (IH (S i)) as (H1 & H2 & H3 & H4).
    cbn [sendto_loop length seq filter].
    change (Sendto fd payload dst :: ?t) with ([Sendto fd payload dst] ++ t).
    rewrite !sendtos_app, !dumps_app, !sockets_app, !warnings_app, H1, H2, H3, H4.
    destruct (sendto_ret env i <? 0); cbn [length]; repeat split.
Qed.

Lemma dnsflow_pkt_send_sys_spec (out : outputs) (env : send_env) (udp_socket : Z)
    (payload : list byte) :
  let r := dnsflow_pkt_send_sys out env udp_socket payload in
  dumps (snd r) = (if pdump out then [dump_record payload] else [])
  /\ match fst r with
     | Returns s =>
         sendtos (snd r) = map (fun dst => (s, payload, dst)) (dst_so_addrs out)
         /\ warnings (snd r) = failed_sends env (length (dst_so_addrs out))
         /\ s = (if udp_num_dsts out =? 0 then udp_socket
                 else if udp_socket =? 0 then socket_ret env else udp_socket)
         /\ sockets (snd r)
            = (if (udp_num_dsts out =? 0) || negb (udp_socket =? 0) then 0%nat else 1%nat)
         /\ (udp_socket = 0 -> dst_so_addrs out <> [] -> 1 <= s)
     | Exits status =>
         status = 1 /\ sendtos (snd r) = []
         /\ dst_so_addrs out <> [] /\ udp_socket = 0 /\ socket_ret env < 1
         /\ sockets (snd r) = 1%nat
     | Aborts => False
     end.
Proof.
  cbv zeta. unfold dnsflow_pkt_send_sys, udp_num_dsts, failed_sends, dump_record.
  set (dump := if pdump out then _ else []).
  assert (Hd : dumps dump = (if pdump out
                             then [(u32 (Z.of_nat (length payload) + 4),
                                    u32 (Z.of_nat (length payload) + 4),
                                    loop_hdr_bytes ++ payload)]
                             else [])
               /\ sendtos dump = [] /\ sockets dump = 0%nat /\ warnings dump = 0%nat)
    by (unfold dump; destruct (pdump out); repeat split).
  destruct Hd as (D1 & D2 & D3 & D4).
  destruct (dst_so_addrs out) as [|dst rest] eqn:Edst.
  - cbn [length Z.of_nat Z.eqb fst snd map seq filter orb]. rewrite D2, D3, D4.
    repeat split; [exact D1|]. intros _ Hne. exfalso. apply Hne. reflexivity.
  - assert (Hn : (Z.of_nat (length (dst :: rest)) =? 0) = false)
      by (apply Z.eqb_neq; cbn [length]; lia).
    rewrite Hn. cbn [orb].
    destruct (Z.eqb_spec udp_socket 0) as [E0|E0]; cbn [negb].
    + destruct (Z.ltb_spec (socket_ret env) 1) as [Hs|Hs]; cbn [fst snd].
      * rewrite dumps_app, sendtos_app, sockets_app, D1, D2, D3.
        cbn [dumps sendtos flat_map app].
        rewrite app_nil_r. repeat split; try assumption. discriminate.
      * destruct (sendto_loop_spec env (socket_ret env) payload (dst :: rest) 0%nat)
          as (H1 & H2 & H3 & H4).
        rewrite !dumps_app, !sendtos_app, !sockets_app, !warnings_app.
        rewrite D1, D2, D3, D4, H1, H2, H3, H4.
        cbn [dumps sendtos sockets warnings flat_map filter length app Nat.add].
        rewrite app_nil_r. repeat split. intros _ _. exact Hs.
    + cbn [fst snd].
      destruct (sendto_loop_spec env udp_socket payload (dst :: rest) 0%nat)
        as (H1 & H2 & H3 & H4).
      rewrite !dumps_app, !sendtos_app, !sockets_app, !warnings_app.
      rewrite D1, D2, D3, D4, H1, H2, H3, H4.
      cbn [app Nat.add]. rewrite app_nil_r. repeat split. intros E. contradiction.
Qed.

(** X11.  What one call of [dnsflow_pkt_send] does.  With a dump file open
    it writes one record whose two lengths are [db_len + 4] and whose data
    are the loopback header and the buffer.  If it returns, every
    configured destination was sent the buffer exactly once, in the order
    of [dst_so_addrs] and through one descriptor, whether or not earlier
    sends failed; a failed send only leaves the warning.  It ends the
    process only when there are destinations, no socket yet, and [socket]
    returns less than 1 (so also on descriptor 0), after the dump record
    and before any send. *)
Theorem send_reaches_every_destination (out : outputs) (env : send_env) (udp_socket : Z)
    (payload : list byte) :
  let r := dnsflow_pkt_send_sys out env udp_socket payload in
  dumps (snd r) = (if pdump out then [dump_record payload] else [])
  /\ match fst r with
     | Returns s =>
         sendtos (snd r) = map (fun dst => (s, payload, dst)) (dst_so_addrs out)
         /\ warnings (snd r) = failed_sends env (length (dst_so_addrs out))
         /\ s = (if udp_num_dsts out =? 0 then udp_socket
                 else if udp_socket =? 0 then socket_ret env else udp_socket)
         /\ sockets (snd r)
            = (if (udp_num_dsts out =? 0) || negb (udp_socket =? 0) then 0%nat else 1%nat)
         /\ (udp_socket = 0 -> dst_so_addrs out <> [] -> 1 <= s)
     | Exits status =>
         status = 1 /\ sendtos (snd r) = []
         /\ dst_so_addrs out <> [] /\ udp_socket = 0 /\ socket_ret env < 1
         /\ sockets (snd r) = 1%nat
     | Aborts => False
     end.
Proof. exact (dnsflow_pkt_send_sys_spec out env udp_socket payload). Qed.

Lemma emit_all_spec (out : outputs) (calls : list (send_env * list byte)) :
  forall u, u = 0 \/ 1 <= u ->
    let r := emit_all out u calls in
    (sockets (snd r) <= (if (u =? 0)%Z then 1 else 0))%nat
    /\ forall s, fst r = Returns s ->
         (s = 0 \/ 1 <= s) /\ (u <> 0 -> s = u)
         /\ sendtos (snd r)
            = flat_map (fun c => map (fun dst => (s, snd c, dst)) (dst_so_addrs out)) calls
         /\ dumps (snd r)
            = (if pdump out then map (fun c => dump_record (snd c)) calls else []).
Proof.
  induction calls as [|[env payload] rest IH]; intros u Hu; cbv zeta.
  - cbn [emit_all fst snd flat_map map]. split; [destruct (u =? 0); cbn; lia|].
    intros s Hs. injection Hs as <-. destruct (pdump out); repeat split; assumption.
  - cbn [emit_all].
    pose proof (dnsflow_pkt_send_sys_spec out env u payload) as H1. cbv zeta in H1.
    destruct (dnsflow_pkt_send_sys out env u payload) as [[s1|st|] t1]; cbn [fst snd] in H1.
    + destruct H1 as (D1 & S1 & _ & Es1 & K1 & Hpos).
      assert (Hs1 : (s1 = 0 \/ 1 <= s1) /\ (u <> 0 -> s1 = u)
                    /\ (dst_so_addrs out <> [] -> s1 <> 0)).
      { destruct (dst_so_addrs out) as [|dst ds] eqn:Edst.
        - unfold udp_num_dsts in Es1. rewrite Edst in Es1. cbn in Es1. subst s1.
          split; [exact Hu|]. split; [reflexivity|]. intros H. contradiction.
        - unfold udp_num_dsts in Es1. rewrite Edst in Es1.
          assert (Hn : (Z.of_nat (length (dst :: ds)) =? 0) = false)
            by (apply Z.eqb_neq; cbn [length]; lia).
          rewrite Hn in Es1. destruct (Z.eqb_spec u 0) as [E0|E0].
          + specialize (Hpos E0 ltac:(discriminate)).
            split; [right; exact Hpos|]. split; [contradiction|]. lia.
          + subst s1. split; [exact Hu|]. split; [reflexivity|]. lia. }
      destruct Hs1 as (Hs1 & Hsu & Hnz).
      specialize (IH s1 Hs1). cbv zeta in IH.
      destruct (emit_all out s1 rest) as [o t2]. cbn [fst snd] in *.
      destruct IH as (IHk & IHs). split.
      * rewrite sockets_app, K1.
        destruct (Z.eqb_spec u 0) as [E0|E0]; cbn [negb].
        -- destruct (udp_num_dsts out =? 0) eqn:En; cbn [orb].
           ++ destruct (s1 =? 0); lia.
           ++ assert (Hne : dst_so_addrs out <> []).
              { intros E. unfold udp_num_dsts in En. rewrite E in En. discriminate. }
              rewrite (proj2 (Z.eqb_neq s1 0) (Hnz Hne)) in IHk. lia.
        -- rewrite orb_true_r. rewrite (Hsu E0) in IHk.
           rewrite (proj2 (Z.eqb_neq u 0) E0) in IHk. lia.
      * intros s Hs. destruct (IHs s Hs) as (R1 & R2 & R3 & R4).
        assert (Hss : dst_so_addrs out <> [] -> s = s1).
        { intros Hne. apply R2. apply Hnz. exact Hne. }
        split; [exact R1|]. split.
        { intros E0. destruct (Z.eq_dec s1 0) as [Z1|Z1].
          - rewrite (Hsu E0) in Z1. contradiction.
          - rewrite (R2 Z1). apply Hsu. exact E0. }
        rewrite sendtos_app, dumps_app, S1, D1, R3, R4. cbn [flat_map map snd].
        split.
        { f_equal. destruct (dst_so_addrs out) as [|dst ds] eqn:Edst; [reflexivity|].
          rewrite (Hss ltac:(discriminate)). reflexivity. }
        destruct (pdump out); reflexivity.
    + cbn [fst snd]. destruct H1 as (_ & _ & _ & Hne & E0 & _ & K1).
      split; [|intros s Hs; discriminate].
      subst u. rewrite K1. cbn [Z.eqb]. lia.
    + destruct H1 as [_ []].
Qed.

(** X12.  Over all the buffers of a run (the function-static [udp_socket]
    starts at 0): [socket] is called at most once; and if the emitter
    returned from every call, every buffer went to every destination once,
    buffer by buffer in the order of emission and destination by
    destination in the order of [dst_so_addrs], all through the same
    descriptor, and with a dump file open every buffer was written to it
    once, in order. *)
Theorem run_uses_one_socket (out : outputs) (calls : list (send_env * list byte)) :
  let r := emit_all out 0 calls in
  (sockets (snd r) <= 1)%nat
  /\ forall s, fst r = Returns s ->
       sendtos (snd r)
       = flat_map (fun c => map (fun dst => (s, snd c, dst)) (dst_so_addrs out)) calls
       /\ dumps (snd r)
          = (if pdump out then map (fun c => dump_record (snd c)) calls else []).
Proof.
  pose proof (emit_all_spec out calls 0 (or_introl eq_refl)) as H. cbv zeta in *.
  destruct H as [Hk Hs]. split; [exact Hk|].
  intros s Hr. destruct (Hs s Hr) as (_ & _ & H1 & H2). split; assumption.
Qed.

(** The statistics buffer of the initial state sent to two collectors, the
    second send failing: one dump record of 32 octets, one socket, two
    datagrams, one warning. *)
Example two_collectors_one_failure :
  let p := stats_payload 1 idle_stat 0 in
  let r := dnsflow_pkt_send_sys two_collectors second_send_fails 0 p in
  fst r = Returns 3
  /\ snd r = [PcapDump (mk_timeval 0 0) 32 32 (loop_hdr_bytes ++ p);
              Socket PF_INET SOCK_DGRAM 0;
              Sendto 3 p collector_a;
              Sendto 3 p collector_b; Warnx "send failed"].
Proof. split; reflexivity. Qed.

(** ** Worker processes *)

Lemma mproc_fork_from_parent (fork_ret : nat -> Z) (num_procs : Z) (fuel : nat) :
  forall proc_i j st,
    Z.of_nat fuel = num_procs + 2 - proc_i -> proc_i <= num_procs + 1 ->
    (forall i, (j <= i)%nat -> 0 < fork_ret i) ->
    let r := mproc_fork_from fork_ret num_procs fuel proc_i j st in
    fst (fst r) = Returns 1
    /\ snd r = []
    /\ n_mproc_children (snd (fst r)) = n_mproc_children st + (Z.of_nat fuel - 1)
    /\ (forall i, 0 <= i < Z.of_nat fuel - 1 ->
          mproc_children (snd (fst r)) (n_mproc_children st + i)
          = fork_ret (j + Z.to_nat i)%nat)
    /\ (forall i, i < n_mproc_children st ->
          mproc_children (snd (fst r)) i = mproc_children st i).
Proof.
  induction fuel as [|fuel IH]; intros proc_i j st Hfuel Hle1 Hpos; cbv zeta.
  - lia.
  - cbn [mproc_fork_from].
    destruct (Z.leb_spec proc_i num_procs) as [Hle|Hgt].
    + pose proof (Hpos j (le_n j)) as Hj.
      rewrite (proj2 (Z.ltb_ge (fork_ret j) 0)) by lia.
      rewrite (proj2 (Z.eqb_neq (fork_ret j) 0)) by lia.
      cbv zeta in IH.
      destruct (IH (proc_i + 1) (S j) (record_child st (fork_ret j)))
        as (R1 & R2 & R3 & R4 & R5); [lia|lia|intros i Hi; apply Hpos; lia|].
      cbn [record_child n_mproc_children mproc_children] in *.
      split; [exact R1|]. split; [exact R2|]. split; [lia|]. split.
      * intros i Hi. destruct (Z.eq_dec i 0) as [->|Hne].
        -- rewrite Z.add_0_r, R5 by lia. rewrite Z.eqb_refl. f_equal. lia.
        -- replace (n_mproc_children st + i) with (n_mproc_children st + 1 + (i - 1)) by lia.
           rewrite R4 by lia. f_equal. lia.
      * intros i Hi. rewrite R5 by lia.
        rewrite (proj2 (Z.eqb_neq i (n_mproc_children st))) by lia. reflexivity.
    + cbn [fst snd]. split; [reflexivity|]. split; [reflexivity|].
      split; [lia|]. split; [intros i Hi; lia|reflexivity].
Qed.

Lemma mproc_fork_from_child (fork_ret : nat -> Z) (num_procs : Z) (fuel : nat) :
  forall proc_i j st (k : nat),
    Z.of_nat fuel = num_procs + 2 - proc_i ->
    (j <= k)%nat -> proc_i + Z.of_nat (k - j) <= num_procs ->
    (forall i, (j <= i < k)%nat -> 0 < fork_ret i) ->
    fork_ret k = 0 ->
    let r := mproc_fork_from fork_ret num_procs fuel proc_i j st in
    fst (fst r) = Returns (proc_i + Z.of_nat (k - j))
    /\ snd r = []
    /\ n_mproc_children (snd (fst r)) = 0.
Proof.
  induction fuel as [|fuel IH]; intros proc_i j st k Hfuel Hjk Hk Hpos H0; cbv zeta.
  - lia.
  - cbn [mproc_fork_from].
    rewrite (proj2 (Z.leb_le proc_i num_procs)) by lia.
    destruct (Nat.eq_dec j k) as [->|Hne].
    + rewrite H0. cbn [Z.ltb Z.eqb Z.compare fst snd n_mproc_children].
      rewrite Nat.sub_diag, Z.add_0_r. repeat split.
    + pose proof (Hpos j ltac:(lia)) as Hj.
      rewrite (proj2 (Z.ltb_ge (fork_ret j) 0)) by lia.
      rewrite (proj2 (Z.eqb_neq (fork_ret j) 0)) by lia.
      cbv zeta in IH.
      destruct (IH (proc_i + 1) (S j) (record_child st (fork_ret j)) k)
        as (R1 & R2 & R3); [lia|lia|lia|intros i Hi; apply Hpos; lia|exact H0|].
      split; [rewrite R1; f_equal; lia|]. split; assumption.
Qed.

Lemma in_child_before (fork_ret : nat -> Z) (k i : nat) :
  (i < k)%nat -> in_child fork_ret k i = fork_ret i.
Proof. intros H. unfold in_child. rewrite (proj2 (Nat.ltb_lt i k) H). reflexivity. Qed.

Lemma in_child_at (fork_ret : nat -> Z) (k : nat) : in_child fork_ret k k = 0.
Proof. unfold in_child. rewrite Nat.ltb_irrefl. reflexivity. Qed.

(** The numbers [mproc_fork] hands out, when no [fork] fails: the parent
    gets 1 and has recorded the children in the order of their creation;
    the child of the [k]-th [fork] (counting from 0) gets [k + 2] and has
    no children recorded. *)
Lemma mproc_fork_family (fork_ret : nat -> Z) (num_procs : Z) :
  1 <= num_procs <= MAX_MPROC_CHILDREN ->
  (forall i, 0 < fork_ret i) ->
  (let r := mproc_fork fork_ret num_procs initial_procs in
   fst (fst r) = Returns 1
   /\ snd r = []
   /\ n_mproc_children (snd (fst r)) = num_procs - 1
   /\ forall i, 0 <= i < num_procs - 1 ->
        mproc_children (snd (fst r)) i = fork_ret (Z.to_nat i))
  /\ (forall k, Z.of_nat k < num_procs - 1 ->
        let r := mproc_fork (in_child fork_ret k) num_procs initial_procs in
        fst (fst r) = Returns (Z.of_nat k + 2)
        /\ snd r = []
        /\ n_mproc_children (snd (fst r)) = 0).
Proof.
  intros Hn Hpos. unfold MAX_MPROC_CHILDREN in Hn. unfold mproc_fork, MAX_MPROC_CHILDREN.
  assert (Hgt : (num_procs >? 64) = false) by lia.
  rewrite Hgt. split.
  - cbv zeta.
    destruct (mproc_fork_from_parent fork_ret num_procs (Z.to_nat num_procs) 2 0%nat
                initial_procs) as (R1 & R2 & R3 & R4 & _);
      [lia|lia|intros i _; apply Hpos|].
    cbn [initial_procs n_mproc_children] in R3, R4.
    split; [exact R1|]. split; [exact R2|]. split; [lia|].
    intros i Hi. specialize (R4 i ltac:(lia)). cbn [Z.add Nat.add] in R4. exact R4.
  - intros k Hk. cbv zeta.
    destruct (mproc_fork_from_child (in_child fork_ret k) num_procs (Z.to_nat num_procs) 2
                0%nat initial_procs k) as (R1 & R2 & R3);
      [lia|lia|lia|intros i Hi; rewrite in_child_before by lia; apply Hpos
      |apply in_child_at|].
    split; [rewrite R1; f_equal; lia|]. split; assumption.
Qed.

(** X13.  The numbers [mproc_fork] hands out when no [fork] fails, for
    [num_procs] between 1 and [MAX_MPROC_CHILDREN]: the parent returns 1
    and has recorded the [num_procs - 1] children in the order of their
    creation; the child of the [k]-th [fork] (counting from 0) returns
    [k + 2] with no children recorded.  So the processes of the family
    carry the numbers 1 to [num_procs], each once. *)
Theorem mproc_fork_numbers_the_family (fork_ret : nat -> Z) (num_procs : Z) :
  1 <= num_procs <= MAX_MPROC_CHILDREN ->
  (forall i, 0 < fork_ret i) ->
  (let r := mproc_fork fork_ret num_procs initial_procs in
   fst (fst r) = Returns 1
   /\ snd r = []
   /\ n_mproc_children (snd (fst r)) = num_procs - 1
   /\ forall i, 0 <= i < num_procs - 1 ->
        mproc_children (snd (fst r)) i = fork_ret (Z.to_nat i))
  /\ (forall k, Z.of_nat k < num_procs - 1 ->
        let r := mproc_fork (in_child fork_ret k) num_procs initial_procs in
        fst (fst r) = Returns (Z.of_nat k + 2)
        /\ snd r = []
        /\ n_mproc_children (snd (fst r)) = 0).
Proof. exact (mproc_fork_family fork_ret num_procs). Qed.

Lemma mproc_fork_numbers_the_family_witness :
  1 <= 4 <= MAX_MPROC_CHILDREN
  /\ (forall i, 0 < Z.of_nat i + 100)
  /\ (let r := mproc_fork (fun i => Z.of_nat i + 100) 4 initial_procs in
      fst (fst r) = Returns 1
      /\ snd r = []
      /\ n_mproc_children (snd (fst r)) = 4 - 1
      /\ forall i, 0 <= i < 4 - 1 ->
           mproc_children (snd (fst r)) i = Z.of_nat (Z.to_nat i) + 100)
  /\ (forall k, Z.of_nat k < 4 - 1 ->
        let r := mproc_fork (in_child (fun i => Z.of_nat i + 100) k) 4 initial_procs in
        fst (fst r) = Returns (Z.of_nat k + 2)
        /\ snd r = []
        /\ n_mproc_children (snd (fst r)) = 0).
Proof.
  assert (H1 : 1 <= 4 <= MAX_MPROC_CHILDREN) by (unfold MAX_MPROC_CHILDREN; lia).
  assert (H2 : forall i, 0 < Z.of_nat i + 100) by (intros i; lia).
  split; [exact H1|]. split; [exact H2|].
  exact (mproc_fork_numbers_the_family (fun i => Z.of_nat i + 100) 4 H1 H2).
Defined.

Lemma kills_app (t1 t2 : list sys_effect) : kills (t1 ++ t2) = kills t1 ++ kills t2.
Proof. apply flat_map_app. Qed.

Lemma stderr_of_quiet (tr : list effect) :
  kills (stderr_of tr) = [] /\ sendtos (stderr_of tr) = [] /\ dumps (stderr_of tr) = [].
Proof.
  induction tr as [|e tr (IH1 & IH2 & IH3)]; [repeat split|].
  destruct e; simpl; repeat split; assumption.
Qed.

Lemma kills_map_kill (f : nat -> Z) (sig : Z) (l : list nat) :
  kills (map (fun i => Kill (f i) sig) l) = map (fun i => (f i, sig)) l
  /\ sendtos (map (fun i => Kill (f i) sig) l) = []
  /\ dumps (map (fun i => Kill (f i) sig) l) = [].
Proof.
  induction l as [|i l (IH1 & IH2 & IH3)]; [repeat split|].
  simpl. split; [f_equal; exact IH1|split; assumption].
Qed.

(** What [clean_exit] does: it signals the recorded children, in order,
    and ends the process with status 0; it neither sends nor dumps. *)
Lemma clean_exit_spec (out : outputs) (st : procs) (ds : dcap_stat) (w : worker) :
  let r := clean_exit out st ds w in
  fst r = Exits 0
  /\ kills (snd r)
     = map (fun i => (mproc_children st (Z.of_nat i), SIGTERM))
           (seq 0 (Z.to_nat (n_mproc_children st)))
  /\ sendtos (snd r) = [] /\ dumps (snd r) = [].
Proof.
  cbv zeta. unfold clean_exit. cbn [fst snd].
  destruct (stderr_of_quiet (trace_of (dnsflow_print_stats ds w))) as (S1 & S2 & S3).
  destruct (kills_map_kill (fun i => mproc_children st (Z.of_nat i)) SIGTERM
              (seq 0 (Z.to_nat (n_mproc_children st)))) as (K1 & K2 & K3).
  rewrite !kills_app, !sendtos_app, !dumps_app, S1, S2, S3.
  split; [reflexivity|].
  destruct (Z.eqb_spec (n_mproc_children st) 0) as [E|E]; cbn [negb].
  - rewrite E. destruct (pdump out); repeat split.
  - rewrite K1, K2, K3. destruct (pdump out); cbn [kills sendtos dumps flat_map app];
      rewrite ?app_nil_r; repeat split.
Qed.

Lemma signal_cb_spec (out : outputs) (st : procs) (ds : dcap_stat) (w : worker)
    (wait_ret signal : Z) :
  signal = SIGINT \/ signal = SIGTERM \/ signal = SIGCHLD ->
  let r := signal_cb out st ds w wait_ret signal in
  fst r = Exits 0
  /\ kills (snd r)
     = map (fun i => (mproc_children st (Z.of_nat i), SIGTERM))
           (seq 0 (Z.to_nat (n_mproc_children st)))
  /\ sendtos (snd r) = [] /\ dumps (snd r) = [].
Proof.
  intros Hsig. cbv zeta. unfold signal_cb.
  pose proof (clean_exit_spec out st ds w) as Hc. cbv zeta in Hc.
  destruct (clean_exit out st ds w) as [o tr]. cbn [fst snd] in Hc.
  destruct Hc as (C1 & C2 & C3 & C4).
  destruct Hsig as [->|[->| ->]]; cbn [Z.eqb orb SIGINT SIGTERM SIGCHLD Pos.eqb fst snd];
    cbn [kills sendtos dumps flat_map app];
    fold (kills tr); fold (sendtos tr); fold (dumps tr);
    repeat split; assumption.
Qed.

(** Whatever the signal, [signal_cb] ends the process, and sends and dumps
    nothing on the way. *)
Lemma signal_cb_ends (out : outputs) (st : procs) (ds : dcap_stat) (w : worker)
    (wait_ret signal : Z) :
  let x := signal_cb out st ds w wait_ret signal in
  (exists status, fst x = Exits status) /\ sendtos (snd x) = [] /\ dumps (snd x) = [].
Proof.
  cbv zeta.
  destruct (Z.eq_dec signal SIGINT) as [E1|E1];
    [|destruct (Z.eq_dec signal SIGTERM) as [E2|E2];
      [|destruct (Z.eq_dec signal SIGCHLD) as [E3|E3]]].
  1-3: destruct (signal_cb_spec out st ds w wait_ret signal ltac:(tauto))
         as (H1 & _ & H2 & H3);
       (split; [exists 0; exact H1|split; assumption]).
  unfold signal_cb.
  rewrite (proj2 (Z.eqb_neq _ _) E1), (proj2 (Z.eqb_neq _ _) E2),
    (proj2 (Z.eqb_neq _ _) E3).
  cbn [orb fst snd]. split; [exists 1; reflexivity|split; reflexivity].
Qed.

(** X14.  An exit signal ends the family from the parent down.  After
    [mproc_fork] (no [fork] failing), [signal_cb] on SIGINT, SIGTERM or
    SIGCHLD in the parent sends SIGTERM to each of the [num_procs - 1]
    children exactly once, in the order of their creation, and exits with
    status 0; in a child it signals nobody (the child starts with no
    children recorded, although it inherited the parent's table) and exits
    with status 0.  In neither does it send or dump a buffer: sets still
    in the data buffer are dropped. *)
Theorem exit_signal_ends_the_family (fork_ret : nat -> Z) (num_procs : Z) (out : outputs)
    (ds : dcap_stat) (w : worker) (wait_ret signal : Z) :
  1 <= num_procs <= MAX_MPROC_CHILDREN ->
  (forall i, 0 < fork_ret i) ->
  signal = SIGINT \/ signal = SIGTERM \/ signal = SIGCHLD ->
  (let st := snd (fst (mproc_fork fork_ret num_procs initial_procs)) in
   let r := signal_cb out st ds w wait_ret signal in
   fst r = Exits 0
   /\ kills (snd r)
      = map (fun i => (fork_ret i, SIGTERM)) (seq 0 (Z.to_nat (num_procs - 1)))
   /\ sendtos (snd r) = [] /\ dumps (snd r) = [])
  /\ (forall k, Z.of_nat k < num_procs - 1 ->
      let st := snd (fst (mproc_fork (in_child fork_ret k) num_procs initial_procs)) in
      let r := signal_cb out st ds w wait_ret signal in
      fst r = Exits 0 /\ kills (snd r) = []
      /\ sendtos (snd r) = [] /\ dumps (snd r) = []).
Proof.
  intros Hn Hpos Hsig.
  destruct (mproc_fork_family fork_ret num_procs Hn Hpos) as [Hparent Hchild].
  cbv zeta in *. split.
  - destruct Hparent as (_ & _ & Hcount & Hpids).
    destruct (signal_cb_spec out (snd (fst (mproc_fork fork_ret num_procs initial_procs)))
                ds w wait_ret signal Hsig) as (S1 & S2 & S3 & S4).
    split; [exact S1|]. split; [|split; assumption].
    rewrite S2, Hcount. apply map_ext_in. intros i Hi. apply in_seq in Hi.
    rewrite Hpids by lia. rewrite Nat2Z.id. reflexivity.
  - intros k Hk. destruct (Hchild k Hk) as (_ & _ & Hcount).
    destruct (signal_cb_spec out
                (snd (fst (mproc_fork (in_child fork_ret k) num_procs initial_procs)))
                ds w wait_ret signal Hsig) as (S1 & S2 & S3 & S4).
    split; [exact S1|]. split; [|split; assumption].
    rewrite S2, Hcount. reflexivity.
Qed.

Lemma exit_signal_ends_the_family_witness :
  1 <= 4 <= MAX_MPROC_CHILDREN
  /\ (forall i, 0 < Z.of_nat i + 100)
  /\ (SIGTERM = SIGINT \/ SIGTERM = SIGTERM \/ SIGTERM = SIGCHLD)
  /\ (let st := snd (fst (mproc_fork (fun i => Z.of_nat i + 100) 4 initial_procs)) in
      let r := signal_cb two_collectors st idle_stat initial_worker 0 SIGTERM in
      fst r = Exits 0
      /\ kills (snd r)
         = map (fun i => (Z.of_nat i + 100, SIGTERM)) (seq 0 (Z.to_nat (4 - 1)))
      /\ sendtos (snd r) = [] /\ dumps (snd r) = [])
  /\ (forall k, Z.of_nat k < 4 - 1 ->
      let st := snd (fst (mproc_fork (in_child (fun i => Z.of_nat i + 100) k) 4
                            initial_procs)) in
      let r := signal_cb two_collectors st idle_stat initial_worker 0 SIGTERM in
      fst r = Exits 0 /\ kills (snd r) = []
      /\ sendtos (snd r) = [] /\ dumps (snd r) = []).
Proof.
  assert (H1 : 1 <= 4 <= MAX_MPROC_CHILDREN) by (unfold MAX_MPROC_CHILDREN; lia).
  assert (H2 : forall i, 0 < Z.of_nat i + 100) by (intros i; lia).
  assert (H3 : SIGTERM = SIGINT \/ SIGTERM = SIGTERM \/ SIGTERM = SIGCHLD)
    by (right; left; reflexivity).
  split; [exact H1|]. split; [exact H2|]. split; [exact H3|].
  exact (exit_signal_ends_the_family (fun i => Z.of_nat i + 100) 4 two_collectors
           idle_stat initial_worker 0 SIGTERM H1 H2 H3).
Defined.

(** The parent of four workers on SIGTERM. *)
Example parent_of_four_on_sigterm :
  let st := snd (fst (mproc_fork (fun i => Z.of_nat i + 100) 4 initial_procs)) in
  snd (signal_cb (mk_outputs false []) st idle_stat initial_worker 0 SIGTERM)
  = [Stderr "received exit signal: %d" [ArgU 15];
     Kill 100 15; Kill 101 15; Kill 102 15;
     Stderr "Shutting down." [];
     Stderr "%u packets captured" [ArgU 0];
     Stderr "%u packets received by filter" [ArgU 0];
     Stderr "%u packets dropped by kernel" [ArgU 0];
     Stderr "%u packets dropped by interface" [ArgU 0]].
Proof. reflexivity. Qed.

(** ** Where a buffer is dropped unsent *)

(** C6.  When the names of an append do not end below offset 65535 of the
    packet area (so in particular when copying one of them would exceed the
    65535 octets of the area), the append ends at the guard: the length is
    reset to 0, "Pkt create error" is logged once, nothing is sent, and the
    sequence number stays.  Among the callbacks for packets, timers and the
    end of the capture file no other path drops a buffer unsent: if one of
    them leaves the length at 0 and has sent nothing, then either the buffer
    was empty before and the callback stored nothing, or the callback
    reports the guard.  The signal handler is the other place: it ends the
    process and neither sends nor dumps what the buffer holds. *)
Theorem overflow_guard_discards
    (ldns_wire2pkt : list byte -> Z -> wire2pkt_result)
    (ldns_get_errorstr_by_id : ldns_status -> string)
    (cfg : config) (w : worker) :
  buf_inv w ->
  (forall now client_ip d,
      DNSFLOW_PKT_MAX_SIZE <= names_end (db_len w) d ->
      let r := dnsflow_pkt_build now client_ip d w in
      db_len (after r) = 0
      /\ logs (trace_of r) = [("Pkt create error"%string, [])]
      /\ sends (trace_of r) = []
      /\ sequence_number (after r) = sequence_number w)
  /\ (forall ev,
        let r := handle ldns_wire2pkt ldns_get_errorstr_by_id cfg ev w in
        sends (trace_of r) = [] -> db_len (after r) = 0 ->
        (db_len w = 0 /\ stores (trace_of r) = [])
        \/ overflow_guard_hit (trace_of r) = true)
  /\ (forall out st ds wait_ret signal,
        let x := signal_cb out st ds w wait_ret signal in
        (exists status, fst x = Exits status)
        /\ sendtos (snd x) = [] /\ dumps (snd x) = []).
Proof.
  intros Hinv. split; [|split].
  - intros now client_ip d Hover. cbn zeta.
    destruct (buf_inv_len w Hinv) as (Hl & _).
    destruct w as [s l m ls sc]. cbn [db_len sequence_number] in *.
    destruct (dnsflow_pkt_build_overflow now client_ip d s l m ls sc Hl)
      as (m' & tr & Heq & Hlog & Hsend & _); [lia|].
    rewrite Heq. unfold after, trace_of. cbn [fst snd db_len sequence_number].
    repeat split; assumption.
  - intros ev. cbn zeta.
    destruct (handle_ok ldns_wire2pkt ldns_get_errorstr_by_id cfg ev w Hinv)
      as (_ & _ & _ & Hdrop).
    exact Hdrop.
  - intros out st ds wait_ret signal. apply signal_cb_ends.
Qed.

Lemma overflow_guard_discards_witness :
  buf_inv part_filled_worker
  /\ (forall now client_ip d,
         DNSFLOW_PKT_MAX_SIZE <= names_end (db_len part_filled_worker) d ->
         let r := dnsflow_pkt_build now client_ip d part_filled_worker in
         db_len (after r) = 0
         /\ logs (trace_of r) = [("Pkt create error"%string, [])]
         /\ sends (trace_of r) = []
         /\ sequence_number (after r) = sequence_number part_filled_worker)
  /\ (forall ev,
         let r := handle no_parse no_errorstr no_encap ev part_filled_worker in
         sends (trace_of r) = [] -> db_len (after r) = 0 ->
         (db_len part_filled_worker = 0 /\ stores (trace_of r) = [])
         \/ overflow_guard_hit (trace_of r) = true)
  /\ (forall out st ds wait_ret signal,
         let x := signal_cb out st ds part_filled_worker wait_ret signal in
         (exists status, fst x = Exits status)
         /\ sendtos (snd x) = [] /\ dumps (snd x) = []).
Proof.
  split; [exact buf_inv_part_filled|].
  exact (overflow_guard_discards no_parse no_errorstr no_encap part_filled_worker
                                 buf_inv_part_filled).
Defined.

(** C6 as the specification words it fails: the overflow guard is not the
    only path on which a buffer is abandoned without emission.  A worker
    with two collectors and a dump file that has appended the set of one
    response holds a buffer of 36 octets; nothing was sent and no guard was
    reported.  On SIGTERM it exits with status 0 through [clean_exit], which
    neither sends nor dumps the buffer. *)
Lemma signal_exit_abandons_buffer :
  let r := run parse_example_com no_errorstr no_encap [Packet 0 73 example_com_frame]
               initial_worker in
  let x := signal_cb two_collectors initial_procs idle_stat (after r) 0 SIGTERM in
  db_len (after r) = 36
  /\ sends (trace_of r) = []
  /\ overflow_guard_hit (trace_of r) = false
  /\ logs (trace_of r) = []
  /\ fst x = Exits 0
  /\ sendtos (snd x) = []
  /\ dumps (snd x) = [].
Proof. vm_compute. repeat split. Qed.

(** ** Startup *)

(** [mproc_fork] with any answers of [fork]: the number it returns, and the
    count of recorded children it leaves. *)
Lemma mproc_fork_from_range (fork_ret : nat -> Z) (num_procs : Z) (fuel : nat) :
  forall proc_i j st,
    Z.of_nat fuel = num_procs + 2 - proc_i -> 2 <= proc_i <= num_procs + 1 ->
    let r := mproc_fork_from fork_ret num_procs fuel proc_i j st in
    match fst (fst r) with
    | Returns p =>
        (p = 1
         /\ n_mproc_children st <= n_mproc_children (snd (fst r))
            <= n_mproc_children st + (Z.of_nat fuel - 1))
        \/ (proc_i <= p <= num_procs /\ n_mproc_children (snd (fst r)) = 0)
    | Exits status => status = 1
    | Aborts => False
    end.
Proof.
  induction fuel as [|fuel IH]; intros proc_i j st Hfuel Hp; cbv zeta.
  - lia.
  - cbn [mproc_fork_from].
    destruct (Z.leb_spec proc_i num_procs) as [Hle|Hgt].
    + destruct (Z.ltb_spec (fork_ret j) 0) as [Hneg|Hnn]; [reflexivity|].
      destruct (Z.eqb_spec (fork_ret j) 0) as [Hz|Hnz].
      * cbn [fst snd n_mproc_children]. right. lia.
      * cbv zeta in IH.
        specialize (IH (proc_i + 1) (S j) (record_child st (fork_ret j))).
        destruct (mproc_fork_from fork_ret num_procs fuel (proc_i + 1) (S j)
                    (record_child st (fork_ret j))) as [[[p|status|] st'] tr];
          cbn [fst snd] in *.
        -- destruct IH as [(-> & Hn)|(Hr & Hn)]; [lia|lia| |].
           ++ left. cbn [record_child n_mproc_children] in Hn. lia.
           ++ right. lia.
        -- apply IH; lia.
        -- apply IH; lia.
    + cbn [fst snd]. left. lia.
Qed.

Lemma mproc_fork_range (fork_ret : nat -> Z) (num_procs : Z) :
  let r := mproc_fork fork_ret num_procs initial_procs in
  match fst (fst r) with
  | Returns p =>
      num_procs <= MAX_MPROC_CHILDREN
      /\ 1 <= p <= Z.max 1 num_procs
      /\ 0 <= n_mproc_children (snd (fst r)) < MAX_MPROC_CHILDREN
      /\ (p <> 1 -> n_mproc_children (snd (fst r)) = 0)
  | Exits status => status = 1
  | Aborts => MAX_MPROC_CHILDREN < num_procs
  end.
Proof.
  cbv zeta. unfold mproc_fork, MAX_MPROC_CHILDREN.
  destruct (Z.gtb_spec num_procs 64) as [Hbig|Hsmall]; [cbn [fst]; lia|].
  destruct (Z.le_gt_cases num_procs 0) as [Hle|Hpos].
  - replace (Z.to_nat num_procs) with 0%nat by lia.
    cbn [mproc_fork_from fst snd initial_procs n_mproc_children]. lia.
  - pose proof (mproc_fork_from_range fork_ret num_procs (Z.to_nat num_procs) 2 0%nat
                  initial_procs ltac:(lia) ltac:(lia)) as H.
    cbv zeta in H.
    destruct (mproc_fork_from fork_ret num_procs (Z.to_nat num_procs) 2 0%nat
                initial_procs) as [[[p|status|] st'] tr]; cbn [fst snd] in *.
    + cbn [initial_procs n_mproc_children] in H. lia.
    + exact H.
    + destruct H.
Qed.

Lemma to_int_cases (z : Z) :
  0 <= z < 4294967296 ->
  (z < 2147483648 /\ to_int z = z) \/ (2147483648 <= z /\ to_int z < 0).
Proof.
  intros Hz. unfold to_int. destruct (Z.ltb_spec z 2147483648); lia.
Qed.

(** What the [getopt] loop keeps. *)
Lemma main_option_spec (s s' : settings) (o : cmd_option) :
  fst (main_option s o) = Returns s' ->
  (1 <= proc_i s <= n_procs s /\ n_procs s < 4294967296 ->
   1 <= proc_i s' <= n_procs s' /\ n_procs s' < 4294967296)
  /\ (0 <= auto_n_procs s < 4294967296 -> 0 <= auto_n_procs s' < 4294967296)
  /\ ((length (dsts s) <= 10)%nat -> (length (dsts s') <= 10)%nat)
  /\ dsts s' = dsts s ++ map (mk_sockaddr_in AF_INET DNSFLOW_PORT) (udp_options [o]).
Proof.
  unfold udp_options.
  destruct o as [a|a|a|[[i n]|]|a| |ok|a|a|[addr|]|a| |a| ]; cbn [main_option fst];
    unfold DNSFLOW_UDP_MAX_DSTS.
  all: try (intros H; injection H as <-; cbn [proc_i n_procs auto_n_procs dsts flat_map map];
            rewrite ?app_nil_r; repeat split; intros; try assumption; lia).
  - destruct (Z.eqb_spec (u32 n) 0) as [E1|E1]; cbn [orb fst]; [discriminate|].
    destruct (Z.eqb_spec (u32 i) 0) as [E2|E2]; cbn [orb fst]; [discriminate|].
    destruct (Z.gtb_spec (u32 i) (u32 n)) as [E3|E3]; cbn [fst]; [discriminate|].
    intros H. injection H as <-. cbn [proc_i n_procs auto_n_procs dsts flat_map map].
    rewrite app_nil_r. pose proof (u32_range n). pose proof (u32_range i).
    repeat split; intros; try assumption; lia.
  - discriminate.
  - destruct (Z.eqb_spec (u32 a) 0) as [E1|E1]; cbn [fst]; [discriminate|].
    intros H. injection H as <-. cbn [proc_i n_procs auto_n_procs dsts flat_map map].
    rewrite app_nil_r. pose proof (u32_range a).
    repeat split; intros; try assumption; lia.
  - destruct ok; cbn [negb fst]; [|discriminate].
    intros H. injection H as <-. cbn [flat_map map]. rewrite app_nil_r.
    repeat split; intros; try assumption; lia.
  - destruct (Z.eqb_spec (Z.of_nat (length (dsts s))) 10) as [E1|E1]; cbn [fst];
      [discriminate|].
    intros H. injection H as <-. cbn [proc_i n_procs auto_n_procs dsts flat_map map app].
    repeat split; intros; try assumption; try lia. rewrite length_app. cbn [length]. lia.
  - destruct (Z.of_nat (length (dsts s)) =? 10); discriminate.
  - discriminate.
Qed.

Lemma main_options_spec (opts : list cmd_option) :
  forall s s',
    fst (main_options s opts) = Returns s' ->
    (1 <= proc_i s <= n_procs s /\ n_procs s < 4294967296 ->
     1 <= proc_i s' <= n_procs s' /\ n_procs s' < 4294967296)
    /\ (0 <= auto_n_procs s < 4294967296 -> 0 <= auto_n_procs s' < 4294967296)
    /\ ((length (dsts s) <= 10)%nat -> (length (dsts s') <= 10)%nat)
    /\ dsts s' = dsts s ++ map (mk_sockaddr_in AF_INET DNSFLOW_PORT) (udp_options opts).
Proof.
  induction opts as [|o rest IH]; intros s s' H.
  - cbn [main_options fst] in H. injection H as <-.
    unfold udp_options. cbn [flat_map map]. rewrite app_nil_r.
    repeat split; intros; try assumption; lia.
  - cbn [main_options] in H.
    pose proof (fun s1 => main_option_spec s s1 o) as H1.
    destruct (main_option s o) as [[s1|status|] t1]; cbn [fst] in *; try discriminate.
    destruct (H1 s1 eq_refl) as (A1 & A2 & A3 & A4).
    specialize (IH s1 s').
    destruct (main_options s1 rest) as [r t2]. cbn [fst] in *.
    destruct (IH H) as (B1 & B2 & B3 & B4).
    split; [intros Hx; apply B1, A1, Hx|].
    split; [intros Hx; apply B2, A2, Hx|].
    split; [intros Hx; apply B3, A3, Hx|].
    rewrite B4, A4, <- app_assoc, <- map_app. do 2 f_equal.
    unfold udp_options. change (o :: rest) with ([o] ++ rest). symmetry. apply flat_map_app.
Qed.

Lemma main_setup_spec (fork_ret : nat -> Z) (opts : list cmd_option) (st : startup) :
  fst (main_setup fork_ret opts) = Returns st ->
  let s := st_settings st in
  (1 <= proc_i s <= n_procs s /\ n_procs s < 4294967296)
  /\ 0 <= n_mproc_children (st_procs st) < MAX_MPROC_CHILDREN
  /\ (is_child st = true -> proc_i s <> 1 /\ n_mproc_children (st_procs st) = 0)
  /\ (length (dsts s) <= 10)%nat
  /\ dsts s = map (mk_sockaddr_in AF_INET DNSFLOW_PORT) (udp_options opts)
  /\ (dsts s <> [] \/ pcap_file_write s <> None)
  /\ (pcap_file_write s <> None ->
      is_child st = false /\ n_mproc_children (st_procs st) = 0)
  /\ capture_filter st
     = match filter_expr s with
       | None => inr (build_pcap_filter (encap_offset s) (to_int (proc_i s))
                                        (to_int (n_procs s)) (enable_mdns s))
       | Some text => inl text
       end.
Proof.
  unfold main_setup. intros H.
  pose proof (main_options_spec opts initial_settings) as Hopt.
  destruct (main_options initial_settings opts) as [[s0|status|] tr]; cbn [fst] in *;
    try discriminate.
  destruct (Hopt s0 eq_refl) as (A1 & A2 & A3 & A4). clear Hopt.
  cbn [initial_settings proc_i n_procs auto_n_procs dsts length app] in A1, A2, A3, A4.
  specialize (A1 ltac:(lia)). specialize (A2 ltac:(lia)). specialize (A3 ltac:(lia)).
  assert (Hout : (Z.of_nat (length (dsts s0)) =? 0)
                 && match pcap_file_write s0 with None => true | Some _ => false end
                 = false -> dsts s0 <> [] \/ pcap_file_write s0 <> None).
  { intros Hb. destruct (dsts s0) as [|d ds]; [|left; discriminate].
    destruct (pcap_file_write s0); [right; discriminate|discriminate]. }
  destruct ((Z.of_nat (length (dsts s0)) =? 0)
            && match pcap_file_write s0 with None => true | Some _ => false end) eqn:Eo;
    [discriminate|].
  specialize (Hout eq_refl). unfold MAX_MPROC_CHILDREN.
  destruct ((n_procs s0 =? 1) && (auto_n_procs s0 >? 0)) eqn:Ef.
  - destruct (pcap_file_write s0) as [wf|] eqn:Ew; [discriminate|].
    pose proof (mproc_fork_range fork_ret (to_int (auto_n_procs s0))) as Hr.
    cbv zeta in Hr. unfold MAX_MPROC_CHILDREN in Hr.
    destruct (mproc_fork fork_ret (to_int (auto_n_procs s0)) initial_procs)
      as [[[p|status|] pst] tr']; cbn [fst snd] in *; try discriminate.
    injection H as <-. cbv zeta.
    cbn [st_settings st_procs is_child capture_filter proc_i n_procs dsts pcap_file_write
         filter_expr encap_offset enable_mdns].
    destruct Hr as (Hn & Hp & Hc & Hchild).
    apply andb_prop in Ef. destruct Ef as [_ Hauto].
    assert (Hpu : u32 p = p /\ p <= auto_n_procs s0).
    { destruct (to_int_cases (auto_n_procs s0) A2) as [(_ & Et)|(_ & Et)].
      - rewrite Et in *. split; [apply u32_small; lia|lia].
      - split; [apply u32_small; lia|lia]. }
    destruct Hpu as [Hpu Hple]. rewrite Hpu.
    split; [lia|]. split; [lia|]. split.
    { intros Hch. apply negb_true_iff in Hch. apply Z.eqb_neq in Hch.
      split; [exact Hch|apply Hchild; exact Hch]. }
    split; [exact A3|]. split; [exact A4|]. split; [exact Hout|].
    split; [intros Hx; exfalso; apply Hx; reflexivity|reflexivity].
  - injection H as <-. cbv zeta.
    cbn [st_settings st_procs is_child capture_filter initial_procs n_mproc_children].
    split; [exact A1|]. split; [lia|]. split; [discriminate|].
    split; [exact A3|]. split; [exact A4|]. split; [exact Hout|].
    split; [intros _; split; reflexivity|reflexivity].
Qed.

(** X15.  What holds when [main] has read its options and reaches the
    capture: the worker number is between 1 and the number of workers; the
    table of children holds fewer than 64 entries, and none in a child,
    whose number is not 1; there are at most 10 destinations, exactly those
    of the [-u] options in their order, each with family [AF_INET] and port
    5300; there is a destination or a dump file; with a dump file the
    process has not forked; and the capture filter is the text of [-f] or,
    without one, what [build_pcap_filter] makes of the encapsulation
    offset, the worker number, the number of workers and the mDNS flag. *)
Theorem main_setup_settings (fork_ret : nat -> Z) (opts : list cmd_option) (st : startup) :
  fst (main_setup fork_ret opts) = Returns st ->
  let s := st_settings st in
  (1 <= proc_i s <= n_procs s /\ n_procs s < 4294967296)
  /\ 0 <= n_mproc_children (st_procs st) < MAX_MPROC_CHILDREN
  /\ (is_child st = true -> proc_i s <> 1 /\ n_mproc_children (st_procs st) = 0)
  /\ (length (dsts s) <= 10)%nat
  /\ dsts s = map (mk_sockaddr_in AF_INET DNSFLOW_PORT) (udp_options opts)
  /\ (dsts s <> [] \/ pcap_file_write s <> None)
  /\ (pcap_file_write s <> None ->
      is_child st = false /\ n_mproc_children (st_procs st) = 0)
  /\ capture_filter st
     = match filter_expr s with
       | None => inr (build_pcap_filter (encap_offset s) (to_int (proc_i s))
                                        (to_int (n_procs s)) (enable_mdns s))
       | Some text => inl text
       end.
Proof. exact (main_setup_spec fork_ret opts st). Qed.

Lemma main_setup_settings_witness :
  exists st,
    fst (main_setup (fun i => Z.of_nat i + 100) four_auto_workers) = Returns st
    /\ let s := st_settings st in
       (1 <= proc_i s <= n_procs s /\ n_procs s < 4294967296)
       /\ 0 <= n_mproc_children (st_procs st) < MAX_MPROC_CHILDREN
       /\ (is_child st = true -> proc_i s <> 1 /\ n_mproc_children (st_procs st) = 0)
       /\ (length (dsts s) <= 10)%nat
       /\ dsts s = map (mk_sockaddr_in AF_INET DNSFLOW_PORT) (udp_options four_auto_workers)
       /\ (dsts s <> [] \/ pcap_file_write s <> None)
       /\ (pcap_file_write s <> None ->
           is_child st = false /\ n_mproc_children (st_procs st) = 0)
       /\ capture_filter st
          = match filter_expr s with
            | None => inr (build_pcap_filter (encap_offset s) (to_int (proc_i s))
                                             (to_int (n_procs s)) (enable_mdns s))
            | Some text => inl text
            end.
Proof.
  assert (E : exists st,
             fst (main_setup (fun i => Z.of_nat i + 100) four_auto_workers) = Returns st)
    by (eexists; reflexivity).
  destruct E as [st E]. exists st. split; [exact E|].
  exact (main_setup_settings (fun i => Z.of_nat i + 100) four_auto_workers st E).
Defined.

(** The filter of one worker of several: the filter of a single process and
    the shard clause. *)
Lemma build_pcap_filter_shard (ip_pkt : list byte) (e p n c : Z) (mdns : bool) :
  1 < n < 2147483648 -> 1 <= p <= n ->
  load_be ip_pkt (16 + (if negb (e =? 0) then sizeof_ip + sizeof_udphdr + e else 0)) 4
  = Some c ->
  eval_filter ip_pkt (build_pcap_filter e p n mdns)
  = eval_filter ip_pkt (build_pcap_filter e 1 1 mdns) && (c mod n =? p - 1).
Proof.
  intros Hn Hp Hload. unfold build_pcap_filter, multi_proc_filter.
  rewrite (proj2 (Z.gtb_lt n 1)) by lia. change (1 >? 1) with false. cbn iota.
  cbn [eval_filter]. rewrite !andb_false_l, !orb_false_r.
  rewrite (shard_clause_eval ip_pkt _ p n c Hn Hp Hload). reflexivity.
Qed.

(** X16.  [-M n] makes a family whose filters share out the clients.  For
    a command line that asks for [n] workers (between 2 and 64) with [-M],
    gives no [-m] that changes the count, no [-f] and no [-w], and has a
    destination: when no [fork] fails, the process that is number [m] of
    the family (0 the parent, [k + 1] the child of the [k]-th [fork])
    reaches the capture as worker [m + 1] of [n], and its filter accepts a
    packet exactly when the filter of a single process does and the
    destination address the filter reads is [m] modulo [n].  So a packet
    that the single filter accepts is accepted in exactly one process. *)
Theorem forked_workers_share_clients (fork_ret : nat -> Z) (opts : list cmd_option)
    (s0 : settings) (ip_pkt : list byte) (c : Z) :
  fst (main_options initial_settings opts) = Returns s0 ->
  n_procs s0 = 1 -> 2 <= auto_n_procs s0 <= MAX_MPROC_CHILDREN ->
  filter_expr s0 = None -> pcap_file_write s0 = None -> dsts s0 <> [] ->
  (forall i, 0 < fork_ret i) ->
  let n := auto_n_procs s0 in
  let ip_offset :=
    if negb (encap_offset s0 =? 0) then sizeof_ip + sizeof_udphdr + encap_offset s0 else 0 in
  load_be ip_pkt (16 + ip_offset) 4 = Some c ->
  forall m : nat, Z.of_nat m < n ->
    exists st,
      fst (main_setup (match m with O => fork_ret | S k => in_child fork_ret k end) opts)
      = Returns st
      /\ proc_i (st_settings st) = Z.of_nat m + 1
      /\ n_procs (st_settings st) = n
      /\ is_child st = negb (Nat.eqb m 0)
      /\ exists f,
           capture_filter st = inr f
           /\ eval_filter ip_pkt f
              = eval_filter ip_pkt
                  (build_pcap_filter (encap_offset s0) 1 1 (enable_mdns s0))
                && (c mod n =? Z.of_nat m).
Proof.
  intros Hopts Hn1 Hauto Hf Hw Hd Hpos n ip_offset Hload m Hm.
  subst n ip_offset. set (n := auto_n_procs s0) in *.
  unfold MAX_MPROC_CHILDREN in Hauto.
  destruct (mproc_fork_family fork_ret n ltac:(unfold MAX_MPROC_CHILDREN; lia) Hpos)
    as [Hparent Hchild]. cbv zeta in Hparent, Hchild.
  set (view := match m with O => fork_ret | S k => in_child fork_ret k end).
  assert (Hfork : fst (fst (mproc_fork view n initial_procs)) = Returns (Z.of_nat m + 1)).
  { unfold view. destruct m as [|k].
    - exact (proj1 Hparent).
    - destruct (Hchild k ltac:(lia)) as (R & _). rewrite R. f_equal. lia. }
  unfold main_setup.
  destruct (main_options initial_settings opts) as [o tr]. cbn [fst] in Hopts. subst o.
  assert (Hlen : (Z.of_nat (length (dsts s0)) =? 0) = false).
  { apply Z.eqb_neq. destruct (dsts s0); [contradiction|cbn [length]; lia]. }
  rewrite Hlen, Hn1, Hw. cbn [andb Z.eqb Pos.eqb]. fold n.
  rewrite (proj2 (Z.gtb_lt n 0)) by lia.
  assert (Hti : to_int n = n)
    by (unfold to_int; destruct (Z.ltb_spec n 2147483648); lia).
  rewrite Hti.
  destruct (mproc_fork view n initial_procs) as [[r pst] tr']. cbn [fst] in Hfork. subst r.
  eexists. split; [reflexivity|].
  cbn [st_settings st_procs is_child capture_filter proc_i n_procs filter_expr
       encap_offset enable_mdns].
  rewrite (u32_small (Z.of_nat m + 1)) by lia.
  split; [reflexivity|]. split; [reflexivity|]. split.
  { destruct m; [reflexivity|]. cbn [Nat.eqb negb]. apply negb_true_iff, Z.eqb_neq. lia. }
  rewrite Hf. eexists. split; [reflexivity|].
  assert (Hp : to_int (Z.of_nat m + 1) = Z.of_nat m + 1)
    by (unfold to_int; destruct (Z.ltb_spec (Z.of_nat m + 1) 2147483648); lia).
  rewrite Hp, Hti.
  rewrite (build_pcap_filter_shard ip_pkt (encap_offset s0) (Z.of_nat m + 1) n c
             (enable_mdns s0)) by (try exact Hload; lia).
  do 2 f_equal. lia.
Qed.

Lemma forked_workers_share_clients_witness :
  exists s0,
    fst (main_options initial_settings four_auto_workers) = Returns s0
    /\ n_procs s0 = 1 /\ 2 <= auto_n_procs s0 <= MAX_MPROC_CHILDREN
    /\ filter_expr s0 = None /\ pcap_file_write s0 = None /\ dsts s0 <> []
    /\ (forall i, 0 < Z.of_nat i + 100)
    /\ load_be example_com_frame
               (16 + (if negb (encap_offset s0 =? 0)
                      then sizeof_ip + sizeof_udphdr + encap_offset s0 else 0)) 4
       = Some 167772167
    /\ forall m : nat, Z.of_nat m < auto_n_procs s0 ->
         exists st,
           fst (main_setup (match m with
                            | O => fun i => Z.of_nat i + 100
                            | S k => in_child (fun i => Z.of_nat i + 100) k
                            end) four_auto_workers)
           = Returns st
           /\ proc_i (st_settings st) = Z.of_nat m + 1
           /\ n_procs (st_settings st) = auto_n_procs s0
           /\ is_child st = negb (Nat.eqb m 0)
           /\ exists f,
                capture_filter st = inr f
                /\ eval_filter example_com_frame f
                   = eval_filter example_com_frame
                       (build_pcap_filter (encap_offset s0) 1 1 (enable_mdns s0))
                     && (167772167 mod auto_n_procs s0 =? Z.of_nat m).
Proof.
  assert (E : exists s0, fst (main_options initial_settings four_auto_workers) = Returns s0)
    by (eexists; reflexivity).
  destruct E as [s0 E]. exists s0.
  assert (Es : s0 = mk_settings true None None None None 0 false 1 1 4 0 (mk_config 0 0)
                      [mk_sockaddr_in AF_INET DNSFLOW_PORT (mk_in_addr xc0 x00 x02 x01)])
    by (cbn in E; congruence).
  assert (H1 : n_procs s0 = 1) by (rewrite Es; reflexivity).
  assert (H2 : 2 <= auto_n_procs s0 <= MAX_MPROC_CHILDREN)
    by (rewrite Es; unfold MAX_MPROC_CHILDREN; cbn; lia).
  assert (H3 : filter_expr s0 = None) by (rewrite Es; reflexivity).
  assert (H4 : pcap_file_write s0 = None) by (rewrite Es; reflexivity).
  assert (H5 : dsts s0 <> []) by (rewrite Es; discriminate).
  assert (H6 : forall i, 0 < Z.of_nat i + 100) by (intros i; lia).
  assert (H7 : load_be example_com_frame
                 (16 + (if negb (encap_offset s0 =? 0)
                        then sizeof_ip + sizeof_udphdr + encap_offset s0 else 0)) 4
               = Some 167772167) by (rewrite Es; reflexivity).
  repeat (split; [assumption|]).
  exact (forked_workers_share_clients (fun i => Z.of_nat i + 100) four_auto_workers s0
           example_com_frame 167772167 E H1 H2 H3 H4 H5 H6 H7).
Defined.

(** ** No set is lost, repeated or moved *)

Lemma skipn_load_bytes (m : memory) (k n : nat) :
  (k <= n)%nat -> skipn k (load_bytes m 0 n) = load_bytes m (Z.of_nat k) (n - k).
Proof.
  intros Hk. replace n with (k + (n - k))%nat at 1 by lia.
  rewrite load_bytes_app, skipn_app, load_bytes_length, Nat.sub_diag.
  rewrite skipn_all2 by (rewrite load_bytes_length; lia). reflexivity.
Qed.

Lemma flags_of_load (m : memory) (n : nat) :
  (4 <= n)%nat -> m 2 = x00 -> m 3 = x00 -> flags_of (load_bytes m 0 n) = 0.
Proof.
  intros Hn H2 H3. unfold flags_of.
  rewrite (skipn_load_bytes m 2 n) by lia.
  replace (n - 2)%nat with (2 + (n - 4))%nat by lia.
  rewrite load_bytes_app, firstn_app, load_bytes_length, Nat.sub_diag.
  rewrite firstn_all2 by (rewrite load_bytes_length; lia).
  unfold load_bytes at 1. cbn [seq map firstn app Z.of_nat Pos.of_succ_nat Pos.succ Z.add].
  change (Z.pos (2 + 1)) with 3. rewrite H2, H3. reflexivity.
Qed.

Lemma sets_of_empty (w : worker) : db_len w = 0 -> sets_of w = [].
Proof. intros H. unfold sets_of. rewrite H. reflexivity. Qed.

Lemma carries_idle {A : Type} (a : A) (w : worker) (tr : list effect) :
  sends tr = [] -> carries w (a, w, tr) [].
Proof.
  intros Hs _. unfold after, trace_of. cbn [fst snd]. rewrite Hs, app_nil_r. reflexivity.
Qed.

Lemma dnsflow_pkt_send_data_carries (now : Z) (w : worker) :
  buf_inv w -> hdr_inv w -> carries w (dnsflow_pkt_send_data now w) [].
Proof.
  intros Hinv Hhdr. destruct (Z.eq_dec (db_len w) 0) as [E|E].
  - rewrite dnsflow_pkt_send_data_empty by exact E. apply carries_idle. reflexivity.
  - rewrite dnsflow_pkt_send_data_sends by exact E. cbv zeta. intros _.
    unfold after, trace_of. cbn [fst snd sends flat_map app map concat].
    destruct Hinv as (_ & [H0|(Hlen & _)]); [contradiction|].
    destruct (Hhdr E) as (_ & B2 & B3). consts.
    match goal with
    | |- context [sets_of (mk_worker ?a 0 ?b ?c ?e)] =>
        change (sets_of (mk_worker a 0 b c e)) with (@nil byte)
    end.
    rewrite !app_nil_r. unfold data_body.
    rewrite flags_of_load
      by (try lia; rewrite store_bytes_miss by (cbn [be32 length]; lia); assumption).
    cbn [Z.eqb]. consts. change (Z.to_nat 8) with 8%nat.
    rewrite skipn_load_bytes by lia. unfold sets_of. consts.
    replace (Z.to_nat (db_len w) - 8)%nat with (Z.to_nat (db_len w - 8)) by lia.
    apply load_bytes_store_other. cbn [be32 length]. lia.
Qed.

Lemma dnsflow_push_cb_carries (now sent_at : Z) (w : worker) :
  buf_inv w -> hdr_inv w -> carries w (dnsflow_push_cb now sent_at w) [].
Proof.
  intros Hinv Hhdr. unfold dnsflow_push_cb, bind, get_last_send.
  destruct (now - last_send w >=? 1).
  - pose proof (dnsflow_pkt_send_data_carries sent_at w Hinv Hhdr) as H.
    destruct (dnsflow_pkt_send_data sent_at w) as [[u w1] t1]. exact H.
  - apply carries_idle. reflexivity.
Qed.

Lemma dnsflow_stats_cb_carries (ds : dcap_stat) (rate : Z) (w : worker) :
  carries w (dnsflow_stats_cb ds rate w) [].
Proof.
  intros _. destruct (dnsflow_stats_cb_spec ds rate w) as (Ha & Hs & _).
  rewrite Hs, Ha. cbn [map concat app].
  change (data_body (stats_payload (sequence_number w) ds rate)) with (@nil byte).
  unfold sets_of. cbn [db_len pkt app]. rewrite app_nil_r. reflexivity.
Qed.

Lemma dnsflow_pkt_build_carries (now : Z) (client_ip : in_addr_t) (d : dns_data_set)
    (w : worker) :
  buf_inv w -> hdr_inv w ->
  carries w (dnsflow_pkt_build now client_ip d w)
          (wire_set client_ip (kept_names d) (kept_ips d)).
Proof.
  intros Hinv Hhdr Hg.
  destruct (dnsflow_pkt_build_image now client_ip d w Hinv Hhdr Hg)
    as (_ & [(Hs & Himg & _)|(Hlen & Hs)]).
  - rewrite Hs. cbn [map concat app]. exact Himg.
  - rewrite Hs, (sets_of_empty _ Hlen). cbn [map concat app]. rewrite !app_nil_r.
    unfold data_body, data_hdr. cbn [app].
    change (flags_of (_ :: _ :: be16 0 ++ _)) with 0. cbn [Z.eqb].
    consts. reflexivity.
Qed.

Lemma dnsflow_dns_check_value
    (ldns_wire2pkt : list byte -> Z -> wire2pkt_result)
    (ldns_get_errorstr_by_id : ldns_status -> string)
    (pkt_len : Z) (dns_pkt : list byte) (w w' : worker) :
  value_of (dnsflow_dns_check ldns_wire2pkt ldns_get_errorstr_by_id pkt_len dns_pkt w)
  = value_of (dnsflow_dns_check ldns_wire2pkt ldns_get_errorstr_by_id pkt_len dns_pkt w').
Proof.
  unfold dnsflow_dns_check.
  destruct (ldns_wire2pkt dns_pkt pkt_len) as [lp|status]; [|reflexivity].
  repeat match goal with
         | |- context [if ?b then _ else _] => destruct b; try reflexivity
         end.
  destruct (ldns_rr_list_rr (ldns_pkt_question lp) 0) as [q|]; [|reflexivity].
  destruct (negb (ldns_rr_get_type q =? LDNS_RR_TYPE_A)); reflexivity.
Qed.

Lemma dnsflow_dns_extract_value (lp : ldns_pkt) (w w' : worker) :
  value_of (dnsflow_dns_extract lp w) = value_of (dnsflow_dns_extract lp w').
Proof.
  destruct (ldns_pkt_question lp) as [|q more] eqn:Eq.
  - unfold dnsflow_dns_extract. rewrite Eq. reflexivity.
  - destruct (dnsflow_dns_extract_spec lp q more w Eq) as (_ & _ & H1 & _).
    destruct (dnsflow_dns_extract_spec lp q more w' Eq) as (_ & _ & H2 & _).
    rewrite H1, H2. reflexivity.
Qed.

Lemma dnsflow_dns_extract_kept (lp : ldns_pkt) (w : worker) (d : dns_data_set) :
  value_of (dnsflow_dns_extract lp w) = Some d ->
  kept_names d = names d /\ kept_ips d = ips d.
Proof.
  intros Hv. destruct (ldns_pkt_question lp) as [|q more] eqn:Eq.
  - unfold dnsflow_dns_extract, value_of in Hv. rewrite Eq in Hv. discriminate.
  - destruct (dnsflow_dns_extract_spec lp q more w Eq) as (_ & _ & Hval & _).
    rewrite Hv in Hval.
    destruct (name_fits (ldns_rdf_data (ldns_rr_owner q))); [|discriminate].
    destruct (a_rdata (ldns_pkt_answer lp)) as [|a rest]; [discriminate|].
    assert (Hd : d = mk_dns_data
                       (firstn 255 (ldns_rdf_data (ldns_rr_owner q)
                                    :: filter name_fits (cname_targets (ldns_pkt_answer lp))))
                       (firstn 255 (a :: rest))) by congruence.
    split; [apply kept_names_all|apply kept_ips_all];
      rewrite Hd; cbn [names ips]; rewrite length_firstn; lia.
Qed.

Lemma run_ends_empty
    (ldns_wire2pkt : list byte -> Z -> wire2pkt_result)
    (ldns_get_errorstr_by_id : ldns_status -> string)
    (cfg : config) (evs : list event) (now : Z) :
  forall w,
    db_len (after (run ldns_wire2pkt ldns_get_errorstr_by_id cfg (evs ++ [EndOfFile now]) w))
    = 0.
Proof.
  induction evs as [|ev rest IH]; intros w.
  - cbn [app run handle]. unfold bind.
    destruct (Z.eq_dec (db_len w) 0) as [E|E].
    + rewrite dnsflow_pkt_send_data_empty by exact E. exact E.
    + rewrite dnsflow_pkt_send_data_sends by exact E. reflexivity.
  - cbn [app run]. unfold bind.
    destruct (handle ldns_wire2pkt ldns_get_errorstr_by_id cfg ev w) as [[u w1] t1].
    specialize (IH w1).
    destruct (run ldns_wire2pkt ldns_get_errorstr_by_id cfg (rest ++ [EndOfFile now]) w1)
      as [[u2 w2] t2].
    exact IH.
Qed.

Section Conservation.

Variable ldns_wire2pkt : list byte -> Z -> wire2pkt_result.
Variable ldns_get_errorstr_by_id : ldns_status -> string.
Variable cfg : config.

Lemma dnsflow_dcap_cb_carries (now pkt_len : Z) (ip_pkt : list byte) (w : worker) :
  buf_inv w -> hdr_inv w ->
  carries w
    (dnsflow_dcap_cb ldns_wire2pkt ldns_get_errorstr_by_id cfg now pkt_len ip_pkt w)
    (match accepted_set ldns_wire2pkt ldns_get_errorstr_by_id cfg pkt_len ip_pkt with
     | Some s => wire_of s
     | None => []
     end).
Proof.
  intros Hinv Hhdr. unfold dnsflow_dcap_cb, accepted_set.
  destruct (dcap_cb_dns_call cfg pkt_len ip_pkt) as [c|];
    [|apply carries_idle; reflexivity].
  rewrite (dnsflow_dns_check_value ldns_wire2pkt ldns_get_errorstr_by_id (dns_pkt_len c)
             (skipn (Z.to_nat (dns_pkt c)) ip_pkt) initial_worker w).
  unfold bind.
  pose proof (dnsflow_dns_check_quiet ldns_wire2pkt ldns_get_errorstr_by_id (dns_pkt_len c)
                (skipn (Z.to_nat (dns_pkt c)) ip_pkt) w) as (Ha & (Hs1 & _ & Hg1) & _).
  destruct (dnsflow_dns_check ldns_wire2pkt ldns_get_errorstr_by_id (dns_pkt_len c)
              (skipn (Z.to_nat (dns_pkt c)) ip_pkt) w) as [[olp w1] t1].
  unfold after, trace_of in Ha, Hs1, Hg1. cbn [fst snd] in Ha, Hs1, Hg1. subst w1.
  change (value_of (olp, w, t1)) with olp.
  destruct olp as [lp|].
  2:{ apply carries_idle. rewrite sends_app, Hs1. reflexivity. }
  rewrite (dnsflow_dns_extract_value lp initial_worker w).
  pose proof (dnsflow_dns_extract_kept lp w) as Hkept.
  assert (Hext : after (dnsflow_dns_extract lp w) = w
                 /\ sends (trace_of (dnsflow_dns_extract lp w)) = []
                 /\ overflow_guard_hit (trace_of (dnsflow_dns_extract lp w)) = false).
  { destruct (ldns_pkt_question lp) as [|q more] eqn:Eq.
    - unfold dnsflow_dns_extract. rewrite Eq. repeat split.
    - destruct (dnsflow_dns_extract_spec lp q more w Eq) as (E1 & (E2 & _ & E3) & _).
      repeat split; assumption. }
  destruct (dnsflow_dns_extract lp w) as [[od w2] t2].
  unfold after, trace_of, value_of in Hext, Hkept. cbn [fst snd] in Hext, Hkept.
  change (value_of (od, w2, t2)) with od.
  destruct Hext as (-> & Hs2 & Hg2).
  destruct od as [d|].
  2:{ apply carries_idle. rewrite !sends_app, Hs1, Hs2. reflexivity. }
  destruct (Hkept d eq_refl) as [Kn Ki].
  pose proof (dnsflow_pkt_build_carries now (client_ip_arg c) d w Hinv Hhdr) as Hb.
  destruct (dnsflow_pkt_build now (client_ip_arg c) d w) as [[u w3] t3].
  unfold carries, after, trace_of, wire_of in *. cbn [fst snd] in *.
  rewrite !overflow_guard_hit_app, Hg1, Hg2, !sends_app, Hs1, Hs2. cbn [orb app].
  rewrite <- Kn, <- Ki. exact Hb.
Qed.

Lemma handle_carries (ev : event) (w : worker) :
  buf_inv w -> hdr_inv w ->
  carries w (handle ldns_wire2pkt ldns_get_errorstr_by_id cfg ev w)
          (concat (map wire_of (accepted_sets ldns_wire2pkt ldns_get_errorstr_by_id cfg [ev]))).
Proof.
  intros Hinv Hhdr. unfold accepted_sets.
  destruct ev as [now pkt_len ip_pkt|now sent_at|ds rate|now]; cbn [handle flat_map map concat app].
  - pose proof (dnsflow_dcap_cb_carries now pkt_len ip_pkt w Hinv Hhdr) as H.
    destruct (accepted_set ldns_wire2pkt ldns_get_errorstr_by_id cfg pkt_len ip_pkt);
      cbn [map concat app]; rewrite ?app_nil_r; exact H.
  - apply dnsflow_push_cb_carries; assumption.
  - apply dnsflow_stats_cb_carries.
  - apply dnsflow_pkt_send_data_carries; assumption.
Qed.

Lemma run_carries (evs : list event) :
  forall w, buf_inv w -> hdr_inv w ->
    carries w (run ldns_wire2pkt ldns_get_errorstr_by_id cfg evs w)
            (concat (map wire_of
                         (accepted_sets ldns_wire2pkt ldns_get_errorstr_by_id cfg evs))).
Proof.
  induction evs as [|ev rest IH]; intros w Hinv Hhdr.
  - cbn [run]. apply carries_idle. reflexivity.
  - cbn [run]. unfold bind.
    pose proof (handle_carries ev w Hinv Hhdr) as H1.
    pose proof (handle_emits ldns_wire2pkt ldns_get_errorstr_by_id cfg ev w Hinv Hhdr)
      as (Hinv1 & Hhdr1 & _).
    destruct (handle ldns_wire2pkt ldns_get_errorstr_by_id cfg ev w) as [[u w1] t1].
    unfold after in Hinv1, Hhdr1. cbn [fst snd] in Hinv1, Hhdr1.
    pose proof (IH w1 Hinv1 Hhdr1) as H2.
    destruct (run ldns_wire2pkt ldns_get_errorstr_by_id cfg rest w1) as [[u2 w2] t2].
    unfold carries, after, trace_of in *. cbn [fst snd] in *.
    rewrite overflow_guard_hit_app. intros Hg. apply orb_false_elim in Hg.
    destruct Hg as [Hg1 Hg2]. specialize (H1 Hg1). specialize (H2 Hg2).
    change (ev :: rest) with ([ev] ++ rest). unfold accepted_sets in *.
    rewrite flat_map_app, !map_app, !concat_app, sends_app, map_app, concat_app.
    rewrite <- app_assoc, H2, app_assoc, H1, <- app_assoc. reflexivity.
Qed.

End Conservation.

(** X17.  No set is lost, repeated or moved.  In every run of a worker in
    which the overflow guard does not fire and the stores stay inside the
    block reserved for [data_buf]: the data buffers emitted, taken
    without their headers and one after the other, followed by what is
    still in the buffer, are exactly the data sets of the frames that reach
    the batcher, in the order of capture, each in the layout of the format
    comment with all the names and addresses of the projection.  A run
    that ends with the flush after the capture file leaves nothing in the
    buffer, so every accepted response is then in an emitted buffer. *)
Theorem emitted_sets_are_the_accepted_sets
    (ldns_wire2pkt : list byte -> Z -> wire2pkt_result)
    (ldns_get_errorstr_by_id : ldns_status -> string)
    (cfg : config) (evs : list event) :
  let r := run ldns_wire2pkt ldns_get_errorstr_by_id cfg evs initial_worker in
  overflow_guard_hit (trace_of r) = false ->
  within_reserved (trace_of r) = true ->
  concat (map data_body (sends (trace_of r))) ++ sets_of (after r)
  = concat (map wire_of (accepted_sets ldns_wire2pkt ldns_get_errorstr_by_id cfg evs))
  /\ (forall evs' now, evs = evs' ++ [EndOfFile now] -> sets_of (after r) = []).
Proof.
  intros r Hg _. split.
  - exact (run_carries ldns_wire2pkt ldns_get_errorstr_by_id cfg evs initial_worker
             buf_inv_initial hdr_inv_initial Hg).
  - intros evs' now ->. apply sets_of_empty. apply run_ends_empty.
Qed.

Lemma emitted_sets_are_the_accepted_sets_witness :
  let evs := [Packet 0 73 example_com_frame; StatsTimer idle_stat 0; EndOfFile 1] in
  let r := run parse_example_com no_errorstr no_encap evs initial_worker in
  overflow_guard_hit (trace_of r) = false
  /\ within_reserved (trace_of r) = true
  /\ concat (map data_body (sends (trace_of r))) ++ sets_of (after r)
     = concat (map wire_of (accepted_sets parse_example_com no_errorstr no_encap evs))
  /\ (forall evs' now, evs = evs' ++ [EndOfFile now] -> sets_of (after r) = []).
Proof.
  cbv zeta. split; [reflexivity|]. split; [reflexivity|].
  exact (emitted_sets_are_the_accepted_sets parse_example_com no_errorstr no_encap
           [Packet 0 73 example_com_frame; StatsTimer idle_stat 0; EndOfFile 1]
           eq_refl eq_refl).
Defined.

(** ** Time of day *)

Lemma u32_to_int (z : Z) : u32 (to_int (u32 z)) = z mod 4294967296.
Proof.
  unfold to_int, u32. destruct (Z.ltb_spec (z mod 4294967296) 2147483648);
    Z.to_euclidean_division_equations; lia.
Qed.

Lemma time_of_day_fields (sec : Z) :
  -86400 < sec < 86400 ->
  let h := Z.quot sec 3600 in
  let m := Z.quot (Z.rem sec 3600) 60 in
  let s := Z.rem sec 60 in
  h * 3600 + m * 60 + s = sec
  /\ -24 < h < 24 /\ -60 < m < 60 /\ -60 < s < 60
  /\ (0 <= sec -> 0 <= h /\ 0 <= m /\ 0 <= s)
  /\ (sec <= 0 -> h <= 0 /\ m <= 0 /\ s <= 0).
Proof.
  intros Hb. cbv zeta. Z.to_euclidean_division_equations. lia.
Qed.

Lemma rem_day (t : Z) :
  -86400 < Z.rem t 86400 < 86400
  /\ (0 <= t -> 0 <= Z.rem t 86400 /\ Z.rem t 86400 = t mod 86400)
  /\ (t < 0 -> Z.rem t 86400 <= 0).
Proof. Z.to_euclidean_division_equations. lia. Qed.

(** X18.  The fields [ts_format] prints.  Hours, minutes and seconds
    always add up to the seconds since midnight UTC as C computes them
    ([tv_sec % 86400], truncated toward zero) and are below 24, 60 and 60 in
    absolute value.  For a time at or after the epoch they are the time of
    day: not negative, and adding up to [tv_sec] modulo 86400.  For a time
    before the epoch none of them is positive, so the text is not a time of
    day.  The last field is [tv_usec] modulo 2^32, hence [tv_usec] itself
    when that is a number of microseconds. *)
Theorem ts_format_fields (ts : timeval) :
  exists h m s u,
    ts_format ts = ("%02d:%02d:%02d.%06u"%string, [h; m; s; u])
    /\ h * 3600 + m * 60 + s = Z.rem (tv_sec ts) 86400
    /\ -24 < h < 24 /\ -60 < m < 60 /\ -60 < s < 60
    /\ u = tv_usec ts mod 4294967296
    /\ (0 <= tv_sec ts ->
        0 <= h /\ 0 <= m /\ 0 <= s /\ h * 3600 + m * 60 + s = tv_sec ts mod 86400)
    /\ (tv_sec ts < 0 -> h <= 0 /\ m <= 0 /\ s <= 0)
    /\ (0 <= tv_usec ts < 1000000 -> u = tv_usec ts).
Proof.
  unfold ts_format. cbv zeta.
  destruct (rem_day (tv_sec ts)) as (Hb & Hpos & Hneg).
  destruct (time_of_day_fields (Z.rem (tv_sec ts) 86400) Hb)
    as (Hsum & Hh & Hm & Hs & Hp & Hn).
  exists (Z.quot (Z.rem (tv_sec ts) 86400) 3600),
         (Z.quot (Z.rem (Z.rem (tv_sec ts) 86400) 3600) 60),
         (Z.rem (Z.rem (tv_sec ts) 86400) 60),
         (u32 (to_int (u32 (tv_usec ts)))).
  split; [reflexivity|]. split; [exact Hsum|].
  split; [exact Hh|]. split; [exact Hm|]. split; [exact Hs|].
  split; [apply u32_to_int|]. split; [|split].
  - intros H0. destruct (Hpos H0) as [H1 H2]. destruct (Hp H1) as (A & B & C).
    repeat split; try assumption. rewrite Hsum. exact H2.
  - intros H0. apply Hn. apply Hneg. exact H0.
  - intros Hu. rewrite u32_to_int. apply Z.mod_small. lia.
Qed.

(** A quarter past one in the afternoon, and one second before the epoch. *)
Example ts_format_examples :
  ts_format (mk_timeval 1700054100 250000)
  = ("%02d:%02d:%02d.%06u"%string, [13; 15; 0; 250000])
  /\ ts_format (mk_timeval (-1) 0) = ("%02d:%02d:%02d.%06u"%string, [0; 0; -1; 0]).
Proof. split; reflexivity. Qed.

(** ** Every data buffer is a run of accepted sets *)

Lemma data_payloads_app (t1 t2 : list effect) :
  data_payloads (t1 ++ t2) = data_payloads t1 ++ data_payloads t2.
Proof. unfold data_payloads. rewrite sends_app, filter_app. reflexivity. Qed.

Lemma data_payloads_no_sends (tr : list effect) : sends tr = [] -> data_payloads tr = [].
Proof. unfold data_payloads. intros ->. reflexivity. Qed.

Lemma holds_initial : holds initial_worker [].
Proof. split; reflexivity. Qed.

Lemma chunked_idle {A : Type} (a : A) (w : worker) (tr : list effect)
    (pending : list (in_addr_t * dns_data_set)) :
  holds w pending -> sends tr = [] -> chunked w pending (a, w, tr) [].
Proof.
  intros Hh Hs _. exists [], pending. unfold after, trace_of. cbn [fst snd].
  rewrite (data_payloads_no_sends tr Hs), app_nil_r.
  split; [reflexivity|]. split; [constructor|exact Hh].
Qed.

(** The buffer a flush sends: the header with the count of sets, then the
    sets. *)
Lemma flushed_payload (w : worker) :
  buf_inv w -> hdr_inv w -> db_len w <> 0 ->
  load_bytes (store_bytes (pkt w) 4 (be32 (sequence_number w))) 0 (Z.to_nat (db_len w))
  = data_hdr (sets_count w) (sequence_number w) ++ sets_of w.
Proof.
  intros Hinv Hhdr E.
  destruct Hinv as (_ & [H0|(Hlen & _)]); [contradiction|].
  destruct (Hhdr E) as (B0 & B2 & B3). consts.
  replace (Z.to_nat (db_len w)) with (4 + (4 + Z.to_nat (db_len w - 8)))%nat by lia.
  rewrite !load_bytes_app.
  change (0 + Z.of_nat 4) with 4. change (4 + Z.of_nat 4) with 8.
  change 4%nat with (length (be32 (sequence_number w))) at 2.
  rewrite load_bytes_store_same.
  rewrite (load_bytes_store_other _ 4 _ 8) by (cbn [be32 length]; lia).
  unfold load_bytes at 1. cbn [seq map Z.of_nat Pos.of_succ_nat Pos.succ Z.add].
  change (Z.pos (2 + 1)) with 3.
  rewrite !store_bytes_miss by (cbn [be32 length]; lia).
  rewrite B0, B2, B3, <- (load8_byte (pkt w) 1).
  unfold data_hdr, sets_of, sets_count. consts. reflexivity.
Qed.

Lemma flags_of_data_hdr (n s : Z) (rest : list byte) : flags_of (data_hdr n s ++ rest) = 0.
Proof. reflexivity. Qed.

Lemma dnsflow_pkt_send_data_chunked (now : Z) (w : worker)
    (pending : list (in_addr_t * dns_data_set)) :
  buf_inv w -> hdr_inv w -> holds w pending ->
  chunked w pending (dnsflow_pkt_send_data now w) [].
Proof.
  intros Hinv Hhdr Hh. destruct (Z.eq_dec (db_len w) 0) as [E|E].
  - rewrite dnsflow_pkt_send_data_empty by exact E. apply chunked_idle; [exact Hh|reflexivity].
  - rewrite dnsflow_pkt_send_data_sends by exact E. cbv zeta. intros _.
    rewrite (flushed_payload w Hinv Hhdr E).
    destruct Hh as [Hsets Hcount]. rewrite (proj2 (Z.eqb_neq _ _) E) in Hcount.
    pose proof Hinv as (_ & [H0|(_ & _ & Hc)]); [contradiction|]. consts.
    exists [pending], []. unfold after, trace_of, data_payloads.
    cbn [fst snd sends flat_map app filter concat].
    rewrite flags_of_data_hdr. cbn [Z.eqb]. rewrite !app_nil_r.
    split; [reflexivity|]. split; [|split; reflexivity].
    constructor; [|constructor]. split; [lia|].
    exists (sequence_number w). rewrite Hcount, Hsets. reflexivity.
Qed.

Lemma dnsflow_push_cb_chunked (now sent_at : Z) (w : worker)
    (pending : list (in_addr_t * dns_data_set)) :
  buf_inv w -> hdr_inv w -> holds w pending ->
  chunked w pending (dnsflow_push_cb now sent_at w) [].
Proof.
  intros Hinv Hhdr Hh. unfold dnsflow_push_cb, bind, get_last_send.
  destruct (now - last_send w >=? 1).
  - pose proof (dnsflow_pkt_send_data_chunked sent_at w pending Hinv Hhdr Hh) as H.
    destruct (dnsflow_pkt_send_data sent_at w) as [[u w1] t1]. exact H.
  - apply chunked_idle; [exact Hh|reflexivity].
Qed.

Lemma dnsflow_stats_cb_chunked (ds : dcap_stat) (rate : Z) (w : worker)
    (pending : list (in_addr_t * dns_data_set)) :
  holds w pending -> chunked w pending (dnsflow_stats_cb ds rate w) [].
Proof.
  intros Hh _. destruct (dnsflow_stats_cb_spec ds rate w) as (Ha & Hs & _).
  exists [], pending. unfold data_payloads. rewrite Hs, Ha, app_nil_r.
  split; [reflexivity|]. split; [constructor|].
  unfold holds, sets_of, sets_count in *. cbn [db_len pkt]. exact Hh.
Qed.

Lemma dnsflow_pkt_build_chunked (now : Z) (client_ip : in_addr_t) (d : dns_data_set)
    (w : worker) (pending : list (in_addr_t * dns_data_set)) :
  buf_inv w -> hdr_inv w -> holds w pending ->
  chunked w pending (dnsflow_pkt_build now client_ip d w)
          [(client_ip, mk_dns_data (kept_names d) (kept_ips d))].
Proof.
  intros Hinv Hhdr [Hsets Hcount] Hg.
  pose proof (next_sets_count_range w Hinv) as Hr.
  assert (Hnext : next_sets_count w = Z.of_nat (length (pending ++ [(client_ip, d)]))).
  { unfold next_sets_count in *. rewrite length_app. cbn [length].
    destruct Hinv as (_ & [H0|(_ & _ & Hc)]).
    - rewrite H0 in *. cbn [Z.eqb] in *. subst pending. reflexivity.
    - destruct (Z.eqb_spec (db_len w) 0) as [E|E].
      + subst pending. reflexivity.
      + consts. rewrite u8_small by lia. lia. }
  assert (Hlen : length (pending ++ [(client_ip, mk_dns_data (kept_names d) (kept_ips d))])
                 = length (pending ++ [(client_ip, d)]))
    by (rewrite !length_app; reflexivity).
  assert (Hwire : concat (map wire_of
                     (pending ++ [(client_ip, mk_dns_data (kept_names d) (kept_ips d))]))
                  = sets_of w ++ wire_set client_ip (kept_names d) (kept_ips d)).
  { rewrite map_app, concat_app, <- Hsets. cbn [map concat]. rewrite app_nil_r.
    reflexivity. }
  destruct (dnsflow_pkt_build_image now client_ip d w Hinv Hhdr Hg)
    as (_ & [(Hs & Himg & Hc)|(Hl0 & Hs)]).
  - exists [], (pending ++ [(client_ip, mk_dns_data (kept_names d) (kept_ips d))]).
    rewrite (data_payloads_no_sends _ Hs).
    split; [reflexivity|]. split; [constructor|]. split.
    + rewrite Himg, Hwire. reflexivity.
    + destruct (Z.eqb_spec (db_len (after (dnsflow_pkt_build now client_ip d w))) 0)
        as [E|E].
      * exfalso. pose proof (sets_of_empty _ E) as He. rewrite Himg in He.
        apply app_eq_nil in He. destruct He as [_ He]. discriminate.
      * rewrite Hc, Hnext, Hlen. reflexivity.
  - exists [pending ++ [(client_ip, mk_dns_data (kept_names d) (kept_ips d))]], [].
    unfold data_payloads. rewrite Hs. cbn [filter concat].
    rewrite flags_of_data_hdr. cbn [Z.eqb]. rewrite !app_nil_r.
    split; [reflexivity|]. split.
    + constructor; [|constructor]. split; [rewrite Hlen; consts; lia|].
      exists (sequence_number w). rewrite Hlen, <- Hnext, Hwire. reflexivity.
    + split; [apply sets_of_empty; exact Hl0|]. rewrite Hl0. reflexivity.
Qed.

Section Chunks.

Variable ldns_wire2pkt : list byte -> Z -> wire2pkt_result.
Variable ldns_get_errorstr_by_id : ldns_status -> string.
Variable cfg : config.

Lemma dnsflow_dcap_cb_chunked (now pkt_len : Z) (ip_pkt : list byte) (w : worker)
    (pending : list (in_addr_t * dns_data_set)) :
  buf_inv w -> hdr_inv w -> holds w pending ->
  chunked w pending
    (dnsflow_dcap_cb ldns_wire2pkt ldns_get_errorstr_by_id cfg now pkt_len ip_pkt w)
    (match accepted_set ldns_wire2pkt ldns_get_errorstr_by_id cfg pkt_len ip_pkt with
     | Some s => [s]
     | None => []
     end).
Proof.
  intros Hinv Hhdr Hh. unfold dnsflow_dcap_cb, accepted_set.
  destruct (dcap_cb_dns_call cfg pkt_len ip_pkt) as [c|];
    [|apply chunked_idle; [exact Hh|reflexivity]].
  rewrite (dnsflow_dns_check_value ldns_wire2pkt ldns_get_errorstr_by_id (dns_pkt_len c)
             (skipn (Z.to_nat (dns_pkt c)) ip_pkt) initial_worker w).
  unfold bind.
  pose proof (dnsflow_dns_check_quiet ldns_wire2pkt ldns_get_errorstr_by_id (dns_pkt_len c)
                (skipn (Z.to_nat (dns_pkt c)) ip_pkt) w) as (Ha & (Hs1 & _ & Hg1) & _).
  destruct (dnsflow_dns_check ldns_wire2pkt ldns_get_errorstr_by_id (dns_pkt_len c)
              (skipn (Z.to_nat (dns_pkt c)) ip_pkt) w) as [[olp w1] t1].
  unfold after, trace_of in Ha, Hs1, Hg1. cbn [fst snd] in Ha, Hs1, Hg1. subst w1.
  change (value_of (olp, w, t1)) with olp.
  destruct olp as [lp|].
  2:{ apply chunked_idle; [exact Hh|]. rewrite sends_app, Hs1. reflexivity. }
  rewrite (dnsflow_dns_extract_value lp initial_worker w).
  pose proof (dnsflow_dns_extract_kept lp w) as Hkept.
  assert (Hext : after (dnsflow_dns_extract lp w) = w
                 /\ sends (trace_of (dnsflow_dns_extract lp w)) = []
                 /\ overflow_guard_hit (trace_of (dnsflow_dns_extract lp w)) = false).
  { destruct (ldns_pkt_question lp) as [|q more] eqn:Eq.
    - unfold dnsflow_dns_extract. rewrite Eq. repeat split.
    - destruct (dnsflow_dns_extract_spec lp q more w Eq) as (E1 & (E2 & _ & E3) & _).
      repeat split; assumption. }
  destruct (dnsflow_dns_extract lp w) as [[od w2] t2].
  unfold after, trace_of, value_of in Hext, Hkept. cbn [fst snd] in Hext, Hkept.
  change (value_of (od, w2, t2)) with od.
  destruct Hext as (-> & Hs2 & Hg2).
  destruct od as [d|].
  2:{ apply chunked_idle; [exact Hh|]. rewrite !sends_app, Hs1, Hs2. reflexivity. }
  destruct (Hkept d eq_refl) as [Kn Ki].
  pose proof (dnsflow_pkt_build_chunked now (client_ip_arg c) d w pending Hinv Hhdr Hh) as Hb.
  rewrite Kn, Ki in Hb. destruct d as [ns addrs]. cbn [names ips] in Hb.
  destruct (dnsflow_pkt_build now (client_ip_arg c) (mk_dns_data ns addrs) w) as [[u w3] t3].
  unfold chunked, after, trace_of in *. cbn [fst snd] in *.
  rewrite !overflow_guard_hit_app, Hg1, Hg2, !data_payloads_app.
  rewrite (data_payloads_no_sends t1 Hs1), (data_payloads_no_sends t2 Hs2).
  cbn [orb app]. exact Hb.
Qed.

Lemma handle_chunked (ev : event) (w : worker) (pending : list (in_addr_t * dns_data_set)) :
  buf_inv w -> hdr_inv w -> holds w pending ->
  chunked w pending (handle ldns_wire2pkt ldns_get_errorstr_by_id cfg ev w)
          (accepted_sets ldns_wire2pkt ldns_get_errorstr_by_id cfg [ev]).
Proof.
  intros Hinv Hhdr Hh. unfold accepted_sets.
  destruct ev as [now pkt_len ip_pkt|now sent_at|ds rate|now]; cbn [handle flat_map app].
  - rewrite app_nil_r. apply dnsflow_dcap_cb_chunked; assumption.
  - apply dnsflow_push_cb_chunked; assumption.
  - apply dnsflow_stats_cb_chunked; assumption.
  - apply dnsflow_pkt_send_data_chunked; assumption.
Qed.

Lemma run_chunked (evs : list event) :
  forall w pending, buf_inv w -> hdr_inv w -> holds w pending ->
    chunked w pending (run ldns_wire2pkt ldns_get_errorstr_by_id cfg evs w)
            (accepted_sets ldns_wire2pkt ldns_get_errorstr_by_id cfg evs).
Proof.
  induction evs as [|ev rest IH]; intros w pending Hinv Hhdr Hh.
  - cbn [run]. apply chunked_idle; [exact Hh|reflexivity].
  - cbn [run]. unfold bind.
    pose proof (handle_chunked ev w pending Hinv Hhdr Hh) as H1.
    pose proof (handle_emits ldns_wire2pkt ldns_get_errorstr_by_id cfg ev w Hinv Hhdr)
      as (Hinv1 & Hhdr1 & _).
    destruct (handle ldns_wire2pkt ldns_get_errorstr_by_id cfg ev w) as [[u w1] t1].
    unfold after in Hinv1, Hhdr1. cbn [fst snd] in Hinv1, Hhdr1.
    unfold chunked, after, trace_of in H1 |- *. cbn [fst snd] in H1 |- *.
    intros Hg.
    assert (Hg' : overflow_guard_hit t1 = false
                  /\ overflow_guard_hit
                       (trace_of (run ldns_wire2pkt ldns_get_errorstr_by_id cfg rest w1))
                     = false).
    { destruct (run ldns_wire2pkt ldns_get_errorstr_by_id cfg rest w1) as [[u2 w2] t2].
      cbn [fst snd] in Hg. rewrite overflow_guard_hit_app in Hg.
      apply orb_false_elim in Hg. exact Hg. }
    destruct Hg' as [Hg1 Hg2].
    destruct (H1 Hg1) as (chunks1 & pending1 & Hsplit1 & Hch1 & Hh1).
    destruct (IH w1 pending1 Hinv1 Hhdr1 Hh1 Hg2) as (chunks2 & pending2 & Hsplit2 & Hch2 & Hh2).
    destruct (run ldns_wire2pkt ldns_get_errorstr_by_id cfg rest w1) as [[u2 w2] t2].
    unfold after, trace_of in *. cbn [fst snd] in *.
    exists (chunks1 ++ chunks2), pending2.
    split; [|split; [|exact Hh2]].
    + change (ev :: rest) with ([ev] ++ rest). unfold accepted_sets in *.
      rewrite flat_map_app, concat_app, app_assoc, Hsplit1, <- !app_assoc, Hsplit2.
      reflexivity.
    + rewrite data_payloads_app. apply Forall2_app; assumption.
Qed.

End Chunks.

(** X19.  Every data buffer is a whole number of sets, and its header
    counts them.  In every run of a worker in which the overflow guard does
    not fire and the stores stay inside the block reserved for [data_buf],
    the accepted sets of the run split, in the order of capture,
    into consecutive groups and a rest: the data buffers emitted are, one
    for one and in order, the groups, each buffer being the header with
    version 2, [sets_count] the size of its group (between 1 and 255),
    flags 0 and a sequence number, followed by the sets of the group; the
    rest is what the buffer under construction holds, and it is empty
    after the flush that ends a capture file. *)
Theorem data_buffers_are_groups_of_sets
    (ldns_wire2pkt : list byte -> Z -> wire2pkt_result)
    (ldns_get_errorstr_by_id : ldns_status -> string)
    (cfg : config) (evs : list event) :
  let r := run ldns_wire2pkt ldns_get_errorstr_by_id cfg evs initial_worker in
  overflow_guard_hit (trace_of r) = false ->
  within_reserved (trace_of r) = true ->
  exists groups rest,
    accepted_sets ldns_wire2pkt ldns_get_errorstr_by_id cfg evs = concat groups ++ rest
    /\ Forall2 is_chunk (data_payloads (trace_of r)) groups
    /\ sets_of (after r) = concat (map wire_of rest)
    /\ (forall evs' now, evs = evs' ++ [EndOfFile now] -> rest = []).
Proof.
  intros r Hg _.
  destruct (run_chunked ldns_wire2pkt ldns_get_errorstr_by_id cfg evs initial_worker []
              buf_inv_initial hdr_inv_initial holds_initial Hg)
    as (groups & rest & Hsplit & Hch & Hsets & Hcount).
  exists groups, rest. split; [exact Hsplit|]. split; [exact Hch|]. split; [exact Hsets|].
  intros evs' now ->. fold r in Hcount.
  unfold r in Hcount. rewrite run_ends_empty in Hcount. exact Hcount.
Qed.

Lemma data_buffers_are_groups_of_sets_witness :
  let evs := [Packet 0 73 example_com_frame; StatsTimer idle_stat 0; EndOfFile 1] in
  let r := run parse_example_com no_errorstr no_encap evs initial_worker in
  overflow_guard_hit (trace_of r) = false
  /\ within_reserved (trace_of r) = true
  /\ exists groups rest,
       accepted_sets parse_example_com no_errorstr no_encap evs = concat groups ++ rest
       /\ Forall2 is_chunk (data_payloads (trace_of r)) groups
       /\ sets_of (after r) = concat (map wire_of rest)
       /\ (forall evs' now, evs = evs' ++ [EndOfFile now] -> rest = []).
Proof.
  cbv zeta. split; [reflexivity|]. split; [reflexivity|].
  exact (data_buffers_are_groups_of_sets parse_example_com no_errorstr no_encap
           [Packet 0 73 example_com_frame; StatsTimer idle_stat 0; EndOfFile 1]
           eq_refl eq_refl).
Defined.
